(** * ESP WiFi Manager: a shallow embedding of the configuration state
      machine, its persistence adapter and its scan-snapshot pipeline.

    The C sources embedded here are [wifi_manager.c] (the state machine
    [handle_wifi], the NVS adapter [save_config] / [get_saved_config], the
    scan helpers and the public [esp_wmngr_*] operations), [kref.h] (the
    reference counter) and [kutils.h] ([time_after]).

    The collaborators the component only consumes (radio driver, TCP/IP
    adapter, NVS, FreeRTOS timer, mutex, allocator and tick counter) are
    represented by an [environment]: a deterministic oracle that answers
    every call from the history of calls made so far.  Each call is appended
    to the [log] of the [world], so that the order of the side effects of a
    function can be read off the log. *)

From Stdlib Require Import ZArith List Bool String Lia.
From stdpp Require Import base option gmap strings list.

Local Open Scope string_scope.
Local Open Scope Z_scope.

(** ** Error codes (esp_err.h, nvs.h) *)

Inductive esp_err_t :=
| ESP_OK
| ESP_FAIL
| ESP_ERR_NO_MEM
| ESP_ERR_INVALID_ARG
| ESP_ERR_INVALID_STATE
| ESP_ERR_NOT_FOUND
| ESP_ERR_TIMEOUT
| ESP_ERR_NVS_NOT_FOUND
| ESP_ERR_NVS_INVALID_LENGTH.

#[global] Instance esp_err_eq_dec : EqDecision esp_err_t.
Proof. solve_decision. Defined.

(** [result == ESP_OK] *)
Definition is_ok (r : esp_err_t) : bool :=
  match r with ESP_OK => true | _ => false end.

(** ** Data model (wifi_manager.h, esp_wifi_types.h, tcpip_adapter.h) *)

(** [wifi_mode_t] *)
Inductive wifi_mode_t :=
| WIFI_MODE_NULL
| WIFI_MODE_STA
| WIFI_MODE_AP
| WIFI_MODE_APSTA
| WIFI_MODE_MAX.

#[global] Instance wifi_mode_eq_dec : EqDecision wifi_mode_t.
Proof. solve_decision. Defined.

(** The integer value of a mode, as passed to [nvs_set_u32]. *)
Definition mode_to_u32 (m : wifi_mode_t) : Z :=
  match m with
  | WIFI_MODE_NULL => 0
  | WIFI_MODE_STA => 1
  | WIFI_MODE_AP => 2
  | WIFI_MODE_APSTA => 3
  | WIFI_MODE_MAX => 4
  end.

(** The cast [(wifi_mode_t) tmp] of [get_saved_config].  An integer that is
    no enumerator is kept by C as it is; this model has no name for it and
    maps it to [WIFI_MODE_MAX], which the code treats alike (it is neither
    AP, STA nor APSTA). *)
Definition mode_of_u32 (v : Z) : wifi_mode_t :=
  if v =? 0 then WIFI_MODE_NULL
  else if v =? 1 then WIFI_MODE_STA
  else if v =? 2 then WIFI_MODE_AP
  else if v =? 3 then WIFI_MODE_APSTA
  else WIFI_MODE_MAX.

(** The cast [(bool) tmp]. *)
Definition bool_of_u32 (v : Z) : bool := negb (v =? 0).

(** The [.ap] member of the [wifi_config_t] union. *)
Record wifi_ap_config_t := {
  ap_ssid : string;
  ap_password : string;
  ssid_len : Z;
  ap_channel : Z;
  ap_authmode : Z;
  max_connection : Z
}.

(** The [.sta] member of the [wifi_config_t] union. *)
Record wifi_sta_config_t := {
  sta_ssid : string;
  sta_password : string;
  bssid_set : bool
}.

Record tcpip_adapter_ip_info_t := {
  ip : Z;
  netmask : Z;
  gw : Z
}.

(** [tcpip_adapter_dns_info_t]; the address is [0] for "any". *)
Record tcpip_adapter_dns_info_t := {
  dns_ip : Z
}.

#[global] Instance wifi_ap_config_eq_dec : EqDecision wifi_ap_config_t.
Proof. solve_decision. Defined.
#[global] Instance wifi_sta_config_eq_dec : EqDecision wifi_sta_config_t.
Proof. solve_decision. Defined.
#[global] Instance ip_info_eq_dec : EqDecision tcpip_adapter_ip_info_t.
Proof. solve_decision. Defined.
#[global] Instance dns_info_eq_dec : EqDecision tcpip_adapter_dns_info_t.
Proof. solve_decision. Defined.

Definition TCPIP_ADAPTER_DNS_MAX : nat := 3.

(** [struct wifi_cfg] *)
Record wifi_cfg := {
  is_default : bool;
  mode : wifi_mode_t;
  ap : wifi_ap_config_t;
  ap_ip_info : tcpip_adapter_ip_info_t;
  sta : wifi_sta_config_t;
  sta_static : bool;
  sta_ip_info : tcpip_adapter_ip_info_t;
  sta_dns_info : list tcpip_adapter_dns_info_t;
  sta_connect : bool
}.

#[global] Instance wifi_cfg_eq_dec : EqDecision wifi_cfg.
Proof. solve_decision. Defined.

(** What [memset(p, 0x0, sizeof(...))] leaves in each type. *)
Definition zero_ap : wifi_ap_config_t :=
  {| ap_ssid := ""; ap_password := ""; ssid_len := 0; ap_channel := 0;
     ap_authmode := 0; max_connection := 0 |}.
Definition zero_sta : wifi_sta_config_t :=
  {| sta_ssid := ""; sta_password := ""; bssid_set := false |}.
Definition zero_ip_info : tcpip_adapter_ip_info_t :=
  {| ip := 0; netmask := 0; gw := 0 |}.
Definition zero_dns : tcpip_adapter_dns_info_t := {| dns_ip := 0 |}.
Definition zero_cfg : wifi_cfg :=
  {| is_default := false; mode := WIFI_MODE_NULL; ap := zero_ap;
     ap_ip_info := zero_ip_info; sta := zero_sta; sta_static := false;
     sta_ip_info := zero_ip_info;
     sta_dns_info := repeat zero_dns TCPIP_ADAPTER_DNS_MAX;
     sta_connect := false |}.

(** Field updates of [struct wifi_cfg]. *)
Definition set_is_default (b : bool) (c : wifi_cfg) : wifi_cfg :=
  {| is_default := b; mode := mode c; ap := ap c; ap_ip_info := ap_ip_info c;
     sta := sta c; sta_static := sta_static c; sta_ip_info := sta_ip_info c;
     sta_dns_info := sta_dns_info c; sta_connect := sta_connect c |}.
Definition set_mode (m : wifi_mode_t) (c : wifi_cfg) : wifi_cfg :=
  {| is_default := is_default c; mode := m; ap := ap c;
     ap_ip_info := ap_ip_info c; sta := sta c; sta_static := sta_static c;
     sta_ip_info := sta_ip_info c; sta_dns_info := sta_dns_info c;
     sta_connect := sta_connect c |}.
Definition set_ap (a : wifi_ap_config_t) (c : wifi_cfg) : wifi_cfg :=
  {| is_default := is_default c; mode := mode c; ap := a;
     ap_ip_info := ap_ip_info c; sta := sta c; sta_static := sta_static c;
     sta_ip_info := sta_ip_info c; sta_dns_info := sta_dns_info c;
     sta_connect := sta_connect c |}.
Definition set_ap_ip_info (i : tcpip_adapter_ip_info_t) (c : wifi_cfg) : wifi_cfg :=
  {| is_default := is_default c; mode := mode c; ap := ap c;
     ap_ip_info := i; sta := sta c; sta_static := sta_static c;
     sta_ip_info := sta_ip_info c; sta_dns_info := sta_dns_info c;
     sta_connect := sta_connect c |}.
Definition set_sta (s : wifi_sta_config_t) (c : wifi_cfg) : wifi_cfg :=
  {| is_default := is_default c; mode := mode c; ap := ap c;
     ap_ip_info := ap_ip_info c; sta := s; sta_static := sta_static c;
     sta_ip_info := sta_ip_info c; sta_dns_info := sta_dns_info c;
     sta_connect := sta_connect c |}.
Definition set_sta_static (b : bool) (c : wifi_cfg) : wifi_cfg :=
  {| is_default := is_default c; mode := mode c; ap := ap c;
     ap_ip_info := ap_ip_info c; sta := sta c; sta_static := b;
     sta_ip_info := sta_ip_info c; sta_dns_info := sta_dns_info c;
     sta_connect := sta_connect c |}.
Definition set_sta_ip_info (i : tcpip_adapter_ip_info_t) (c : wifi_cfg) : wifi_cfg :=
  {| is_default := is_default c; mode := mode c; ap := ap c;
     ap_ip_info := ap_ip_info c; sta := sta c; sta_static := sta_static c;
     sta_ip_info := i; sta_dns_info := sta_dns_info c;
     sta_connect := sta_connect c |}.
Definition set_sta_dns_info (d : list tcpip_adapter_dns_info_t) (c : wifi_cfg) : wifi_cfg :=
  {| is_default := is_default c; mode := mode c; ap := ap c;
     ap_ip_info := ap_ip_info c; sta := sta c; sta_static := sta_static c;
     sta_ip_info := sta_ip_info c; sta_dns_info := d;
     sta_connect := sta_connect c |}.
Definition set_sta_connect (b : bool) (c : wifi_cfg) : wifi_cfg :=
  {| is_default := is_default c; mode := mode c; ap := ap c;
     ap_ip_info := ap_ip_info c; sta := sta c; sta_static := sta_static c;
     sta_ip_info := sta_ip_info c; sta_dns_info := sta_dns_info c;
     sta_connect := b |}.

(** [cfg->ap.ap.max_connection = n] *)
Definition set_max_connection (n : Z) (a : wifi_ap_config_t) : wifi_ap_config_t :=
  {| ap_ssid := ap_ssid a; ap_password := ap_password a; ssid_len := ssid_len a;
     ap_channel := ap_channel a; ap_authmode := ap_authmode a;
     max_connection := n |}.

(** [enum wmngr_state], in declaration order. *)
Inductive wmngr_state :=
| wmngr_state_failed
| wmngr_state_connected
| wmngr_state_idle
| wmngr_state_update
| wmngr_state_wps_start
| wmngr_state_wps_active
| wmngr_state_connecting
| wmngr_state_disconnecting
| wmngr_state_fallback
| wmngr_state_max.

#[global] Instance wmngr_state_eq_dec : EqDecision wmngr_state.
Proof. solve_decision. Defined.

(** The integer value of an enumerator; [<=] and [>] on states compare it. *)
Definition state_rank (s : wmngr_state) : Z :=
  match s with
  | wmngr_state_failed => 0
  | wmngr_state_connected => 1
  | wmngr_state_idle => 2
  | wmngr_state_update => 3
  | wmngr_state_wps_start => 4
  | wmngr_state_wps_active => 5
  | wmngr_state_connecting => 6
  | wmngr_state_disconnecting => 7
  | wmngr_state_fallback => 8
  | wmngr_state_max => 9
  end.

(** [state > wmngr_state_idle] *)
Definition state_gt_idle (s : wmngr_state) : bool :=
  state_rank wmngr_state_idle <? state_rank s.

(** [state <= wmngr_state_idle] *)
Definition state_le_idle (s : wmngr_state) : bool :=
  state_rank s <=? state_rank wmngr_state_idle.

(** ** Scan data (wifi_manager.h, wifi_manager.c, kref.h) *)

Record wifi_ap_record_t := {
  rec_ssid : string;
  rec_rssi : Z
}.

(** [struct scan_data]; [ap_records] is a pointer, [None] is [NULL]. *)
Record scan_data := {
  tstamp : Z;
  ap_records : option (list wifi_ap_record_t);
  num_records : Z
}.

(** [struct kref] *)
Record kref := { count : Z }.

(** [struct scan_data_ref] *)
Record scan_data_ref := {
  ref_cnt : kref;
  status : Z;
  data : scan_data
}.

(** [struct wifi_cfg_state] (the mutex is part of the environment). *)
Record wifi_cfg_state := {
  cfg_timestamp : Z;
  state : wmngr_state;
  saved : wifi_cfg;
  current : wifi_cfg;
  new : wifi_cfg;
  scan_timestamp : Z;
  scan_ref : option nat
}.

(** ** Calls into the environment *)

(** The events delivered to [event_handler]: base and id; for a completed
    scan, whether its status is [ESP_OK]. *)
Inductive esp_event :=
| WIFI_EVENT_SCAN_DONE (status_ok : bool)
| WIFI_EVENT_STA_START
| WIFI_EVENT_STA_STOP
| WIFI_EVENT_STA_CONNECTED
| WIFI_EVENT_STA_DISCONNECTED
| WIFI_EVENT_AP_START
| WIFI_EVENT_AP_STOP
| WIFI_EVENT_STA_WPS_ER_SUCCESS
| WIFI_EVENT_STA_WPS_ER_FAILED
| WIFI_EVENT_STA_WPS_ER_TIMEOUT
| WIFI_EVENT_STA_WPS_ER_PIN
| WIFI_EVENT_other
| IP_EVENT_STA_GOT_IP
| IP_EVENT_STA_LOST_IP
| IP_EVENT_other
| OTHER_BASE_event.

Inductive wifi_interface_t := WIFI_IF_STA | WIFI_IF_AP.

Inductive nvs_open_mode := NVS_READONLY | NVS_READWRITE.

Inductive tcpip_adapter_dhcp_status_t :=
| TCPIP_ADAPTER_DHCP_INIT
| TCPIP_ADAPTER_DHCP_STARTED
| TCPIP_ADAPTER_DHCP_STOPPED.

(** The object a blob was written from.  NVS stores the object image; the
    model keeps the object and accounts for its size with [blob_size]. *)
Inductive nvs_blob :=
| blob_ap (c : wifi_ap_config_t)
| blob_sta (c : wifi_sta_config_t)
| blob_ip_info (i : tcpip_adapter_ip_info_t)
| blob_dns_info (d : list tcpip_adapter_dns_info_t).

(** One record of the NVS namespace. *)
Inductive nvs_entry :=
| nvs_u32 (v : Z)
| nvs_blob_entry (len : Z) (b : nvs_blob).

#[global] Instance wifi_interface_eq_dec : EqDecision wifi_interface_t.
Proof. solve_decision. Defined.
#[global] Instance nvs_open_mode_eq_dec : EqDecision nvs_open_mode.
Proof. solve_decision. Defined.
#[global] Instance dhcp_status_eq_dec : EqDecision tcpip_adapter_dhcp_status_t.
Proof. solve_decision. Defined.
#[global] Instance nvs_blob_eq_dec : EqDecision nvs_blob.
Proof. solve_decision. Defined.
#[global] Instance nvs_entry_eq_dec : EqDecision nvs_entry.
Proof. solve_decision. Defined.

(** Every call of the component that returns an [esp_err_t], with the
    arguments the component passes. *)
Inductive call :=
| c_esp_wifi_get_mode
| c_esp_wifi_restore
| c_esp_wifi_set_mode (m : wifi_mode_t)
| c_esp_wifi_set_config_ap (c : wifi_ap_config_t)
| c_esp_wifi_set_config_sta (c : wifi_sta_config_t)
| c_esp_wifi_get_config (i : wifi_interface_t)
| c_esp_wifi_start
| c_esp_wifi_connect
| c_esp_wifi_disconnect
| c_esp_wifi_scan_start (show_hidden : bool) (active : bool) (block : bool)
| c_esp_wifi_scan_stop
| c_esp_wifi_scan_get_ap_num
| c_esp_wifi_scan_get_ap_records (n : Z)
| c_esp_wifi_wps_enable
| c_esp_wifi_wps_start
| c_esp_wifi_wps_disable
| c_tcpip_adapter_dhcpc_stop
| c_tcpip_adapter_dhcpc_start
| c_tcpip_adapter_dhcpc_get_status
| c_tcpip_adapter_set_dns_info (idx : nat) (d : tcpip_adapter_dns_info_t)
| c_tcpip_adapter_get_dns_info (idx : nat)
| c_nvs_open (m : nvs_open_mode)
| c_nvs_erase_all
| c_nvs_commit
| c_nvs_set_u32 (key : string) (v : Z)
| c_nvs_set_blob (key : string) (len : Z) (b : nvs_blob)
| c_nvs_get_u32 (key : string)
| c_nvs_get_blob (key : string).

(** What an observer of the device can see happen, in order. *)
Inductive event :=
| ev_call (c : call) (r : esp_err_t)
| ev_nvs_close
| ev_take (ticks : Z) (ok : bool)
| ev_give
| ev_timer (period : Z) (ok : bool)
| ev_alloc (ok : bool)
| ev_free (addr : nat)
| ev_state (s : wmngr_state).

#[global] Instance call_eq_dec : EqDecision call.
Proof. solve_decision. Defined.
#[global] Instance event_eq_dec : EqDecision event.
Proof. solve_decision. Defined.

(** The environment: what each call answers, given the events so far.
    For an NVS call [env_status] is the injected fault ([ESP_OK]: none);
    the contents of the namespace are part of the [world]. *)
Record environment := {
  env_status : list event -> call -> esp_err_t;
  env_take : list event -> bool;
  env_timer : list event -> bool;
  env_calloc : list event -> bool;
  env_tick : list event -> Z;
  env_mode : list event -> wifi_mode_t;
  env_ap_config : list event -> wifi_ap_config_t;
  env_sta_config : list event -> wifi_sta_config_t;
  env_dhcpc_status : list event -> tcpip_adapter_dhcp_status_t;
  env_dns_info : list event -> nat -> tcpip_adapter_dns_info_t;
  env_ap_num : list event -> Z;
  env_ap_records : list event -> list wifi_ap_record_t
}.

(** The constants of the build: whether the state machine runs in a task
    of its own, the tick period of FreeRTOS and the [sizeof] of the ESP-IDF
    types stored as blobs ([sizeof_dns_info] is that of the whole
    [sta_dns_info] array). *)
Record platform := {
  CONFIG_WMNGR_TASK : bool;
  portTICK_PERIOD_MS : Z;
  sizeof_wifi_config_t : Z;
  sizeof_ip_info_t : Z;
  sizeof_dns_info : Z
}.

(** ** The world *)

Record world := {
  cfg_state : wifi_cfg_state;
  wifi_events : Z;
  nvs : gmap string nvs_entry;
  heap : gmap nat scan_data_ref;
  brk : nat;
  log : list event
}.

Definition with_cfg_state (cs : wifi_cfg_state) (w : world) : world :=
  {| cfg_state := cs; wifi_events := wifi_events w; nvs := nvs w;
     heap := heap w; brk := brk w; log := log w |}.
Definition with_wifi_events (e : Z) (w : world) : world :=
  {| cfg_state := cfg_state w; wifi_events := e; nvs := nvs w;
     heap := heap w; brk := brk w; log := log w |}.
Definition with_nvs (n : gmap string nvs_entry) (w : world) : world :=
  {| cfg_state := cfg_state w; wifi_events := wifi_events w; nvs := n;
     heap := heap w; brk := brk w; log := log w |}.
Definition with_heap (h : gmap nat scan_data_ref) (w : world) : world :=
  {| cfg_state := cfg_state w; wifi_events := wifi_events w; nvs := nvs w;
     heap := h; brk := brk w; log := log w |}.
Definition with_brk (b : nat) (w : world) : world :=
  {| cfg_state := cfg_state w; wifi_events := wifi_events w; nvs := nvs w;
     heap := heap w; brk := b; log := log w |}.
Definition with_log (l : list event) (w : world) : world :=
  {| cfg_state := cfg_state w; wifi_events := wifi_events w; nvs := nvs w;
     heap := heap w; brk := brk w; log := l |}.

(** Field updates of [cfg_state]. *)
Definition cs_set_state (s : wmngr_state) (cs : wifi_cfg_state) : wifi_cfg_state :=
  {| cfg_timestamp := cfg_timestamp cs; state := s; saved := saved cs;
     current := current cs; new := new cs;
     scan_timestamp := scan_timestamp cs; scan_ref := scan_ref cs |}.
Definition cs_set_cfg_timestamp (t : Z) (cs : wifi_cfg_state) : wifi_cfg_state :=
  {| cfg_timestamp := t; state := state cs; saved := saved cs;
     current := current cs; new := new cs;
     scan_timestamp := scan_timestamp cs; scan_ref := scan_ref cs |}.
Definition cs_set_saved (c : wifi_cfg) (cs : wifi_cfg_state) : wifi_cfg_state :=
  {| cfg_timestamp := cfg_timestamp cs; state := state cs; saved := c;
     current := current cs; new := new cs;
     scan_timestamp := scan_timestamp cs; scan_ref := scan_ref cs |}.
Definition cs_set_current (c : wifi_cfg) (cs : wifi_cfg_state) : wifi_cfg_state :=
  {| cfg_timestamp := cfg_timestamp cs; state := state cs; saved := saved cs;
     current := c; new := new cs;
     scan_timestamp := scan_timestamp cs; scan_ref := scan_ref cs |}.
Definition cs_set_new (c : wifi_cfg) (cs : wifi_cfg_state) : wifi_cfg_state :=
  {| cfg_timestamp := cfg_timestamp cs; state := state cs; saved := saved cs;
     current := current cs; new := c;
     scan_timestamp := scan_timestamp cs; scan_ref := scan_ref cs |}.
Definition cs_set_scan_ref (r : option nat) (cs : wifi_cfg_state) : wifi_cfg_state :=
  {| cfg_timestamp := cfg_timestamp cs; state := state cs; saved := saved cs;
     current := current cs; new := new cs;
     scan_timestamp := scan_timestamp cs; scan_ref := r |}.

(** ** A state monad over the world *)

Definition M (A : Type) : Type := world -> A * world.

Definition ret {A} (a : A) : M A := fun w => (a, w).

Definition bind {A B} (m : M A) (k : A -> M B) : M B :=
  fun w => let r := m w in k (fst r) (snd r).

Notation "x <- m ;; k" := (bind m (fun x => k))
  (at level 100, m at next level, right associativity).
Notation "m ;; k" := (bind m (fun _ => k))
  (at level 100, right associativity).

Definition gets {A} (f : world -> A) : M A := fun w => (f w, w).
Definition modify (f : world -> world) : M unit := fun w => (tt, f w).

(** Append one event to the log. *)
Definition emit (e : event) : M unit :=
  modify (fun w => with_log (log w ++ [e]) w).

Definition modify_cs (f : wifi_cfg_state -> wifi_cfg_state) : M unit :=
  modify (fun w => with_cfg_state (f (cfg_state w)) w).

(** [cfg_state.state = s]; the assignment is visible to [esp_wmngr_get_state]
    at once, so it is an event. *)
Definition set_state (s : wmngr_state) : M unit :=
  modify_cs (cs_set_state s) ;; emit (ev_state s).

(** A pointer to one of the configurations inside [cfg_state]. *)
Inductive cfg_slot := slot_saved | slot_current | slot_new.

Definition slot_get (p : cfg_slot) (cs : wifi_cfg_state) : wifi_cfg :=
  match p with
  | slot_saved => saved cs
  | slot_current => current cs
  | slot_new => new cs
  end.

Definition slot_set (p : cfg_slot) (c : wifi_cfg) (cs : wifi_cfg_state) : wifi_cfg_state :=
  match p with
  | slot_saved => cs_set_saved c cs
  | slot_current => cs_set_current c cs
  | slot_new => cs_set_new c cs
  end.

Definition read_slot (p : cfg_slot) : M wifi_cfg :=
  gets (fun w => slot_get p (cfg_state w)).

Definition write_slot (p : cfg_slot) (f : wifi_cfg -> wifi_cfg) : M unit :=
  modify_cs (fun cs => slot_set p (f (slot_get p cs)) cs).

(** ** The component, over an arbitrary environment *)

Section Model.

Variable P : platform.
Variable E : environment.

(** A call whose only effect inside the component is its status. *)
Definition call_env (c : call) : M esp_err_t :=
  fun w =>
    let r := env_status E (log w) c in
    (r, with_log (log w ++ [ev_call c r]) w).

(** Sequencing with the idiom
    [result = f(...); if(result != ESP_OK) goto on_exit;]: the rest runs
    only after [ESP_OK], otherwise the status is what reaches [on_exit]. *)
Definition and_then (m : M esp_err_t) (k : M esp_err_t) : M esp_err_t :=
  r <- m ;; if is_ok r then k else ret r.

Notation "'check' m ;; k" := (and_then m k)
  (at level 100, m at next level, right associativity).

(** *** NVS (nvs.h): the contract of the calls the adapter uses *)

Definition nvs_open (m : nvs_open_mode) : M esp_err_t :=
  call_env (c_nvs_open m).

Definition nvs_close : M unit := emit ev_nvs_close.

Definition nvs_commit : M esp_err_t := call_env c_nvs_commit.

(** Erases every record of the namespace, unless the call fails. *)
Definition nvs_erase_all : M esp_err_t :=
  r <- call_env c_nvs_erase_all ;;
  (if is_ok r then modify (with_nvs ∅) else ret tt) ;;
  ret r.

Definition nvs_set_u32 (key : string) (v : Z) : M esp_err_t :=
  r <- call_env (c_nvs_set_u32 key v) ;;
  (if is_ok r then modify (fun w => with_nvs (<[key := nvs_u32 v]> (nvs w)) w)
   else ret tt) ;;
  ret r.

Definition nvs_set_blob (key : string) (b : nvs_blob) (len : Z) : M esp_err_t :=
  r <- call_env (c_nvs_set_blob key len b) ;;
  (if is_ok r
   then modify (fun w => with_nvs (<[key := nvs_blob_entry len b]> (nvs w)) w)
   else ret tt) ;;
  ret r.

(** Returns the status and the value read (meaningful after [ESP_OK]). *)
Definition nvs_get_u32 (key : string) : M (esp_err_t * Z) :=
  r <- call_env (c_nvs_get_u32 key) ;;
  if is_ok r then
    e <- gets (fun w => nvs w !! key) ;;
    match e with
    | Some (nvs_u32 v) => ret (ESP_OK, v)
    | _ => ret (ESP_ERR_NVS_NOT_FOUND, 0)
    end
  else ret (r, 0).

(** [nvs_get_blob(handle, key, out, &len)] with [len] the size of the
    buffer: returns the status, the length of the stored record and the
    object read (after [ESP_OK]).  A record longer than the buffer is
    refused. *)
Definition nvs_get_blob (key : string) (len : Z) : M (esp_err_t * Z * option nvs_blob) :=
  r <- call_env (c_nvs_get_blob key) ;;
  if is_ok r then
    e <- gets (fun w => nvs w !! key) ;;
    match e with
    | Some (nvs_blob_entry n b) =>
        if n <=? len then ret (ESP_OK, n, Some b)
        else ret (ESP_ERR_NVS_INVALID_LENGTH, n, None)
    | _ => ret (ESP_ERR_NVS_NOT_FOUND, len, None)
    end
  else ret (r, len, None).

(** Reading a blob back into a field of the given type.  An object of
    another type cannot be reinterpreted in this model: the field then keeps
    its value. *)
Definition as_ap (b : option nvs_blob) (d : wifi_ap_config_t) : wifi_ap_config_t :=
  match b with Some (blob_ap c) => c | _ => d end.
Definition as_sta (b : option nvs_blob) (d : wifi_sta_config_t) : wifi_sta_config_t :=
  match b with Some (blob_sta c) => c | _ => d end.
Definition as_ip_info (b : option nvs_blob) (d : tcpip_adapter_ip_info_t) : tcpip_adapter_ip_info_t :=
  match b with Some (blob_ip_info c) => c | _ => d end.
Definition as_dns_info (b : option nvs_blob) (d : list tcpip_adapter_dns_info_t) : list tcpip_adapter_dns_info_t :=
  match b with Some (blob_dns_info c) => c | _ => d end.

(** [result != ESP_OK || len != sizeof(...)], and the status it leads to. *)
Definition blob_status (r : esp_err_t) (len size : Z) : esp_err_t :=
  if negb (is_ok r) || negb (len =? size)
  then (if negb (is_ok r) then r else ESP_ERR_NOT_FOUND)
  else ESP_OK.

(** *** Persistence adapter *)

(** The part of [get_saved_config] between [nvs_open] and the label
    [on_exit]: the status and the contents of [*cfg]. *)
Definition get_saved_config_body (cfg : wifi_cfg) : M (esp_err_t * wifi_cfg) :=
  x <- nvs_get_u32 "mode" ;;
  if negb (is_ok (fst x)) then ret (fst x, cfg) else
  let cfg := set_mode (mode_of_u32 (snd x)) cfg in
  x <- nvs_get_u32 "sta_static" ;;
  if negb (is_ok (fst x)) then ret (fst x, cfg) else
  let cfg := set_sta_static (bool_of_u32 (snd x)) cfg in
  x <- nvs_get_u32 "sta_connect" ;;
  if negb (is_ok (fst x)) then ret (fst x, cfg) else
  let cfg := set_sta_connect (bool_of_u32 (snd x)) cfg in
  x <- nvs_get_blob "ap" (sizeof_wifi_config_t P) ;;
  let cfg := set_ap (as_ap (snd x) (ap cfg)) cfg in
  let r := blob_status (fst (fst x)) (snd (fst x)) (sizeof_wifi_config_t P) in
  if negb (is_ok r) then ret (r, cfg) else
  x <- nvs_get_blob "sta" (sizeof_wifi_config_t P) ;;
  let cfg := set_sta (as_sta (snd x) (sta cfg)) cfg in
  let r := blob_status (fst (fst x)) (snd (fst x)) (sizeof_wifi_config_t P) in
  if negb (is_ok r) then ret (r, cfg) else
  x <- nvs_get_blob "ap_ip" (sizeof_ip_info_t P) ;;
  let cfg := set_ap_ip_info (as_ip_info (snd x) (ap_ip_info cfg)) cfg in
  let r := blob_status (fst (fst x)) (snd (fst x)) (sizeof_ip_info_t P) in
  if negb (is_ok r) then ret (r, cfg) else
  x <- nvs_get_blob "sta_ip" (sizeof_ip_info_t P) ;;
  let cfg := set_sta_ip_info (as_ip_info (snd x) (sta_ip_info cfg)) cfg in
  let r := blob_status (fst (fst x)) (snd (fst x)) (sizeof_ip_info_t P) in
  if negb (is_ok r) then ret (r, cfg) else
  x <- nvs_get_blob "sta_dns" (sizeof_dns_info P) ;;
  let cfg := set_sta_dns_info (as_dns_info (snd x) (sta_dns_info cfg)) cfg in
  let r := blob_status (fst (fst x)) (snd (fst x)) (sizeof_dns_info P) in
  ret (r, cfg).

(** [get_saved_config(cfg)]: the status and the contents of [*cfg] on
    return. *)
Definition get_saved_config : M (esp_err_t * wifi_cfg) :=
  (* memset(cfg, 0x0, sizeof( *cfg)) *)
  let cfg := zero_cfg in
  r <- nvs_open NVS_READONLY ;;
  if negb (is_ok r) then ret (r, cfg) else
  res <- get_saved_config_body cfg ;;
  (* on_exit: *)
  nvs_close ;;
  ret res.

(** The part of [save_config] between [nvs_open] and the label [on_exit]. *)
Definition save_config_body (cfg : wifi_cfg) : M esp_err_t :=
  check nvs_erase_all ;;
  check nvs_commit ;;
  if is_default cfg then ret ESP_OK else
  check nvs_set_u32 "mode" (mode_to_u32 (mode cfg)) ;;
  check nvs_set_u32 "sta_static" (Z.b2z (sta_static cfg)) ;;
  check nvs_set_u32 "sta_connect" (Z.b2z (sta_connect cfg)) ;;
  check nvs_set_blob "ap" (blob_ap (ap cfg)) (sizeof_wifi_config_t P) ;;
  check nvs_set_blob "sta" (blob_sta (sta cfg)) (sizeof_wifi_config_t P) ;;
  check nvs_set_blob "ap_ip" (blob_ip_info (ap_ip_info cfg)) (sizeof_ip_info_t P) ;;
  check nvs_set_blob "sta_ip" (blob_ip_info (sta_ip_info cfg)) (sizeof_ip_info_t P) ;;
  nvs_set_blob "sta_dns" (blob_dns_info (sta_dns_info cfg)) (sizeof_dns_info P).

(** [save_config(cfg)] *)
Definition save_config (cfg : wifi_cfg) : M esp_err_t :=
  r <- nvs_open NVS_READWRITE ;;
  if negb (is_ok r) then ret r else
  result <- save_config_body cfg ;;
  (* on_exit: *)
  (if negb (is_ok result) then nvs_erase_all ;; ret tt else ret tt) ;;
  nvs_commit ;;
  nvs_close ;;
  ret result.

(** *** Constants of wifi_manager.c *)

Definition MAX_AP_CLIENTS : Z := 3.
Definition MAX_NUM_APS : Z := 32.
Definition CFG_TIMEOUT : Z := 60 * 1000 / portTICK_PERIOD_MS P.
Definition CFG_TICKS : Z := 1000 / portTICK_PERIOD_MS P.
Definition CFG_DELAY : Z := 100 / portTICK_PERIOD_MS P.

Definition BIT_TRIGGER : Z := Z.shiftl 1 0.
Definition BIT_STA_START : Z := Z.shiftl 1 1.
Definition BIT_STA_CONNECTED : Z := Z.shiftl 1 2.
Definition BIT_STA_GOT_IP : Z := Z.shiftl 1 3.
Definition BIT_AP_START : Z := Z.shiftl 1 4.
Definition BIT_SCAN_START : Z := Z.shiftl 1 5.
Definition BIT_SCAN_RUNNING : Z := Z.shiftl 1 6.
Definition BIT_SCAN_DONE : Z := Z.shiftl 1 7.
Definition BIT_WPS_SUCCESS : Z := Z.shiftl 1 8.
Definition BIT_WPS_FAILED : Z := Z.shiftl 1 9.
Definition BITS_WPS : Z := Z.lor BIT_WPS_SUCCESS BIT_WPS_FAILED.

(** [events & mask] as a truth value. *)
Definition test_bits (events mask : Z) : bool :=
  negb (Z.land events mask =? 0).

(** *** FreeRTOS: event group, mutex, timer, tick counter *)

Definition xEventGroupGetBits : M Z := gets wifi_events.

Definition xEventGroupSetBits (bits : Z) : M unit :=
  modify (fun w => with_wifi_events (Z.lor (wifi_events w) bits) w).

Definition xEventGroupClearBits (bits : Z) : M unit :=
  modify (fun w => with_wifi_events (Z.ldiff (wifi_events w) bits) w).

(** [xSemaphoreTake(cfg_state.lock, ticks) == pdTRUE] *)
Definition xSemaphoreTake (ticks : Z) : M bool :=
  fun w =>
    let ok := env_take E (log w) in
    (ok, with_log (log w ++ [ev_take ticks ok]) w).

Definition xSemaphoreGive : M unit := emit ev_give.

(** [xTimerChangePeriod(config_timer, period, CFG_DELAY) == pdPASS]: arms
    the wake-up of the state machine. *)
Definition xTimerChangePeriod (period : Z) : M bool :=
  fun w =>
    let ok := env_timer E (log w) in
    (ok, with_log (log w ++ [ev_timer period ok]) w).

Definition xTaskGetTickCount : M Z := gets (fun w => env_tick E (log w)).

(** [time_after(a, b)] of kutils.h on 32-bit ticks:
    [(long)((b) - (a)) < 0]. *)
Definition time_after (a b : Z) : bool :=
  2 ^ 31 <=? (b - a) mod 2 ^ 32.

(** Tick arithmetic of [TickType_t]. *)
Definition tick_add (a b : Z) : Z := (a + b) mod 2 ^ 32.

(** *** Radio driver and TCP/IP adapter: calls that return data *)

Definition esp_wifi_get_mode : M (esp_err_t * wifi_mode_t) :=
  fun w =>
    let r := env_status E (log w) c_esp_wifi_get_mode in
    ((r, env_mode E (log w)), with_log (log w ++ [ev_call c_esp_wifi_get_mode r]) w).

Definition esp_wifi_get_config_sta : M (esp_err_t * wifi_sta_config_t) :=
  fun w =>
    let c := c_esp_wifi_get_config WIFI_IF_STA in
    let r := env_status E (log w) c in
    ((r, env_sta_config E (log w)), with_log (log w ++ [ev_call c r]) w).

Definition esp_wifi_get_config_ap : M (esp_err_t * wifi_ap_config_t) :=
  fun w =>
    let c := c_esp_wifi_get_config WIFI_IF_AP in
    let r := env_status E (log w) c in
    ((r, env_ap_config E (log w)), with_log (log w ++ [ev_call c r]) w).

Definition tcpip_adapter_dhcpc_get_status : M (esp_err_t * tcpip_adapter_dhcp_status_t) :=
  fun w =>
    let c := c_tcpip_adapter_dhcpc_get_status in
    let r := env_status E (log w) c in
    ((r, env_dhcpc_status E (log w)), with_log (log w ++ [ev_call c r]) w).

Definition tcpip_adapter_get_dns_info (idx : nat) : M (esp_err_t * tcpip_adapter_dns_info_t) :=
  fun w =>
    let c := c_tcpip_adapter_get_dns_info idx in
    let r := env_status E (log w) c in
    ((r, env_dns_info E (log w) idx), with_log (log w ++ [ev_call c r]) w).

Definition esp_wifi_scan_get_ap_num : M (esp_err_t * Z) :=
  fun w =>
    let c := c_esp_wifi_scan_get_ap_num in
    let r := env_status E (log w) c in
    ((r, env_ap_num E (log w)), with_log (log w ++ [ev_call c r]) w).

(** [esp_wifi_scan_get_ap_records(&n, buf)]: at most [n] records are
    written; the number written is returned in [n]. *)
Definition esp_wifi_scan_get_ap_records (n : Z) : M (esp_err_t * list wifi_ap_record_t) :=
  fun w =>
    let c := c_esp_wifi_scan_get_ap_records n in
    let r := env_status E (log w) c in
    ((r, take (Z.to_nat n) (env_ap_records E (log w))),
     with_log (log w ++ [ev_call c r]) w).

(** *** Helpers of wifi_manager.c *)

(** [sta_connected()] *)
Definition sta_connected : M bool :=
  events <- xEventGroupGetBits ;;
  ret (test_bits events BIT_STA_CONNECTED).

Definition ap_bearing (m : wifi_mode_t) : bool :=
  bool_decide (m = WIFI_MODE_APSTA) || bool_decide (m = WIFI_MODE_AP).

Definition sta_bearing (m : wifi_mode_t) : bool :=
  bool_decide (m = WIFI_MODE_APSTA) || bool_decide (m = WIFI_MODE_STA).

(** The loop over [cfg->sta_dns_info] in [set_wifi_cfg], from index [idx]:
    [Some r] when it leaves by [goto on_exit] with status [r]. *)
Fixpoint set_dns_loop (idx : nat) (l : list tcpip_adapter_dns_info_t) : M (option esp_err_t) :=
  match l with
  | [] => ret None
  | d :: l' =>
      if dns_ip d =? 0 then set_dns_loop (S idx) l'
      else
        r <- call_env (c_tcpip_adapter_set_dns_info idx d) ;;
        if is_ok r then set_dns_loop (S idx) l' else ret (Some r)
  end.

(** [set_wifi_cfg(cfg)], [cfg] pointing into [cfg_state]. *)
Definition set_wifi_cfg (p : cfg_slot) : M esp_err_t :=
  cfg <- read_slot p ;;
  (* memmove(&cfg_state.current, cfg, sizeof( *cfg)) *)
  modify_cs (cs_set_current cfg) ;;
  call_env c_esp_wifi_restore ;;
  result <- call_env (c_esp_wifi_set_mode (mode cfg)) ;;
  result <-
    (if ap_bearing (mode cfg) then
       write_slot p (fun c => set_ap (set_max_connection MAX_AP_CLIENTS (ap c)) c) ;;
       c <- read_slot p ;;
       call_env (c_esp_wifi_set_config_ap (ap c))
     else ret result) ;;
  jump <-
    (if sta_bearing (mode cfg) then
       call_env (c_esp_wifi_set_config_sta (sta cfg)) ;;
       if sta_static cfg then
         call_env c_tcpip_adapter_dhcpc_stop ;;
         set_dns_loop 0 (sta_dns_info cfg)
       else
         call_env c_tcpip_adapter_dhcpc_start ;;
         ret None
     else ret None) ;;
  match jump with
  | Some r => ret r
  | None =>
      result <- call_env c_esp_wifi_start ;;
      if sta_connect cfg && sta_bearing (mode cfg)
      then call_env c_esp_wifi_connect
      else ret result
  end.

(** The loop over [cfg->sta_dns_info] in [get_wifi_cfg]: the entries read so
    far, and [Some r] when it leaves by [goto on_exit]. *)
Fixpoint get_dns_loop (n idx : nat) (l : list tcpip_adapter_dns_info_t)
  : M (option esp_err_t * list tcpip_adapter_dns_info_t) :=
  match n with
  | O => ret (None, l)
  | S n' =>
      x <- tcpip_adapter_get_dns_info idx ;;
      if is_ok (fst x) then get_dns_loop n' (S idx) (<[idx := snd x]> l)
      else ret (Some (fst x), l)
  end.

(** [get_wifi_cfg(cfg)]: the status and the contents of [*cfg] on return.
    A call that fails leaves its output as it was. *)
Definition get_wifi_cfg : M (esp_err_t * wifi_cfg) :=
  let cfg := zero_cfg in
  c <- sta_connected ;;
  let cfg := set_sta_connect c cfg in
  x <- esp_wifi_get_mode ;;
  if negb (is_ok (fst x)) then ret (fst x, cfg) else
  let cfg := set_mode (snd x) cfg in
  x <- esp_wifi_get_config_sta ;;
  if negb (is_ok (fst x)) then ret (fst x, cfg) else
  let cfg := set_sta (snd x) cfg in
  x <- tcpip_adapter_dhcpc_get_status ;;
  if negb (is_ok (fst x)) then ret (fst x, cfg) else
  y <- (if bool_decide (snd x = TCPIP_ADAPTER_DHCP_STOPPED) then
          d <- get_dns_loop TCPIP_ADAPTER_DNS_MAX 0 (sta_dns_info cfg) ;;
          ret (fst d, set_sta_dns_info (snd d) (set_sta_static true cfg))
        else ret (None, cfg)) ;;
  match fst y with
  | Some r => ret (r, snd y)
  | None =>
      let cfg := snd y in
      x <- esp_wifi_get_config_ap ;;
      if negb (is_ok (fst x)) then ret (fst x, cfg) else
      ret (fst x, set_ap (snd x) cfg)
  end.

(** *** Reference counting (kref.h) on [atomic_int] *)

(** Wrap-around of a 32-bit signed [int]. *)
Definition wrap_int (z : Z) : Z := (z + 2 ^ 31) mod 2 ^ 32 - 2 ^ 31.

(** [kref_init]: [atomic_init(&kref->count, 1)] *)
Definition kref_init (k : kref) : kref := {| count := 1 |}.

(** [kref_get]: [atomic_fetch_add(&kref->count, 1)] *)
Definition kref_get (k : kref) : kref := {| count := wrap_int (count k + 1) |}.

(** [kref_put]: the counter after [atomic_fetch_sub(&kref->count, 1)], and
    whether [release] is called ([old == 1]), which is also the result. *)
Definition kref_put (k : kref) : kref * bool :=
  ({| count := wrap_int (count k - 1) |}, count k =? 1).

Definition set_ref_cnt (k : kref) (r : scan_data_ref) : scan_data_ref :=
  {| ref_cnt := k; status := status r; data := data r |}.

Definition set_data (d : scan_data) (r : scan_data_ref) : scan_data_ref :=
  {| ref_cnt := ref_cnt r; status := status r; data := d |}.

(** What [calloc(1, sizeof(struct scan_data_ref))] returns. *)
Definition zero_scan_data_ref : scan_data_ref :=
  {| ref_cnt := {| count := 0 |}; status := 0;
     data := {| tstamp := 0; ap_records := None; num_records := 0 |} |}.

Definition zero_ap_record : wifi_ap_record_t := {| rec_ssid := ""; rec_rssi := 0 |}.

(** [calloc] of one [struct scan_data_ref]: the address, or [None] for
    [NULL].  Addresses are handed out in increasing order and never again. *)
Definition calloc_scan_data_ref : M (option nat) :=
  fun w =>
    if env_calloc E (log w) then
      (Some (brk w),
       with_log (log w ++ [ev_alloc true])
         (with_brk (S (brk w)) (with_heap (<[brk w := zero_scan_data_ref]> (heap w)) w)))
    else (None, with_log (log w ++ [ev_alloc false]) w).

(** [calloc] of the record array: whether it succeeded. *)
Definition calloc_ap_records : M bool :=
  fun w =>
    let ok := env_calloc E (log w) in
    (ok, with_log (log w ++ [ev_alloc ok]) w).

(** Update of the snapshot at address [a]. *)
Definition modify_ref (a : nat) (f : scan_data_ref -> scan_data_ref) : M unit :=
  modify (fun w => with_heap (alter f a (heap w)) w).

(** [free_scan_data]: frees the record array and the snapshot. *)
Definition free_scan_data (a : nat) : M unit :=
  modify (fun w => with_heap (delete a (heap w)) w) ;;
  emit (ev_free a).

(** [esp_wmngr_put_scan(data)], [data] being the snapshot at address [a].
    A pointer to freed memory is outside the model: nothing happens. *)
Definition esp_wmngr_put_scan (a : nat) : M unit :=
  c <- gets (fun w => heap w !! a) ;;
  match c with
  | None => ret tt
  | Some r =>
      let k := kref_put (ref_cnt r) in
      modify_ref a (set_ref_cnt (fst k)) ;;
      if snd k then free_scan_data a else ret tt
  end.

(** *** Scanning *)

(** [wifi_scan_done()] *)
Definition wifi_scan_done : M unit :=
  x <- esp_wifi_scan_get_ap_num ;;
  if negb (is_ok (fst x)) || (snd x =? 0) then
    xEventGroupClearBits (Z.lor BIT_SCAN_RUNNING BIT_SCAN_DONE)
  else
    let num_aps := if snd x >? MAX_NUM_APS then MAX_NUM_APS else snd x in
    p <- calloc_scan_data_ref ;;
    match p with
    | None => ret tt
    | Some a =>
        modify_ref a (fun r => set_ref_cnt (kref_init (ref_cnt r)) r) ;;
        ok <- calloc_ap_records ;;
        (if negb ok then ret tt else
           now <- xTaskGetTickCount ;;
           modify_ref a (set_data
             {| tstamp := now;
                ap_records := Some (repeat zero_ap_record (Z.to_nat num_aps));
                num_records := num_aps |}) ;;
           y <- esp_wifi_scan_get_ap_records num_aps ;;
           (if is_ok (fst y) then
              modify_ref a (set_data
                {| tstamp := now; ap_records := Some (snd y);
                   num_records := Z.of_nat (length (snd y)) |})
            else ret tt) ;;
           xEventGroupClearBits (Z.lor BIT_SCAN_RUNNING BIT_SCAN_DONE) ;;
           if negb (is_ok (fst y)) then ret tt else
             modify_ref a (fun r => set_ref_cnt (kref_get (ref_cnt r)) r) ;;
             old <- gets (fun w => scan_ref (cfg_state w)) ;;
             modify_cs (cs_set_scan_ref (Some a)) ;;
             match old with
             | Some o => esp_wmngr_put_scan o
             | None => ret tt
             end) ;;
        (* on_exit: *)
        esp_wmngr_put_scan a
    end.

(** [wifi_scan_start()] *)
Definition wifi_scan_start : M unit :=
  st <- gets (fun w => state (cfg_state w)) ;;
  if state_gt_idle st then ret tt else
  xEventGroupClearBits BIT_SCAN_START ;;
  x <- esp_wifi_get_mode ;;
  if negb (is_ok (fst x)) then ret tt else
  if negb (bool_decide (snd x = WIFI_MODE_APSTA))
     && negb (bool_decide (snd x = WIFI_MODE_STA)) then ret tt else
  events <- xEventGroupGetBits ;;
  if negb (test_bits events (Z.lor BIT_SCAN_RUNNING BIT_SCAN_DONE)) then
    xEventGroupSetBits BIT_SCAN_START ;;
    r <- call_env (c_esp_wifi_scan_start true true false) ;;
    if is_ok r then xEventGroupSetBits BIT_SCAN_RUNNING else ret tt
  else ret tt.

(** *** The state machine *)

(** The [switch] of [handle_wifi]: the [delay] it sets, and whether it
    leaves by [goto on_exit]. *)
Definition handle_wifi_switch (connected : bool) (events now : Z) : M (Z * bool) :=
  st <- gets (fun w => state (cfg_state w)) ;;
  match st with
  | wmngr_state_wps_start =>
      x <- get_wifi_cfg ;;
      modify_cs (cs_set_new (snd x)) ;;
      if negb (is_ok (fst x)) then
        set_state wmngr_state_fallback ;; ret (CFG_DELAY, true)
      else
        write_slot slot_new (set_sta zero_sta) ;;
        write_slot slot_new (set_mode WIFI_MODE_APSTA) ;;
        write_slot slot_new (set_sta_connect false) ;;
        r <- set_wifi_cfg slot_new ;;
        if negb (is_ok r) then
          set_state wmngr_state_fallback ;; ret (CFG_DELAY, true)
        else
          xEventGroupClearBits BITS_WPS ;;
          r <- call_env c_esp_wifi_wps_enable ;;
          if negb (is_ok r) then
            set_state wmngr_state_fallback ;; ret (CFG_DELAY, true)
          else
            r <- call_env c_esp_wifi_wps_start ;;
            if negb (is_ok r) then
              set_state wmngr_state_fallback ;; ret (CFG_DELAY, true)
            else
              modify_cs (cs_set_cfg_timestamp now) ;;
              set_state wmngr_state_wps_active ;;
              ret (CFG_TICKS, false)
  | wmngr_state_wps_active =>
      ts <- gets (fun w => cfg_timestamp (cfg_state w)) ;;
      if test_bits events BIT_WPS_SUCCESS then
        call_env c_esp_wifi_wps_disable ;;
        x <- get_wifi_cfg ;;
        modify_cs (cs_set_new (snd x)) ;;
        write_slot slot_new (set_mode WIFI_MODE_APSTA) ;;
        write_slot slot_new (set_sta_connect true) ;;
        set_state wmngr_state_update ;;
        ret (CFG_DELAY, false)
      else if time_after now (tick_add ts CFG_TIMEOUT)
              || test_bits events BIT_WPS_FAILED then
        call_env c_esp_wifi_wps_disable ;;
        set_state wmngr_state_fallback ;;
        ret (CFG_DELAY, false)
      else ret (CFG_TICKS, false)
  | wmngr_state_update =>
      call_env c_esp_wifi_scan_stop ;;
      call_env c_esp_wifi_disconnect ;;
      r <- set_wifi_cfg slot_new ;;
      if negb (is_ok r) then
        set_state wmngr_state_fallback ;; ret (CFG_DELAY, true)
      else
        n <- read_slot slot_new ;;
        if bool_decide (mode n = WIFI_MODE_AP) || negb (sta_connect n) then
          set_state wmngr_state_idle ;; ret (0, false)
        else
          modify_cs (cs_set_cfg_timestamp now) ;;
          set_state wmngr_state_connecting ;;
          ret (CFG_TICKS, false)
  | wmngr_state_connecting =>
      ts <- gets (fun w => cfg_timestamp (cfg_state w)) ;;
      if connected then
        set_state wmngr_state_connected ;;
        n <- read_slot slot_new ;;
        save_config n ;;
        ret (0, false)
      else if time_after now (tick_add ts CFG_TIMEOUT) then
        set_state wmngr_state_fallback ;; ret (CFG_DELAY, false)
      else ret (CFG_TICKS, false)
  | wmngr_state_disconnecting => ret (0, false)
  | wmngr_state_fallback =>
      call_env c_esp_wifi_disconnect ;;
      set_wifi_cfg slot_saved ;;
      set_state wmngr_state_failed ;;
      ret (0, false)
  | wmngr_state_connected =>
      if negb connected then
        set_state wmngr_state_update ;; ret (CFG_DELAY, false)
      else ret (0, false)
  | wmngr_state_idle | wmngr_state_failed => ret (0, false)
  | wmngr_state_max => set_state wmngr_state_failed ;; ret (0, false)
  end.

(** The part of [handle_wifi] after the [switch]: pending scan requests
    are served in a stable state.  Returns the new [delay]. *)
Definition handle_wifi_scan (events delay : Z) : M Z :=
  st <- gets (fun w => state (cfg_state w)) ;;
  if state_le_idle st then
    (if test_bits events BIT_SCAN_START then wifi_scan_start
     else if test_bits events BIT_SCAN_DONE then wifi_scan_done
     else ret tt) ;;
    events <- xEventGroupGetBits ;;
    if test_bits events (Z.lor BIT_SCAN_START BIT_SCAN_DONE)
    then ret CFG_DELAY else ret delay
  else ret delay.

(** The part of [handle_wifi] after the label [on_exit]. *)
Definition handle_wifi_exit (delay : Z) : M unit :=
  xSemaphoreGive ;;
  if delay >? 0 then
    ok <- xTimerChangePeriod delay ;;
    if negb ok then set_state wmngr_state_failed else ret tt
  else ret tt.

(** [handle_wifi(timer)]: one step of the state machine. *)
Definition handle_wifi : M unit :=
  ok <- xSemaphoreTake 0 ;;
  if negb ok then
    xTimerChangePeriod CFG_DELAY ;; ret tt
  else
    connected <- sta_connected ;;
    events <- xEventGroupGetBits ;;
    now <- xTaskGetTickCount ;;
    x <- esp_wifi_get_mode ;;
    delay <-
      (if negb (is_ok (fst x)) then
         set_state wmngr_state_failed ;; ret 0
       else
         y <- handle_wifi_switch connected events now ;;
         if snd y then ret (fst y) else handle_wifi_scan events (fst y)) ;;
    handle_wifi_exit delay.

(** *** Public operations *)

(** [esp_wmngr_set_cfg(new)] *)
Definition esp_wmngr_set_cfg (X : wifi_cfg) : M esp_err_t :=
  ok <- xSemaphoreTake CFG_DELAY ;;
  if negb ok then ret ESP_ERR_TIMEOUT else
  st <- gets (fun w => state (cfg_state w)) ;;
  result <-
    (if state_gt_idle st then ret ESP_ERR_INVALID_STATE else
     x <- get_wifi_cfg ;;
     modify_cs (cs_set_saved (snd x)) ;;
     if negb (is_ok (fst x)) then ret (fst x) else
     connected <- sta_connected ;;
     (if negb connected then write_slot slot_saved (set_sta zero_sta) else ret tt) ;;
     modify_cs (cs_set_new X) ;;
     write_slot slot_new (set_is_default false) ;;
     n <- read_slot slot_new ;;
     s <- read_slot slot_saved ;;
     let update :=
       negb (bool_decide (mode n = mode s))
       || (ap_bearing (mode X) && negb (bool_decide (ap n = ap s)))
       || (sta_bearing (mode X) && negb (bool_decide (sta n = sta s))) in
     if update then
       set_state wmngr_state_update ;;
       ok <- xTimerChangePeriod CFG_DELAY ;;
       if negb ok then set_state wmngr_state_failed ;; ret ESP_ERR_TIMEOUT
       else ret ESP_OK
     else ret ESP_OK) ;;
  (* on_exit: *)
  xSemaphoreGive ;;
  ret result.

(** [esp_wmngr_get_cfg(cfg)]: the status and the contents of [*cfg] on
    return, [out] being its contents at the call. *)
Definition esp_wmngr_get_cfg (out : wifi_cfg) : M (esp_err_t * wifi_cfg) :=
  ok <- xSemaphoreTake CFG_DELAY ;;
  if negb ok then ret (ESP_ERR_TIMEOUT, out) else
  st <- gets (fun w => state (cfg_state w)) ;;
  res <-
    (if state_gt_idle st then ret (ESP_ERR_INVALID_STATE, out) else
     c <- read_slot slot_current ;;
     ret (ESP_OK, c)) ;;
  (* on_exit: *)
  xSemaphoreGive ;;
  ret res.

(** [set_connect(connect)]; the local [cfg] starts with the contents
    [local]. *)
Definition set_connect (connect : bool) (local : wifi_cfg) : M esp_err_t :=
  x <- esp_wmngr_get_cfg local ;;
  if negb (is_ok (fst x)) then ret (fst x) else
  let cfg := snd x in
  if negb (bool_decide (mode cfg = WIFI_MODE_APSTA))
     && negb (bool_decide (mode cfg = WIFI_MODE_STA))
  then ret ESP_ERR_INVALID_STATE else
  esp_wmngr_set_cfg (set_sta_connect connect cfg).

(** [esp_wmngr_connect()] *)
Definition esp_wmngr_connect (local : wifi_cfg) : M esp_err_t :=
  set_connect true local.

(** [esp_wmngr_disconnect()] *)
Definition esp_wmngr_disconnect (local : wifi_cfg) : M esp_err_t :=
  set_connect false local.

(** [esp_wmngr_start_wps()] *)
Definition esp_wmngr_start_wps : M esp_err_t :=
  ok <- xSemaphoreTake CFG_DELAY ;;
  if negb ok then ret ESP_ERR_TIMEOUT else
  st <- gets (fun w => state (cfg_state w)) ;;
  result <-
    (if state_gt_idle st then ret ESP_ERR_INVALID_STATE else
     x <- get_wifi_cfg ;;
     if negb (is_ok (fst x)) then ret (fst x) else
     modify_cs (cs_set_saved (snd x)) ;;
     set_state wmngr_state_wps_start ;;
     ok <- xTimerChangePeriod CFG_DELAY ;;
     (if negb ok then set_state wmngr_state_failed else ret tt) ;;
     ret (fst x)) ;;
  (* on_exit: *)
  xSemaphoreGive ;;
  ret result.

(** [esp_wmngr_get_scan()]: the address of the snapshot, or [None] for
    [NULL]. *)
Definition esp_wmngr_get_scan : M (option nat) :=
  r <- gets (fun w => scan_ref (cfg_state w)) ;;
  match r with
  | None => ret None
  | Some _ =>
      ok <- xSemaphoreTake CFG_DELAY ;;
      if ok then
        r <- gets (fun w => scan_ref (cfg_state w)) ;;
        match r with
        | Some a =>
            modify_ref a (fun c => set_ref_cnt (kref_get (ref_cnt c)) c) ;;
            xSemaphoreGive ;;
            ret (Some a)
        | None => xSemaphoreGive ;; ret None
        end
      else ret None
  end.

(** [esp_wmngr_get_state()] *)
Definition esp_wmngr_get_state : M wmngr_state :=
  gets (fun w => state (cfg_state w)).

(** [esp_wmngr_nvs_valid()] *)
Definition esp_wmngr_nvs_valid : M bool :=
  x <- get_saved_config ;;
  ret (is_ok (fst x)).

(** [esp_wmngr_start_scan()] *)
Definition esp_wmngr_start_scan : M esp_err_t :=
  xEventGroupSetBits (Z.lor BIT_SCAN_START BIT_TRIGGER) ;;
  if CONFIG_WMNGR_TASK P then ret ESP_OK else
  ok <- xTimerChangePeriod CFG_DELAY ;;
  if negb ok then set_state wmngr_state_failed ;; ret ESP_FAIL
  else ret ESP_OK.

(** *** Event ingest *)

(** What [event_handler] does to the event bits for one event. *)
Definition event_bits (e : esp_event) : M unit :=
  match e with
  | WIFI_EVENT_SCAN_DONE status_ok =>
      (if status_ok then xEventGroupSetBits BIT_SCAN_DONE else ret tt) ;;
      xEventGroupClearBits BIT_SCAN_START
  | WIFI_EVENT_STA_START => xEventGroupSetBits BIT_STA_START
  | WIFI_EVENT_STA_STOP => xEventGroupClearBits BIT_STA_START
  | WIFI_EVENT_STA_CONNECTED => xEventGroupSetBits BIT_STA_CONNECTED
  | WIFI_EVENT_STA_DISCONNECTED => xEventGroupClearBits BIT_STA_CONNECTED
  | WIFI_EVENT_AP_START => xEventGroupSetBits BIT_AP_START
  | WIFI_EVENT_AP_STOP => xEventGroupClearBits BIT_AP_START
  | WIFI_EVENT_STA_WPS_ER_SUCCESS => xEventGroupSetBits BIT_WPS_SUCCESS
  | WIFI_EVENT_STA_WPS_ER_FAILED
  | WIFI_EVENT_STA_WPS_ER_TIMEOUT
  | WIFI_EVENT_STA_WPS_ER_PIN => xEventGroupSetBits BIT_WPS_FAILED
  | IP_EVENT_STA_GOT_IP => xEventGroupSetBits BIT_STA_GOT_IP
  | IP_EVENT_STA_LOST_IP => xEventGroupClearBits BIT_STA_GOT_IP
  | WIFI_EVENT_other | IP_EVENT_other | OTHER_BASE_event => ret tt
  end.

(** [event_handler(args, base, id, data)] *)
Definition event_handler (e : esp_event) : M unit :=
  match e with
  | OTHER_BASE_event => ret tt
  | _ =>
      old <- xEventGroupGetBits ;;
      event_bits e ;;
      new <- xEventGroupGetBits ;;
      if negb (old =? new) then
        if CONFIG_WMNGR_TASK P then xEventGroupSetBits BIT_TRIGGER
        else
          ok <- xTimerChangePeriod CFG_DELAY ;;
          if negb ok then set_state wmngr_state_failed else ret tt
      else ret tt
  end.

End Model.

(** ** Vocabulary of the statements *)

(** The world after a call that answered [r]. *)
Definition logged (c : call) (r : esp_err_t) (w : world) : world :=
  with_log (log w ++ [ev_call c r]) w.


(** The calls that go to NVS. *)
Definition is_nvs_call (c : call) : bool :=
  match c with
  | c_nvs_open _ | c_nvs_erase_all | c_nvs_commit | c_nvs_set_u32 _ _
  | c_nvs_set_blob _ _ _ | c_nvs_get_u32 _ | c_nvs_get_blob _ => true
  | _ => false
  end.

(** An environment that injects no fault into NVS calls. *)
Definition nvs_reliable (E : environment) : Prop :=
  forall l c, is_nvs_call c = true -> env_status E l c = ESP_OK.

(** The namespace after every field of [X] has been written, in the order
    of [save_config]. *)
Definition stored (P : platform) (X : wifi_cfg) : gmap string nvs_entry :=
  <["sta_dns" := nvs_blob_entry (sizeof_dns_info P) (blob_dns_info (sta_dns_info X))]>
  (<["sta_ip" := nvs_blob_entry (sizeof_ip_info_t P) (blob_ip_info (sta_ip_info X))]>
  (<["ap_ip" := nvs_blob_entry (sizeof_ip_info_t P) (blob_ip_info (ap_ip_info X))]>
  (<["sta" := nvs_blob_entry (sizeof_wifi_config_t P) (blob_sta (sta X))]>
  (<["ap" := nvs_blob_entry (sizeof_wifi_config_t P) (blob_ap (ap X))]>
  (<["sta_connect" := nvs_u32 (Z.b2z (sta_connect X))]>
  (<["sta_static" := nvs_u32 (Z.b2z (sta_static X))]>
  (<["mode" := nvs_u32 (mode_to_u32 (mode X))]> ∅))))))).


(** The events a run added to the log. *)
Definition new_events (w w' : world) : list event :=
  drop (length (log w)) (log w').

(** The calls that write one field of a configuration to NVS. *)
Definition is_field_write (c : call) : bool :=
  match c with
  | c_nvs_set_u32 _ _ | c_nvs_set_blob _ _ _ => true
  | _ => false
  end.

(** ** Concrete platforms, environments and worlds *)

(** A timer-driven build with a 10 ms tick; the sizes are those of an
    ESP-IDF 3.3 build. *)
Definition platform_10ms : platform :=
  {| CONFIG_WMNGR_TASK := false; portTICK_PERIOD_MS := 10;
     sizeof_wifi_config_t := 124;
     sizeof_ip_info_t := 12; sizeof_dns_info := 72 |}.

Definition home_sta : wifi_sta_config_t :=
  {| sta_ssid := "home"; sta_password := "secret"; bssid_set := false |}.

Definition default_ap : wifi_ap_config_t :=
  {| ap_ssid := "ESP WiFi Manager"; ap_password := ""; ssid_len := 16;
     ap_channel := 1; ap_authmode := 0; max_connection := 3 |}.

(** An environment in which every call succeeds; the radio is in APSTA
    mode with DHCP running and has found no access point. *)
Definition env_ok : environment :=
  {| env_status := fun _ _ => ESP_OK;
     env_take := fun _ => true;
     env_timer := fun _ => true;
     env_calloc := fun _ => true;
     env_tick := fun l => Z.of_nat (length l);
     env_mode := fun _ => WIFI_MODE_APSTA;
     env_ap_config := fun _ => default_ap;
     env_sta_config := fun _ => home_sta;
     env_dhcpc_status := fun _ => TCPIP_ADAPTER_DHCP_STARTED;
     env_dns_info := fun _ _ => zero_dns;
     env_ap_num := fun _ => 0;
     env_ap_records := fun _ => [] |}.

(** [env_ok] with another answer to the calls selected by [f]. *)
Definition env_failing (f : list event -> call -> bool) (r : esp_err_t) : environment :=
  {| env_status := fun l c => if f l c then r else ESP_OK;
     env_take := env_take env_ok;
     env_timer := env_timer env_ok;
     env_calloc := env_calloc env_ok;
     env_tick := env_tick env_ok;
     env_mode := env_mode env_ok;
     env_ap_config := env_ap_config env_ok;
     env_sta_config := env_sta_config env_ok;
     env_dhcpc_status := env_dhcpc_status env_ok;
     env_dns_info := env_dns_info env_ok;
     env_ap_num := env_ap_num env_ok;
     env_ap_records := env_ap_records env_ok |}.

(** A station configuration with DHCP, as a user would submit it. *)
Definition cfg_home : wifi_cfg :=
  {| is_default := false; mode := WIFI_MODE_APSTA; ap := default_ap;
     ap_ip_info := {| ip := 3232236545; netmask := 4294967040; gw := 3232236545 |};
     sta := home_sta; sta_static := false; sta_ip_info := zero_ip_info;
     sta_dns_info := repeat zero_dns TCPIP_ADAPTER_DNS_MAX;
     sta_connect := true |}.

(** The compiled-in defaults, as far as the statements need them. *)
Definition cfg_factory : wifi_cfg :=
  {| is_default := true; mode := WIFI_MODE_APSTA; ap := default_ap;
     ap_ip_info := {| ip := 3232236545; netmask := 4294967040; gw := 3232236545 |};
     sta := zero_sta; sta_static := false; sta_ip_info := zero_ip_info;
     sta_dns_info := repeat zero_dns TCPIP_ADAPTER_DNS_MAX;
     sta_connect := false |}.

(** A world in state [st] with the given configurations, event bits and
    namespace; no scan snapshot, empty log. *)
Definition world_of (st : wmngr_state) (s c n : wifi_cfg) (bits : Z)
    (store : gmap string nvs_entry) : world :=
  {| cfg_state := {| cfg_timestamp := 0; state := st; saved := s; current := c;
                     new := n; scan_timestamp := 0; scan_ref := None |};
     wifi_events := bits; nvs := store; heap := ∅; brk := 0; log := [] |}.

(** The field writes of [save_config], in order: the call, the key and the
    record it stores. *)
Definition field_writes (P : platform) (X : wifi_cfg) : list (call * string * nvs_entry) :=
  [ (c_nvs_set_u32 "mode" (mode_to_u32 (mode X)), "mode",
     nvs_u32 (mode_to_u32 (mode X)));
    (c_nvs_set_u32 "sta_static" (Z.b2z (sta_static X)), "sta_static",
     nvs_u32 (Z.b2z (sta_static X)));
    (c_nvs_set_u32 "sta_connect" (Z.b2z (sta_connect X)), "sta_connect",
     nvs_u32 (Z.b2z (sta_connect X)));
    (c_nvs_set_blob "ap" (sizeof_wifi_config_t P) (blob_ap (ap X)), "ap",
     nvs_blob_entry (sizeof_wifi_config_t P) (blob_ap (ap X)));
    (c_nvs_set_blob "sta" (sizeof_wifi_config_t P) (blob_sta (sta X)), "sta",
     nvs_blob_entry (sizeof_wifi_config_t P) (blob_sta (sta X)));
    (c_nvs_set_blob "ap_ip" (sizeof_ip_info_t P) (blob_ip_info (ap_ip_info X)), "ap_ip",
     nvs_blob_entry (sizeof_ip_info_t P) (blob_ip_info (ap_ip_info X)));
    (c_nvs_set_blob "sta_ip" (sizeof_ip_info_t P) (blob_ip_info (sta_ip_info X)), "sta_ip",
     nvs_blob_entry (sizeof_ip_info_t P) (blob_ip_info (sta_ip_info X)));
    (c_nvs_set_blob "sta_dns" (sizeof_dns_info P) (blob_dns_info (sta_dns_info X)), "sta_dns",
     nvs_blob_entry (sizeof_dns_info P) (blob_dns_info (sta_dns_info X))) ].

(** One write to NVS: the common shape of [nvs_set_u32] and
    [nvs_set_blob]. *)
Definition nvs_write (E : environment) (x : call * string * nvs_entry) : M esp_err_t :=
  r <- call_env E (fst (fst x)) ;;
  (if is_ok r then modify (fun w => with_nvs (<[snd (fst x) := snd x]> (nvs w)) w)
   else ret tt) ;;
  ret r.

(** Writes in sequence, stopping at the first that fails. *)
Fixpoint write_chain (E : environment) (ws : list (call * string * nvs_entry)) : M esp_err_t :=
  match ws with
  | [] => ret ESP_OK
  | x :: ws' => and_then (nvs_write E x) (write_chain E ws')
  end.

(** An event of a call that answered [ESP_OK]. *)
Definition ok_event (e : event) : Prop := exists c, e = ev_call c ESP_OK.

(** Some field write of the run from [w] to [w'] failed. *)
Definition field_write_failed (w w' : world) : Prop :=
  exists c r, is_field_write c = true /\ r <> ESP_OK /\
              ev_call c r ∈ new_events w w'.

(** An environment whose NVS refuses to write the blob ["sta"]. *)
Definition env_sta_write_fails : environment :=
  env_failing
    (fun _ c => match c with
                | c_nvs_set_blob k _ _ => String.eqb k "sta"
                | _ => false
                end)
    ESP_FAIL.

(** The configuration-changing public operations. *)
Inductive config_op :=
| op_set_cfg (X : wifi_cfg)
| op_start_wps
| op_connect (local : wifi_cfg)
| op_disconnect (local : wifi_cfg).

Definition run_config_op (P : platform) (E : environment) (o : config_op) : M esp_err_t :=
  match o with
  | op_set_cfg X => esp_wmngr_set_cfg P E X
  | op_start_wps => esp_wmngr_start_wps P E
  | op_connect local => esp_wmngr_connect P E local
  | op_disconnect local => esp_wmngr_disconnect P E local
  end.

(** The world after the events [evs], nothing else having changed. *)
Definition only_logged (evs : list event) (w : world) : world :=
  with_log (log w ++ evs) w.

(** An event that is a call into the environment with a status. *)
Definition is_call_event (e : event) : Prop :=
  match e with ev_call _ _ => True | _ => False end.

(** A computation whose only effect on the world is to log calls. *)
Definition calls_only {A} (m : M A) : Prop :=
  forall w, exists evs, snd (m w) = only_logged evs w /\ Forall is_call_event evs.

(** A computation that leaves the observation [f] of the world as it is. *)
Definition preserves {T A} (f : world -> T) (m : M A) : Prop :=
  forall w, f (snd (m w)) = f w.

(** The events a computation adds to the log when run in [w]. *)
Definition run_events {A} (m : M A) (w : world) : list event :=
  new_events w (snd (m w)).

(** What [esp_wmngr_set_cfg] compares the request with: the snapshot [s] of
    the radio configuration, its station section zeroed unless the station
    is connected. *)
Definition fallback_of_snapshot (bits : Z) (s : wifi_cfg) : wifi_cfg :=
  if test_bits bits BIT_STA_CONNECTED then s else set_sta zero_sta s.

(** The statement "a request that does not differ from the snapshot of the
    radio configuration changes neither the state nor the wake-up, but does
    overwrite [saved] and [new]", the request being compared with a
    configuration [reference] derived from the snapshot. *)
Definition set_cfg_unchanged_statement (P : platform) (E : environment)
    (reference : Z -> wifi_cfg -> wifi_cfg) (X : wifi_cfg) (w : world) : Prop :=
  state_gt_idle (state (cfg_state w)) = false ->
  env_take E (log w) = true ->
  let snap := get_wifi_cfg E (only_logged [ev_take (CFG_DELAY P) true] w) in
  fst (fst snap) = ESP_OK ->
  let s := snd (fst snap) in
  mode X = mode (reference (wifi_events w) s) ->
  (ap_bearing (mode X) = true -> ap X = ap (reference (wifi_events w) s)) ->
  (sta_bearing (mode X) = true -> sta X = sta (reference (wifi_events w) s)) ->
  let res := esp_wmngr_set_cfg P E X w in
  fst res = ESP_OK /\
  state (cfg_state (snd res)) = state (cfg_state w) /\
  (forall period ok, ev_timer period ok ∉ new_events w (snd res)) /\
  saved (cfg_state (snd res)) = fallback_of_snapshot (wifi_events w) s /\
  new (cfg_state (snd res)) = set_is_default false X.

(** An event that is neither an assignment to [cfg_state.state] nor a
    change of the wake-up. *)
Definition is_quiet_event (e : event) : Prop :=
  match e with ev_state _ | ev_timer _ _ => False | _ => True end.

(** A computation that only adds quiet events to the log. *)
Definition quiet {A} (m : M A) : Prop :=
  forall w, exists evs, log (snd (m w)) = (log w ++ evs)%list /\ Forall is_quiet_event evs.

(** The part of [cfg_state] the scan pipeline never writes. *)
Definition cfg_core (w : world) : Z * wmngr_state * wifi_cfg * wifi_cfg * wifi_cfg :=
  (cfg_timestamp (cfg_state w), state (cfg_state w), saved (cfg_state w),
   current (cfg_state w), new (cfg_state w)).

(** [cfg_state] after [set_wifi_cfg(p)]: [current] is a copy of [*p] as it
    was at the call, and in an AP-bearing mode [p->ap.ap.max_connection]
    is [MAX_AP_CLIENTS]. *)
Definition cfg_state_after_apply (p : cfg_slot) (cs : wifi_cfg_state) : wifi_cfg_state :=
  let cs1 := cs_set_current (slot_get p cs) cs in
  if ap_bearing (mode (slot_get p cs))
  then slot_set p (set_ap (set_max_connection MAX_AP_CLIENTS (ap (slot_get p cs1)))
                     (slot_get p cs1)) cs1
  else cs1.

(** The world in which [handle_wifi] dispatches on the state: the lock is
    held and the radio mode has been read. *)
Definition dispatch_world (w : world) : world :=
  only_logged [ev_take 0 true; ev_call c_esp_wifi_get_mode ESP_OK] w.

(** The tick [handle_wifi] reads as [now]. *)
Definition step_now (E : environment) (w : world) : Z :=
  env_tick E (log w ++ [ev_take 0 true]).

(** [handle_wifi] reaches its [switch]: it gets the lock and the radio
    answers the mode query. *)
Definition dispatches (E : environment) (w : world) : Prop :=
  env_take E (log w) = true /\
  env_status E (log w ++ [ev_take 0 true]) c_esp_wifi_get_mode = ESP_OK.

(** The timer accepts every change of period. *)
Definition timer_reliable (E : environment) : Prop :=
  forall l, env_timer E l = true.

(** The statement "start-scan, invoked in a stable state, leaves the
    [scan_start] flag cleared when it returns". *)
Definition scan_start_flag_cleared_statement (E : environment) (w : world) : Prop :=
  state_le_idle (state (cfg_state w)) = true ->
  test_bits (wifi_events (snd (wifi_scan_start E w))) BIT_SCAN_START = false.

(** The radio mode permits scanning. *)
Definition scan_mode (m : wifi_mode_t) : bool :=
  bool_decide (m = WIFI_MODE_APSTA) || bool_decide (m = WIFI_MODE_STA).

(** The effect of a logged call on the NVS namespace. *)
Definition nvs_apply (c : call) (r : esp_err_t) (store : gmap string nvs_entry)
  : gmap string nvs_entry :=
  if is_ok r then
    match c with
    | c_nvs_erase_all => ∅
    | c_nvs_set_u32 key v => <[key := nvs_u32 v]> store
    | c_nvs_set_blob key len b => <[key := nvs_blob_entry len b]> store
    | _ => store
    end
  else store.

(** What a reader of [esp_wmngr_get_state] can see: for every assignment to
    the state in the events [evs], the state assigned and the contents of
    the namespace at that moment, [store] being its contents before [evs]. *)
Fixpoint observations (store : gmap string nvs_entry) (evs : list event)
  : list (wmngr_state * gmap string nvs_entry) :=
  match evs with
  | [] => []
  | ev_state s :: evs' => (s, store) :: observations store evs'
  | ev_call c r :: evs' => observations (nvs_apply c r store) evs'
  | _ :: evs' => observations store evs'
  end.

(** What happens to the device after a request: steps of the state machine
    and events from the radio. *)
Inductive activity :=
| act_step
| act_event (e : esp_event).

Fixpoint run_script (P : platform) (E : environment) (script : list activity) : M unit :=
  match script with
  | [] => ret tt
  | act_step :: script' => handle_wifi P E ;; run_script P E script'
  | act_event e :: script' => event_handler P E e ;; run_script P E script'
  end.

(** The statement "after [esp_wmngr_set_cfg(X)] returned [ESP_OK], whenever
    the state becomes [connected] the persisted configuration already
    equals [X]", for the execution in which the request is made in [w] and
    followed by [script]. *)
Definition persisted_before_connected_statement (P : platform) (E : environment)
    (X : wifi_cfg) (script : list activity) (w : world) : Prop :=
  let w1 := snd (esp_wmngr_set_cfg P E X w) in
  let w2 := snd (run_script P E script w1) in
  fst (esp_wmngr_set_cfg P E X w) = ESP_OK ->
  forall store,
    (wmngr_state_connected, store) ∈ observations (nvs w1) (new_events w1 w2) ->
    store = stored P X.

(** ** The scan snapshots and their readers *)





(** The number of references to the snapshot at [a]: one per reader that
    holds it, and one if it is the current snapshot [scan_ref]. *)
Definition rc_of (held : list nat) (current : option nat) (a : nat) : Z :=
  Z.of_nat (count_occ Nat.eq_dec held a)
  + (if bool_decide (current = Some a) then 1 else 0).








(** Partial-correctness triples over the world; every computation of the
    model terminates. *)
Definition hoare {A} (pre : world -> Prop) (m : M A) (post : A -> world -> Prop) : Prop :=
  forall w, pre w -> post (fst (m w)) (snd (m w)).








(** [env_ok] with a radio that has found two access points. *)
Definition env_scanning : environment :=
  {| env_status := env_status env_ok;
     env_take := env_take env_ok;
     env_timer := env_timer env_ok;
     env_calloc := env_calloc env_ok;
     env_tick := env_tick env_ok;
     env_mode := env_mode env_ok;
     env_ap_config := env_ap_config env_ok;
     env_sta_config := env_sta_config env_ok;
     env_dhcpc_status := env_dhcpc_status env_ok;
     env_dns_info := env_dns_info env_ok;
     env_ap_num := fun _ => 2;
     env_ap_records := fun _ =>
       [ {| rec_ssid := "home"; rec_rssi := -40 |};
         {| rec_ssid := "guest"; rec_rssi := -71 |} ] |}.

(** ** The calls by which a configuration is applied to the radio *)

(** The calls that set the DNS servers of a static station configuration,
    from index [idx]: one for every entry whose address is not the
    any-address. *)
Fixpoint dns_calls (idx : nat) (l : list tcpip_adapter_dns_info_t) : list call :=
  match l with
  | [] => []
  | d :: l' =>
      (if dns_ip d =? 0 then [] else [c_tcpip_adapter_set_dns_info idx d])
      ++ dns_calls (S idx) l'
  end.

(** The calls that apply [cfg] to the radio, in order: the radio is reset
    and put in the mode of [cfg]; an AP-bearing mode sets the AP section,
    its client limit being [MAX_AP_CLIENTS]; a STA-bearing mode sets the STA
    section and then stops the DHCP client and sets the DNS servers of a
    static configuration, or starts the DHCP client; the radio is started,
    and told to connect when [cfg] asks for it in a STA-bearing mode. *)
Definition apply_calls (cfg : wifi_cfg) : list call :=
  [c_esp_wifi_restore; c_esp_wifi_set_mode (mode cfg)]
  ++ (if ap_bearing (mode cfg)
      then [c_esp_wifi_set_config_ap (set_max_connection MAX_AP_CLIENTS (ap cfg))]
      else [])
  ++ (if sta_bearing (mode cfg)
      then c_esp_wifi_set_config_sta (sta cfg)
           :: (if sta_static cfg
               then c_tcpip_adapter_dhcpc_stop :: dns_calls 0 (sta_dns_info cfg)
               else [c_tcpip_adapter_dhcpc_start])
      else [])
  ++ [c_esp_wifi_start]
  ++ (if sta_connect cfg && sta_bearing (mode cfg) then [c_esp_wifi_connect] else []).

(** The one failure that ends the sequence: a DNS server that cannot be
    set.  Every other call is followed by the next whatever it answers. *)
Definition ends_apply (c : call) (r : esp_err_t) : bool :=
  match c with
  | c_tcpip_adapter_set_dns_info _ _ => negb (is_ok r)
  | _ => false
  end.

(** The events of the calls [cs] made one after the other from the log
    [l], each with the answer of the environment at that moment, up to the
    call that ends the sequence. *)
Fixpoint answered (E : environment) (l : list event) (cs : list call) : list event :=
  match cs with
  | [] => []
  | c :: cs' =>
      let r := env_status E l c in
      ev_call c r :: (if ends_apply c r then [] else answered E (l ++ [ev_call c r]) cs')
  end.

(** The events of applying [cfg] to the radio from the log [l]. *)
Definition apply_events (E : environment) (l : list event) (cfg : wifi_cfg) : list event :=
  answered E l (apply_calls cfg).

(** The status of the last call of [evs]. *)
Definition last_status (evs : list event) : esp_err_t :=
  match last evs with
  | Some (ev_call _ r) => r
  | _ => ESP_OK
  end.

(** Every call of [evs] answered [ESP_OK]. *)
Definition all_ok (evs : list event) : bool :=
  forallb (fun e => match e with ev_call _ r => is_ok r | _ => true end) evs.

(** The timer refused a change of period among the events [evs]. *)
Definition timer_refusal (evs : list event) : bool :=
  existsb (fun e => match e with ev_timer _ false => true | _ => false end) evs.

(** ** Further environments *)

(** [env_ok] with the lock held by somebody else for longer than anyone
    waits. *)
Definition env_lock_busy : environment :=
  {| env_status := env_status env_ok;
     env_take := fun _ => false;
     env_timer := env_timer env_ok;
     env_calloc := env_calloc env_ok;
     env_tick := env_tick env_ok;
     env_mode := env_mode env_ok;
     env_ap_config := env_ap_config env_ok;
     env_sta_config := env_sta_config env_ok;
     env_dhcpc_status := env_dhcpc_status env_ok;
     env_dns_info := env_dns_info env_ok;
     env_ap_num := env_ap_num env_ok;
     env_ap_records := env_ap_records env_ok |}.


(** A radio that does not answer [esp_wifi_get_mode]. *)
Definition env_mode_unread : environment :=
  env_failing
    (fun _ c => match c with c_esp_wifi_get_mode => true | _ => false end)
    ESP_FAIL.


(** A call answered with an error. *)
Definition is_failure (e : event) : bool :=
  match e with ev_call _ r => negb (is_ok r) | _ => false end.

(** A flash that breaks down while the blob ["sta"] is written: that write
    and every call to NVS after it fail. *)
Definition env_flash_breaks : environment :=
  env_failing
    (fun l c =>
       is_nvs_call c &&
       (existsb is_failure l
        || match c with
           | c_nvs_set_blob k _ _ => String.eqb k "sta"
           | _ => false
           end))
    ESP_FAIL.

(** ** The claims that fail as they are stated *)

(** The statement "a step in state [fallback] disconnects, applies [saved]
    to the radio, so that [current] holds the contents of [saved], and sets
    the state to [failed]". *)
Definition fallback_step_statement (P : platform) (E : environment) (w : world) : Prop :=
  state (cfg_state w) = wmngr_state_fallback ->
  let w' := snd (handle_wifi P E w) in
  (exists r, ev_call c_esp_wifi_disconnect r ∈ new_events w w') /\
  (exists pre post,
     new_events w w' =
       (pre ++ apply_events E (log w ++ pre) (saved (cfg_state w)) ++ post)%list) /\
  current (cfg_state w') = saved (cfg_state w) /\
  state (cfg_state w') = wmngr_state_failed.


(** The statement "while [state > idle], a configuration-changing public
    operation returns [ESP_ERR_INVALID_STATE], enqueues no transition and
    does not modify the configuration state". *)
Definition busy_rejection_statement (P : platform) (E : environment)
    (o : config_op) (w : world) : Prop :=
  state_gt_idle (state (cfg_state w)) = true ->
  fst (run_config_op P E o w) = ESP_ERR_INVALID_STATE /\
  cfg_state (snd (run_config_op P E o w)) = cfg_state w /\
  (forall period ok, ev_timer period ok ∉ new_events w (snd (run_config_op P E o w))).

(** The statement "while [state > idle], [esp_wmngr_get_cfg] returns
    [ESP_ERR_INVALID_STATE] and leaves the caller's buffer unmodified". *)
Definition get_cfg_busy_statement (P : platform) (E : environment)
    (out : wifi_cfg) (w : world) : Prop :=
  state_gt_idle (state (cfg_state w)) = true ->
  fst (esp_wmngr_get_cfg P E out w) = (ESP_ERR_INVALID_STATE, out).

(** * Further vocabulary: the rest of the state machine and of the API *)

(** The FreeRTOS tick is short enough for [CFG_DELAY] (and so [CFG_TICKS]
    and [CFG_TIMEOUT]) to be at least one tick. *)
Definition ticks_ok (P : platform) : Prop :=
  0 < portTICK_PERIOD_MS P <= 100.

(** The world with [cfg_state.state] set to [s]. *)
Definition with_state (s : wmngr_state) (w : world) : world :=
  with_cfg_state (cs_set_state s (cfg_state w)) w.

(** ** The rest of wifi_manager.c *)

Section ModelRest.

Variable P : platform.
Variable E : environment.

(** [handle_timer(timer)], the callback of [config_timer]. *)
Definition handle_timer : M unit :=
  if CONFIG_WMNGR_TASK P then
    xTimerChangePeriod E (CFG_TICKS P) ;;
    xEventGroupSetBits BIT_TRIGGER
  else handle_wifi P E.

(** One round of the loop of [esp_wmngr_task], from the moment
    [xEventGroupWaitBits] returns. *)
Definition esp_wmngr_task_round : M unit :=
  xEventGroupClearBits BIT_TRIGGER ;;
  handle_wifi P E.

(** [esp_wmngr_is_connected()] *)
Definition esp_wmngr_is_connected : M bool := sta_connected.

End ModelRest.

(** ** The entry points of the component *)

(** Everything that runs code of the component: the timer callback, a
    round of the task, an event from the event loop, and the public
    operations. *)
Inductive entry :=
| en_timer
| en_task_round
| en_event (e : esp_event)
| en_set_cfg (X : wifi_cfg)
| en_get_cfg (out : wifi_cfg)
| en_start_wps
| en_connect (local : wifi_cfg)
| en_disconnect (local : wifi_cfg)
| en_start_scan
| en_get_scan
| en_put_scan (a : nat)
| en_get_state
| en_is_connected
| en_nvs_valid.

Definition run_entry (P : platform) (E : environment) (en : entry) : M unit :=
  match en with
  | en_timer => handle_timer P E
  | en_task_round => esp_wmngr_task_round P E
  | en_event e => event_handler P E e
  | en_set_cfg X => esp_wmngr_set_cfg P E X ;; ret tt
  | en_get_cfg out => esp_wmngr_get_cfg P E out ;; ret tt
  | en_start_wps => esp_wmngr_start_wps P E ;; ret tt
  | en_connect local => esp_wmngr_connect P E local ;; ret tt
  | en_disconnect local => esp_wmngr_disconnect P E local ;; ret tt
  | en_start_scan => esp_wmngr_start_scan P E ;; ret tt
  | en_get_scan => esp_wmngr_get_scan P E ;; ret tt
  | en_put_scan a => esp_wmngr_put_scan a
  | en_get_state => esp_wmngr_get_state ;; ret tt
  | en_is_connected => esp_wmngr_is_connected ;; ret tt
  | en_nvs_valid => esp_wmngr_nvs_valid P E ;; ret tt
  end.

(** ** The use of the lock *)

(** A pass over the events of the component, keeping whether it holds the
    lock and whether the event before was a change of the timer that the
    timer refused.  The pass fails ([None]) when the lock is taken while
    held or given while not held, and when [cfg_state.state] is assigned
    while the lock is not held, unless the assignment is [failed] and comes
    right after a refused change of the timer. *)
Fixpoint audit (held refused : bool) (evs : list event) : option (bool * bool) :=
  match evs with
  | [] => Some (held, refused)
  | ev_take _ ok :: evs' =>
      if ok then (if held then None else audit true false evs')
      else audit held false evs'
  | ev_give :: evs' => if held then audit false false evs' else None
  | ev_timer _ ok :: evs' => audit held (negb ok) evs'
  | ev_state s :: evs' =>
      if held || (refused && bool_decide (s = wmngr_state_failed))
      then audit held false evs'
      else None
  | _ :: evs' => audit held false evs'
  end.

(** The events logged since the log had [n] entries pass the [audit], the
    lock being held or not according to [held] at the end. *)
Definition audited (n : nat) (held refused : bool) (w : world) : Prop :=
  audit false false (drop n (log w)) = Some (held, refused) /\
  (n <= length (log w))%nat.

Definition audited_any (n : nat) (held : bool) (w : world) : Prop :=
  exists refused, audited n held refused w.

(** An event that is neither about the lock nor an assignment to the
    state. *)
Definition plain_event (e : event) : Prop :=
  match e with
  | ev_take _ _ | ev_give | ev_state _ => False
  | _ => True
  end.


(** [cfg_state.state] is one of the eight states for which the [switch]
    of [handle_wifi] has a transition of its own or is at rest. *)
Definition state_in_use (w : world) : Prop :=
  state (cfg_state w) <> wmngr_state_disconnecting /\
  state (cfg_state w) <> wmngr_state_max.

(** The persistent store holds [s]. *)
Definition store_is (s : gmap string nvs_entry) (w : world) : Prop :=
  nvs w = s.

(** The entry points that run a step of the state machine. *)
Definition is_step_entry (en : entry) : bool :=
  match en with
  | en_timer | en_task_round => true
  | _ => false
  end.

(** ** Stored configurations *)

Definition has_u32 (s : gmap string nvs_entry) (key : string) : Prop :=
  exists v, s !! key = Some (nvs_u32 v).

Definition has_blob (s : gmap string nvs_entry) (key : string) (size : Z) : Prop :=
  exists b, s !! key = Some (nvs_blob_entry size b).

(** The namespace holds a record of the right kind under each of the eight
    keys, the blobs with exactly the size of their types in this build. *)
Definition complete_store (P : platform) (s : gmap string nvs_entry) : Prop :=
  has_u32 s "mode" /\ has_u32 s "sta_static" /\ has_u32 s "sta_connect" /\
  has_blob s "ap" (sizeof_wifi_config_t P) /\
  has_blob s "sta" (sizeof_wifi_config_t P) /\
  has_blob s "ap_ip" (sizeof_ip_info_t P) /\
  has_blob s "sta_ip" (sizeof_ip_info_t P) /\
  has_blob s "sta_dns" (sizeof_dns_info P).

(** ** The use of the NVS handle *)

(** A pass over the events, keeping whether the component has an NVS
    handle open.  The pass fails when a handle is opened while one is open,
    when [nvs_close] is called with no handle open, and when any other NVS
    call is made with no handle open. *)
Fixpoint handle_audit (opened : bool) (evs : list event) : option bool :=
  match evs with
  | [] => Some opened
  | ev_call (c_nvs_open _) r :: evs' =>
      if opened then None else handle_audit (is_ok r) evs'
  | ev_nvs_close :: evs' =>
      if opened then handle_audit false evs' else None
  | ev_call c _ :: evs' =>
      if is_nvs_call c && negb opened then None else handle_audit opened evs'
  | _ :: evs' => handle_audit opened evs'
  end.

Definition handle_audited (n : nat) (opened : bool) (w : world) : Prop :=
  handle_audit false (drop n (log w)) = Some opened /\
  (n <= length (log w))%nat.

(** ** Events and the event bits *)

(** The event bits after [event_handler] has recorded the event [e], from
    the bits [x]; the wake-up is not counted. *)
Definition bits_after_event (e : esp_event) (x : Z) : Z :=
  match e with
  | WIFI_EVENT_SCAN_DONE status_ok =>
      Z.ldiff (if status_ok then Z.lor x BIT_SCAN_DONE else x) BIT_SCAN_START
  | WIFI_EVENT_STA_START => Z.lor x BIT_STA_START
  | WIFI_EVENT_STA_STOP => Z.ldiff x BIT_STA_START
  | WIFI_EVENT_STA_CONNECTED => Z.lor x BIT_STA_CONNECTED
  | WIFI_EVENT_STA_DISCONNECTED => Z.ldiff x BIT_STA_CONNECTED
  | WIFI_EVENT_AP_START => Z.lor x BIT_AP_START
  | WIFI_EVENT_AP_STOP => Z.ldiff x BIT_AP_START
  | WIFI_EVENT_STA_WPS_ER_SUCCESS => Z.lor x BIT_WPS_SUCCESS
  | WIFI_EVENT_STA_WPS_ER_FAILED
  | WIFI_EVENT_STA_WPS_ER_TIMEOUT
  | WIFI_EVENT_STA_WPS_ER_PIN => Z.lor x BIT_WPS_FAILED
  | IP_EVENT_STA_GOT_IP => Z.lor x BIT_STA_GOT_IP
  | IP_EVENT_STA_LOST_IP => Z.ldiff x BIT_STA_GOT_IP
  | WIFI_EVENT_other | IP_EVENT_other | OTHER_BASE_event => x
  end.

(** Calls of entry points, one after the other. *)
Fixpoint run_entries (P : platform) (E : environment) (ens : list entry) : M unit :=
  match ens with
  | [] => ret tt
  | en :: ens' => run_entry P E en ;; run_entries P E ens'
  end.

(** Whether the station is connected according to the events among [ens],
    [c] being the status before. *)
Fixpoint connected_after (ens : list entry) (c : bool) : bool :=
  match ens with
  | [] => c
  | en_event WIFI_EVENT_STA_CONNECTED :: ens' => connected_after ens' true
  | en_event WIFI_EVENT_STA_DISCONNECTED :: ens' => connected_after ens' false
  | _ :: ens' => connected_after ens' c
  end.

(** The station is connected, or not, according to [c]. *)
Definition station_is (c : bool) (w : world) : Prop :=
  test_bits (wifi_events w) BIT_STA_CONNECTED = c.

(** ** The size of snapshots *)

(** A snapshot with at most [MAX_NUM_APS] records, by its counter and by
    the array it holds. *)
Definition snapshot_bounded (c : scan_data_ref) : Prop :=
  num_records (data c) <= MAX_NUM_APS /\
  forall l, ap_records (data c) = Some l -> Z.of_nat (length l) <= MAX_NUM_APS.

Definition heap_bounded (w : world) : Prop :=
  forall a c, heap w !! a = Some c -> snapshot_bounded c.

(** ** Environments that cooperate *)

(** Every call succeeds, the lock is free, the timer accepts every period
    and memory is never short. *)
Definition cooperative (E : environment) : Prop :=
  (forall l c, env_status E l c = ESP_OK) /\
  (forall l, env_take E l = true) /\
  (forall l, env_timer E l = true) /\
  (forall l, env_calloc E l = true).

(** The snapshot [wifi_scan_done] publishes when the driver reports [n]
    access points and hands over the records [recs] at the tick [now]. *)
Definition snapshot_of (now n : Z) (recs : list wifi_ap_record_t) (cnt : Z)
  : scan_data_ref :=
  let kept := take (Z.to_nat (Z.min n MAX_NUM_APS)) recs in
  {| ref_cnt := {| count := cnt |}; status := 0;
     data := {| tstamp := now; ap_records := Some kept;
                num_records := Z.of_nat (length kept) |} |}.

(** The world in [wifi_scan_done] once the new snapshot is stored in
    [scan_ref], everything having succeeded: the snapshot has two
    references, that of [scan_ref] and that of the function itself. *)
Definition collected (E : environment) (w : world) : world :=
  let l := (log w ++ [ev_call c_esp_wifi_scan_get_ap_num ESP_OK; ev_alloc true;
                      ev_alloc true])%list in
  {| cfg_state := cs_set_scan_ref (Some (brk w)) (cfg_state w);
     wifi_events := Z.ldiff (wifi_events w) (Z.lor BIT_SCAN_RUNNING BIT_SCAN_DONE);
     nvs := nvs w;
     heap := <[brk w := snapshot_of (env_tick E l) (env_ap_num E (log w))
                          (env_ap_records E l) 2]> (heap w);
     brk := S (brk w);
     log := l ++ [ev_call (c_esp_wifi_scan_get_ap_records
                             (Z.min (env_ap_num E (log w)) MAX_NUM_APS)) ESP_OK] |}.

(** ** A scan from request to result *)

(** The state machine has nothing to do for the configuration: the state is
    stable, and the station is connected if the state is [connected]. *)
Definition at_rest (w : world) : Prop :=
  state_le_idle (state (cfg_state w)) = true /\
  (state (cfg_state w) = wmngr_state_connected ->
   test_bits (wifi_events w) BIT_STA_CONNECTED = true).

(** One run of [handle_wifi] as the build has it: a round of the task, or
    the timer callback. *)
Definition wake (P : platform) : entry :=
  if CONFIG_WMNGR_TASK P then en_task_round else en_timer.

(** An environment like [env_scanning] in which memory is short. *)
Definition env_no_memory : environment :=
  {| env_status := env_status env_scanning;
     env_take := env_take env_scanning;
     env_timer := env_timer env_scanning;
     env_calloc := fun _ => false;
     env_tick := env_tick env_scanning;
     env_mode := env_mode env_scanning;
     env_ap_config := env_ap_config env_scanning;
     env_sta_config := env_sta_config env_scanning;
     env_dhcpc_status := env_dhcpc_status env_scanning;
     env_dns_info := env_dns_info env_scanning;
     env_ap_num := env_ap_num env_scanning;
     env_ap_records := env_ap_records env_scanning |}.

(** The flags [scan_start], [scan_running] and [scan_done]. *)
Definition scan_flags (w : world) : bool * bool * bool :=
  (test_bits (wifi_events w) BIT_SCAN_START,
   test_bits (wifi_events w) BIT_SCAN_RUNNING,
   test_bits (wifi_events w) BIT_SCAN_DONE).

(** ** The other tick comparisons of kutils.h *)

(** [time_before(a, b)]: [time_after(b, a)] *)
Definition time_before (a b : Z) : bool := time_after b a.

(** [time_after_eq(a, b)]: [(long)((a) - (b)) >= 0] *)
Definition time_after_eq (a b : Z) : bool := (a - b) mod 2 ^ 32 <? 2 ^ 31.

(** [time_before_eq(a, b)]: [time_after_eq(b, a)] *)
Definition time_before_eq (a b : Z) : bool := time_after_eq b a.

(** [time_in_range(a, b, c)] *)
Definition time_in_range (a b c : Z) : bool :=
  time_after_eq a b && time_before_eq a c.

(** [time_in_range_open(a, b, c)] *)
Definition time_in_range_open (a b c : Z) : bool :=
  time_after_eq a b && time_before a c.

(** ** Initialisation (esp_wmngr_init, set_defaults) *)

(** The defaults of the build (Kconfig) and lwIP's parser of dotted
    addresses: [ip4addr_aton] gives the address, or [None] where the C
    function returns [0]. *)
Record build_defaults := {
  CONFIG_WMNGR_AP_IP : string;
  CONFIG_WMNGR_AP_MASK : string;
  CONFIG_WMNGR_AP_GW : string;
  CONFIG_WMNGR_AP_SSID : string;
  ip4addr_aton : string -> option Z
}.

(** [IP4_ADDR(&addr, a, b, c, d)]: the address in network byte order, on
    the little-endian ESP32. *)
Definition IP4_ADDR (a b c d : Z) : Z :=
  a + b * 2 ^ 8 + c * 2 ^ 16 + d * 2 ^ 24.

(** [sizeof(cfg->ap.ap.ssid)] *)
Definition sizeof_ssid : Z := 32.

Definition strlen (s : string) : Z := Z.of_nat (String.length s).

(** [set_defaults(cfg)]: the contents of [*cfg] on return. *)
Definition set_defaults (D : build_defaults) : wifi_cfg :=
  (* memset(cfg, 0x0, sizeof( *cfg)) *)
  let cfg := zero_cfg in
  let cfg := set_is_default true cfg in
  let cfg := set_mode WIFI_MODE_APSTA cfg in
  let addr (conf : string) (a b c d : Z) : Z :=
    match ip4addr_aton D conf with
    | Some v => v
    | None => IP4_ADDR a b c d
    end in
  let cfg := set_ap_ip_info
               {| ip := addr (CONFIG_WMNGR_AP_IP D) 192 168 4 1;
                  netmask := addr (CONFIG_WMNGR_AP_MASK D) 255 255 255 0;
                  gw := addr (CONFIG_WMNGR_AP_GW D) 192 168 4 1 |} cfg in
  let len := strlen (CONFIG_WMNGR_AP_SSID D) in
  if (len >? 0) && (len <=? sizeof_ssid) then
    set_ap {| ap_ssid := CONFIG_WMNGR_AP_SSID D; ap_password := ap_password (ap cfg);
              ssid_len := len; ap_channel := ap_channel (ap cfg);
              ap_authmode := ap_authmode (ap cfg);
              max_connection := max_connection (ap cfg) |} cfg
  else
    let len := Z.min (strlen "ESP WiFi Manager") sizeof_ssid in
    set_ap {| ap_ssid := "ESP WiFi Manager"; ap_password := ap_password (ap cfg);
              ssid_len := len; ap_channel := ap_channel (ap cfg);
              ap_authmode := ap_authmode (ap cfg);
              max_connection := max_connection (ap cfg) |} cfg.

Inductive esp_event_base_t := WIFI_EVENT | IP_EVENT.

(** What FreeRTOS, the event loop and the radio driver answer to
    [esp_wmngr_init]: whether a handle was created, and the status of the
    calls. *)
Record init_answers := {
  ans_xEventGroupCreate : bool;
  ans_xSemaphoreCreateMutex : bool;
  ans_esp_event_handler_register : esp_event_base_t -> esp_err_t;
  ans_esp_wifi_init : esp_err_t;
  ans_esp_wifi_set_storage : esp_err_t;
  ans_xTimerCreate : bool;
  ans_xTimerStart : bool;
  ans_xTaskCreate : bool
}.

(** [config_timer] when it is not [NULL]. *)
Record timer_t := {
  tm_period : Z;
  tm_auto_reload : bool;
  tm_started : bool
}.

(** The handles of the component ([true]: not [NULL]) and what it has set
    up outside of itself. *)
Record resources := {
  res_wifi_events : bool;
  res_lock : bool;
  res_config_timer : option timer_t;
  res_handlers : list esp_event_base_t;
  res_tcpip_adapter : bool;
  res_wifi_driver : bool;
  res_task : bool
}.

Definition no_resources : resources :=
  {| res_wifi_events := false; res_lock := false; res_config_timer := None;
     res_handlers := []; res_tcpip_adapter := false; res_wifi_driver := false;
     res_task := false |}.

Definition set_res_wifi_events (b : bool) (r : resources) : resources :=
  {| res_wifi_events := b; res_lock := res_lock r;
     res_config_timer := res_config_timer r; res_handlers := res_handlers r;
     res_tcpip_adapter := res_tcpip_adapter r;
     res_wifi_driver := res_wifi_driver r; res_task := res_task r |}.

Definition set_res_lock (b : bool) (r : resources) : resources :=
  {| res_wifi_events := res_wifi_events r; res_lock := b;
     res_config_timer := res_config_timer r; res_handlers := res_handlers r;
     res_tcpip_adapter := res_tcpip_adapter r;
     res_wifi_driver := res_wifi_driver r; res_task := res_task r |}.

Definition set_res_config_timer (t : option timer_t) (r : resources) : resources :=
  {| res_wifi_events := res_wifi_events r; res_lock := res_lock r;
     res_config_timer := t; res_handlers := res_handlers r;
     res_tcpip_adapter := res_tcpip_adapter r;
     res_wifi_driver := res_wifi_driver r; res_task := res_task r |}.

Definition add_res_handler (b : esp_event_base_t) (r : resources) : resources :=
  {| res_wifi_events := res_wifi_events r; res_lock := res_lock r;
     res_config_timer := res_config_timer r;
     res_handlers := res_handlers r ++ [b];
     res_tcpip_adapter := res_tcpip_adapter r;
     res_wifi_driver := res_wifi_driver r; res_task := res_task r |}.

Definition set_res_tcpip_adapter (b : bool) (r : resources) : resources :=
  {| res_wifi_events := res_wifi_events r; res_lock := res_lock r;
     res_config_timer := res_config_timer r; res_handlers := res_handlers r;
     res_tcpip_adapter := b;
     res_wifi_driver := res_wifi_driver r; res_task := res_task r |}.

Definition set_res_wifi_driver (b : bool) (r : resources) : resources :=
  {| res_wifi_events := res_wifi_events r; res_lock := res_lock r;
     res_config_timer := res_config_timer r; res_handlers := res_handlers r;
     res_tcpip_adapter := res_tcpip_adapter r;
     res_wifi_driver := b; res_task := res_task r |}.

Definition set_res_task (b : bool) (r : resources) : resources :=
  {| res_wifi_events := res_wifi_events r; res_lock := res_lock r;
     res_config_timer := res_config_timer r; res_handlers := res_handlers r;
     res_tcpip_adapter := res_tcpip_adapter r;
     res_wifi_driver := res_wifi_driver r; res_task := b |}.

(** [memset(&cfg_state, 0x0, sizeof(cfg_state))] *)
Definition zero_cfg_state : wifi_cfg_state :=
  {| cfg_timestamp := 0; state := wmngr_state_failed; saved := zero_cfg;
     current := zero_cfg; new := zero_cfg; scan_timestamp := 0;
     scan_ref := None |}.

Section ModelInit.

Variable P : platform.
Variable E : environment.
Variable D : build_defaults.
Variable A : init_answers.

(** The part of [esp_wmngr_init] after the label [on_exit]. *)
Definition esp_wmngr_init_exit (result : esp_err_t) (r : resources)
  : M (esp_err_t * resources) :=
  if negb (is_ok result) then
    (* vEventGroupDelete, vSemaphoreDelete, xTimerDelete *)
    ret (result,
         set_res_config_timer None (set_res_lock false (set_res_wifi_events false r)))
  else ret (result, r).

(** [esp_wmngr_init()], called with all handles [NULL]: the result and
    the handles on return. *)
Definition esp_wmngr_init : M (esp_err_t * resources) :=
  let r := no_resources in
  modify (with_cfg_state zero_cfg_state) ;;
  set_state wmngr_state_idle ;;
  if negb (ans_xEventGroupCreate A) then esp_wmngr_init_exit ESP_ERR_NO_MEM r else
  let r := set_res_wifi_events true r in
  modify (with_wifi_events 0) ;;
  if negb (ans_xSemaphoreCreateMutex A) then esp_wmngr_init_exit ESP_ERR_NO_MEM r else
  let r := set_res_lock true r in
  let result := ans_esp_event_handler_register A WIFI_EVENT in
  if negb (is_ok result) then esp_wmngr_init_exit result r else
  let r := add_res_handler WIFI_EVENT r in
  let result := ans_esp_event_handler_register A IP_EVENT in
  if negb (is_ok result) then esp_wmngr_init_exit result r else
  let r := add_res_handler IP_EVENT r in
  modify_cs (cs_set_saved (set_defaults D)) ;;
  x <- get_saved_config P E ;;
  modify_cs (cs_set_new (snd x)) ;;
  (if negb (is_ok (fst x)) then modify_cs (cs_set_new (set_defaults D))
   else ret tt) ;;
  set_state wmngr_state_update ;;
  (* tcpip_adapter_init() *)
  let r := set_res_tcpip_adapter true r in
  let result := ans_esp_wifi_init A in
  if negb (is_ok result) then esp_wmngr_init_exit result r else
  let r := set_res_wifi_driver true r in
  let result := ans_esp_wifi_set_storage A in
  if negb (is_ok result) then esp_wmngr_init_exit result r else
  if negb (ans_xTimerCreate A) then esp_wmngr_init_exit ESP_ERR_NO_MEM r else
  let r := set_res_config_timer
             (Some {| tm_period := CFG_TICKS P;
                      tm_auto_reload := CONFIG_WMNGR_TASK P;
                      tm_started := false |}) r in
  if negb (ans_xTimerStart A) then esp_wmngr_init_exit ESP_ERR_NO_MEM r else
  let r := set_res_config_timer
             (Some {| tm_period := CFG_TICKS P;
                      tm_auto_reload := CONFIG_WMNGR_TASK P;
                      tm_started := true |}) r in
  if CONFIG_WMNGR_TASK P then
    if negb (ans_xTaskCreate A) then esp_wmngr_init_exit ESP_ERR_NO_MEM r
    else esp_wmngr_init_exit ESP_OK (set_res_task true r)
  else esp_wmngr_init_exit ESP_OK r.

End ModelInit.

(** Every answer to [esp_wmngr_init] is a success; the task counts only
    in the build that has one. *)
Definition init_answers_ok (P : platform) (A : init_answers) : bool :=
  ans_xEventGroupCreate A && ans_xSemaphoreCreateMutex A &&
  is_ok (ans_esp_event_handler_register A WIFI_EVENT) &&
  is_ok (ans_esp_event_handler_register A IP_EVENT) &&
  is_ok (ans_esp_wifi_init A) && is_ok (ans_esp_wifi_set_storage A) &&
  ans_xTimerCreate A && ans_xTimerStart A &&
  (negb (CONFIG_WMNGR_TASK P) || ans_xTaskCreate A).

(** Builds and answers for examples. *)
Definition defaults_esp : build_defaults :=
  {| CONFIG_WMNGR_AP_IP := "192.168.4.1"; CONFIG_WMNGR_AP_MASK := "255.255.255.0";
     CONFIG_WMNGR_AP_GW := "192.168.4.1"; CONFIG_WMNGR_AP_SSID := "ESP WiFi Manager";
     ip4addr_aton := fun _ => None |}.

Definition answers_ok : init_answers :=
  {| ans_xEventGroupCreate := true; ans_xSemaphoreCreateMutex := true;
     ans_esp_event_handler_register := fun _ => ESP_OK;
     ans_esp_wifi_init := ESP_OK; ans_esp_wifi_set_storage := ESP_OK;
     ans_xTimerCreate := true; ans_xTimerStart := true; ans_xTaskCreate := true |}.

Definition answers_no_timer : init_answers :=
  {| ans_xEventGroupCreate := true; ans_xSemaphoreCreateMutex := true;
     ans_esp_event_handler_register := fun _ => ESP_OK;
     ans_esp_wifi_init := ESP_OK; ans_esp_wifi_set_storage := ESP_OK;
     ans_xTimerCreate := false; ans_xTimerStart := true; ans_xTaskCreate := true |}.

(** ** Lists (klist.h) *)

(** [struct klist_head].  A pointer is an address, [NULL] is [0]; an entry
    of a list is identified with the address of its [klist_head] member
    ([klist_entry] is [container_of], a constant offset). *)
Record klist_head := {
  next : nat;
  prev : nat
}.

Definition NULL : nat := 0%nat.

(** Code on the memory that holds the list heads; [None] is an access to memory that is not
    allocated, and a loop that ran out of fuel. *)
Definition K (A : Type) : Type := gmap nat klist_head -> option (A * gmap nat klist_head).

Definition kret {A} (a : A) : K A := fun h => Some (a, h).

Definition kbind {A B} (m : K A) (k : A -> K B) : K B :=
  fun h => match m h with
           | Some (a, h') => k a h'
           | None => None
           end.

Notation "x <<- m ;; k" := (kbind m (fun x => k))
  (at level 100, m at next level, right associativity).
Notation "m ;;; k" := (kbind m (fun _ => k))
  (at level 100, right associativity).

(** [*p] *)
Definition kload (p : nat) : K klist_head :=
  fun h => match h !! p with
           | Some c => Some (c, h)
           | None => None
           end.

(** [p->next = v] *)
Definition kstore_next (p v : nat) : K unit :=
  fun h => match h !! p with
           | Some c => Some (tt, <[p := {| next := v; prev := prev c |}]> h)
           | None => None
           end.

(** [p->prev = v] *)
Definition kstore_prev (p v : nat) : K unit :=
  fun h => match h !! p with
           | Some c => Some (tt, <[p := {| next := next c; prev := v |}]> h)
           | None => None
           end.

Definition INIT_KLIST_HEAD (list : nat) : K unit :=
  kstore_next list list ;;;
  kstore_prev list list.

Definition klist_empty (head : nat) : K bool :=
  c <<- kload head ;;
  kret (bool_decide (next c = head)).

Definition klist_is_first (list head : nat) : K bool :=
  c <<- kload list ;;
  kret (bool_decide (prev c = head)).

Definition klist_is_last (list head : nat) : K bool :=
  c <<- kload list ;;
  kret (bool_decide (next c = head)).

Definition __klist_add (_new prev next : nat) : K unit :=
  kstore_prev next _new ;;;
  kstore_next _new next ;;;
  kstore_prev _new prev ;;;
  kstore_next prev _new.

Definition klist_add_tail (_new head : nat) : K unit :=
  c <<- kload head ;;
  __klist_add _new (prev c) head.

Definition __klist_del (prev next : nat) : K unit :=
  kstore_prev next prev ;;;
  kstore_next prev next.

Definition __klist_del_entry (entry : nat) : K unit :=
  c <<- kload entry ;;
  __klist_del (prev c) (next c).

Definition klist_del (entry : nat) : K unit :=
  c <<- kload entry ;;
  __klist_del (prev c) (next c) ;;;
  kstore_next entry NULL ;;;
  kstore_prev entry NULL.

Definition klist_del_init (entry : nat) : K unit :=
  __klist_del_entry entry ;;;
  INIT_KLIST_HEAD entry.

(** [klist_first_entry_or_null(ptr, type, member)] *)
Definition klist_first_entry_or_null (ptr : nat) : K nat :=
  e <<- klist_empty ptr ;;
  if negb e then c <<- kload ptr ;; kret (next c) else kret NULL.

(** The loop of [klist_for_each_entry(pos, head, member)] from the entry
    [pos] on, with a body that leaves the list alone: the entries the body
    is run for, in order. *)
Fixpoint klist_for_each_from (fuel : nat) (pos head : nat) : K (list nat) :=
  match fuel with
  | O => fun _ => None
  | S fuel' =>
      if bool_decide (pos = head) then kret []
      else
        c <<- kload pos ;;
        rest <<- klist_for_each_from fuel' (next c) head ;;
        kret (pos :: rest)
  end.

Definition klist_for_each_entry (fuel : nat) (head : nat) : K (list nat) :=
  c <<- kload head ;;
  klist_for_each_from fuel (next c) head.

(** The loop of [klist_for_each_entry_safe(pos, n, head, member)] with
    [klist_del(&pos->member)] as its body: the entries deleted, in
    order. *)
Fixpoint klist_drain_from (fuel : nat) (pos n head : nat) : K (list nat) :=
  match fuel with
  | O => fun _ => None
  | S fuel' =>
      if bool_decide (pos = head) then kret []
      else
        klist_del pos ;;;
        c <<- kload n ;;
        rest <<- klist_drain_from fuel' n (next c) head ;;
        kret (pos :: rest)
  end.

Definition klist_drain (fuel : nat) (head : nat) : K (list nat) :=
  c <<- kload head ;;
  c' <<- kload (next c) ;;
  klist_drain_from fuel (next c) (next c') head.

(** [klist_add_tail] for each of [ns], in order. *)
Fixpoint klist_add_all (ns : list nat) (head : nat) : K unit :=
  match ns with
  | [] => kret tt
  | n :: ns' => klist_add_tail n head ;;; klist_add_all ns' head
  end.

(** *** The list a memory holds *)

Definition next_of (h : gmap nat klist_head) (p : nat) : option nat := next <$> h !! p.
Definition prev_of (h : gmap nat klist_head) (p : nat) : option nat := prev <$> h !! p.

(** From [a], the [next] pointers lead through [l] to [z]. *)
Fixpoint nchain (h : gmap nat klist_head) (a : nat) (l : list nat) (z : nat) : Prop :=
  match l with
  | [] => next_of h a = Some z
  | b :: l' => next_of h a = Some b /\ nchain h b l' z
  end.

(** From [z], the [prev] pointers lead back through [l] to [a]. *)
Fixpoint pchain (h : gmap nat klist_head) (a : nat) (l : list nat) (z : nat) : Prop :=
  match l with
  | [] => prev_of h z = Some a
  | b :: l' => prev_of h b = Some a /\ pchain h b l' z
  end.

(** The memory holds the list with head [head] and the entries [l], in
    order. *)
Definition is_klist (h : gmap nat klist_head) (head : nat) (l : list nat) : Prop :=
  NoDup (head :: l) /\ nchain h head l head /\ pchain h head l head.

(** The last of [a :: l]. *)
Fixpoint last_elem (a : nat) (l : list nat) : nat :=
  match l with
  | [] => a
  | b :: l' => last_elem b l'
  end.

(** A memory with a list head at 1 and free heads at 2, 3 and 4. *)
Definition kmem_example : gmap nat klist_head :=
  <[4%nat := {| next := NULL; prev := NULL |}]>
  (<[3%nat := {| next := NULL; prev := NULL |}]>
  (<[2%nat := {| next := NULL; prev := NULL |}]>
  (<[1%nat := {| next := 1%nat; prev := 1%nat |}]> ∅))).

(** A memory that holds the list with head 1 and the single entry 2, and
    a free head at 3. *)
Definition kmem_pair : gmap nat klist_head :=
  <[3%nat := {| next := NULL; prev := NULL |}]>
  (<[2%nat := {| next := 1%nat; prev := 1%nat |}]>
  (<[1%nat := {| next := 2%nat; prev := 2%nat |}]> ∅)).

(** * Properties *)

Lemma is_ok_true r : is_ok r = true <-> r = ESP_OK.
Proof. destruct r; simpl; split; congruence. Qed.

Lemma is_ok_false r : is_ok r = false <-> r <> ESP_OK.
Proof. destruct r; simpl; split; congruence. Qed.

Lemma bind_unfold {A B} (m : M A) (k : A -> M B) w :
  bind m k w = k (fst (m w)) (snd (m w)).
Proof. reflexivity. Qed.

(** ** The persistence adapter *)

Section Persistence.

Variable P : platform.

Lemma and_then_ok (m k : M esp_err_t) w w' :
  and_then m k w = (ESP_OK, w') ->
  exists w1, m w = (ESP_OK, w1) /\ k w1 = (ESP_OK, w').
Proof.
  unfold and_then, bind. destruct (m w) as [r w1]. simpl.
  destruct (is_ok r) eqn:Hr.
  - apply is_ok_true in Hr. subst r. eauto.
  - unfold ret. intros [= -> ->]. discriminate.
Qed.


Variable E : environment.

Lemma call_env_eq c w :
  call_env E c w = (env_status E (log w) c, logged c (env_status E (log w) c) w).
Proof. reflexivity. Qed.

Lemma nvs_erase_all_ok w w1 :
  nvs_erase_all E w = (ESP_OK, w1) ->
  w1 = with_nvs ∅ (logged c_nvs_erase_all ESP_OK w).
Proof.
  unfold nvs_erase_all, bind. rewrite call_env_eq. simpl.
  destruct (env_status E (log w) c_nvs_erase_all); simpl; intros [= <-]; reflexivity.
Qed.

Lemma nvs_commit_ok w w1 :
  nvs_commit E w = (ESP_OK, w1) -> w1 = logged c_nvs_commit ESP_OK w.
Proof.
  unfold nvs_commit. rewrite call_env_eq. intros [= -> <-]. reflexivity.
Qed.

Lemma nvs_set_u32_ok key v w w1 :
  nvs_set_u32 E key v w = (ESP_OK, w1) ->
  w1 = with_nvs (<[key := nvs_u32 v]> (nvs w)) (logged (c_nvs_set_u32 key v) ESP_OK w).
Proof.
  unfold nvs_set_u32, bind. rewrite call_env_eq. simpl.
  destruct (env_status E (log w) _); simpl; intros [= <-]; reflexivity.
Qed.

Lemma nvs_set_blob_ok key b len w w1 :
  nvs_set_blob E key b len w = (ESP_OK, w1) ->
  w1 = with_nvs (<[key := nvs_blob_entry len b]> (nvs w))
         (logged (c_nvs_set_blob key len b) ESP_OK w).
Proof.
  unfold nvs_set_blob, bind. rewrite call_env_eq. simpl.
  destruct (env_status E (log w) _); simpl; intros [= <-]; reflexivity.
Qed.

Lemma save_config_body_ok X w w' :
  save_config_body P E X w = (ESP_OK, w') ->
  if is_default X then nvs w' = ∅ else nvs w' = stored P X.
Proof.
  unfold save_config_body. intros H.
  apply and_then_ok in H as (w1 & H1 & H).
  apply and_then_ok in H as (w2 & H2 & H).
  apply nvs_erase_all_ok in H1. apply nvs_commit_ok in H2. subst w1 w2.
  destruct (is_default X).
  - injection H as <-. reflexivity.
  - repeat (apply and_then_ok in H as (? & ?%nvs_set_u32_ok & H)
            || apply and_then_ok in H as (? & ?%nvs_set_blob_ok & H)).
    apply nvs_set_blob_ok in H. subst. reflexivity.
Qed.


Lemma nvs_get_u32_inv key w x w1 :
  nvs_get_u32 E key w = (x, w1) ->
  nvs w1 = nvs w /\
  (fst x = ESP_OK -> nvs w !! key = Some (nvs_u32 (snd x))).
Proof.
  unfold nvs_get_u32, bind. rewrite call_env_eq. simpl.
  destruct (is_ok (env_status E (log w) _)) eqn:Hr; simpl.
  - unfold gets, logged; simpl. destruct (nvs w !! key) as [[v|n b]|];
      intros [= <- <-]; simpl; split; auto; discriminate.
  - intros [= <- <-]. simpl. split; [reflexivity|].
    intros Hx. rewrite Hx in Hr. discriminate.
Qed.

Lemma nvs_get_blob_inv key len w x w1 :
  nvs_get_blob E key len w = (x, w1) ->
  nvs w1 = nvs w /\
  (fst (fst x) = ESP_OK ->
   exists b, nvs w !! key = Some (nvs_blob_entry (snd (fst x)) b) /\ snd x = Some b).
Proof.
  unfold nvs_get_blob, bind. rewrite call_env_eq. simpl.
  destruct (is_ok (env_status E (log w) _)) eqn:Hr; simpl.
  - unfold gets, logged; simpl. destruct (nvs w !! key) as [[v|n b]|].
    + intros [= <- <-]; simpl; split; auto; discriminate.
    + destruct (n <=? len); intros [= <- <-]; simpl; split; eauto; discriminate.
    + intros [= <- <-]; simpl; split; auto; discriminate.
  - intros [= <- <-]. simpl. split; [reflexivity|].
    intros Hx. rewrite Hx in Hr. discriminate.
Qed.

Lemma blob_status_ok r len size :
  blob_status r len size = ESP_OK -> r = ESP_OK /\ len = size.
Proof.
  unfold blob_status. destruct (is_ok r) eqn:Hr; simpl.
  - apply is_ok_true in Hr. destruct (len =? size) eqn:Hl; simpl; [|discriminate].
    intros _. split; [assumption | lia].
  - apply is_ok_false in Hr. intros ->. contradiction.
Qed.

Lemma mode_of_to_u32 m : mode_of_u32 (mode_to_u32 m) = m.
Proof. destruct m; reflexivity. Qed.

Lemma bool_of_b2z b : bool_of_u32 (Z.b2z b) = b.
Proof. destruct b; reflexivity. Qed.


Lemma stored_lookup X :
  stored P X !! "mode" = Some (nvs_u32 (mode_to_u32 (mode X))) /\
  stored P X !! "sta_static" = Some (nvs_u32 (Z.b2z (sta_static X))) /\
  stored P X !! "sta_connect" = Some (nvs_u32 (Z.b2z (sta_connect X))) /\
  stored P X !! "ap" = Some (nvs_blob_entry (sizeof_wifi_config_t P) (blob_ap (ap X))) /\
  stored P X !! "sta" = Some (nvs_blob_entry (sizeof_wifi_config_t P) (blob_sta (sta X))) /\
  stored P X !! "ap_ip" = Some (nvs_blob_entry (sizeof_ip_info_t P) (blob_ip_info (ap_ip_info X))) /\
  stored P X !! "sta_ip" = Some (nvs_blob_entry (sizeof_ip_info_t P) (blob_ip_info (sta_ip_info X))) /\
  stored P X !! "sta_dns" = Some (nvs_blob_entry (sizeof_dns_info P) (blob_dns_info (sta_dns_info X))).
Proof. unfold stored. repeat split; by simplify_map_eq. Qed.

(** One read of a scalar field, in a proof about [get_saved_config_body]. *)
Ltac read_u32 H Hn :=
  rewrite bind_unfold in H;
  match type of H with
  | context [nvs_get_u32 ?E ?k ?w] =>
      let x := fresh "x" in let w1 := fresh "w" in
      let Hg := fresh "Hg" in let Hv := fresh "Hv" in let Hok := fresh "Hok" in
      destruct (nvs_get_u32 E k w) as [x w1] eqn:Hg;
      apply nvs_get_u32_inv in Hg as [Hg Hv];
      rewrite Hn in Hg, Hv; clear Hn; rename Hg into Hn;
      cbn [fst snd] in H;
      destruct (is_ok (fst x)) eqn:Hok; cbn [negb] in H;
      [ apply is_ok_true in Hok; specialize (Hv Hok)
      | apply is_ok_false in Hok; injection H as H _ _; congruence ]
  end.

(** One read of a blob. *)
Ltac read_blob H Hn :=
  rewrite bind_unfold in H;
  match type of H with
  | context [nvs_get_blob ?E ?k ?n ?w] =>
      let x := fresh "x" in let w1 := fresh "w" in
      let Hg := fresh "Hg" in let Hv := fresh "Hv" in let Hok := fresh "Hok" in
      destruct (nvs_get_blob E k n w) as [x w1] eqn:Hg;
      apply nvs_get_blob_inv in Hg as [Hg Hv];
      rewrite Hn in Hg, Hv; clear Hn; rename Hg into Hn;
      cbn [fst snd] in H;
      try (destruct (is_ok (blob_status (fst (fst x)) (snd (fst x)) _)) eqn:Hok;
           cbn [negb] in H;
           [ apply is_ok_true, blob_status_ok in Hok as [Hok _];
             specialize (Hv Hok)
           | apply is_ok_false in Hok; injection H as H _ _; congruence ])
  end.

Lemma get_saved_config_body_ok X c0 w c w' :
  nvs w = stored P X ->
  get_saved_config_body P E c0 w = ((ESP_OK, c), w') ->
  c = set_is_default (is_default c0) X.
Proof.
  intros Hn H. unfold get_saved_config_body in H.
  destruct (stored_lookup X) as (L1 & L2 & L3 & L4 & L5 & L6 & L7 & L8).
  read_u32 H Hn. read_u32 H Hn. read_u32 H Hn.
  do 4 read_blob H Hn. read_blob H Hn.
  injection H as Hok7 Hc _.
  apply blob_status_ok in Hok7 as [Hok7 _]. specialize (Hv6 Hok7).
  destruct Hv2 as (b2 & Hb2 & Hx2), Hv3 as (b3 & Hb3 & Hx3),
    Hv4 as (b4 & Hb4 & Hx4), Hv5 as (b5 & Hb5 & Hx5), Hv6 as (b6 & Hb6 & Hx6).
  rewrite L1 in Hv. rewrite L2 in Hv0. rewrite L3 in Hv1.
  rewrite L4 in Hb2. rewrite L5 in Hb3. rewrite L6 in Hb4.
  rewrite L7 in Hb5. rewrite L8 in Hb6.
  injection Hv as Hv. injection Hv0 as Hv0. injection Hv1 as Hv1.
  injection Hb2 as _ Hb2. injection Hb3 as _ Hb3. injection Hb4 as _ Hb4.
  injection Hb5 as _ Hb5. injection Hb6 as _ Hb6.
  subst c. rewrite Hx2, Hx3, Hx4, Hx5, Hx6, <- Hv, <- Hv0, <- Hv1,
    <- Hb2, <- Hb3, <- Hb4, <- Hb5, <- Hb6.
  rewrite mode_of_to_u32, !bool_of_b2z.
  destruct X, c0; reflexivity.
Qed.


Lemma nvs_get_u32_found key v w :
  env_status E (log w) (c_nvs_get_u32 key) = ESP_OK ->
  nvs w !! key = Some (nvs_u32 v) ->
  nvs_get_u32 E key w = ((ESP_OK, v), logged (c_nvs_get_u32 key) ESP_OK w).
Proof.
  intros Hr Hk. unfold nvs_get_u32, bind. rewrite call_env_eq, Hr. simpl.
  unfold gets. simpl. rewrite Hk. reflexivity.
Qed.

Lemma nvs_get_blob_found key len b w :
  env_status E (log w) (c_nvs_get_blob key) = ESP_OK ->
  nvs w !! key = Some (nvs_blob_entry len b) ->
  nvs_get_blob E key len w =
    ((ESP_OK, len, Some b), logged (c_nvs_get_blob key) ESP_OK w).
Proof.
  intros Hr Hk. unfold nvs_get_blob, bind. rewrite call_env_eq, Hr. simpl.
  unfold gets. simpl. rewrite Hk, Z.leb_refl. reflexivity.
Qed.

Lemma blob_status_refl n : blob_status ESP_OK n n = ESP_OK.
Proof. unfold blob_status. simpl. rewrite Z.eqb_refl. reflexivity. Qed.

(** One read that finds its record, in a fault-free environment. *)
Ltac found_u32 HE L :=
  rewrite bind_unfold;
  match goal with
  | |- context [nvs_get_u32 ?E ?k ?w] =>
      rewrite (nvs_get_u32_found k _ w (HE _ (c_nvs_get_u32 k) eq_refl) L)
  end;
  cbn [fst snd is_ok negb].

Ltac found_blob HE L :=
  rewrite bind_unfold;
  match goal with
  | |- context [nvs_get_blob ?E ?k ?n ?w] =>
      rewrite (nvs_get_blob_found k n _ w (HE _ (c_nvs_get_blob k) eq_refl) L)
  end;
  cbn [fst snd]; rewrite blob_status_refl; cbn [is_ok negb].

Lemma get_saved_config_body_reliable X c0 w :
  nvs_reliable E ->
  nvs w = stored P X ->
  fst (get_saved_config_body P E c0 w) = (ESP_OK, set_is_default (is_default c0) X).
Proof.
  intros HE Hn. unfold get_saved_config_body.
  destruct (stored_lookup X) as (L1 & L2 & L3 & L4 & L5 & L6 & L7 & L8).
  rewrite <- Hn in L1, L2, L3, L4, L5, L6, L7, L8.
  found_u32 HE L1. found_u32 HE L2. found_u32 HE L3.
  found_blob HE L4. found_blob HE L5. found_blob HE L6. found_blob HE L7.
  rewrite bind_unfold.
  match goal with
  | |- context [nvs_get_blob ?E ?k ?n ?w] =>
      rewrite (nvs_get_blob_found k n _ w (HE _ (c_nvs_get_blob k) eq_refl) L8)
  end.
  cbn [fst snd]. rewrite blob_status_refl. unfold ret. cbn [fst].
  rewrite mode_of_to_u32, !bool_of_b2z.
  destruct X, c0; reflexivity.
Qed.


Lemma save_config_ok X w :
  fst (save_config P E X w) = ESP_OK ->
  nvs (snd (save_config P E X w)) = (if is_default X then ∅ else stored P X) /\
  exists w1,
    save_config_body P E X (logged (c_nvs_open NVS_READWRITE) ESP_OK w) = (ESP_OK, w1) /\
    log (snd (save_config P E X w)) =
      (log w1 ++ [ev_call c_nvs_commit (env_status E (log w1) c_nvs_commit); ev_nvs_close])%list.
Proof.
  unfold save_config. rewrite bind_unfold. unfold nvs_open. rewrite call_env_eq.
  cbn [fst snd].
  destruct (env_status E (log w) (c_nvs_open NVS_READWRITE)) eqn:Ho;
    cbn [is_ok negb]; try (unfold ret; cbn [fst]; discriminate).
  rewrite bind_unfold.
  destruct (save_config_body P E X (logged (c_nvs_open NVS_READWRITE) ESP_OK w))
    as [r w1] eqn:Hb.
  cbn [fst snd].
  destruct r; cbn [is_ok negb]; try (unfold ret, bind; cbn; discriminate).
  intros _. apply save_config_body_ok in Hb as Hs.
  split.
  - unfold ret, bind, nvs_commit, nvs_close, emit, modify; cbn.
    destruct (is_default X); exact Hs.
  - exists w1. split; [reflexivity|].
    unfold ret, bind, nvs_commit, nvs_close, emit, modify; cbn.
    rewrite <- app_assoc. reflexivity.
Qed.

Lemma get_saved_config_ok X w c :
  nvs w = stored P X ->
  fst (get_saved_config P E w) = (ESP_OK, c) ->
  c = set_is_default false X.
Proof.
  intros Hn. unfold get_saved_config. rewrite bind_unfold.
  unfold nvs_open. rewrite call_env_eq. cbn [fst snd].
  destruct (is_ok (env_status E (log w) (c_nvs_open NVS_READONLY))) eqn:Ho;
    cbn [negb].
  - rewrite bind_unfold.
    destruct (get_saved_config_body P E zero_cfg (logged (c_nvs_open NVS_READONLY)
      (env_status E (log w) (c_nvs_open NVS_READONLY)) w)) as [[r c'] w1] eqn:Hb.
    unfold ret, bind, nvs_close, emit, modify; cbn.
    intros [= -> ->].
    apply (get_saved_config_body_ok X) in Hb; [exact Hb | exact Hn].
  - unfold ret; cbn. intros [= Hr _]. rewrite Hr in Ho. discriminate.
Qed.

Lemma get_saved_config_reliable X w :
  nvs_reliable E ->
  nvs w = stored P X ->
  fst (get_saved_config P E w) = (ESP_OK, set_is_default false X).
Proof.
  intros HE Hn. unfold get_saved_config. rewrite bind_unfold.
  unfold nvs_open. rewrite call_env_eq. cbn [fst snd].
  rewrite (HE _ (c_nvs_open NVS_READONLY) eq_refl). cbn [is_ok negb].
  rewrite bind_unfold.
  pose proof (get_saved_config_body_reliable X zero_cfg
    (logged (c_nvs_open NVS_READONLY) ESP_OK w) HE Hn) as Hb.
  destruct (get_saved_config_body P E zero_cfg _) as [res w1].
  cbn [fst] in Hb. subst res. reflexivity.
Qed.

Lemma nvs_get_u32_missing key w :
  env_status E (log w) (c_nvs_get_u32 key) = ESP_OK ->
  nvs w !! key = None ->
  nvs_get_u32 E key w =
    ((ESP_ERR_NVS_NOT_FOUND, 0), logged (c_nvs_get_u32 key) ESP_OK w).
Proof.
  intros Hr Hk. unfold nvs_get_u32, bind. rewrite call_env_eq, Hr. simpl.
  unfold gets. simpl. rewrite Hk. reflexivity.
Qed.

Lemma get_saved_config_body_empty c0 w :
  nvs w = ∅ ->
  fst (fst (get_saved_config_body P E c0 w)) <> ESP_OK /\
  (nvs_reliable E ->
   fst (fst (get_saved_config_body P E c0 w)) = ESP_ERR_NVS_NOT_FOUND).
Proof.
  intros Hn. unfold get_saved_config_body. rewrite bind_unfold. split.
  - destruct (nvs_get_u32 E "mode" w) as [x w1] eqn:Hg.
    apply nvs_get_u32_inv in Hg as [_ Hv]. cbn [fst snd].
    destruct (is_ok (fst x)) eqn:Hok; cbn [negb].
    + apply is_ok_true in Hok. specialize (Hv Hok).
      rewrite Hn, lookup_empty in Hv. discriminate.
    + unfold ret; cbn. apply is_ok_false. exact Hok.
  - intros HE. rewrite (nvs_get_u32_missing "mode" w).
    + reflexivity.
    + apply HE. reflexivity.
    + rewrite Hn. apply lookup_empty.
Qed.

Lemma get_saved_config_empty w :
  nvs w = ∅ ->
  fst (fst (get_saved_config P E w)) <> ESP_OK /\
  (nvs_reliable E -> fst (fst (get_saved_config P E w)) = ESP_ERR_NVS_NOT_FOUND).
Proof.
  intros Hn. unfold get_saved_config. rewrite bind_unfold.
  unfold nvs_open. rewrite call_env_eq. cbn [fst snd].
  destruct (is_ok (env_status E (log w) (c_nvs_open NVS_READONLY))) eqn:Ho;
    cbn [negb].
  - rewrite bind_unfold.
    set (w0 := logged (c_nvs_open NVS_READONLY) _ w).
    destruct (get_saved_config_body_empty zero_cfg w0 Hn) as [H1 H2].
    destruct (get_saved_config_body P E zero_cfg w0) as [[r c] w1].
    exact (conj H1 H2).
  - unfold ret; cbn. split.
    + apply is_ok_false. exact Ho.
    + intros HE. rewrite (HE _ (c_nvs_open NVS_READONLY) eq_refl) in Ho. discriminate.
Qed.

End Persistence.

Section PersistenceClaims.

Variable P : platform.
Variables E E' : environment.

Lemma save_config_body_default X w w1 :
  is_default X = true ->
  save_config_body P E X w = (ESP_OK, w1) ->
  w1 = logged c_nvs_commit ESP_OK (with_nvs ∅ (logged c_nvs_erase_all ESP_OK w)).
Proof.
  intros Hd H. unfold save_config_body in H.
  apply and_then_ok in H as (w2 & H2 & H).
  apply and_then_ok in H as (w3 & H3 & H).
  apply nvs_erase_all_ok in H2. apply nvs_commit_ok in H3.
  rewrite Hd in H. injection H as <-. subst. reflexivity.
Qed.

(** C3. A successful [save_config(X)] followed by [get_saved_config]
    returns a configuration equal to [X] in every field when
    [X.is_default] is false: every load that succeeds returns [X], and a
    load into which no NVS fault is injected succeeds.  When
    [X.is_default] is true, a successful [save_config(X)] leaves the
    namespace empty: it opens, erases, commits, commits again and closes,
    writing no field, and a later load does not succeed; without injected
    fault it reports [ESP_ERR_NVS_NOT_FOUND]. *)
Theorem save_config_roundtrip (X : wifi_cfg) (w : world) :
  fst (save_config P E X w) = ESP_OK ->
  let w' := snd (save_config P E X w) in
  (is_default X = false ->
     (forall c, fst (get_saved_config P E' w') = (ESP_OK, c) -> c = X) /\
     (nvs_reliable E' -> fst (get_saved_config P E' w') = (ESP_OK, X)))
  /\
  (is_default X = true ->
     nvs w' = ∅ /\
     (exists r,
        new_events w w' =
          [ev_call (c_nvs_open NVS_READWRITE) ESP_OK;
           ev_call c_nvs_erase_all ESP_OK;
           ev_call c_nvs_commit ESP_OK;
           ev_call c_nvs_commit r;
           ev_nvs_close]) /\
     fst (fst (get_saved_config P E' w')) <> ESP_OK /\
     (nvs_reliable E' ->
      fst (fst (get_saved_config P E' w')) = ESP_ERR_NVS_NOT_FOUND)).
Proof.
  intros Hok w'. destruct (save_config_ok P E X w Hok) as (Hn & w1 & Hb & Hl).
  fold w' in Hn, Hl. split; intros Hd; rewrite Hd in Hn.
  - assert (HX : set_is_default false X = X).
    { destruct X; simpl in Hd; subst; reflexivity. }
    split.
    + intros c Hc. pose proof (get_saved_config_ok P E' X w' c Hn Hc) as H.
      rewrite HX in H. exact H.
    + intros HE. pose proof (get_saved_config_reliable P E' X w' HE Hn) as H.
      rewrite HX in H. exact H.
  - split; [exact Hn|]. split.
    + apply save_config_body_default in Hb; [|exact Hd].
      exists (env_status E (log w1) c_nvs_commit).
      unfold new_events. rewrite Hl. subst w1. cbn [log logged with_log with_nvs].
      rewrite <- !app_assoc. rewrite drop_app_length. reflexivity.
    + apply get_saved_config_empty. exact Hn.
Qed.

End PersistenceClaims.

Lemma save_config_roundtrip_witness :
  fst (save_config platform_10ms env_ok cfg_home
         (world_of wmngr_state_connecting cfg_factory cfg_home cfg_home 0 ∅)) = ESP_OK /\
  fst (get_saved_config platform_10ms env_ok
         (snd (save_config platform_10ms env_ok cfg_home
            (world_of wmngr_state_connecting cfg_factory cfg_home cfg_home 0 ∅))))
  = (ESP_OK, cfg_home).
Proof.
  assert (H : fst (save_config platform_10ms env_ok cfg_home
    (world_of wmngr_state_connecting cfg_factory cfg_home cfg_home 0 ∅)) = ESP_OK)
    by (vm_compute; reflexivity).
  split; [exact H|].
  apply (save_config_roundtrip platform_10ms env_ok env_ok cfg_home _ H).
  - reflexivity.
  - intros l c _. reflexivity.
Defined.

Section SaveFailure.

Variable P : platform.
Variable E : environment.

Lemma and_then_ret (m : M esp_err_t) w : and_then m (ret ESP_OK) w = m w.
Proof.
  unfold and_then, bind, ret. destruct (m w) as [r w1]. simpl.
  destruct r; reflexivity.
Qed.

Lemma and_then_unfold (m k : M esp_err_t) w :
  and_then m k w = if is_ok (fst (m w)) then k (snd (m w)) else m w.
Proof.
  unfold and_then, bind, ret. destruct (m w) as [r w1]. simpl.
  destruct (is_ok r); reflexivity.
Qed.

Lemma nvs_write_eq x w :
  nvs_write E x w =
    let r := env_status E (log w) (fst (fst x)) in
    (r, if is_ok r
        then with_nvs (<[snd (fst x) := snd x]> (nvs w)) (logged (fst (fst x)) r w)
        else logged (fst (fst x)) r w).
Proof.
  unfold nvs_write, bind. rewrite call_env_eq. cbn [fst snd].
  destruct (is_ok _); reflexivity.
Qed.

Lemma and_then_ext (m k k' : M esp_err_t) w :
  (forall w1, k w1 = k' w1) -> and_then m k w = and_then m k' w.
Proof.
  intros H. rewrite !and_then_unfold. destruct (is_ok _); [apply H | reflexivity].
Qed.

Lemma nvs_set_u32_write key v :
  nvs_set_u32 E key v = nvs_write E (c_nvs_set_u32 key v, key, nvs_u32 v).
Proof. reflexivity. Qed.

Lemma nvs_set_blob_write key b len :
  nvs_set_blob E key b len =
    nvs_write E (c_nvs_set_blob key len b, key, nvs_blob_entry len b).
Proof. reflexivity. Qed.

(** [save_config] writes the fields as the chain of [field_writes]. *)
Lemma save_config_body_chain X w :
  save_config_body P E X w =
    and_then (nvs_erase_all E) (and_then (nvs_commit E)
      (if is_default X then ret ESP_OK else write_chain E (field_writes P X))) w.
Proof.
  unfold save_config_body.
  apply and_then_ext; intros w1. apply and_then_ext; intros w2.
  destruct (is_default X); [reflexivity|].
  cbn [write_chain field_writes].
  rewrite !nvs_set_u32_write, !nvs_set_blob_write.
  do 7 (apply and_then_ext; intros ?).
  symmetry. apply and_then_ret.
Qed.

(** A chain of writes either succeeds, every call answering [ESP_OK], or
    stops at the first call that fails, whose status it returns. *)
Lemma write_chain_spec ws w :
  Forall (fun x => is_field_write (fst (fst x)) = true) ws ->
  exists evs,
    log (snd (write_chain E ws w)) = (log w ++ evs)%list /\
    ((fst (write_chain E ws w) = ESP_OK /\ Forall ok_event evs) \/
     (exists pre c r,
        evs = (pre ++ [ev_call c r])%list /\ is_field_write c = true /\
        r <> ESP_OK /\ fst (write_chain E ws w) = r /\ Forall ok_event pre)).
Proof.
  intros Hws. revert w. induction Hws as [|x ws Hx Hws IH]; intros w.
  - exists []. cbn. rewrite app_nil_r. split; [reflexivity|]. left. split; constructor.
  - cbn [write_chain]. rewrite and_then_unfold, nvs_write_eq. cbn [fst snd].
    destruct (is_ok (env_status E (log w) (fst (fst x)))) eqn:Hr.
    + apply is_ok_true in Hr.
      destruct (IH (with_nvs (<[snd (fst x) := snd x]> (nvs w))
                     (logged (fst (fst x)) (env_status E (log w) (fst (fst x))) w)))
        as (evs & Hl & Hc).
      exists (ev_call (fst (fst x)) ESP_OK :: evs). split.
      * rewrite Hl. cbn [log with_nvs logged with_log]. rewrite Hr, <- app_assoc.
        reflexivity.
      * destruct Hc as [[Hok Hev] | (pre & c & r & -> & Hc & Hne & Hres & Hpre)].
        -- left. split; [exact Hok|]. constructor; [eexists; reflexivity | exact Hev].
        -- right. exists (ev_call (fst (fst x)) ESP_OK :: pre), c, r.
           repeat split; auto. constructor; [eexists; reflexivity | exact Hpre].
    + apply is_ok_false in Hr.
      exists [ev_call (fst (fst x)) (env_status E (log w) (fst (fst x)))].
      split; [reflexivity|]. right.
      exists [], (fst (fst x)), (env_status E (log w) (fst (fst x))).
      repeat split; auto.
Qed.

Lemma field_writes_are_writes X :
  Forall (fun x => is_field_write (fst (fst x)) = true) (field_writes P X).
Proof. unfold field_writes. repeat constructor. Qed.

Lemma nvs_erase_all_eq w :
  nvs_erase_all E w =
    let r := env_status E (log w) c_nvs_erase_all in
    (r, if is_ok r then with_nvs ∅ (logged c_nvs_erase_all r w)
        else logged c_nvs_erase_all r w).
Proof.
  unfold nvs_erase_all, bind. rewrite call_env_eq. cbn [fst snd].
  destruct (is_ok _); reflexivity.
Qed.

Lemma nvs_commit_eq w :
  nvs_commit E w =
    (env_status E (log w) c_nvs_commit,
     logged c_nvs_commit (env_status E (log w) c_nvs_commit) w).
Proof. reflexivity. Qed.

(** The part of [save_config] after the label [on_exit]. *)
Lemma save_config_exit_eq X w :
  save_config P E X w =
    let o := env_status E (log w) (c_nvs_open NVS_READWRITE) in
    if negb (is_ok o) then (o, logged (c_nvs_open NVS_READWRITE) o w) else
    let b := save_config_body P E X (logged (c_nvs_open NVS_READWRITE) o w) in
    let w1 := if negb (is_ok (fst b)) then snd (nvs_erase_all E (snd b)) else snd b in
    (fst b, with_log (log w1 ++ [ev_call c_nvs_commit (env_status E (log w1) c_nvs_commit);
                                 ev_nvs_close]) w1).
Proof.
  unfold save_config. rewrite bind_unfold. unfold nvs_open. rewrite call_env_eq.
  cbn [fst snd]. destruct (negb (is_ok _)); [reflexivity|].
  rewrite bind_unfold. cbn zeta.
  destruct (save_config_body P E X _) as [r wb]. cbn [fst snd].
  destruct (negb (is_ok r)).
  - rewrite !bind_unfold. cbn [fst snd ret]. rewrite nvs_commit_eq.
    unfold nvs_close, emit, modify, ret, logged. cbn [fst snd log with_log].
    rewrite <- app_assoc. reflexivity.
  - rewrite !bind_unfold. cbn [fst snd ret]. rewrite nvs_commit_eq.
    unfold nvs_close, emit, modify, ret, logged. cbn [fst snd log with_log].
    rewrite <- app_assoc. reflexivity.
Qed.

(** A run of the body of [save_config] either succeeds, every call
    answering [ESP_OK], or ends with the first call that fails. *)
Lemma save_config_body_spec X w :
  exists evs,
    log (snd (save_config_body P E X w)) = (log w ++ evs)%list /\
    ((fst (save_config_body P E X w) = ESP_OK /\ Forall ok_event evs) \/
     (exists pre c r,
        evs = (pre ++ [ev_call c r])%list /\ r <> ESP_OK /\
        fst (save_config_body P E X w) = r /\ Forall ok_event pre)).
Proof.
  rewrite save_config_body_chain, and_then_unfold, nvs_erase_all_eq. cbn [fst snd].
  destruct (is_ok (env_status E (log w) c_nvs_erase_all)) eqn:He.
  2:{ apply is_ok_false in He. eexists. split; [reflexivity|]. right.
      exists [], c_nvs_erase_all, (env_status E (log w) c_nvs_erase_all).
      repeat split; auto. }
  apply is_ok_true in He. rewrite He.
  rewrite and_then_unfold, nvs_commit_eq. cbn [fst snd].
  set (w1 := with_nvs ∅ (logged c_nvs_erase_all ESP_OK w)).
  destruct (is_ok (env_status E (log w1) c_nvs_commit)) eqn:Hc.
  2:{ apply is_ok_false in Hc. eexists. split.
      { unfold w1. cbn [fst snd log logged with_log with_nvs].
        rewrite <- app_assoc. reflexivity. }
      right. exists [ev_call c_nvs_erase_all ESP_OK], c_nvs_commit,
        (env_status E (log w1) c_nvs_commit).
      repeat split; auto. constructor; [eexists; reflexivity | constructor]. }
  apply is_ok_true in Hc. rewrite Hc.
  set (w2 := logged c_nvs_commit ESP_OK w1).
  assert (Hl2 : log w2 = (log w ++ [ev_call c_nvs_erase_all ESP_OK;
                                    ev_call c_nvs_commit ESP_OK])%list).
  { unfold w2, w1. cbn [log logged with_log with_nvs].
    rewrite <- app_assoc. reflexivity. }
  assert (Hpre : Forall ok_event [ev_call c_nvs_erase_all ESP_OK;
                                  ev_call c_nvs_commit ESP_OK]).
  { repeat constructor; eexists; reflexivity. }
  destruct (is_default X).
  - exists [ev_call c_nvs_erase_all ESP_OK; ev_call c_nvs_commit ESP_OK].
    split; [exact Hl2|]. left. split; [reflexivity | exact Hpre].
  - destruct (write_chain_spec (field_writes P X) w2 (field_writes_are_writes X))
      as (evs & Hl & Hcase).
    exists ([ev_call c_nvs_erase_all ESP_OK; ev_call c_nvs_commit ESP_OK] ++ evs)%list.
    split.
    { rewrite Hl, Hl2, <- app_assoc. reflexivity. }
    destruct Hcase as [[Hok Hev] | (pre & c & r & -> & _ & Hne & Hres & Hp)].
    + left. split; [exact Hok|]. apply Forall_app. split; assumption.
    + right. exists ([ev_call c_nvs_erase_all ESP_OK; ev_call c_nvs_commit ESP_OK] ++ pre)%list,
        c, r.
      repeat split; auto.
      apply Forall_app. split; assumption.
Qed.

Lemma ok_event_not_failed c r evs :
  Forall ok_event evs -> r <> ESP_OK -> ev_call c r ∈ evs -> False.
Proof.
  intros Hf Hr Hin. rewrite Forall_forall in Hf.
  destruct (Hf _ Hin) as [c' [= _ ->]]. contradiction.
Qed.

(** When a field write of [save_config] fails, the call reports the
    status of that write, and the write is followed by exactly three
    events before the return: [nvs_erase_all] is called again, then
    [nvs_commit] and [nvs_close], every earlier call having answered
    [ESP_OK].  The status of that erase is discarded; when it is [ESP_OK]
    the namespace is empty on return. *)
Lemma save_config_write_failure (X : wifi_cfg) (w : world) :
  field_write_failed w (snd (save_config P E X w)) ->
  fst (save_config P E X w) <> ESP_OK /\
  exists pre c r r2 r3,
    new_events w (snd (save_config P E X w)) =
      (pre ++ [ev_call c r; ev_call c_nvs_erase_all r2;
               ev_call c_nvs_commit r3; ev_nvs_close])%list /\
    Forall ok_event pre /\
    is_field_write c = true /\ r <> ESP_OK /\
    fst (save_config P E X w) = r /\
    (r2 = ESP_OK -> nvs (snd (save_config P E X w)) = ∅).
Proof.
  unfold field_write_failed, new_events.
  rewrite save_config_exit_eq. cbn zeta.
  set (o := env_status E (log w) (c_nvs_open NVS_READWRITE)).
  destruct (is_ok o) eqn:Ho; cbn [negb].
  2:{ cbn [fst snd log logged with_log]. rewrite drop_app_length.
      intros (c & r & Hc & _ & Hin). apply list_elem_of_singleton in Hin.
      injection Hin as -> _. discriminate. }
  apply is_ok_true in Ho. rewrite Ho.
  set (w0 := logged (c_nvs_open NVS_READWRITE) ESP_OK w).
  destruct (save_config_body_spec X w0) as (evs & Hl & Hcase).
  destruct Hcase as [[Hok Hev] | (pre & c & r & -> & Hne & Hres & Hp)].
  - rewrite Hok. cbn [is_ok negb fst snd log with_log]. rewrite Hl.
    unfold w0; cbn [log logged with_log]. rewrite <- !app_assoc, drop_app_length.
    intros (c & r & Hc & Hr & Hin). exfalso.
    rewrite !elem_of_app in Hin. destruct Hin as [Hin | [Hin | Hin]].
    + apply list_elem_of_singleton in Hin. injection Hin as -> _. discriminate.
    + eapply ok_event_not_failed; eauto.
    + apply elem_of_cons in Hin as [Hin | Hin].
      * injection Hin as -> _. discriminate.
      * apply list_elem_of_singleton in Hin. discriminate.
  - rewrite Hres. assert (Hf : is_ok r = false) by (apply is_ok_false; exact Hne).
    rewrite Hf. cbn [negb fst snd log with_log].
    rewrite nvs_erase_all_eq. cbn [fst snd].
    set (wb := snd (save_config_body P E X w0)) in *.
    set (r2 := env_status E (log wb) c_nvs_erase_all).
    set (w1 := if is_ok r2 then with_nvs ∅ (logged c_nvs_erase_all r2 wb)
               else logged c_nvs_erase_all r2 wb).
    assert (Hl1 : log w1 = (log wb ++ [ev_call c_nvs_erase_all r2])%list).
    { unfold w1. destruct (is_ok r2); reflexivity. }
    rewrite Hl1, Hl. unfold w0; cbn [log logged with_log].
    rewrite <- !app_assoc, drop_app_length.
    intros (c' & r' & Hc & Hr & Hin).
    split; [exact Hne|].
    exists ([ev_call (c_nvs_open NVS_READWRITE) ESP_OK] ++ pre)%list, c, r, r2.
    eexists.
    split; [rewrite <- !app_assoc; cbn [app]; reflexivity|].
    split; [constructor; [eexists; reflexivity | exact Hp]|].
    split.
    { rewrite !elem_of_app in Hin.
      destruct Hin as [Hin | [Hin | [Hin | [Hin | Hin]]]].
      - apply list_elem_of_singleton in Hin. injection Hin as -> _. discriminate.
      - exfalso. eapply ok_event_not_failed; eauto.
      - apply list_elem_of_singleton in Hin. injection Hin as -> _. exact Hc.
      - apply list_elem_of_singleton in Hin. injection Hin as -> _. discriminate.
      - apply elem_of_cons in Hin as [Hin | Hin].
        + injection Hin as -> _. discriminate.
        + apply list_elem_of_singleton in Hin. discriminate. }
    split; [exact Hne|]. split; [reflexivity|].
    intros H2. unfold w1. rewrite H2. reflexivity.
Qed.

End SaveFailure.

Lemma save_config_write_failure_witness :
  field_write_failed
    (world_of wmngr_state_connecting cfg_factory cfg_home cfg_home 0
       (stored platform_10ms cfg_factory))
    (snd (save_config platform_10ms env_sta_write_fails cfg_home
       (world_of wmngr_state_connecting cfg_factory cfg_home cfg_home 0
          (stored platform_10ms cfg_factory)))) /\
  fst (save_config platform_10ms env_sta_write_fails cfg_home
       (world_of wmngr_state_connecting cfg_factory cfg_home cfg_home 0
          (stored platform_10ms cfg_factory))) <> ESP_OK.
Proof.
  assert (H : field_write_failed
    (world_of wmngr_state_connecting cfg_factory cfg_home cfg_home 0
       (stored platform_10ms cfg_factory))
    (snd (save_config platform_10ms env_sta_write_fails cfg_home
       (world_of wmngr_state_connecting cfg_factory cfg_home cfg_home 0
          (stored platform_10ms cfg_factory))))).
  { exists (c_nvs_set_blob "sta" 124 (blob_sta home_sta)), ESP_FAIL.
    split; [reflexivity|]. split; [discriminate|].
    unfold new_events.
    match goal with
    | |- ?x ∈ ?l => apply (bool_decide_eq_true_1 (x ∈ l))
    end.
    vm_compute. reflexivity. }
  split; [exact H|].
  apply (save_config_write_failure platform_10ms env_sta_write_fails cfg_home _ H).
Defined.

(** C6. [save_config] can leave a half-written record.  The home
    configuration is saved to a flash that breaks down while the blob
    ["sta"] is written: that write fails, and so do the [nvs_erase_all]
    that follows it, whose status [save_config] discards, and the
    [nvs_commit].  [save_config] returns the error of the write, and the
    namespace holds the four fields written before it (["mode"],
    ["sta_static"], ["sta_connect"], ["ap"]) and none of the other four:
    neither the complete configuration nor nothing. *)
Lemma save_config_partial_record :
  let w := world_of wmngr_state_connecting cfg_factory cfg_home cfg_home 0 ∅ in
  let r := save_config platform_10ms env_flash_breaks cfg_home w in
  field_write_failed w (snd r) /\
  fst r = ESP_FAIL /\
  new_events w (snd r) =
    [ev_call (c_nvs_open NVS_READWRITE) ESP_OK;
     ev_call c_nvs_erase_all ESP_OK;
     ev_call c_nvs_commit ESP_OK;
     ev_call (c_nvs_set_u32 "mode" (mode_to_u32 WIFI_MODE_APSTA)) ESP_OK;
     ev_call (c_nvs_set_u32 "sta_static" 0) ESP_OK;
     ev_call (c_nvs_set_u32 "sta_connect" 1) ESP_OK;
     ev_call (c_nvs_set_blob "ap" 124 (blob_ap default_ap)) ESP_OK;
     ev_call (c_nvs_set_blob "sta" 124 (blob_sta home_sta)) ESP_FAIL;
     ev_call c_nvs_erase_all ESP_FAIL;
     ev_call c_nvs_commit ESP_FAIL;
     ev_nvs_close] /\
  nvs (snd r) =
    <["ap" := nvs_blob_entry 124 (blob_ap default_ap)]>
    (<["sta_connect" := nvs_u32 1]>
    (<["sta_static" := nvs_u32 0]>
    (<["mode" := nvs_u32 (mode_to_u32 WIFI_MODE_APSTA)]> ∅))) /\
  nvs (snd r) <> ∅ /\
  nvs (snd r) <> stored platform_10ms cfg_home.
Proof.
  cbn zeta.
  assert (Hev : new_events
    (world_of wmngr_state_connecting cfg_factory cfg_home cfg_home 0 ∅)
    (snd (save_config platform_10ms env_flash_breaks cfg_home
       (world_of wmngr_state_connecting cfg_factory cfg_home cfg_home 0 ∅))) =
    [ev_call (c_nvs_open NVS_READWRITE) ESP_OK;
     ev_call c_nvs_erase_all ESP_OK;
     ev_call c_nvs_commit ESP_OK;
     ev_call (c_nvs_set_u32 "mode" (mode_to_u32 WIFI_MODE_APSTA)) ESP_OK;
     ev_call (c_nvs_set_u32 "sta_static" 0) ESP_OK;
     ev_call (c_nvs_set_u32 "sta_connect" 1) ESP_OK;
     ev_call (c_nvs_set_blob "ap" 124 (blob_ap default_ap)) ESP_OK;
     ev_call (c_nvs_set_blob "sta" 124 (blob_sta home_sta)) ESP_FAIL;
     ev_call c_nvs_erase_all ESP_FAIL;
     ev_call c_nvs_commit ESP_FAIL;
     ev_nvs_close]) by (vm_compute; reflexivity).
  assert (Hnvs : nvs (snd (save_config platform_10ms env_flash_breaks cfg_home
       (world_of wmngr_state_connecting cfg_factory cfg_home cfg_home 0 ∅))) =
    <["ap" := nvs_blob_entry 124 (blob_ap default_ap)]>
    (<["sta_connect" := nvs_u32 1]>
    (<["sta_static" := nvs_u32 0]>
    (<["mode" := nvs_u32 (mode_to_u32 WIFI_MODE_APSTA)]> ∅)))) by (vm_compute; reflexivity).
  split.
  { exists (c_nvs_set_blob "sta" 124 (blob_sta home_sta)), ESP_FAIL.
    split; [reflexivity|]. split; [discriminate|].
    rewrite Hev. repeat constructor. }
  split; [vm_compute; reflexivity|].
  split; [exact Hev|].
  split; [exact Hnvs|].
  rewrite Hnvs. split; intros H.
  - apply (f_equal (fun m => m !! "mode")) in H. vm_compute in H. discriminate H.
  - apply (f_equal (fun m => m !! "sta")) in H. vm_compute in H. discriminate H.
Qed.

(** ** Public operations in a transitional state *)

Section Busy.

Variable P : platform.
Variable E : environment.

Lemma esp_wmngr_get_cfg_eq out w :
  esp_wmngr_get_cfg P E out w =
    if env_take E (log w) then
      if state_gt_idle (state (cfg_state w))
      then ((ESP_ERR_INVALID_STATE, out),
            only_logged [ev_take (CFG_DELAY P) true; ev_give] w)
      else ((ESP_OK, current (cfg_state w)),
            only_logged [ev_take (CFG_DELAY P) true; ev_give] w)
    else ((ESP_ERR_TIMEOUT, out), only_logged [ev_take (CFG_DELAY P) false] w).
Proof.
  unfold esp_wmngr_get_cfg, bind, xSemaphoreTake, only_logged. cbn [fst snd].
  destruct (env_take E (log w)); cbn [negb]; [|reflexivity].
  unfold gets, ret, xSemaphoreGive, emit, modify, read_slot; cbn.
  destruct (state_gt_idle (state (cfg_state w))); cbn;
    rewrite <- app_assoc; reflexivity.
Qed.

(** C9 (amended). In a transitional state [esp_wmngr_get_cfg] returns
    [ESP_ERR_INVALID_STATE] once it holds the lock and [ESP_ERR_TIMEOUT]
    when the bounded wait for the lock expires; either way it does not
    return [ESP_OK] and leaves the caller's buffer as it was.  It returns
    [ESP_OK] only in a stable state with the lock acquired, and then the
    buffer holds [current]; in a stable state with the lock acquired it
    does return [ESP_OK].  It never changes [cfg_state]. *)
Theorem esp_wmngr_get_cfg_contract (out : wifi_cfg) (w : world) :
  (state_gt_idle (state (cfg_state w)) = true ->
   env_take E (log w) = true ->
   fst (esp_wmngr_get_cfg P E out w) = (ESP_ERR_INVALID_STATE, out)) /\
  (state_gt_idle (state (cfg_state w)) = true ->
   env_take E (log w) = false ->
   fst (esp_wmngr_get_cfg P E out w) = (ESP_ERR_TIMEOUT, out)) /\
  (state_gt_idle (state (cfg_state w)) = true ->
   fst (fst (esp_wmngr_get_cfg P E out w)) <> ESP_OK /\
   snd (fst (esp_wmngr_get_cfg P E out w)) = out) /\
  (fst (fst (esp_wmngr_get_cfg P E out w)) = ESP_OK ->
   state_gt_idle (state (cfg_state w)) = false /\
   env_take E (log w) = true /\
   snd (fst (esp_wmngr_get_cfg P E out w)) = current (cfg_state w)) /\
  (state_gt_idle (state (cfg_state w)) = false ->
   env_take E (log w) = true ->
   fst (esp_wmngr_get_cfg P E out w) = (ESP_OK, current (cfg_state w))) /\
  cfg_state (snd (esp_wmngr_get_cfg P E out w)) = cfg_state w.
Proof.
  rewrite esp_wmngr_get_cfg_eq.
  destruct (env_take E (log w)), (state_gt_idle (state (cfg_state w)));
    cbn; repeat split; intros; try discriminate; try reflexivity; congruence.
Qed.

Lemma esp_wmngr_set_cfg_busy X w :
  state_gt_idle (state (cfg_state w)) = true ->
  esp_wmngr_set_cfg P E X w =
    if env_take E (log w)
    then (ESP_ERR_INVALID_STATE, only_logged [ev_take (CFG_DELAY P) true; ev_give] w)
    else (ESP_ERR_TIMEOUT, only_logged [ev_take (CFG_DELAY P) false] w).
Proof.
  intros Hs. unfold esp_wmngr_set_cfg, bind, xSemaphoreTake, only_logged.
  cbn [fst snd]. destruct (env_take E (log w)); cbn [negb]; [|reflexivity].
  unfold gets, ret, xSemaphoreGive, emit, modify; cbn. rewrite Hs. cbn.
  rewrite <- app_assoc. reflexivity.
Qed.

Lemma esp_wmngr_start_wps_busy w :
  state_gt_idle (state (cfg_state w)) = true ->
  esp_wmngr_start_wps P E w =
    if env_take E (log w)
    then (ESP_ERR_INVALID_STATE, only_logged [ev_take (CFG_DELAY P) true; ev_give] w)
    else (ESP_ERR_TIMEOUT, only_logged [ev_take (CFG_DELAY P) false] w).
Proof.
  intros Hs. unfold esp_wmngr_start_wps, bind, xSemaphoreTake, only_logged.
  cbn [fst snd]. destruct (env_take E (log w)); cbn [negb]; [|reflexivity].
  unfold gets, ret, xSemaphoreGive, emit, modify; cbn. rewrite Hs. cbn.
  rewrite <- app_assoc. reflexivity.
Qed.

Lemma set_connect_busy connect local w :
  state_gt_idle (state (cfg_state w)) = true ->
  set_connect P E connect local w =
    if env_take E (log w)
    then (ESP_ERR_INVALID_STATE, only_logged [ev_take (CFG_DELAY P) true; ev_give] w)
    else (ESP_ERR_TIMEOUT, only_logged [ev_take (CFG_DELAY P) false] w).
Proof.
  intros Hs. unfold set_connect. rewrite bind_unfold, esp_wmngr_get_cfg_eq, Hs.
  destruct (env_take E (log w)); reflexivity.
Qed.

(** C2 (amended). While [state > idle], [esp_wmngr_set_cfg],
    [esp_wmngr_start_wps], [esp_wmngr_connect] and [esp_wmngr_disconnect]
    return [ESP_ERR_INVALID_STATE] once they hold the lock, and
    [ESP_ERR_TIMEOUT] when the bounded wait for the lock expires; in both
    cases they leave the world as it was, but for the lock events in the
    log: [cfg_state] is not modified, no state is assigned and no wake-up
    is armed. *)
Theorem config_op_busy (o : config_op) (w : world) :
  state_gt_idle (state (cfg_state w)) = true ->
  (env_take E (log w) = true ->
   run_config_op P E o w =
     (ESP_ERR_INVALID_STATE, only_logged [ev_take (CFG_DELAY P) true; ev_give] w)) /\
  (env_take E (log w) = false ->
   run_config_op P E o w =
     (ESP_ERR_TIMEOUT, only_logged [ev_take (CFG_DELAY P) false] w)) /\
  cfg_state (snd (run_config_op P E o w)) = cfg_state w /\
  wifi_events (snd (run_config_op P E o w)) = wifi_events w /\
  nvs (snd (run_config_op P E o w)) = nvs w /\
  (forall period ok, ev_timer period ok ∉ new_events w (snd (run_config_op P E o w))) /\
  (forall s, ev_state s ∉ new_events w (snd (run_config_op P E o w))).
Proof.
  intros Hs.
  assert (H : run_config_op P E o w =
    if env_take E (log w)
    then (ESP_ERR_INVALID_STATE, only_logged [ev_take (CFG_DELAY P) true; ev_give] w)
    else (ESP_ERR_TIMEOUT, only_logged [ev_take (CFG_DELAY P) false] w)).
  { destruct o; cbn [run_config_op]; unfold esp_wmngr_connect, esp_wmngr_disconnect;
      auto using esp_wmngr_set_cfg_busy, esp_wmngr_start_wps_busy, set_connect_busy. }
  rewrite H. unfold new_events.
  destruct (env_take E (log w)); cbn [fst snd only_logged with_log log cfg_state
    wifi_events nvs]; rewrite drop_app_length;
    repeat split; try discriminate; intros; intros Hin;
    repeat (apply elem_of_cons in Hin as [Hin | Hin]; [discriminate|]);
    apply elem_of_nil in Hin; contradiction.
Qed.

End Busy.

Lemma config_op_busy_witness :
  state_gt_idle (state (cfg_state
    (world_of wmngr_state_connecting cfg_factory cfg_home cfg_home 0 ∅))) = true /\
  fst (run_config_op platform_10ms env_ok (op_set_cfg cfg_factory)
    (world_of wmngr_state_connecting cfg_factory cfg_home cfg_home 0 ∅))
  = ESP_ERR_INVALID_STATE.
Proof.
  split; [reflexivity|].
  destruct (config_op_busy platform_10ms env_ok (op_set_cfg cfg_factory)
    (world_of wmngr_state_connecting cfg_factory cfg_home cfg_home 0 ∅) eq_refl)
    as (H & _).
  rewrite (H eq_refl). reflexivity.
Defined.

(** C2 as stated fails: in state [connecting], with the lock held by
    somebody else for longer than [CFG_DELAY], each of the four operations
    returns [ESP_ERR_TIMEOUT], not [ESP_ERR_INVALID_STATE]. *)
Lemma config_op_busy_lock_timeout :
  ~ busy_rejection_statement platform_10ms env_lock_busy (op_set_cfg cfg_home)
      (world_of wmngr_state_connecting cfg_factory cfg_home cfg_home 0 ∅) /\
  ~ busy_rejection_statement platform_10ms env_lock_busy op_start_wps
      (world_of wmngr_state_connecting cfg_factory cfg_home cfg_home 0 ∅) /\
  ~ busy_rejection_statement platform_10ms env_lock_busy (op_connect cfg_home)
      (world_of wmngr_state_connecting cfg_factory cfg_home cfg_home 0 ∅) /\
  ~ busy_rejection_statement platform_10ms env_lock_busy (op_disconnect cfg_home)
      (world_of wmngr_state_connecting cfg_factory cfg_home cfg_home 0 ∅).
Proof.
  repeat split; intros H; destruct (H eq_refl) as (Hr & _);
    vm_compute in Hr; discriminate Hr.
Qed.

Lemma esp_wmngr_get_cfg_contract_witness :
  state_gt_idle (state (cfg_state
    (world_of wmngr_state_connecting cfg_factory cfg_home cfg_home 0 ∅))) = true /\
  fst (esp_wmngr_get_cfg platform_10ms env_ok cfg_factory
    (world_of wmngr_state_connecting cfg_factory cfg_home cfg_home 0 ∅))
  = (ESP_ERR_INVALID_STATE, cfg_factory) /\
  fst (esp_wmngr_get_cfg platform_10ms env_lock_busy cfg_factory
    (world_of wmngr_state_connecting cfg_factory cfg_home cfg_home 0 ∅))
  = (ESP_ERR_TIMEOUT, cfg_factory) /\
  fst (esp_wmngr_get_cfg platform_10ms env_ok cfg_factory
    (world_of wmngr_state_idle cfg_factory cfg_home cfg_home 0 ∅))
  = (ESP_OK, cfg_home).
Proof.
  split; [reflexivity|].
  destruct (esp_wmngr_get_cfg_contract platform_10ms env_ok cfg_factory
    (world_of wmngr_state_connecting cfg_factory cfg_home cfg_home 0 ∅))
    as (Hbusy & _).
  destruct (esp_wmngr_get_cfg_contract platform_10ms env_lock_busy cfg_factory
    (world_of wmngr_state_connecting cfg_factory cfg_home cfg_home 0 ∅))
    as (_ & Htimeout & _).
  destruct (esp_wmngr_get_cfg_contract platform_10ms env_ok cfg_factory
    (world_of wmngr_state_idle cfg_factory cfg_home cfg_home 0 ∅))
    as (_ & _ & _ & _ & Hok & _).
  split; [exact (Hbusy eq_refl eq_refl)|].
  split; [exact (Htimeout eq_refl eq_refl) | exact (Hok eq_refl eq_refl)].
Defined.

(** C9 as stated fails: in state [connecting], with the lock held by
    somebody else for longer than [CFG_DELAY], [esp_wmngr_get_cfg] returns
    [ESP_ERR_TIMEOUT], not [ESP_ERR_INVALID_STATE]. *)
Lemma esp_wmngr_get_cfg_lock_timeout :
  ~ get_cfg_busy_statement platform_10ms env_lock_busy cfg_factory
      (world_of wmngr_state_connecting cfg_factory cfg_home cfg_home 0 ∅).
Proof.
  intros H. specialize (H eq_refl). vm_compute in H. discriminate H.
Qed.

(** ** Frame properties of the helpers *)

Lemma only_logged_nil w : only_logged [] w = w.
Proof. destruct w. unfold only_logged, with_log. cbn. rewrite app_nil_r. reflexivity. Qed.

Lemma only_logged_app evs1 evs2 w :
  only_logged evs2 (only_logged evs1 w) = only_logged (evs1 ++ evs2) w.
Proof. unfold only_logged, with_log. cbn. rewrite app_assoc. reflexivity. Qed.

Lemma new_events_only_logged evs w : new_events w (only_logged evs w) = evs.
Proof. unfold new_events, only_logged. cbn. apply drop_app_length. Qed.

Lemma new_events_app w w' evs :
  log w' = (log w ++ evs)%list -> new_events w w' = evs.
Proof. intros H. unfold new_events. rewrite H. apply drop_app_length. Qed.

Lemma calls_only_ret {A} (a : A) : calls_only (ret a).
Proof. intros w. exists []. split; [symmetry; apply only_logged_nil | constructor]. Qed.

Lemma calls_only_bind {A B} (m : M A) (k : A -> M B) :
  calls_only m -> (forall a, calls_only (k a)) -> calls_only (bind m k).
Proof.
  intros Hm Hk w. rewrite bind_unfold.
  destruct (Hm w) as (e1 & H1 & F1).
  destruct (Hk (fst (m w)) (snd (m w))) as (e2 & H2 & F2).
  exists (e1 ++ e2)%list. split.
  - rewrite H2, H1. apply only_logged_app.
  - apply Forall_app. split; assumption.
Qed.

Lemma calls_only_gets {A} (f : world -> A) : calls_only (gets f).
Proof. intros w. exists []. split; [symmetry; apply only_logged_nil | constructor]. Qed.

Lemma calls_only_one {A} (m : M A) c :
  (forall w, exists r, snd (m w) = only_logged [ev_call c r] w) -> calls_only m.
Proof.
  intros H w. destruct (H w) as [r Hr]. exists [ev_call c r].
  split; [exact Hr | repeat constructor].
Qed.

Lemma preserves_ret {T A} (f : world -> T) (a : A) : preserves f (ret a).
Proof. intros w. reflexivity. Qed.

Lemma preserves_bind {T A B} (f : world -> T) (m : M A) (k : A -> M B) :
  preserves f m -> (forall a, preserves f (k a)) -> preserves f (bind m k).
Proof.
  intros Hm Hk w. rewrite bind_unfold. rewrite Hk. apply Hm.
Qed.

Lemma is_call_event_quiet evs : Forall is_call_event evs -> Forall is_quiet_event evs.
Proof.
  intros H. eapply Forall_impl; [exact H|].
  intros [] Hc; try contradiction; exact I.
Qed.

Lemma quiet_ret {A} (a : A) : quiet (ret a).
Proof. intros w. exists []. cbn. rewrite app_nil_r. split; [reflexivity | constructor]. Qed.

Lemma quiet_bind {A B} (m : M A) (k : A -> M B) :
  quiet m -> (forall a, quiet (k a)) -> quiet (bind m k).
Proof.
  intros Hm Hk w. rewrite bind_unfold.
  destruct (Hm w) as (e1 & H1 & F1).
  destruct (Hk (fst (m w)) (snd (m w))) as (e2 & H2 & F2).
  exists (e1 ++ e2)%list. split.
  - rewrite H2, H1, app_assoc. reflexivity.
  - apply Forall_app. split; assumption.
Qed.

Lemma quiet_silent {A} (m : M A) :
  (forall w, log (snd (m w)) = log w) -> quiet m.
Proof.
  intros H w. exists []. rewrite app_nil_r. split; [apply H | constructor].
Qed.

Lemma quiet_one {A} (m : M A) :
  (forall w, exists e, log (snd (m w)) = (log w ++ [e])%list /\ is_quiet_event e) ->
  quiet m.
Proof.
  intros H w. destruct (H w) as (e & He & Hq). exists [e].
  split; [exact He | repeat constructor; exact Hq].
Qed.

Lemma calls_only_quiet {A} (m : M A) : calls_only m -> quiet m.
Proof.
  intros H w. destruct (H w) as (evs & Hw & Hc). exists evs. split.
  - rewrite Hw. reflexivity.
  - apply is_call_event_quiet. exact Hc.
Qed.

Create HintDb frame.

(** One step of a proof that a computation is [calls_only] or [quiet] or
    [preserves] an observation: follow the structure of the code. *)
Ltac frame_step :=
  match goal with
  | |- calls_only (bind _ _) => apply calls_only_bind; [| intros ?]
  | |- calls_only (ret _) => apply calls_only_ret
  | |- calls_only (gets _) => apply calls_only_gets
  | |- quiet (bind _ _) => apply quiet_bind; [| intros ?]
  | |- quiet (ret _) => apply quiet_ret
  | |- preserves _ (bind _ _) => apply preserves_bind; [| intros ?]
  | |- preserves _ (ret _) => apply preserves_ret
  | |- _ (if ?b then _ else _) => destruct b
  | |- _ (match ?x with _ => _ end) => destruct x
  | |- _ => progress cbv zeta
  | |- _ => assumption
  | |- _ => solve [ auto with frame ]
  | |- calls_only _ =>
      solve [ eapply calls_only_one; intros ?; eexists; reflexivity ]
  | |- quiet _ => solve [ apply quiet_silent; intros ?; reflexivity ]
  | |- quiet _ =>
      solve [ apply quiet_one; intros ?; eexists; split; [reflexivity | exact I] ]
  | |- preserves _ _ => solve [ intros ?; reflexivity ]
  end.

Section Frame.

Variable P : platform.
Variable E : environment.

Lemma calls_only_get_dns_loop n idx l : calls_only (get_dns_loop E n idx l).
Proof.
  revert idx l. induction n as [|n IH]; intros idx l; cbn [get_dns_loop];
    repeat frame_step; try apply IH.
Qed.

Lemma calls_only_get_wifi_cfg : calls_only (get_wifi_cfg E).
Proof.
  unfold get_wifi_cfg, sta_connected, xEventGroupGetBits.
  repeat frame_step. apply calls_only_get_dns_loop.
Qed.


Lemma calls_only_set_dns_loop idx l : calls_only (set_dns_loop E idx l).
Proof.
  revert idx. induction l as [|d l IH]; intros idx; cbn [set_dns_loop];
    repeat frame_step; try apply IH.
Qed.

Lemma quiet_calloc_scan_data_ref : quiet (calloc_scan_data_ref E).
Proof.
  apply quiet_one. intros w. unfold calloc_scan_data_ref.
  destruct (env_calloc E (log w)); eexists; (split; [reflexivity | exact I]).
Qed.

Lemma preserves_calloc_scan_data_ref {T} (f : world -> T) :
  (forall h w, f (with_heap h w) = f w) ->
  (forall l w, f (with_log l w) = f w) ->
  (forall b w, f (with_brk b w) = f w) ->
  preserves f (calloc_scan_data_ref E).
Proof.
  intros Hh Hl Hb w. unfold calloc_scan_data_ref.
  destruct (env_calloc E (log w)); cbn [snd]; rewrite ?Hl, ?Hb, ?Hh; reflexivity.
Qed.

#[local] Hint Resolve quiet_calloc_scan_data_ref : frame.

Lemma quiet_put_scan a : quiet (esp_wmngr_put_scan a).
Proof. unfold esp_wmngr_put_scan, free_scan_data, modify_ref, emit. repeat frame_step. Qed.

Lemma quiet_wifi_scan_done : quiet (wifi_scan_done E).
Proof.
  unfold wifi_scan_done. repeat frame_step; apply quiet_put_scan.
Qed.

Lemma quiet_wifi_scan_start : quiet (wifi_scan_start E).
Proof. unfold wifi_scan_start. repeat frame_step. Qed.

Lemma preserves_put_scan {T} (f : world -> T) a :
  (forall h w, f (with_heap h w) = f w) ->
  (forall l w, f (with_log l w) = f w) ->
  preserves f (esp_wmngr_put_scan a).
Proof.
  intros Hh Hl. unfold esp_wmngr_put_scan, free_scan_data, modify_ref, emit.
  repeat frame_step; intros w; cbn; rewrite ?Hl, ?Hh; reflexivity.
Qed.

Lemma preserves_core_wifi_scan_done : preserves cfg_core (wifi_scan_done E).
Proof.
  unfold wifi_scan_done.
  repeat frame_step;
    first [ apply preserves_put_scan; reflexivity
          | apply preserves_calloc_scan_data_ref; reflexivity ].
Qed.

Lemma preserves_core_wifi_scan_start : preserves cfg_core (wifi_scan_start E).
Proof. unfold wifi_scan_start. repeat frame_step. Qed.

Lemma preserves_nvs_wifi_scan_done : preserves nvs (wifi_scan_done E).
Proof.
  unfold wifi_scan_done.
  repeat frame_step;
    first [ apply preserves_put_scan; reflexivity
          | apply preserves_calloc_scan_data_ref; reflexivity ].
Qed.

Lemma preserves_nvs_wifi_scan_start : preserves nvs (wifi_scan_start E).
Proof. unfold wifi_scan_start. repeat frame_step. Qed.


Lemma bind_eq {A B} (m : M A) (k : A -> M B) w a w1 :
  m w = (a, w1) -> bind m k w = k a w1.
Proof. intros H. rewrite bind_unfold, H. reflexivity. Qed.

(** The part of [set_wifi_cfg] after the AP section only calls into the
    environment. *)
Lemma set_wifi_cfg_tail_calls_only (cfg : wifi_cfg) :
  calls_only
    (jump <-
       (if sta_bearing (mode cfg) then
          call_env E (c_esp_wifi_set_config_sta (sta cfg)) ;;
          if sta_static cfg then
            call_env E c_tcpip_adapter_dhcpc_stop ;;
            set_dns_loop E 0 (sta_dns_info cfg)
          else
            call_env E c_tcpip_adapter_dhcpc_start ;;
            ret None
        else ret None) ;;
     match jump with
     | Some r => ret r
     | None =>
         result <- call_env E c_esp_wifi_start ;;
         if sta_connect cfg && sta_bearing (mode cfg)
         then call_env E c_esp_wifi_connect
         else ret result
     end).
Proof. repeat frame_step; apply calls_only_set_dns_loop. Qed.

Lemma world_eq w1 w2 :
  cfg_state w1 = cfg_state w2 -> wifi_events w1 = wifi_events w2 ->
  nvs w1 = nvs w2 -> heap w1 = heap w2 -> brk w1 = brk w2 -> log w1 = log w2 ->
  w1 = w2.
Proof. destruct w1, w2; cbn; intros; subst; reflexivity. Qed.

(** [set_wifi_cfg(p)] copies [*p] to [current], fixes the client limit of
    an AP-bearing configuration in place, and otherwise only calls into the
    environment, beginning with [esp_wifi_restore] and [esp_wifi_set_mode]. *)
Lemma set_wifi_cfg_spec p w :
  exists r1 r2 rest,
    snd (set_wifi_cfg E p w) =
      only_logged
        (ev_call c_esp_wifi_restore r1
         :: ev_call (c_esp_wifi_set_mode (mode (slot_get p (cfg_state w)))) r2
         :: rest)
        (with_cfg_state (cfg_state_after_apply p (cfg_state w)) w) /\
    Forall is_call_event rest.
Proof.
  unfold set_wifi_cfg.
  erewrite bind_eq by reflexivity.
  erewrite bind_eq by reflexivity.
  erewrite bind_eq by reflexivity.
  erewrite bind_eq by reflexivity.
  lazymatch goal with
  | |- ex (fun _ => ex (fun _ => ex (fun _ => snd (bind ?m ?k ?w0) = _ /\ _))) =>
      set (w4 := w0); set (apm := m);
      destruct (set_wifi_cfg_tail_calls_only (slot_get p (cfg_state w))
                  (snd (apm w4))) as (evs & Hw & Hc)
  end.
  rewrite bind_unfold. cbv beta.
  unfold cfg_state_after_apply.
  destruct (ap_bearing (mode (slot_get p (cfg_state w)))) eqn:Hap.
  - do 2 eexists. eexists (_ :: evs). split.
    + etransitivity; [exact Hw|]. apply world_eq; cbn; try reflexivity.
      rewrite <- !app_assoc. cbn. reflexivity.
    + constructor; [exact I | exact Hc].
  - do 2 eexists. exists evs. split.
    + etransitivity; [exact Hw|]. apply world_eq; cbn; try reflexivity.
      rewrite <- !app_assoc. cbn. reflexivity.
    + exact Hc.
Qed.

(** *** The calls of [set_wifi_cfg] *)

Lemma last_status_snoc evs c r : last_status (evs ++ [ev_call c r]) = r.
Proof. unfold last_status. rewrite last_snoc. reflexivity. Qed.

Lemma last_status_app evs1 evs2 :
  evs2 <> [] -> last_status (evs1 ++ evs2) = last_status evs2.
Proof.
  intros H. destruct (exists_last H) as (evs & e & ->).
  unfold last_status. rewrite app_assoc, !last_snoc. reflexivity.
Qed.

Lemma answered_not_nil l c cs : answered E l (c :: cs) <> [].
Proof. cbn. discriminate. Qed.

(** The loop over the DNS servers makes the calls of [dns_calls]; when it
    leaves early, the calls [rest] that would have followed are not made. *)
Lemma set_dns_loop_answered ds : forall idx w rest,
  exists evs,
    snd (set_dns_loop E idx ds w) = only_logged evs w /\
    match fst (set_dns_loop E idx ds w) with
    | Some r =>
        answered E (log w) (dns_calls idx ds ++ rest) = evs /\
        exists evs0 c, evs = (evs0 ++ [ev_call c r])%list
    | None =>
        answered E (log w) (dns_calls idx ds ++ rest) =
          (evs ++ answered E (log w ++ evs) rest)%list
    end.
Proof.
  induction ds as [|d ds IH]; intros idx w rest; cbn [set_dns_loop dns_calls].
  - exists []. split; [symmetry; apply only_logged_nil|].
    cbn. rewrite app_nil_r. reflexivity.
  - destruct (dns_ip d =? 0).
    + cbn [app]. apply IH.
    + rewrite bind_unfold, call_env_eq. cbn [fst snd app answered ends_apply].
      set (r := env_status E (log w) (c_tcpip_adapter_set_dns_info idx d)).
      destruct (is_ok r) eqn:Hok; cbn [negb].
      * destruct (IH (S idx) (logged (c_tcpip_adapter_set_dns_info idx d) r w) rest)
          as (evs & Hw & Hm).
        exists (ev_call (c_tcpip_adapter_set_dns_info idx d) r :: evs). split.
        { rewrite Hw. unfold logged. fold (only_logged [ev_call (c_tcpip_adapter_set_dns_info idx d) r] w).
          rewrite only_logged_app. reflexivity. }
        destruct (fst (set_dns_loop E (S idx) ds _)).
        { destruct Hm as (Ha & evs0 & c & He). split.
          - cbn [log logged with_log] in Ha. rewrite Ha. reflexivity.
          - exists (ev_call (c_tcpip_adapter_set_dns_info idx d) r :: evs0), c.
            rewrite He. reflexivity. }
        { cbn [log logged with_log] in Hm. rewrite Hm.
          cbn [app]. rewrite <- app_assoc. reflexivity. }
      * exists [ev_call (c_tcpip_adapter_set_dns_info idx d) r]. cbn [fst snd ret].
        split; [reflexivity|]. split; [reflexivity|].
        exists [], (c_tcpip_adapter_set_dns_info idx d). reflexivity.
Qed.

(** The part of [set_wifi_cfg] after the AP section. *)
Lemma set_wifi_cfg_tail_trace (cfg : wifi_cfg) w :
  let evs :=
    answered E (log w)
      ((if sta_bearing (mode cfg)
        then c_esp_wifi_set_config_sta (sta cfg)
             :: (if sta_static cfg
                 then c_tcpip_adapter_dhcpc_stop :: dns_calls 0 (sta_dns_info cfg)
                 else [c_tcpip_adapter_dhcpc_start])
        else [])
       ++ [c_esp_wifi_start]
       ++ (if sta_connect cfg && sta_bearing (mode cfg) then [c_esp_wifi_connect] else [])) in
  (jump <-
     (if sta_bearing (mode cfg) then
        call_env E (c_esp_wifi_set_config_sta (sta cfg)) ;;
        if sta_static cfg then
          call_env E c_tcpip_adapter_dhcpc_stop ;;
          set_dns_loop E 0 (sta_dns_info cfg)
        else
          call_env E c_tcpip_adapter_dhcpc_start ;;
          ret None
      else ret None) ;;
   match jump with
   | Some r => ret r
   | None =>
       result <- call_env E c_esp_wifi_start ;;
       if sta_connect cfg && sta_bearing (mode cfg)
       then call_env E c_esp_wifi_connect
       else ret result
   end) w = (last_status evs, only_logged evs w) /\ evs <> [].
Proof.
  cbn zeta.
  assert (Hend : forall w0,
    (result <- call_env E c_esp_wifi_start ;;
     if sta_connect cfg && sta_bearing (mode cfg)
     then call_env E c_esp_wifi_connect
     else ret result) w0 =
    (last_status (answered E (log w0)
       ([c_esp_wifi_start]
        ++ (if sta_connect cfg && sta_bearing (mode cfg) then [c_esp_wifi_connect] else []))),
     only_logged (answered E (log w0)
       ([c_esp_wifi_start]
        ++ (if sta_connect cfg && sta_bearing (mode cfg) then [c_esp_wifi_connect] else [])))
       w0)).
  { intros w0. rewrite bind_unfold, call_env_eq. cbn [fst snd].
    destruct (sta_connect cfg && sta_bearing (mode cfg)).
    - rewrite call_env_eq. cbn [app answered ends_apply log logged with_log].
      apply pair_equal_spec. split; [reflexivity|].
      apply world_eq; cbn; try reflexivity. rewrite <- app_assoc. reflexivity.
    - cbn [app answered ends_apply ret]. reflexivity. }
  destruct (sta_bearing (mode cfg)) eqn:Hsta.
  - rewrite bind_unfold. rewrite (bind_unfold (call_env E _)). rewrite call_env_eq.
    cbn [fst snd app answered ends_apply].
    set (r1 := env_status E (log w) (c_esp_wifi_set_config_sta (sta cfg))).
    destruct (sta_static cfg).
    + rewrite (bind_unfold (call_env E _)). rewrite call_env_eq. cbn [fst snd].
      cbn [app answered ends_apply log logged with_log].
      set (r2 := env_status E _ c_tcpip_adapter_dhcpc_stop).
      set (w2 := logged c_tcpip_adapter_dhcpc_stop r2 (logged (c_esp_wifi_set_config_sta (sta cfg)) r1 w)).
      destruct (set_dns_loop_answered (sta_dns_info cfg) 0 w2
                  ([c_esp_wifi_start]
                   ++ (if sta_connect cfg && true then [c_esp_wifi_connect] else [])))
        as (evs & Hw & Hm).
      change ((log w ++ [ev_call (c_esp_wifi_set_config_sta (sta cfg)) r1])
              ++ [ev_call c_tcpip_adapter_dhcpc_stop r2])%list with (log w2).
      change (c_esp_wifi_start :: (if sta_connect cfg && true then [c_esp_wifi_connect] else []))
        with ([c_esp_wifi_start]
              ++ (if sta_connect cfg && true then [c_esp_wifi_connect] else []))%list.
      split; [|discriminate].
      set (pre := [ev_call (c_esp_wifi_set_config_sta (sta cfg)) r1;
                   ev_call c_tcpip_adapter_dhcpc_stop r2]).
      assert (Hw2 : w2 = only_logged pre w).
      { apply world_eq; cbn; try reflexivity. rewrite <- app_assoc. reflexivity. }
      destruct (fst (set_dns_loop E 0 (sta_dns_info cfg) w2)) as [r|].
      * destruct Hm as (Ha & evs0 & c & He). rewrite Ha, Hw, Hw2, only_logged_app.
        cbn [ret]. apply pair_equal_spec. split; [|reflexivity].
        rewrite He. symmetry.
        apply (last_status_snoc (pre ++ evs0) c r).
      * rewrite Hm, Hend, Hw. cbn [log only_logged with_log].
        apply pair_equal_spec. split.
        { symmetry.
          apply (last_status_app (pre ++ evs)). apply answered_not_nil. }
        rewrite Hw2, !only_logged_app. reflexivity.
    + rewrite (bind_unfold (call_env E _)). rewrite call_env_eq. cbn [fst snd ret].
      cbn [app answered ends_apply log logged with_log].
      set (r2 := env_status E _ c_tcpip_adapter_dhcpc_start).
      split; [|discriminate].
      rewrite Hend. cbn [log logged with_log app].
      set (pre := [ev_call (c_esp_wifi_set_config_sta (sta cfg)) r1;
                   ev_call c_tcpip_adapter_dhcpc_start r2]).
      apply pair_equal_spec. split.
      { symmetry. apply (last_status_app pre). apply answered_not_nil. }
      apply world_eq; cbn; try reflexivity. rewrite <- !app_assoc. reflexivity.
  - rewrite bind_unfold. cbn [ret fst snd]. rewrite Hend.
    split; [reflexivity | apply answered_not_nil].
Qed.

(** [set_wifi_cfg(p)] copies [*p] to [current], fixes the client limit of
    an AP-bearing configuration in place, and makes the calls of
    [apply_calls] for [*p]; it returns the status of the last call it
    made. *)
Lemma set_wifi_cfg_trace p w :
  let evs := apply_events E (log w) (slot_get p (cfg_state w)) in
  set_wifi_cfg E p w =
    (last_status evs,
     only_logged evs (with_cfg_state (cfg_state_after_apply p (cfg_state w)) w)).
Proof.
  cbn zeta. unfold set_wifi_cfg, apply_events, apply_calls, cfg_state_after_apply.
  erewrite bind_eq by reflexivity.
  erewrite bind_eq by reflexivity.
  erewrite bind_eq by reflexivity.
  erewrite bind_eq by reflexivity.
  set (cfg := slot_get p (cfg_state w)).
  cbn [app answered ends_apply].
  set (r1 := env_status E (log w) c_esp_wifi_restore).
  set (r2 := env_status E _ (c_esp_wifi_set_mode (mode cfg))).
  set (pre := [ev_call c_esp_wifi_restore r1; ev_call (c_esp_wifi_set_mode (mode cfg)) r2]).
  rewrite bind_unfold.
  lazymatch goal with
  | |- ?k (snd ?x) = _ =>
      destruct (set_wifi_cfg_tail_trace cfg (snd x)) as [Ht Hne];
      cbn zeta in Ht, Hne; rewrite Ht; clear Ht
  end.
  assert (Hslot : slot_get p (cs_set_current cfg (cfg_state w)) = cfg)
    by (destruct p; reflexivity).
  destruct (ap_bearing (mode cfg)) eqn:Hap.
  - rewrite !bind_unfold in *. unfold write_slot, read_slot, modify_cs, modify, gets in *.
    cbn [fst snd] in *. rewrite call_env_eq in *.
    cbn [fst snd log logged with_log with_cfg_state cfg_state] in *.
    rewrite Hslot in *.
    assert (Hget : forall x cs, slot_get p (slot_set p x cs) = x)
      by (intros x cs; destruct p; reflexivity).
    rewrite Hget in *. cbn [ap set_ap] in *.
    fold r1 in Hne |- *.
    apply pair_equal_spec. split.
    + symmetry.
      apply (last_status_app
               (pre ++ [ev_call (c_esp_wifi_set_config_ap
                                   (set_max_connection MAX_AP_CLIENTS (ap cfg))) _])).
      exact Hne.
    + apply world_eq; cbn [cfg_state wifi_events nvs heap brk log logged only_logged
                           with_log with_cfg_state app answered ends_apply];
        try reflexivity.
      rewrite <- !app_assoc. reflexivity.
  - cbn [ret fst snd log logged with_log with_cfg_state cfg_state app] in *.
    fold r1 in Hne |- *.
    apply pair_equal_spec. split.
    + symmetry. apply (last_status_app pre). exact Hne.
    + apply world_eq; cbn [cfg_state wifi_events nvs heap brk log only_logged with_log
                           with_cfg_state]; try reflexivity.
      rewrite <- !app_assoc. reflexivity.
Qed.

Lemma answered_calls cs : forall l, Forall is_call_event (answered E l cs).
Proof.
  induction cs as [|c cs IH]; intros l; cbn [answered]; constructor; [exact I|].
  destruct (ends_apply _ _); [constructor | apply IH].
Qed.

Lemma timer_refusal_app evs1 evs2 :
  timer_refusal (evs1 ++ evs2) = timer_refusal evs1 || timer_refusal evs2.
Proof. apply existsb_app. Qed.

Lemma timer_refusal_quiet evs : Forall is_quiet_event evs -> timer_refusal evs = false.
Proof.
  unfold timer_refusal. induction 1 as [|e evs He _ IH]; [reflexivity|].
  cbn [existsb]. rewrite IH. destruct e; try reflexivity; destruct He.
Qed.

Lemma timer_refusal_calls evs : Forall is_call_event evs -> timer_refusal evs = false.
Proof. intros H. apply timer_refusal_quiet, is_call_event_quiet, H. Qed.

Lemma all_ok_last_status evs : all_ok evs = true -> last_status evs = ESP_OK.
Proof.
  unfold all_ok, last_status. intros H.
  destruct (last evs) as [e|] eqn:Hl; [|reflexivity].
  apply last_Some in Hl as [evs' ->].
  rewrite forallb_app in H. apply andb_true_iff in H as [_ H]. cbn in H.
  destruct e; try reflexivity. apply is_ok_true. rewrite andb_true_r in H. exact H.
Qed.

End Frame.

(** ** [esp_wmngr_set_cfg] with an unchanged configuration *)

Section SetCfg.

Variable P : platform.
Variable E : environment.

Lemma is_call_event_not_timer evs period ok :
  Forall is_call_event evs -> ev_timer period ok ∉ evs.
Proof.
  intros Hf Hin. rewrite Forall_forall in Hf. exact (Hf _ Hin).
Qed.

(** C10 (amended). In a stable state, with the lock acquired and the
    snapshot of the radio configuration taken, a request [X] that agrees
    with the fall-back configuration (the snapshot, its station section
    zeroed when the station is not connected) in the mode, in the AP section
    when [X] is AP-bearing and in the station section when [X] is
    STA-bearing makes [esp_wmngr_set_cfg] return [ESP_OK] with the state
    unchanged and no wake-up armed, while [saved] becomes that fall-back
    configuration and [new] becomes [X] with [is_default] false. *)
Theorem esp_wmngr_set_cfg_unchanged (X : wifi_cfg) (w : world) :
  state_gt_idle (state (cfg_state w)) = false ->
  env_take E (log w) = true ->
  fst (fst (get_wifi_cfg E (only_logged [ev_take (CFG_DELAY P) true] w))) = ESP_OK ->
  let s := snd (fst (get_wifi_cfg E (only_logged [ev_take (CFG_DELAY P) true] w))) in
  let fb := fallback_of_snapshot (wifi_events w) s in
  mode X = mode fb ->
  (ap_bearing (mode X) = true -> ap X = ap fb) ->
  (sta_bearing (mode X) = true -> sta X = sta fb) ->
  fst (esp_wmngr_set_cfg P E X w) = ESP_OK /\
  state (cfg_state (snd (esp_wmngr_set_cfg P E X w))) = state (cfg_state w) /\
  (forall period ok,
     ev_timer period ok ∉ new_events w (snd (esp_wmngr_set_cfg P E X w))) /\
  saved (cfg_state (snd (esp_wmngr_set_cfg P E X w))) = fb /\
  new (cfg_state (snd (esp_wmngr_set_cfg P E X w))) = set_is_default false X.
Proof.
  intros Hs Ht. cbn zeta.
  intros Hok Hm Hap Hsta.
  destruct (calls_only_get_wifi_cfg E (only_logged [ev_take (CFG_DELAY P) true] w))
    as (evs & Hw2 & Hcalls).
  set (fb := fallback_of_snapshot (wifi_events w)
               (snd (fst (get_wifi_cfg E (only_logged [ev_take (CFG_DELAY P) true] w))))) in *.
  assert (Heq : esp_wmngr_set_cfg P E X w =
    (ESP_OK,
     only_logged ([ev_take (CFG_DELAY P) true] ++ evs ++ [ev_give])
       (with_cfg_state
          (cs_set_new (set_is_default false X) (cs_set_saved fb (cfg_state w))) w))).
  { unfold esp_wmngr_set_cfg. rewrite bind_unfold.
    unfold xSemaphoreTake at 1 2. cbn [fst snd]. rewrite Ht. cbn [negb].
    change (with_log (log w ++ [ev_take (CFG_DELAY P) true]) w)
      with (only_logged [ev_take (CFG_DELAY P) true] w) in *.
    set (w1 := only_logged [ev_take (CFG_DELAY P) true] w) in *.
    erewrite bind_eq by reflexivity.
    change (state (cfg_state w1)) with (state (cfg_state w)). rewrite Hs.
    destruct (get_wifi_cfg E w1) as [[r s] w2] eqn:Hg.
    cbn [fst snd] in *. subst r w2.
    rewrite bind_unfold.
    erewrite (bind_eq (get_wifi_cfg E)) by exact Hg. cbn [fst snd].
    unfold sta_connected, xEventGroupGetBits, read_slot, write_slot, modify_cs,
      modify, gets, set_state, emit, modify, xSemaphoreGive, emit, modify, bind, ret.
    clear Hg. subst w1 fb.
    cbn [fst snd is_ok negb wifi_events with_cfg_state only_logged with_log].
    unfold fallback_of_snapshot in *.
    destruct (test_bits (wifi_events w) BIT_STA_CONNECTED) eqn:Hc; cbn [negb fst snd].
    all: cbn [slot_get slot_set cs_set_new cs_set_saved new saved cfg_state
              with_cfg_state set_is_default mode ap sta set_sta] in *.
    all: rewrite (bool_decide_eq_true_2 _ Hm); cbn [negb orb].
    all: destruct (ap_bearing (mode X)) eqn:Hab; cbn [andb orb];
         [rewrite (bool_decide_eq_true_2 _ (Hap eq_refl))|];
         cbn [negb orb].
    all: destruct (sta_bearing (mode X)) eqn:Hsb; cbn [andb orb];
         [rewrite (bool_decide_eq_true_2 _ (Hsta eq_refl))|];
         cbn [negb orb].
    all: f_equal; apply world_eq; cbn; try reflexivity.
    all: rewrite <- !app_assoc; reflexivity. }
  rewrite Heq. cbn [fst snd].
  rewrite (new_events_app w _ ([ev_take (CFG_DELAY P) true] ++ evs ++ [ev_give]))
    by reflexivity.
  repeat split.
  intros period ok Hin. rewrite !elem_of_app in Hin.
  destruct Hin as [Hin | [Hin | Hin]];
    [ apply list_elem_of_singleton in Hin; discriminate
    | exact (is_call_event_not_timer _ _ _ Hcalls Hin)
    | apply list_elem_of_singleton in Hin; discriminate ].
Qed.

End SetCfg.

Lemma esp_wmngr_set_cfg_unchanged_witness :
  state (cfg_state (snd (esp_wmngr_set_cfg platform_10ms env_ok cfg_home
    (world_of wmngr_state_connected cfg_factory cfg_home cfg_home 4 ∅))))
  = wmngr_state_connected.
Proof.
  apply (esp_wmngr_set_cfg_unchanged platform_10ms env_ok cfg_home
    (world_of wmngr_state_connected cfg_factory cfg_home cfg_home 4 ∅));
    try reflexivity; intros _; reflexivity.
Defined.

(** C10 as stated, the request being compared with the snapshot of the
    radio configuration itself, fails: the station is not connected, the
    radio holds the station section of the request, and the request, equal
    to the snapshot in mode, AP section and station section, moves the state
    to [update] and arms the wake-up. *)
Lemma esp_wmngr_set_cfg_same_as_radio_updates :
  ~ set_cfg_unchanged_statement platform_10ms env_ok (fun _ s => s) cfg_home
      (world_of wmngr_state_failed cfg_factory cfg_home cfg_home 0 ∅).
Proof.
  intros H.
  destruct H as (_ & Hst & _); try reflexivity; try (intros _; reflexivity).
  vm_compute in Hst. discriminate.
Qed.

(** ** One step of the state machine *)

Section Step.

Variable P : platform.
Variable E : environment.

Lemma handle_wifi_exit_eq delay w :
  snd (handle_wifi_exit E delay w) =
    if delay >? 0 then
      if env_timer E (log w ++ [ev_give])
      then only_logged [ev_give; ev_timer delay true] w
      else only_logged [ev_give; ev_timer delay false; ev_state wmngr_state_failed]
             (with_cfg_state (cs_set_state wmngr_state_failed (cfg_state w)) w)
    else only_logged [ev_give] w.
Proof.
  unfold handle_wifi_exit, xSemaphoreGive, emit, modify, xTimerChangePeriod,
    set_state, modify_cs, modify, emit, bind, ret, only_logged. cbn [fst snd].
  destruct (delay >? 0); [|reflexivity]. cbn [log with_log].
  destruct (env_timer E (log w ++ [ev_give])); cbn;
    rewrite <- !app_assoc; reflexivity.
Qed.

(** The exit gives the lock back and arms the wake-up when [delay] is
    positive; it touches the state only when the timer refuses, and then
    sets it to [failed]. *)
Lemma handle_wifi_exit_spec delay w :
  exists tail,
    log (snd (handle_wifi_exit E delay w)) = (log w ++ tail)%list /\
    (forall s, ev_state s ∈ tail -> s = wmngr_state_failed) /\
    (state (cfg_state (snd (handle_wifi_exit E delay w))) = state (cfg_state w) \/
     state (cfg_state (snd (handle_wifi_exit E delay w))) = wmngr_state_failed) /\
    cfg_timestamp (cfg_state (snd (handle_wifi_exit E delay w))) = cfg_timestamp (cfg_state w) /\
    saved (cfg_state (snd (handle_wifi_exit E delay w))) = saved (cfg_state w) /\
    current (cfg_state (snd (handle_wifi_exit E delay w))) = current (cfg_state w) /\
    new (cfg_state (snd (handle_wifi_exit E delay w))) = new (cfg_state w) /\
    nvs (snd (handle_wifi_exit E delay w)) = nvs w /\
    wifi_events (snd (handle_wifi_exit E delay w)) = wifi_events w /\
    (timer_reliable E ->
     state (cfg_state (snd (handle_wifi_exit E delay w))) = state (cfg_state w) /\
     tail = if delay >? 0 then [ev_give; ev_timer delay true] else [ev_give]).
Proof.
  rewrite handle_wifi_exit_eq.
  destruct (delay >? 0).
  - destruct (env_timer E (log w ++ [ev_give])) eqn:Ht.
    + exists [ev_give; ev_timer delay true]. cbn.
      split; [reflexivity|]. split.
      { intros s Hin.
        repeat (apply elem_of_cons in Hin as [Hin | Hin]; [discriminate|]).
        apply elem_of_nil in Hin. contradiction. }
      do 7 (split; [auto; fail|]). intros _. split; reflexivity.
    + exists [ev_give; ev_timer delay false; ev_state wmngr_state_failed]. cbn.
      split; [reflexivity|]. split.
      { intros s Hin.
        apply elem_of_cons in Hin as [Hin | Hin]; [discriminate|].
        apply elem_of_cons in Hin as [Hin | Hin]; [discriminate|].
        apply elem_of_cons in Hin as [Hin | Hin]; [congruence|].
        apply elem_of_nil in Hin. contradiction. }
      do 7 (split; [auto; fail|]). intros HT. rewrite HT in Ht. discriminate.
  - exists [ev_give]. cbn.
    split; [reflexivity|]. split.
    { intros s Hin. apply list_elem_of_singleton in Hin. discriminate. }
    do 7 (split; [auto; fail|]). intros _. split; reflexivity.
Qed.

(** With the lock and the radio mode, [handle_wifi] is its [switch], the
    scan part unless the [switch] left by [goto on_exit], and the exit. *)
Lemma handle_wifi_dispatch w :
  dispatches E w ->
  snd (handle_wifi P E w) =
    let y := handle_wifi_switch P E (test_bits (wifi_events w) (BIT_STA_CONNECTED))
               (wifi_events w) (step_now E w) (dispatch_world w) in
    let d := if snd (fst y) then (fst (fst y), snd y)
             else handle_wifi_scan P E (wifi_events w) (fst (fst y)) (snd y) in
    snd (handle_wifi_exit E (fst d) (snd d)).
Proof.
  intros [Ht Hm]. unfold handle_wifi.
  rewrite bind_unfold. unfold xSemaphoreTake at 1 2. cbn [fst snd]. rewrite Ht.
  cbn [negb].
  unfold sta_connected, xEventGroupGetBits, xTaskGetTickCount.
  erewrite bind_eq by reflexivity.
  erewrite bind_eq by reflexivity.
  erewrite bind_eq by reflexivity.
  erewrite bind_eq by reflexivity.
  unfold gets. cbn [fst snd log with_log wifi_events].
  rewrite Hm. cbn [fst snd is_ok negb].
  rewrite bind_unfold. rewrite bind_unfold. cbn zeta.
  unfold dispatch_world, step_now, only_logged.
  rewrite <- app_assoc. cbn [app].
  destruct (snd (fst (handle_wifi_switch P E _ _ _ _))); reflexivity.
Qed.


(** With the lock but without an answer to the mode query, [handle_wifi]
    sets the state to [failed] and leaves by [on_exit] with no delay. *)
Lemma handle_wifi_mode_unread w :
  env_take E (log w) = true ->
  env_status E (log w ++ [ev_take 0 true]) c_esp_wifi_get_mode <> ESP_OK ->
  snd (handle_wifi P E w) =
    only_logged
      [ev_take 0 true;
       ev_call c_esp_wifi_get_mode
         (env_status E (log w ++ [ev_take 0 true]) c_esp_wifi_get_mode);
       ev_state wmngr_state_failed; ev_give]
      (with_cfg_state (cs_set_state wmngr_state_failed (cfg_state w)) w).
Proof.
  intros Ht Hm. apply is_ok_false in Hm. unfold handle_wifi.
  rewrite bind_unfold. unfold xSemaphoreTake at 1 2. cbn [fst snd]. rewrite Ht.
  cbn [negb].
  unfold sta_connected, xEventGroupGetBits, xTaskGetTickCount.
  erewrite bind_eq by reflexivity.
  erewrite bind_eq by reflexivity.
  erewrite bind_eq by reflexivity.
  erewrite bind_eq by reflexivity.
  unfold gets. cbn [fst snd log with_log wifi_events].
  rewrite Hm. cbn [negb]. rewrite !bind_unfold. cbn.
  apply world_eq; cbn; try reflexivity. rewrite <- !app_assoc. reflexivity.
Qed.

(** The exit, the refusals of the timer being read off the log: the state
    is [failed] when the timer refused, and otherwise what it was. *)
Lemma handle_wifi_exit_refusal delay w :
  exists tail,
    log (snd (handle_wifi_exit E delay w)) = (log w ++ tail)%list /\
    state (cfg_state (snd (handle_wifi_exit E delay w))) =
      (if timer_refusal tail then wmngr_state_failed else state (cfg_state w)) /\
    (timer_refusal tail = false ->
     tail = if delay >? 0 then [ev_give; ev_timer delay true] else [ev_give]) /\
    (timer_refusal tail = true ->
     tail = [ev_give; ev_timer delay false; ev_state wmngr_state_failed]) /\
    cfg_timestamp (cfg_state (snd (handle_wifi_exit E delay w))) = cfg_timestamp (cfg_state w) /\
    saved (cfg_state (snd (handle_wifi_exit E delay w))) = saved (cfg_state w) /\
    current (cfg_state (snd (handle_wifi_exit E delay w))) = current (cfg_state w) /\
    new (cfg_state (snd (handle_wifi_exit E delay w))) = new (cfg_state w) /\
    nvs (snd (handle_wifi_exit E delay w)) = nvs w /\
    wifi_events (snd (handle_wifi_exit E delay w)) = wifi_events w.
Proof.
  rewrite handle_wifi_exit_eq.
  destruct (delay >? 0).
  - destruct (env_timer E (log w ++ [ev_give])).
    + exists [ev_give; ev_timer delay true]. cbn. repeat split; auto; discriminate.
    + exists [ev_give; ev_timer delay false; ev_state wmngr_state_failed]. cbn.
      repeat split; auto; discriminate.
  - exists [ev_give]. cbn. repeat split; auto; discriminate.
Qed.

Lemma preserves_core_handle_wifi_scan events delay :
  preserves cfg_core (handle_wifi_scan P E events delay).
Proof.
  unfold handle_wifi_scan, xEventGroupGetBits.
  repeat frame_step;
    first [ apply preserves_core_wifi_scan_start | apply preserves_core_wifi_scan_done ].
Qed.

Lemma preserves_nvs_handle_wifi_scan events delay :
  preserves nvs (handle_wifi_scan P E events delay).
Proof.
  unfold handle_wifi_scan, xEventGroupGetBits.
  repeat frame_step;
    first [ apply preserves_nvs_wifi_scan_start | apply preserves_nvs_wifi_scan_done ].
Qed.

Lemma quiet_handle_wifi_scan events delay :
  quiet (handle_wifi_scan P E events delay).
Proof.
  unfold handle_wifi_scan, xEventGroupGetBits.
  repeat frame_step;
    first [ apply quiet_wifi_scan_start | apply quiet_wifi_scan_done ].
Qed.

(** The scan part leaves the delay as it is or sets it to [CFG_DELAY]. *)
Lemma handle_wifi_scan_delay events delay w :
  fst (handle_wifi_scan P E events delay w) = delay \/
  fst (handle_wifi_scan P E events delay w) = CFG_DELAY P.
Proof.
  unfold handle_wifi_scan. rewrite bind_unfold. cbn [gets fst snd].
  destruct (state_le_idle _); [|left; reflexivity].
  rewrite !bind_unfold. destruct (test_bits _ _); [right | left]; reflexivity.
Qed.

(** In a stable state the scan part asks for a wake-up after [CFG_DELAY]
    exactly when it leaves a scan request or a scan result pending. *)
Lemma handle_wifi_scan_pending events delay w :
  state_le_idle (state (cfg_state w)) = true ->
  fst (handle_wifi_scan P E events delay w) =
    if test_bits (wifi_events (snd (handle_wifi_scan P E events delay w)))
         (Z.lor BIT_SCAN_START BIT_SCAN_DONE)
    then CFG_DELAY P else delay.
Proof.
  intros H. unfold handle_wifi_scan. rewrite bind_unfold. cbn [gets fst snd].
  rewrite H. rewrite !bind_unfold. unfold xEventGroupGetBits. cbn [gets fst snd].
  destruct (test_bits (wifi_events _) _) eqn:Hb; cbn [ret fst snd]; rewrite Hb;
    reflexivity.
Qed.

(** Outside a stable state the scan part does nothing. *)
Lemma handle_wifi_scan_skip events delay w :
  state_le_idle (state (cfg_state w)) = false ->
  handle_wifi_scan P E events delay w = (delay, w).
Proof.
  intros H. unfold handle_wifi_scan. rewrite bind_unfold. cbn [gets fst snd].
  rewrite H. reflexivity.
Qed.


(** The [switch] in state [fallback]. *)
Lemma handle_wifi_switch_fallback connected events now w :
  state (cfg_state w) = wmngr_state_fallback ->
  handle_wifi_switch P E connected events now w =
    let w1 := logged c_esp_wifi_disconnect
                (env_status E (log w) c_esp_wifi_disconnect) w in
    let w2 := snd (set_wifi_cfg E slot_saved w1) in
    ((0, false),
     only_logged [ev_state wmngr_state_failed]
       (with_cfg_state (cs_set_state wmngr_state_failed (cfg_state w2)) w2)).
Proof.
  intros Hs. unfold handle_wifi_switch.
  erewrite bind_eq by reflexivity. rewrite Hs.
  erewrite bind_eq by reflexivity.
  rewrite bind_unfold. reflexivity.
Qed.

End Step.
Section Fallback.

Variable P : platform.
Variable E : environment.

Lemma run_events_only_logged {A} (m : M A) w evs w0 :
  snd (m w) = only_logged evs w0 -> log w0 = log w -> run_events m w = evs.
Proof.
  intros H Hl. unfold run_events. apply new_events_app. rewrite H.
  unfold only_logged. cbn. rewrite Hl. reflexivity.
Qed.

(** C1 (amended). A step of the state machine in state [fallback] that
    gets the lock.  Whatever the radio answers, [failed] is the state on
    return and the only state assigned during the step, and [new] is left
    as it is.  When the radio answers the mode query, the step disconnects
    and then makes the calls of [apply_calls] for [saved], each followed by
    the next whatever it answers (only a DNS server that cannot be set ends
    the sequence), before it assigns [failed]; [current] then holds the
    contents [saved] had, and [saved] has its AP client limit fixed to
    [MAX_AP_CLIENTS] when its mode is AP-bearing.  When the radio does not
    answer the mode query, the step assigns [failed] and gives the lock
    back: it neither disconnects nor applies anything, and [current] and
    [saved] are left as they are. *)
Theorem handle_wifi_fallback (w : world) :
  state (cfg_state w) = wmngr_state_fallback ->
  env_take E (log w) = true ->
  let w' := snd (handle_wifi P E w) in
  let rm := env_status E (log w ++ [ev_take 0 true]) c_esp_wifi_get_mode in
  state (cfg_state w') = wmngr_state_failed /\
  (forall s, ev_state s ∈ new_events w w' -> s = wmngr_state_failed) /\
  new (cfg_state w') = new (cfg_state w) /\
  (rm = ESP_OK ->
   exists r rest,
     let head := [ev_take 0 true; ev_call c_esp_wifi_get_mode ESP_OK;
                  ev_call c_esp_wifi_disconnect r] in
     new_events w w' =
       (head ++ apply_events E (log w ++ head) (saved (cfg_state w))
        ++ ev_state wmngr_state_failed :: rest)%list /\
     current (cfg_state w') = saved (cfg_state w) /\
     saved (cfg_state w') =
       (if ap_bearing (mode (saved (cfg_state w)))
        then set_ap (set_max_connection MAX_AP_CLIENTS (ap (saved (cfg_state w))))
               (saved (cfg_state w))
        else saved (cfg_state w))) /\
  (rm <> ESP_OK ->
   new_events w w' =
     [ev_take 0 true; ev_call c_esp_wifi_get_mode rm;
      ev_state wmngr_state_failed; ev_give] /\
   current (cfg_state w') = current (cfg_state w) /\
   saved (cfg_state w') = saved (cfg_state w)).
Proof.
  intros Hs Ht. cbn zeta.
  destruct (is_ok (env_status E (log w ++ [ev_take 0 true]) c_esp_wifi_get_mode)) eqn:Hm.
  2:{ apply is_ok_false in Hm.
      rewrite (handle_wifi_mode_unread P E w Ht Hm).
      erewrite new_events_app by reflexivity.
      split; [reflexivity|]. split.
      { intros s Hin.
        repeat (apply elem_of_cons in Hin as [Hin | Hin]; [congruence|]).
        apply elem_of_nil in Hin. contradiction. }
      split; [reflexivity|]. split; [intros Hok; contradiction|].
      intros _. repeat split. }
  apply is_ok_true in Hm.
  assert (Hd : dispatches E w) by (split; assumption).
  rewrite (handle_wifi_dispatch P E w Hd). cbn zeta.
  rewrite handle_wifi_switch_fallback by exact Hs. cbn zeta. cbn [fst snd].
  set (r := env_status E (log (dispatch_world w)) c_esp_wifi_disconnect).
  set (w1 := logged c_esp_wifi_disconnect r (dispatch_world w)).
  pose proof (set_wifi_cfg_trace E slot_saved w1) as Hw2. cbn zeta in Hw2.
  assert (Hl1 : log w1 = (log w ++ [ev_take 0 true; ev_call c_esp_wifi_get_mode ESP_OK;
                                    ev_call c_esp_wifi_disconnect r])%list).
  { unfold w1, dispatch_world. cbn [log logged only_logged with_log].
    rewrite <- !app_assoc. reflexivity. }
  change (slot_get slot_saved (cfg_state w1)) with (saved (cfg_state w)) in Hw2.
  rewrite Hl1 in Hw2.
  set (applied := apply_events E _ (saved (cfg_state w))) in Hw2.
  apply (f_equal snd) in Hw2. cbn [snd] in Hw2.
  set (w2 := snd (set_wifi_cfg E slot_saved w1)) in *.
  set (w3 := only_logged [ev_state wmngr_state_failed]
               (with_cfg_state (cs_set_state wmngr_state_failed (cfg_state w2)) w2)).
  pose proof (preserves_core_handle_wifi_scan P E (wifi_events w) 0 w3) as Hcore.
  destruct (quiet_handle_wifi_scan P E (wifi_events w) 0 w3) as (evs & Hlog & Hq).
  set (x := handle_wifi_scan P E (wifi_events w) 0 w3) in *.
  destruct (handle_wifi_exit_spec E (fst x) (snd x))
    as (tail & Hlf & Htail & Hst & _ & Hsv & Hcur & Hnew & _).
  set (wf := snd (handle_wifi_exit E (fst x) (snd x))) in *.
  unfold cfg_core in Hcore. injection Hcore as _ Hst3 Hsv3 Hcur3 Hnew3.
  assert (Hcs2 : cfg_state w2 = cfg_state_after_apply slot_saved (cfg_state w))
    by (rewrite Hw2; reflexivity).
  assert (Hl2 : log w2 = (log w1 ++ applied)%list) by (rewrite Hw2; reflexivity).
  assert (Hnewev : new_events w wf =
    ([ev_take 0 true; ev_call c_esp_wifi_get_mode ESP_OK;
      ev_call c_esp_wifi_disconnect r]
     ++ applied ++ ev_state wmngr_state_failed :: (evs ++ tail))%list).
  { apply new_events_app. rewrite Hlf, Hlog.
    unfold w3. cbn [log only_logged with_log with_cfg_state]. rewrite Hl2, Hl1.
    rewrite <- !app_assoc. reflexivity. }
  split.
  { destruct Hst as [Hst | Hst]; [|exact Hst]. rewrite Hst, Hst3. reflexivity. }
  split.
  { intros s Hin. rewrite Hnewev in Hin.
    rewrite !elem_of_app in Hin. destruct Hin as [Hin | [Hin | Hin]].
    - repeat (apply elem_of_cons in Hin as [Hin | Hin]; [discriminate|]).
      apply elem_of_nil in Hin. contradiction.
    - pose proof (answered_calls E (apply_calls (saved (cfg_state w)))
                    (log w ++ [ev_take 0 true; ev_call c_esp_wifi_get_mode ESP_OK;
                               ev_call c_esp_wifi_disconnect r])) as Hcalls.
      rewrite Forall_forall in Hcalls. destruct (Hcalls _ Hin).
    - apply elem_of_cons in Hin as [Hin | Hin]; [congruence|].
      rewrite elem_of_app in Hin. destruct Hin as [Hin | Hin].
      + rewrite Forall_forall in Hq. destruct (Hq _ Hin).
      + apply Htail. exact Hin. }
  split.
  { rewrite Hnew, Hnew3. unfold w3. cbn [cfg_state only_logged with_log with_cfg_state
      new cs_set_state]. rewrite Hcs2. unfold cfg_state_after_apply.
    cbn [slot_get slot_set]. destruct (ap_bearing _); reflexivity. }
  split; [|intros Hne; contradiction].
  intros _. exists r, (evs ++ tail)%list. cbn zeta.
  split; [exact Hnewev|].
  split.
  { rewrite Hcur, Hcur3. unfold w3. cbn [cfg_state only_logged with_log with_cfg_state
      current cs_set_state]. rewrite Hcs2. unfold cfg_state_after_apply.
    cbn [slot_get slot_set]. destruct (ap_bearing _); reflexivity. }
  rewrite Hsv, Hsv3. unfold w3. cbn [cfg_state only_logged with_log with_cfg_state
    saved cs_set_state]. rewrite Hcs2. unfold cfg_state_after_apply.
  cbn [slot_get slot_set]. destruct (ap_bearing _); reflexivity.
Qed.

End Fallback.

Lemma handle_wifi_fallback_witness :
  new_events
    (world_of wmngr_state_fallback cfg_factory cfg_home cfg_home 0 ∅)
    (snd (handle_wifi platform_10ms env_ok
       (world_of wmngr_state_fallback cfg_factory cfg_home cfg_home 0 ∅)))
  = [ev_take 0 true; ev_call c_esp_wifi_get_mode ESP_OK;
     ev_call c_esp_wifi_disconnect ESP_OK;
     ev_call c_esp_wifi_restore ESP_OK;
     ev_call (c_esp_wifi_set_mode WIFI_MODE_APSTA) ESP_OK;
     ev_call (c_esp_wifi_set_config_ap default_ap) ESP_OK;
     ev_call (c_esp_wifi_set_config_sta zero_sta) ESP_OK;
     ev_call c_tcpip_adapter_dhcpc_start ESP_OK;
     ev_call c_esp_wifi_start ESP_OK;
     ev_state wmngr_state_failed; ev_give] /\
  current (cfg_state (snd (handle_wifi platform_10ms env_ok
    (world_of wmngr_state_fallback cfg_factory cfg_home cfg_home 0 ∅))))
  = cfg_factory.
Proof.
  destruct (handle_wifi_fallback platform_10ms env_ok
    (world_of wmngr_state_fallback cfg_factory cfg_home cfg_home 0 ∅)
    eq_refl eq_refl)
    as (_ & _ & _ & H & _).
  destruct (H eq_refl) as (r & rest & _ & Hcur & _).
  split; [vm_compute; reflexivity | exact Hcur].
Defined.

(** C1 as stated fails for a step that does not get as far as its
    [switch].  With [saved] the home configuration and [current] the
    factory configuration: when the radio does not answer the mode query
    the step sets the state to [failed] but never disconnects, and
    [current] is still the factory configuration; when the lock is busy
    the step does nothing but ask to be woken again. *)
Lemma fallback_step_not_dispatched :
  ~ fallback_step_statement platform_10ms env_mode_unread
      (world_of wmngr_state_fallback cfg_home cfg_factory cfg_home 0 ∅) /\
  ~ fallback_step_statement platform_10ms env_lock_busy
      (world_of wmngr_state_fallback cfg_home cfg_factory cfg_home 0 ∅).
Proof.
  split; intros H; destruct (H eq_refl) as (_ & _ & Hcur & _);
    vm_compute in Hcur; discriminate Hcur.
Qed.

Section Update.

Variable P : platform.
Variable E : environment.



Lemma state_le_idle_core w1 w2 :
  cfg_core w1 = cfg_core w2 -> state (cfg_state w1) = state (cfg_state w2).
Proof. unfold cfg_core. intros [= _ H _ _ _]. exact H. Qed.


End Update.



(** ** Starting a scan *)

Section ScanStart.

Variable E : environment.

Lemma land_lor_same x b : Z.land (Z.lor x b) b = b.
Proof.
  apply Z.bits_inj'. intros n _. rewrite Z.land_spec, Z.lor_spec.
  destruct (Z.testbit x n), (Z.testbit b n); reflexivity.
Qed.

Lemma land_lor_other x b m : Z.land b m = 0 -> Z.land (Z.lor x b) m = Z.land x m.
Proof.
  intros H. apply Z.bits_inj'. intros n Hn.
  assert (Hb : Z.testbit (Z.land b m) n = false) by (rewrite H; apply Z.bits_0).
  rewrite Z.land_spec in Hb. rewrite !Z.land_spec, Z.lor_spec.
  destruct (Z.testbit x n), (Z.testbit b n), (Z.testbit m n);
    try reflexivity; discriminate.
Qed.

Lemma land_ldiff_other x b m : Z.land b m = 0 -> Z.land (Z.ldiff x b) m = Z.land x m.
Proof.
  intros H. apply Z.bits_inj'. intros n Hn.
  assert (Hb : Z.testbit (Z.land b m) n = false) by (rewrite H; apply Z.bits_0).
  rewrite Z.land_spec in Hb. rewrite !Z.land_spec, Z.ldiff_spec.
  destruct (Z.testbit x n), (Z.testbit b n), (Z.testbit m n);
    try reflexivity; discriminate.
Qed.

Lemma land_ldiff_same x b : Z.land (Z.ldiff x b) b = 0.
Proof.
  apply Z.bits_inj'. intros n _. rewrite Z.land_spec, Z.ldiff_spec, Z.bits_0.
  destruct (Z.testbit x n), (Z.testbit b n); reflexivity.
Qed.

Lemma test_bits_set_same x b : b <> 0 -> test_bits (Z.lor x b) b = true.
Proof.
  intros Hb. unfold test_bits. rewrite land_lor_same.
  apply negb_true_iff, Z.eqb_neq. exact Hb.
Qed.

Lemma test_bits_set_other x b m :
  Z.land b m = 0 -> test_bits (Z.lor x b) m = test_bits x m.
Proof. intros H. unfold test_bits. rewrite land_lor_other by exact H. reflexivity. Qed.

Lemma test_bits_clear_other x b m :
  Z.land b m = 0 -> test_bits (Z.ldiff x b) m = test_bits x m.
Proof. intros H. unfold test_bits. rewrite land_ldiff_other by exact H. reflexivity. Qed.

Lemma test_bits_clear_same x b : test_bits (Z.ldiff x b) b = false.
Proof. unfold test_bits. rewrite land_ldiff_same. reflexivity. Qed.

(** What [wifi_scan_start] does in a stable state. *)
Lemma wifi_scan_start_eq w :
  state_le_idle (state (cfg_state w)) = true ->
  snd (wifi_scan_start E w) =
    let cleared := with_wifi_events (Z.ldiff (wifi_events w) BIT_SCAN_START) w in
    let r := env_status E (log w) c_esp_wifi_get_mode in
    let w1 := logged c_esp_wifi_get_mode r cleared in
    if negb (is_ok r) then w1 else
    if negb (scan_mode (env_mode E (log w))) then w1 else
    if test_bits (wifi_events w1) (Z.lor BIT_SCAN_RUNNING BIT_SCAN_DONE) then w1 else
    let w2 := with_wifi_events (Z.lor (wifi_events w1) BIT_SCAN_START) w1 in
    let rs := env_status E (log w2) (c_esp_wifi_scan_start true true false) in
    let w3 := logged (c_esp_wifi_scan_start true true false) rs w2 in
    if is_ok rs then with_wifi_events (Z.lor (wifi_events w3) BIT_SCAN_RUNNING) w3
    else w3.
Proof.
  intros Hs. unfold wifi_scan_start.
  erewrite bind_eq by reflexivity.
  assert (Hg : state_gt_idle (state (cfg_state w)) = false).
  { unfold state_gt_idle, state_le_idle in *. apply Z.leb_le in Hs.
    apply Z.ltb_ge. exact Hs. }
  rewrite Hg.
  erewrite bind_eq by reflexivity.
  erewrite bind_eq by reflexivity.
  cbn zeta. cbn [fst snd log with_wifi_events].
  destruct (negb (is_ok _)); [reflexivity|].
  unfold scan_mode. rewrite negb_orb.
  destruct (negb (bool_decide _) && negb (bool_decide _)); [reflexivity|].
  erewrite bind_eq by reflexivity.
  cbn [wifi_events with_wifi_events with_log logged].
  destruct (test_bits _ _); cbn [negb]; [reflexivity|].
  erewrite bind_eq by reflexivity.
  rewrite bind_unfold. unfold call_env at 1 2. cbn [fst snd].
  destruct (is_ok _); reflexivity.
Qed.


Lemma test_bits_lor_false e a b :
  test_bits e (Z.lor a b) = false -> test_bits e a = false.
Proof.
  unfold test_bits. rewrite !negb_false_iff, !Z.eqb_eq, Z.land_lor_distr_r.
  intros H. apply Z.lor_eq_0_iff in H. tauto.
Qed.

(** C7 (amended). [wifi_scan_start] in a stable state never changes
    [cfg_state] and first clears [scan_start] and asks the radio for its
    mode.  When that query fails or the mode is neither STA nor APSTA, and
    when a scan is running or done but not collected, it does nothing more:
    no scan is requested and [scan_start] is clear on return.  Otherwise it
    sets [scan_start] again and requests an active scan that includes
    hidden networks, without blocking; on return [scan_start] is set, and
    [scan_running] is set exactly when the request succeeded. *)
Theorem wifi_scan_start_stable (w : world) :
  state_le_idle (state (cfg_state w)) = true ->
  let w' := snd (wifi_scan_start E w) in
  let r := env_status E (log w) c_esp_wifi_get_mode in
  let m := env_mode E (log w) in
  let busy := test_bits (wifi_events w) (Z.lor BIT_SCAN_RUNNING BIT_SCAN_DONE) in
  cfg_state w' = cfg_state w /\
  (is_ok r = false \/ scan_mode m = false ->
   new_events w w' = [ev_call c_esp_wifi_get_mode r] /\
   wifi_events w' = Z.ldiff (wifi_events w) BIT_SCAN_START /\
   test_bits (wifi_events w') BIT_SCAN_START = false) /\
  (is_ok r = true -> scan_mode m = true -> busy = true ->
   new_events w w' = [ev_call c_esp_wifi_get_mode r] /\
   wifi_events w' = Z.ldiff (wifi_events w) BIT_SCAN_START /\
   test_bits (wifi_events w') BIT_SCAN_START = false) /\
  (is_ok r = true -> scan_mode m = true -> busy = false ->
   exists rs,
     new_events w w' =
       [ev_call c_esp_wifi_get_mode r;
        ev_call (c_esp_wifi_scan_start true true false) rs] /\
     test_bits (wifi_events w') BIT_SCAN_START = true /\
     test_bits (wifi_events w') BIT_SCAN_RUNNING = is_ok rs).
Proof.
  intros Hs. cbn zeta. rewrite (wifi_scan_start_eq w Hs). cbn zeta.
  cbn [wifi_events logged with_log with_wifi_events].
  rewrite (test_bits_clear_other (wifi_events w) BIT_SCAN_START
             (Z.lor BIT_SCAN_RUNNING BIT_SCAN_DONE)) by reflexivity.
  set (r := env_status E (log w) c_esp_wifi_get_mode).
  set (busy := test_bits (wifi_events w) (Z.lor BIT_SCAN_RUNNING BIT_SCAN_DONE)).
  assert (Hquiet :
    cfg_state (logged c_esp_wifi_get_mode r
      (with_wifi_events (Z.ldiff (wifi_events w) BIT_SCAN_START) w)) = cfg_state w /\
    new_events w (logged c_esp_wifi_get_mode r
      (with_wifi_events (Z.ldiff (wifi_events w) BIT_SCAN_START) w)) =
      [ev_call c_esp_wifi_get_mode r] /\
    wifi_events (logged c_esp_wifi_get_mode r
      (with_wifi_events (Z.ldiff (wifi_events w) BIT_SCAN_START) w)) =
      Z.ldiff (wifi_events w) BIT_SCAN_START /\
    test_bits (wifi_events (logged c_esp_wifi_get_mode r
      (with_wifi_events (Z.ldiff (wifi_events w) BIT_SCAN_START) w))) BIT_SCAN_START = false).
  { split; [reflexivity|]. split; [apply new_events_app; reflexivity|].
    split; [reflexivity|]. apply test_bits_clear_same. }
  destruct Hquiet as (Q1 & Q2 & Q3 & Q4).
  destruct (is_ok r) eqn:Hr; cbn [negb].
  2:{ split; [exact Q1|]. split; [intros _; auto|]. split; intros; discriminate. }
  destruct (scan_mode (env_mode E (log w))) eqn:Hm; cbn [negb].
  2:{ split; [exact Q1|]. split; [intros _; auto|]. split; intros; discriminate. }
  destruct busy eqn:Hb.
  { split; [exact Q1|]. split; [intros [H|H]; discriminate|].
    split; [intros; auto | intros; discriminate]. }
  match goal with
  | |- context [is_ok (env_status E ?l (c_esp_wifi_scan_start true true false))] =>
      set (rs := env_status E l (c_esp_wifi_scan_start true true false))
  end.
  split.
  { destruct (is_ok rs); reflexivity. }
  split; [intros [H|H]; discriminate|]. split; [intros; discriminate|].
  intros _ _ _. exists rs. split.
  { apply new_events_app. destruct (is_ok rs); cbn [log logged with_log with_wifi_events];
      rewrite <- app_assoc; reflexivity. }
  assert (Hrun : test_bits (wifi_events w) BIT_SCAN_RUNNING = false)
    by (apply (test_bits_lor_false _ _ BIT_SCAN_DONE); exact Hb).
  destruct (is_ok rs); cbn [wifi_events logged with_log with_wifi_events]; split.
  - rewrite test_bits_set_other by reflexivity. apply test_bits_set_same. discriminate.
  - apply test_bits_set_same. discriminate.
  - apply test_bits_set_same. discriminate.
  - rewrite test_bits_set_other, test_bits_clear_other by reflexivity. exact Hrun.
Qed.

End ScanStart.

Lemma wifi_scan_start_stable_witness :
  test_bits (wifi_events (snd (wifi_scan_start env_ok
    (world_of wmngr_state_idle cfg_factory cfg_home cfg_home 32 ∅)))) BIT_SCAN_START
  = true.
Proof.
  destruct (wifi_scan_start_stable env_ok
    (world_of wmngr_state_idle cfg_factory cfg_home cfg_home 32 ∅) eq_refl)
    as (_ & _ & _ & H).
  destruct (H eq_refl eq_refl eq_refl) as (rs & _ & Hb & _). exact Hb.
Defined.

(** C7 as stated fails: in state [idle], the radio in APSTA mode and no
    scan running, a scan is requested and [scan_start] is set when
    [wifi_scan_start] returns. *)
Lemma wifi_scan_start_leaves_flag_set :
  ~ scan_start_flag_cleared_statement env_ok
      (world_of wmngr_state_idle cfg_factory cfg_home cfg_home 32 ∅).
Proof.
  intros H. specialize (H eq_refl). vm_compute in H. discriminate.
Qed.

(** ** The transition from [connecting] to [connected] *)

Section Connected.

Variable P : platform.
Variable E : environment.

Lemma preserves_and_then {T} (f : world -> T) (m k : M esp_err_t) :
  preserves f m -> preserves f k -> preserves f (and_then m k).
Proof. intros Hm Hk. unfold and_then. repeat frame_step. Qed.

Lemma quiet_and_then (m k : M esp_err_t) :
  quiet m -> quiet k -> quiet (and_then m k).
Proof. intros Hm Hk. unfold and_then. repeat frame_step. Qed.

Lemma preserves_cfg_state_save_config X : preserves cfg_state (save_config P E X).
Proof.
  unfold save_config, save_config_body, nvs_open, nvs_close, nvs_commit,
    nvs_erase_all, nvs_set_u32, nvs_set_blob, emit.
  repeat first [ apply preserves_and_then | frame_step ].
Qed.

Lemma preserves_wifi_events_save_config X : preserves wifi_events (save_config P E X).
Proof.
  unfold save_config, save_config_body, nvs_open, nvs_close, nvs_commit,
    nvs_erase_all, nvs_set_u32, nvs_set_blob, emit.
  repeat first [ apply preserves_and_then | frame_step ].
Qed.

Lemma quiet_save_config X : quiet (save_config P E X).
Proof.
  unfold save_config, save_config_body, nvs_open, nvs_close, nvs_commit,
    nvs_erase_all, nvs_set_u32, nvs_set_blob, emit.
  repeat first [ apply quiet_and_then | frame_step ].
Qed.

(** The [switch] in state [connecting] when the station is connected. *)
Lemma handle_wifi_switch_connected events now w :
  state (cfg_state w) = wmngr_state_connecting ->
  handle_wifi_switch P E true events now w =
    ((0, false),
     snd (save_config P E (new (cfg_state w))
            (only_logged [ev_state wmngr_state_connected]
               (with_cfg_state (cs_set_state wmngr_state_connected (cfg_state w)) w)))).
Proof.
  intros Hs. unfold handle_wifi_switch.
  erewrite bind_eq by reflexivity. rewrite Hs.
  erewrite bind_eq by reflexivity.
  erewrite bind_eq by reflexivity.
  erewrite bind_eq by reflexivity.
  rewrite bind_unfold. reflexivity.
Qed.


(** C4 (amended). A step of the state machine that reaches its [switch]
    in state [connecting] with the station connected first sets the state
    to [connected], the persistent store still being what it was before the
    step, and only then runs [save_config(&cfg_state.new)], still holding
    the lock.  Whatever [save_config] returned, the state on return is
    [connected] unless the timer refused a change of period during the
    step, and then it is [failed]: that happens only at the end of the
    step, when a scan request or a scan result is pending and the step asks
    for a wake-up after [CFG_DELAY].  When [save_config] returned [ESP_OK]
    the namespace holds exactly the fields of [new], or nothing when
    [new.is_default]. *)
Theorem handle_wifi_connected (w : world) :
  state (cfg_state w) = wmngr_state_connecting ->
  dispatches E w ->
  test_bits (wifi_events w) BIT_STA_CONNECTED = true ->
  let n := new (cfg_state w) in
  let w1 := only_logged [ev_state wmngr_state_connected]
              (with_cfg_state
                 (cs_set_state wmngr_state_connected (cfg_state w))
                 (dispatch_world w)) in
  let w' := snd (handle_wifi P E w) in
  (exists rest,
     new_events w w' =
       ([ev_take 0 true; ev_call c_esp_wifi_get_mode ESP_OK;
         ev_state wmngr_state_connected]
        ++ run_events (save_config P E n) w1 ++ rest)%list) /\
  (exists rest,
     observations (nvs w) (new_events w w') = (wmngr_state_connected, nvs w) :: rest) /\
  state (cfg_state w') =
    (if timer_refusal (new_events w w')
     then wmngr_state_failed else wmngr_state_connected) /\
  (timer_refusal (new_events w w') = true ->
   test_bits (wifi_events w') (Z.lor BIT_SCAN_START BIT_SCAN_DONE) = true /\
   exists pre,
     new_events w w' =
       (pre ++ [ev_give; ev_timer (CFG_DELAY P) false;
                ev_state wmngr_state_failed])%list) /\
  (fst (save_config P E n w1) = ESP_OK ->
   nvs w' = if is_default n then ∅ else stored P n) /\
  new (cfg_state w') = n.
Proof.
  intros Hs Hd Hc n w1 w'. subst w'.
  rewrite (handle_wifi_dispatch P E w Hd). cbn zeta. rewrite Hc.
  rewrite handle_wifi_switch_connected by exact Hs. cbn [fst snd].
  change (only_logged [ev_state wmngr_state_connected]
            (with_cfg_state
               (cs_set_state wmngr_state_connected (cfg_state (dispatch_world w)))
               (dispatch_world w))) with w1.
  change (new (cfg_state (dispatch_world w))) with n.
  set (sv := save_config P E n w1).
  pose proof (preserves_cfg_state_save_config n w1) as Hcs. fold sv in Hcs.
  destruct (quiet_save_config n w1) as (evsv & Hlsv & Hqsv). fold sv in Hlsv.
  pose proof (preserves_core_handle_wifi_scan P E (wifi_events w) 0 (snd sv)) as Hcore.
  pose proof (preserves_nvs_handle_wifi_scan P E (wifi_events w) 0 (snd sv)) as Hnvs.
  destruct (quiet_handle_wifi_scan P E (wifi_events w) 0 (snd sv)) as (evs & Hlog & Hq).
  assert (Hstsv : state (cfg_state (snd sv)) = wmngr_state_connected)
    by (rewrite Hcs; reflexivity).
  pose proof (handle_wifi_scan_pending P E (wifi_events w) 0 (snd sv)) as Hdelay.
  rewrite Hstsv in Hdelay. specialize (Hdelay eq_refl).
  set (x := handle_wifi_scan P E (wifi_events w) 0 (snd sv)) in *.
  destruct (handle_wifi_exit_refusal E (fst x) (snd x))
    as (tail & Hlf & Hst & _ & Href & _ & _ & _ & Hnew & Hnv & Hwe).
  unfold cfg_core in Hcore. injection Hcore as _ Hstx _ _ Hnewx.
  assert (Hrun : run_events (save_config P E n) w1 = evsv)
    by (apply new_events_app; exact Hlsv).
  assert (Hev : new_events w (snd (handle_wifi_exit E (fst x) (snd x))) =
    ([ev_take 0 true; ev_call c_esp_wifi_get_mode ESP_OK;
      ev_state wmngr_state_connected] ++ evsv ++ evs ++ tail)%list).
  { apply new_events_app. rewrite Hlf, Hlog, Hlsv. unfold w1, dispatch_world.
    cbn [log only_logged with_log with_cfg_state]. rewrite <- !app_assoc. reflexivity. }
  split; [exists (evs ++ tail)%list; rewrite Hev, Hrun; reflexivity|].
  split; [rewrite Hev; eexists; reflexivity|].
  assert (Hrf : timer_refusal
            ([ev_take 0 true; ev_call c_esp_wifi_get_mode ESP_OK;
              ev_state wmngr_state_connected] ++ evsv ++ evs ++ tail)%list
          = timer_refusal tail).
  { rewrite !timer_refusal_app, (timer_refusal_quiet evsv Hqsv),
      (timer_refusal_quiet evs Hq). reflexivity. }
  split.
  { rewrite Hev, Hrf, Hst, Hstx, Hstsv. reflexivity. }
  split.
  { rewrite Hev, Hrf, Hwe. intros Hr. specialize (Href Hr).
    destruct (test_bits (wifi_events (snd x)) (Z.lor BIT_SCAN_START BIT_SCAN_DONE)).
    2:{ exfalso. rewrite Hdelay, handle_wifi_exit_eq in Hlf.
        change (0 >? 0) with false in Hlf. cbn [log only_logged with_log] in Hlf.
        apply app_inv_head in Hlf. subst tail. discriminate Hr. }
    split; [reflexivity|].
    rewrite Href, Hdelay.
    exists ([ev_take 0 true; ev_call c_esp_wifi_get_mode ESP_OK;
             ev_state wmngr_state_connected] ++ evsv ++ evs)%list.
    rewrite <- !app_assoc. reflexivity. }
  split.
  { intros Hok. rewrite Hnv, Hnvs.
    destruct (save_config_ok P E n w1 Hok) as [Hstore _]. exact Hstore. }
  rewrite Hnew, Hnewx, Hcs. reflexivity.
Qed.

End Connected.

Lemma handle_wifi_connected_witness :
  nvs (snd (handle_wifi platform_10ms env_ok
    (world_of wmngr_state_connecting cfg_factory cfg_home cfg_home 4 ∅)))
  = stored platform_10ms cfg_home.
Proof.
  destruct (handle_wifi_connected platform_10ms env_ok
    (world_of wmngr_state_connecting cfg_factory cfg_home cfg_home 4 ∅)
    eq_refl (conj eq_refl eq_refl) eq_refl)
    as (_ & _ & _ & _ & H & _).
  apply H. vm_compute. reflexivity.
Defined.

(** C4 as stated fails.  The device runs the factory configuration with an
    empty store; [esp_wmngr_set_cfg] accepts a station configuration, the
    state machine applies it, the radio reports the connection, and the
    next step sets the state to [connected] while the store is still
    empty: the configuration is written only afterwards. *)
Lemma connected_visible_before_persisted :
  ~ persisted_before_connected_statement platform_10ms env_ok cfg_home
      [act_step; act_event WIFI_EVENT_STA_CONNECTED; act_step]
      (world_of wmngr_state_idle cfg_factory cfg_factory cfg_factory 0 ∅).
Proof.
  intros H. unfold persisted_before_connected_statement in H. cbn zeta in H.
  specialize (H eq_refl ∅).
  assert (Hin : (wmngr_state_connected, ∅) ∈
    observations
      (nvs (snd (esp_wmngr_set_cfg platform_10ms env_ok cfg_home
         (world_of wmngr_state_idle cfg_factory cfg_factory cfg_factory 0 ∅))))
      (new_events
         (snd (esp_wmngr_set_cfg platform_10ms env_ok cfg_home
            (world_of wmngr_state_idle cfg_factory cfg_factory cfg_factory 0 ∅)))
         (snd (run_script platform_10ms env_ok
            [act_step; act_event WIFI_EVENT_STA_CONNECTED; act_step]
            (snd (esp_wmngr_set_cfg platform_10ms env_ok cfg_home
               (world_of wmngr_state_idle cfg_factory cfg_factory cfg_factory 0 ∅))))))).
  { vm_compute. repeat constructor. }
  specialize (H Hin).
  assert (Hm : stored platform_10ms cfg_home !! "mode" = None)
    by (rewrite <- H; reflexivity).
  vm_compute in Hm. discriminate.
Qed.

(** ** Reference-counted scan snapshots *)







Lemma wrap_int_small z : - 2 ^ 31 <= z < 2 ^ 31 -> wrap_int z = z.
Proof. intros H. unfold wrap_int. rewrite Z.mod_small; lia. Qed.

(** What [esp_wmngr_put_scan] does to a snapshot that is allocated: it is
    freed exactly when its counter was one, and otherwise stays, its
    counter one less. *)
Lemma esp_wmngr_put_scan_spec a c w :
  heap w !! a = Some c ->
  - 2 ^ 31 < count (ref_cnt c) < 2 ^ 31 ->
  brk (snd (esp_wmngr_put_scan a w)) = brk w /\
  cfg_state (snd (esp_wmngr_put_scan a w)) = cfg_state w /\
  (count (ref_cnt c) = 1 ->
   heap (snd (esp_wmngr_put_scan a w)) = delete a (heap w) /\
   new_events w (snd (esp_wmngr_put_scan a w)) = [ev_free a]) /\
  (count (ref_cnt c) <> 1 ->
   heap (snd (esp_wmngr_put_scan a w)) =
     <[a := set_ref_cnt {| count := count (ref_cnt c) - 1 |} c]> (heap w) /\
   new_events w (snd (esp_wmngr_put_scan a w)) = []).
Proof.
  intros Ha Hc. unfold esp_wmngr_put_scan.
  erewrite bind_eq by reflexivity. rewrite Ha.
  unfold kref_put. cbn [fst snd]. rewrite wrap_int_small by lia.
  destruct (count (ref_cnt c) =? 1) eqn:H1.
  - apply Z.eqb_eq in H1.
    unfold modify_ref, free_scan_data, modify, emit, modify, bind, ret. cbn.
    split; [reflexivity|]. split; [reflexivity|]. split; [|intros Hn; contradiction].
    intros _. split.
    + apply map_eq. intros i. destruct (decide (i = a)) as [->|Hne].
      * rewrite !lookup_delete_eq. reflexivity.
      * rewrite !lookup_delete_ne by congruence. rewrite lookup_alter_ne by congruence.
        reflexivity.
    + apply new_events_app. reflexivity.
  - apply Z.eqb_neq in H1.
    unfold modify_ref, modify, bind, ret. cbn.
    split; [reflexivity|]. split; [reflexivity|]. split; [intros Hn; contradiction|].
    intros _. split.
    + apply map_eq. intros i. destruct (decide (i = a)) as [->|Hne].
      * rewrite lookup_alter_eq, lookup_insert_eq, Ha. reflexivity.
      * rewrite lookup_alter_ne, lookup_insert_ne by congruence. reflexivity.
    + apply new_events_app. cbn. rewrite app_nil_r. reflexivity.
Qed.






Section Readers.

Variable P : platform.
Variable E : environment.

(** What [esp_wmngr_get_scan] returns and does. *)
Lemma esp_wmngr_get_scan_eq w :
  esp_wmngr_get_scan P E w =
    match scan_ref (cfg_state w) with
    | None => (None, w)
    | Some a =>
        if env_take E (log w) then
          (Some a,
           only_logged [ev_take (CFG_DELAY P) true; ev_give]
             (with_heap (alter (fun c => set_ref_cnt (kref_get (ref_cnt c)) c) a (heap w)) w))
        else (None, only_logged [ev_take (CFG_DELAY P) false] w)
    end.
Proof.
  unfold esp_wmngr_get_scan. erewrite bind_eq by reflexivity.
  destruct (scan_ref (cfg_state w)) as [a|] eqn:Hr; [|reflexivity].
  rewrite bind_unfold. unfold xSemaphoreTake at 1 2. cbn [fst snd].
  destruct (env_take E (log w)); [|reflexivity].
  erewrite bind_eq by reflexivity. cbn [cfg_state with_log]. rewrite Hr.
  unfold modify_ref, modify, xSemaphoreGive, emit, modify, bind, ret, only_logged.
  cbn. rewrite <- app_assoc. reflexivity.
Qed.


End Readers.

(** *** The counters under the operations of kref.h *)






(** *** Triples *)

Lemma hoare_ret {A} (pre : world -> Prop) (a : A) (post : A -> world -> Prop) :
  (forall w, pre w -> post a w) -> hoare pre (ret a) post.
Proof. intros H w Hw. apply H, Hw. Qed.

Lemma hoare_bind {A B} (pre : world -> Prop) (m : M A) (mid : A -> world -> Prop)
    (k : A -> M B) (post : B -> world -> Prop) :
  hoare pre m mid -> (forall a, hoare (mid a) (k a) post) ->
  hoare pre (bind m k) post.
Proof. intros Hm Hk w Hw. rewrite bind_unfold. apply Hk, Hm, Hw. Qed.








Lemma hoare_pure {A} (pre : world -> Prop) (Q : Prop) (m : M A) (post : A -> world -> Prop) :
  (Q -> hoare pre m post) -> hoare (fun w => pre w /\ Q) m post.
Proof. intros H w [Hw HQ]. apply H; assumption. Qed.


Section ScanDone.

Variable E : environment.



Lemma rc_of_bounds held r a :
  0 <= rc_of held r a <= Z.of_nat (length held) + 1.
Proof.
  unfold rc_of. pose proof (count_occ_bound Nat.eq_dec a held).
  destruct (bool_decide _); lia.
Qed.




End ScanDone.

(** ** The state machine and the snapshots *)

Section ScanStep.

Variable P : platform.
Variable E : environment.









End ScanStep.

(** ** Frees are final *)














Section Frees.

Variable P : platform.
Variable E : environment.











End Frees.

(** ** Readers, scans and steps of the state machine, interleaved *)

Section Snapshots.

Variable P : platform.
Variable E : environment.




End Snapshots.



(** * The remaining transitions of the state machine *)

Lemma ticks_ok_delay P : ticks_ok P -> 0 < CFG_DELAY P.
Proof. intros [H1 H2]. unfold CFG_DELAY. apply Z.div_str_pos. lia. Qed.

Lemma ticks_ok_ticks P : ticks_ok P -> 0 < CFG_TICKS P.
Proof. intros [H1 H2]. unfold CFG_TICKS. apply Z.div_str_pos. lia. Qed.

(** Two worlds that differ only in how their logs are bracketed. *)
Ltac same_world :=
  apply world_eq; cbn; rewrite <- ?app_assoc; reflexivity.

Section Transitions.

Variable P : platform.
Variable E : environment.

(** A dispatched step whose [switch] ends in the world [ws] with delay [d],
    the scan part being skipped. *)
Lemma handle_wifi_skip_scan w d g ws :
  dispatches E w ->
  handle_wifi_switch P E (test_bits (wifi_events w) BIT_STA_CONNECTED)
    (wifi_events w) (step_now E w) (dispatch_world w) = ((d, g), ws) ->
  g = true \/ state_le_idle (state (cfg_state ws)) = false ->
  snd (handle_wifi P E w) = snd (handle_wifi_exit E d ws).
Proof.
  intros Hd Hsw Hskip. rewrite (handle_wifi_dispatch P E w Hd). cbn zeta.
  rewrite Hsw. cbn [fst snd].
  destruct g; [reflexivity|].
  destruct Hskip as [Hg | Hst]; [discriminate|].
  rewrite handle_wifi_scan_skip by exact Hst. reflexivity.
Qed.

(** The scan part with no scan pending. *)
Lemma handle_wifi_scan_idle events delay w :
  test_bits events BIT_SCAN_START = false ->
  test_bits events BIT_SCAN_DONE = false ->
  test_bits (wifi_events w) (Z.lor BIT_SCAN_START BIT_SCAN_DONE) = false ->
  handle_wifi_scan P E events delay w = (delay, w).
Proof.
  intros H1 H2 H3. unfold handle_wifi_scan. rewrite bind_unfold. cbn [gets fst snd].
  destruct (state_le_idle _); [|reflexivity].
  rewrite H1, H2. rewrite !bind_unfold. cbn [ret fst snd xEventGroupGetBits gets].
  rewrite H3. reflexivity.
Qed.

Lemma handle_wifi_switch_connecting_wait events now w :
  state (cfg_state w) = wmngr_state_connecting ->
  handle_wifi_switch P E false events now w =
    if time_after now (tick_add (cfg_timestamp (cfg_state w)) (CFG_TIMEOUT P))
    then ((CFG_DELAY P, false),
          only_logged [ev_state wmngr_state_fallback] (with_state wmngr_state_fallback w))
    else ((CFG_TICKS P, false), w).
Proof.
  intros Hs. unfold handle_wifi_switch.
  erewrite bind_eq by reflexivity. rewrite Hs.
  erewrite bind_eq by reflexivity. cbn [negb].
  destruct (time_after _ _); [|reflexivity].
  rewrite bind_unfold. reflexivity.
Qed.

Lemma handle_wifi_switch_in_connected connected events now w :
  state (cfg_state w) = wmngr_state_connected ->
  handle_wifi_switch P E connected events now w =
    if connected then ((0, false), w)
    else ((CFG_DELAY P, false),
          only_logged [ev_state wmngr_state_update] (with_state wmngr_state_update w)).
Proof.
  intros Hs. unfold handle_wifi_switch.
  erewrite bind_eq by reflexivity. rewrite Hs.
  destruct connected; [reflexivity|]. cbn [negb].
  rewrite bind_unfold. reflexivity.
Qed.

Lemma handle_wifi_switch_unused connected events now w :
  state (cfg_state w) = wmngr_state_idle \/ state (cfg_state w) = wmngr_state_failed ->
  handle_wifi_switch P E connected events now w = ((0, false), w).
Proof.
  intros Hs. unfold handle_wifi_switch.
  erewrite bind_eq by reflexivity. destruct Hs as [-> | ->]; reflexivity.
Qed.

Lemma exit_armed d w :
  timer_reliable E -> 0 < d ->
  snd (handle_wifi_exit E d w) = only_logged [ev_give; ev_timer d true] w.
Proof.
  intros HT Hd. rewrite handle_wifi_exit_eq.
  rewrite (proj2 (Z.gtb_lt d 0) Hd), HT. reflexivity.
Qed.

Lemma only_logged_twice e1 e2 w :
  only_logged e2 (only_logged e1 w) = only_logged (e1 ++ e2) w.
Proof. unfold only_logged. destruct w; cbn. rewrite <- app_assoc. reflexivity. Qed.

(** X1. While [connecting] with the station not connected, a step that
    reaches its [switch] sends nothing to the radio and saves nothing.
    Until the tick read at the beginning of the step is after
    [cfg_timestamp + CFG_TIMEOUT] (in the wrap-around order of
    [time_after]) it only arms the wake-up after [CFG_TICKS]; from then on
    it sets the state to [fallback] and arms the wake-up after
    [CFG_DELAY]. *)
Theorem handle_wifi_connecting_waits (w : world) :
  state (cfg_state w) = wmngr_state_connecting ->
  dispatches E w ->
  test_bits (wifi_events w) BIT_STA_CONNECTED = false ->
  timer_reliable E ->
  ticks_ok P ->
  snd (handle_wifi P E w) =
    if time_after (step_now E w)
         (tick_add (cfg_timestamp (cfg_state w)) (CFG_TIMEOUT P))
    then only_logged
           [ev_take 0 true; ev_call c_esp_wifi_get_mode ESP_OK;
            ev_state wmngr_state_fallback; ev_give; ev_timer (CFG_DELAY P) true]
           (with_state wmngr_state_fallback w)
    else only_logged
           [ev_take 0 true; ev_call c_esp_wifi_get_mode ESP_OK;
            ev_give; ev_timer (CFG_TICKS P) true] w.
Proof.
  intros Hs Hd Hc HT Hticks.
  pose proof (handle_wifi_switch_connecting_wait (wifi_events w) (step_now E w)
                (dispatch_world w) Hs) as Hsw.
  change (cfg_timestamp (cfg_state (dispatch_world w)))
    with (cfg_timestamp (cfg_state w)) in Hsw.
  pose proof (handle_wifi_skip_scan w) as Hskip. rewrite Hc in Hskip.
  destruct (time_after _ _).
  - rewrite (Hskip _ _ _ Hd Hsw) by (right; reflexivity).
    rewrite exit_armed by (auto using ticks_ok_delay). same_world.
  - rewrite (Hskip _ _ _ Hd Hsw) by (right; cbn; rewrite Hs; reflexivity).
    rewrite exit_armed by (auto using ticks_ok_ticks). same_world.
Qed.

(** X2. In state [connected] with the station no longer connected, a step
    that reaches its [switch] sets the state to [update] and arms the
    wake-up after [CFG_DELAY], so that the next step applies [new] again;
    the configurations, the event bits and the store are left as they
    are. *)
Theorem handle_wifi_connection_lost (w : world) :
  state (cfg_state w) = wmngr_state_connected ->
  dispatches E w ->
  test_bits (wifi_events w) BIT_STA_CONNECTED = false ->
  timer_reliable E ->
  ticks_ok P ->
  snd (handle_wifi P E w) =
    only_logged
      [ev_take 0 true; ev_call c_esp_wifi_get_mode ESP_OK;
       ev_state wmngr_state_update; ev_give; ev_timer (CFG_DELAY P) true]
      (with_state wmngr_state_update w).
Proof.
  intros Hs Hd Hc HT Hticks.
  pose proof (handle_wifi_switch_in_connected false (wifi_events w) (step_now E w)
                (dispatch_world w) Hs) as Hsw. cbv iota in Hsw.
  pose proof (handle_wifi_skip_scan w) as Hskip. rewrite Hc in Hskip.
  rewrite (Hskip _ _ _ Hd Hsw) by (right; reflexivity).
  rewrite exit_armed by (auto using ticks_ok_delay). same_world.
Qed.

(** X3. The state machine is at rest in a stable state: with no scan
    requested or to be collected, and the station connected if the state
    is [connected], a step that reaches its [switch] changes nothing and
    does not arm the wake-up; it only takes the lock, asks for the radio
    mode and gives the lock back. *)
Theorem handle_wifi_at_rest (w : world) :
  state_le_idle (state (cfg_state w)) = true ->
  dispatches E w ->
  test_bits (wifi_events w) BIT_SCAN_START = false ->
  test_bits (wifi_events w) BIT_SCAN_DONE = false ->
  (state (cfg_state w) = wmngr_state_connected ->
   test_bits (wifi_events w) BIT_STA_CONNECTED = true) ->
  snd (handle_wifi P E w) =
    only_logged [ev_take 0 true; ev_call c_esp_wifi_get_mode ESP_OK; ev_give] w.
Proof.
  intros Hs Hd H1 H2 Hc.
  assert (H3 : test_bits (wifi_events w) (Z.lor BIT_SCAN_START BIT_SCAN_DONE) = false).
  { unfold test_bits in *. rewrite negb_false_iff, Z.eqb_eq in *.
    rewrite Z.land_lor_distr_r, H1, H2. reflexivity. }
  assert (Hsw : handle_wifi_switch P E (test_bits (wifi_events w) BIT_STA_CONNECTED)
                  (wifi_events w) (step_now E w) (dispatch_world w)
                = ((0, false), dispatch_world w)).
  { destruct (state (cfg_state w)) eqn:Hst; try discriminate Hs.
    - apply handle_wifi_switch_unused. right. exact Hst.
    - rewrite handle_wifi_switch_in_connected by exact Hst.
      rewrite (Hc eq_refl). reflexivity.
    - apply handle_wifi_switch_unused. left. exact Hst. }
  rewrite (handle_wifi_dispatch P E w Hd). cbn zeta. rewrite Hsw. cbn [fst snd].
  rewrite handle_wifi_scan_idle by assumption. cbn [fst snd].
  rewrite handle_wifi_exit_eq. cbn. same_world.
Qed.

(** X4. A step that does not reach its [switch].  When the lock is busy it
    only asks to be woken after [CFG_DELAY], and leaves the state as it is
    even if the timer refuses.  When the lock is free but the radio does
    not answer the mode query, it sets the state to [failed], whatever the
    state was, gives the lock back and does not arm the wake-up. *)
Theorem handle_wifi_no_dispatch (w : world) :
  ~ dispatches E w ->
  snd (handle_wifi P E w) =
    if env_take E (log w) then
      only_logged
        [ev_take 0 true;
         ev_call c_esp_wifi_get_mode
           (env_status E (log w ++ [ev_take 0 true]) c_esp_wifi_get_mode);
         ev_state wmngr_state_failed; ev_give]
        (with_state wmngr_state_failed w)
    else
      only_logged
        [ev_take 0 false;
         ev_timer (CFG_DELAY P) (env_timer E (log w ++ [ev_take 0 false]))] w.
Proof.
  intros Hnd. unfold handle_wifi. rewrite bind_unfold.
  unfold xSemaphoreTake at 1 2. cbn [fst snd].
  destruct (env_take E (log w)) eqn:Ht; cbn [negb].
  - unfold sta_connected, xEventGroupGetBits, xTaskGetTickCount.
    erewrite bind_eq by reflexivity.
    erewrite bind_eq by reflexivity.
    erewrite bind_eq by reflexivity.
    erewrite bind_eq by reflexivity.
    unfold gets. cbn [fst snd log with_log wifi_events].
    destruct (is_ok (env_status E (log w ++ [ev_take 0 true]) c_esp_wifi_get_mode)) eqn:Hm.
    + exfalso. apply Hnd. split; [exact Ht | apply is_ok_true; exact Hm].
    + cbn [negb]. rewrite !bind_unfold. cbn. same_world.
  - rewrite !bind_unfold. cbn. same_world.
Qed.

Lemma handle_wifi_switch_wps_active connected events now w :
  state (cfg_state w) = wmngr_state_wps_active ->
  handle_wifi_switch P E connected events now w =
    let r := env_status E (log w) c_esp_wifi_wps_disable in
    let w1 := logged c_esp_wifi_wps_disable r w in
    if test_bits events BIT_WPS_SUCCESS then
      let g := get_wifi_cfg E w1 in
      ((CFG_DELAY P, false),
       only_logged [ev_state wmngr_state_update]
         (with_cfg_state
            (cs_set_state wmngr_state_update
               (cs_set_new
                  (set_sta_connect true (set_mode WIFI_MODE_APSTA (snd (fst g))))
                  (cfg_state (snd g))))
            (snd g)))
    else if time_after now (tick_add (cfg_timestamp (cfg_state w)) (CFG_TIMEOUT P))
            || test_bits events BIT_WPS_FAILED then
      ((CFG_DELAY P, false),
       only_logged [ev_state wmngr_state_fallback] (with_state wmngr_state_fallback w1))
    else ((CFG_TICKS P, false), w).
Proof.
  intros Hs. unfold handle_wifi_switch.
  erewrite bind_eq by reflexivity. rewrite Hs.
  erewrite bind_eq by reflexivity.
  destruct (test_bits events BIT_WPS_SUCCESS).
  - erewrite bind_eq by reflexivity. cbn zeta.
    rewrite bind_unfold. rewrite !bind_unfold. reflexivity.
  - destruct (_ || _); [|reflexivity].
    erewrite bind_eq by reflexivity. rewrite !bind_unfold. reflexivity.
Qed.

(** X5. A step that reaches its [switch] in state [wps_active].  After a
    WPS success it disables WPS, reads the radio configuration into [new]
    (whatever the status of that read), forces the mode APSTA and the
    connect flag there, sets the state to [update] and arms the wake-up
    after [CFG_DELAY].  Otherwise, once the tick is after
    [cfg_timestamp + CFG_TIMEOUT] or WPS has reported a failure, it
    disables WPS, sets the state to [fallback] and arms the wake-up after
    [CFG_DELAY].  Otherwise it changes nothing and arms the wake-up after
    [CFG_TICKS]. *)
Theorem handle_wifi_wps_active (w : world) :
  state (cfg_state w) = wmngr_state_wps_active ->
  dispatches E w ->
  timer_reliable E ->
  ticks_ok P ->
  let r := env_status E (log (dispatch_world w)) c_esp_wifi_wps_disable in
  let snap :=
    snd (fst (get_wifi_cfg E (logged c_esp_wifi_wps_disable r (dispatch_world w)))) in
  let w' := snd (handle_wifi P E w) in
  if test_bits (wifi_events w) BIT_WPS_SUCCESS then
    exists calls,
      Forall is_call_event calls /\
      w' = only_logged
             ([ev_take 0 true; ev_call c_esp_wifi_get_mode ESP_OK;
               ev_call c_esp_wifi_wps_disable r] ++ calls ++
              [ev_state wmngr_state_update; ev_give; ev_timer (CFG_DELAY P) true])
             (with_cfg_state
                (cs_set_state wmngr_state_update
                   (cs_set_new (set_sta_connect true (set_mode WIFI_MODE_APSTA snap))
                      (cfg_state w)))
                w)
  else if time_after (step_now E w)
            (tick_add (cfg_timestamp (cfg_state w)) (CFG_TIMEOUT P))
          || test_bits (wifi_events w) BIT_WPS_FAILED then
    w' = only_logged
           [ev_take 0 true; ev_call c_esp_wifi_get_mode ESP_OK;
            ev_call c_esp_wifi_wps_disable r;
            ev_state wmngr_state_fallback; ev_give; ev_timer (CFG_DELAY P) true]
           (with_state wmngr_state_fallback w)
  else
    w' = only_logged
           [ev_take 0 true; ev_call c_esp_wifi_get_mode ESP_OK;
            ev_give; ev_timer (CFG_TICKS P) true] w.
Proof.
  intros Hs Hd HT Hticks. cbn zeta.
  pose proof (handle_wifi_switch_wps_active
                (test_bits (wifi_events w) BIT_STA_CONNECTED) (wifi_events w)
                (step_now E w) (dispatch_world w) Hs) as Hsw.
  cbn zeta in Hsw.
  change (cfg_timestamp (cfg_state (dispatch_world w)))
    with (cfg_timestamp (cfg_state w)) in Hsw.
  destruct (test_bits (wifi_events w) BIT_WPS_SUCCESS).
  - set (w1 := logged c_esp_wifi_wps_disable
                 (env_status E (log (dispatch_world w)) c_esp_wifi_wps_disable)
                 (dispatch_world w)) in *.
    destruct (calls_only_get_wifi_cfg E w1) as (calls & Hg & Hcalls).
    exists calls. split; [exact Hcalls|].
    rewrite (handle_wifi_skip_scan w _ _ _ Hd Hsw) by (right; reflexivity).
    rewrite exit_armed by (auto using ticks_ok_delay).
    rewrite Hg. same_world.
  - destruct (_ || _).
    + rewrite (handle_wifi_skip_scan w _ _ _ Hd Hsw) by (right; reflexivity).
      rewrite exit_armed by (auto using ticks_ok_delay). same_world.
    + rewrite (handle_wifi_skip_scan w _ _ _ Hd Hsw)
        by (right; cbn; rewrite Hs; reflexivity).
      rewrite exit_armed by (auto using ticks_ok_ticks). same_world.
Qed.

Opaque set_wifi_cfg get_wifi_cfg.


Transparent set_wifi_cfg get_wifi_cfg.



End Transitions.

Lemma handle_wifi_connecting_waits_witness :
  state (cfg_state (snd (handle_wifi platform_10ms env_ok
    (world_of wmngr_state_connecting cfg_factory cfg_home cfg_home 0 ∅))))
  = wmngr_state_connecting.
Proof.
  rewrite (handle_wifi_connecting_waits platform_10ms env_ok
             (world_of wmngr_state_connecting cfg_factory cfg_home cfg_home 0 ∅)
             eq_refl (conj eq_refl eq_refl) eq_refl (fun _ => eq_refl)
             ltac:(unfold ticks_ok; cbn; lia)).
  reflexivity.
Defined.

Lemma handle_wifi_connection_lost_witness :
  state (cfg_state (snd (handle_wifi platform_10ms env_ok
    (world_of wmngr_state_connected cfg_factory cfg_home cfg_home 0 ∅))))
  = wmngr_state_update.
Proof.
  rewrite (handle_wifi_connection_lost platform_10ms env_ok
             (world_of wmngr_state_connected cfg_factory cfg_home cfg_home 0 ∅)
             eq_refl (conj eq_refl eq_refl) eq_refl (fun _ => eq_refl)
             ltac:(unfold ticks_ok; cbn; lia)).
  reflexivity.
Defined.

Lemma handle_wifi_at_rest_witness :
  new_events (world_of wmngr_state_connected cfg_factory cfg_home cfg_home 4 ∅)
    (snd (handle_wifi platform_10ms env_ok
       (world_of wmngr_state_connected cfg_factory cfg_home cfg_home 4 ∅)))
  = [ev_take 0 true; ev_call c_esp_wifi_get_mode ESP_OK; ev_give].
Proof.
  rewrite (handle_wifi_at_rest platform_10ms env_ok
             (world_of wmngr_state_connected cfg_factory cfg_home cfg_home 4 ∅)
             eq_refl (conj eq_refl eq_refl) eq_refl eq_refl (fun _ => eq_refl)).
  reflexivity.
Defined.

Lemma handle_wifi_no_dispatch_witness :
  state (cfg_state (snd (handle_wifi platform_10ms
    (env_failing (fun _ c => bool_decide (c = c_esp_wifi_get_mode)) ESP_FAIL)
    (world_of wmngr_state_update cfg_factory cfg_home cfg_home 0 ∅))))
  = wmngr_state_failed.
Proof.
  rewrite (handle_wifi_no_dispatch platform_10ms
             (env_failing (fun _ c => bool_decide (c = c_esp_wifi_get_mode)) ESP_FAIL)
             (world_of wmngr_state_update cfg_factory cfg_home cfg_home 0 ∅)).
  - reflexivity.
  - intros [_ H]. vm_compute in H. discriminate H.
Defined.

Lemma handle_wifi_wps_active_witness :
  state (cfg_state (snd (handle_wifi platform_10ms env_ok
    (world_of wmngr_state_wps_active cfg_factory cfg_home cfg_home 256 ∅))))
  = wmngr_state_update /\
  mode (new (cfg_state (snd (handle_wifi platform_10ms env_ok
    (world_of wmngr_state_wps_active cfg_factory cfg_home cfg_home 256 ∅)))))
  = WIFI_MODE_APSTA.
Proof.
  destruct (handle_wifi_wps_active platform_10ms env_ok
             (world_of wmngr_state_wps_active cfg_factory cfg_home cfg_home 256 ∅)
             eq_refl (conj eq_refl eq_refl) (fun _ => eq_refl)
             ltac:(unfold ticks_ok; cbn; lia)) as (calls & _ & H).
  rewrite H. split; reflexivity.
Defined.


(** * What every entry point keeps *)

(** ** The lock *)

Lemma audit_app evs1 : forall held refused evs2,
  audit held refused (evs1 ++ evs2) =
    match audit held refused evs1 with
    | Some (h, r) => audit h r evs2
    | None => None
    end.
Proof.
  induction evs1 as [|e evs1 IH]; intros held refused evs2; [reflexivity|].
  destruct e; cbn [app audit]; try apply IH.
  - destruct ok; [destruct held; [reflexivity | apply IH] | apply IH].
  - destruct held; [apply IH | reflexivity].
  - destruct (held || _); [apply IH | reflexivity].
Qed.

Lemma audited_extend n h r h' r' evs w w' :
  audited n h r w ->
  log w' = (log w ++ evs)%list ->
  audit h r evs = Some (h', r') ->
  audited n h' r' w'.
Proof.
  intros [Ha Hn] Hl He. split.
  - rewrite Hl, drop_app_le by exact Hn. rewrite audit_app, Ha. exact He.
  - rewrite Hl, length_app. lia.
Qed.

Lemma audit_plain evs : forall h r,
  Forall plain_event evs -> exists r', audit h r evs = Some (h, r').
Proof.
  induction evs as [|e evs IH]; intros h r Hf; [eexists; reflexivity|].
  inversion Hf as [|? ? He Hf']; subst.
  destruct e; cbn in He; try contradiction; cbn [audit]; apply IH; exact Hf'.
Qed.

Lemma hoare_audit_free {A} n h (m : M A) :
  (forall w, exists evs, log (snd (m w)) = (log w ++ evs)%list /\ Forall plain_event evs) ->
  hoare (audited_any n h) m (fun _ => audited_any n h).
Proof.
  intros H w [r Hw]. destruct (H w) as (evs & Hl & Hp).
  destruct (audit_plain evs h r Hp) as [r' Hr'].
  exists r'. eapply audited_extend; eassumption.
Qed.

Lemma hoare_audit_silent {A} n h (m : M A) :
  (forall w, log (snd (m w)) = log w) ->
  hoare (audited_any n h) m (fun _ => audited_any n h).
Proof.
  intros H. apply hoare_audit_free. intros w. exists [].
  rewrite app_nil_r. split; [apply H | constructor].
Qed.

Lemma hoare_audit_one {A} n h (m : M A) :
  (forall w, exists e, log (snd (m w)) = (log w ++ [e])%list /\ plain_event e) ->
  hoare (audited_any n h) m (fun _ => audited_any n h).
Proof.
  intros H. apply hoare_audit_free. intros w. destruct (H w) as (e & Hl & He).
  exists [e]. split; [exact Hl | repeat constructor; exact He].
Qed.

Lemma hoare_audit_calls {A} n h (m : M A) :
  calls_only m -> hoare (audited_any n h) m (fun _ => audited_any n h).
Proof.
  intros H. apply hoare_audit_free. intros w. destruct (H w) as (evs & Hw & Hc).
  exists evs. split; [rewrite Hw; reflexivity|].
  eapply Forall_impl; [exact Hc|]. intros [] He; cbn in *; tauto.
Qed.

Lemma hoare_audit_state_held n s :
  hoare (audited_any n true) (set_state s) (fun _ => audited_any n true).
Proof.
  intros w [r Hw]. exists false.
  eapply (audited_extend n true r true false [ev_state s]); [exact Hw | reflexivity..].
Qed.

Lemma hoare_audit_failed n h :
  hoare (audited n h true) (set_state wmngr_state_failed) (fun _ => audited_any n h).
Proof.
  intros w Hw. exists false.
  eapply (audited_extend n h true h false [ev_state wmngr_state_failed]);
    [exact Hw | reflexivity |].
  cbn. rewrite orb_true_r. reflexivity.
Qed.

Lemma hoare_audited_any {A} n h r (m : M A) post :
  hoare (audited_any n h) m post -> hoare (audited n h r) m post.
Proof. intros H w Hw. apply H. exists r. exact Hw. Qed.

Section Audit.

Variable P : platform.
Variable E : environment.

Lemma hoare_audit_take n ticks :
  hoare (audited_any n false) (xSemaphoreTake E ticks) (fun ok => audited_any n ok).
Proof.
  intros w [r Hw]. exists false. cbn [xSemaphoreTake fst snd].
  eapply (audited_extend n false r _ false [ev_take ticks (env_take E (log w))]);
    [exact Hw | reflexivity |].
  cbn. destruct (env_take E (log w)); reflexivity.
Qed.

Lemma hoare_audit_give n :
  hoare (audited_any n true) xSemaphoreGive (fun _ => audited_any n false).
Proof.
  intros w [r Hw]. exists false.
  eapply (audited_extend n true r false false [ev_give]); [exact Hw | reflexivity..].
Qed.

Lemma hoare_audit_timer n h period :
  hoare (audited_any n h) (xTimerChangePeriod E period) (fun ok => audited n h (negb ok)).
Proof.
  intros w [r Hw]. cbn [xTimerChangePeriod fst snd].
  eapply (audited_extend n h r h _ [ev_timer period (env_timer E (log w))]);
    [exact Hw | reflexivity..].
Qed.

End Audit.

Create HintDb audit.

(** One step of a proof that a computation passes the [audit], along the
    code. *)
Ltac audit_step :=
  match goal with
  | |- hoare _ (bind (xSemaphoreTake _ _) _) _ =>
      eapply hoare_bind; [apply hoare_audit_take | intros [|]; cbn [negb]]
  | |- hoare _ (bind xSemaphoreGive _) _ =>
      eapply hoare_bind; [apply hoare_audit_give | intros ?]
  | |- hoare _ (bind (xTimerChangePeriod _ _) _) _ =>
      eapply hoare_bind; [apply hoare_audit_timer | intros [|]; cbn [negb]]
  | |- hoare (audited _ _ true) (bind (set_state wmngr_state_failed) _) _ =>
      eapply hoare_bind; [apply hoare_audit_failed | intros ?]
  | |- hoare (audited _ _ true) (set_state wmngr_state_failed) _ =>
      apply hoare_audit_failed
  | |- hoare (audited _ _ _) _ _ => apply hoare_audited_any
  | |- hoare (audited_any ?n ?h) (bind _ _) _ =>
      eapply (hoare_bind _ _ (fun _ => audited_any n h)); [| intros ?]
  | |- hoare _ (ret _) _ => apply hoare_ret; intros ? ?; assumption
  | |- hoare _ (if ?b then _ else _) _ => destruct b
  | |- hoare _ (match ?x with _ => _ end) _ => destruct x
  | |- _ => progress cbv zeta
  | |- _ => assumption
  | |- hoare _ xSemaphoreGive _ => apply hoare_audit_give
  | |- hoare (audited_any _ true) (set_state _) _ => apply hoare_audit_state_held
  | |- hoare _ _ _ => solve [ auto with audit ]
  | |- hoare _ _ _ => solve [ apply hoare_audit_silent; intros ?; reflexivity ]
  | |- hoare _ _ _ =>
      solve [ apply hoare_audit_one; intros ?; eexists; split; [reflexivity | exact I] ]
  end.

Section AuditCode.

Variable P : platform.
Variable E : environment.

Lemma audit_get_wifi_cfg n h :
  hoare (audited_any n h) (get_wifi_cfg E) (fun _ => audited_any n h).
Proof. apply hoare_audit_calls, calls_only_get_wifi_cfg. Qed.

Lemma audit_set_dns_loop n h idx l :
  hoare (audited_any n h) (set_dns_loop E idx l) (fun _ => audited_any n h).
Proof. apply hoare_audit_calls, calls_only_set_dns_loop. Qed.

Lemma audit_calloc n h :
  hoare (audited_any n h) (calloc_scan_data_ref E) (fun _ => audited_any n h).
Proof.
  apply hoare_audit_one. intros w. unfold calloc_scan_data_ref.
  destruct (env_calloc E (log w)); eexists; (split; [reflexivity | exact I]).
Qed.

#[local] Hint Resolve audit_get_wifi_cfg audit_set_dns_loop audit_calloc : audit.

Lemma audit_set_wifi_cfg n h p :
  hoare (audited_any n h) (set_wifi_cfg E p) (fun _ => audited_any n h).
Proof. unfold set_wifi_cfg, read_slot, write_slot. repeat audit_step. Qed.

Lemma audit_save_config n h X :
  hoare (audited_any n h) (save_config P E X) (fun _ => audited_any n h).
Proof.
  unfold save_config, save_config_body, and_then, nvs_open, nvs_close, nvs_commit,
    nvs_erase_all, nvs_set_u32, nvs_set_blob, emit.
  repeat audit_step.
Qed.

Lemma audit_get_saved_config n h :
  hoare (audited_any n h) (get_saved_config P E) (fun _ => audited_any n h).
Proof.
  unfold get_saved_config, get_saved_config_body, nvs_open, nvs_close,
    nvs_get_u32, nvs_get_blob, emit.
  repeat audit_step.
Qed.

Lemma audit_put_scan n h a :
  hoare (audited_any n h) (esp_wmngr_put_scan a) (fun _ => audited_any n h).
Proof.
  unfold esp_wmngr_put_scan, free_scan_data, modify_ref, emit. repeat audit_step.
Qed.

#[local] Hint Resolve audit_set_wifi_cfg audit_save_config audit_get_saved_config
  audit_put_scan : audit.

Lemma audit_wifi_scan_done n h :
  hoare (audited_any n h) (wifi_scan_done E) (fun _ => audited_any n h).
Proof. unfold wifi_scan_done, modify_ref. repeat audit_step. Qed.

Lemma audit_wifi_scan_start n h :
  hoare (audited_any n h) (wifi_scan_start E) (fun _ => audited_any n h).
Proof. unfold wifi_scan_start. repeat audit_step. Qed.

#[local] Hint Resolve audit_wifi_scan_done audit_wifi_scan_start : audit.

Lemma audit_handle_wifi_switch n connected events now :
  hoare (audited_any n true) (handle_wifi_switch P E connected events now)
        (fun _ => audited_any n true).
Proof. unfold handle_wifi_switch, read_slot, write_slot. repeat audit_step. Qed.

Lemma audit_handle_wifi_scan n events delay :
  hoare (audited_any n true) (handle_wifi_scan P E events delay)
        (fun _ => audited_any n true).
Proof. unfold handle_wifi_scan. repeat audit_step. Qed.

Lemma audit_handle_wifi_exit n delay :
  hoare (audited_any n true) (handle_wifi_exit E delay) (fun _ => audited_any n false).
Proof. unfold handle_wifi_exit. repeat audit_step. Qed.

#[local] Hint Resolve audit_handle_wifi_switch audit_handle_wifi_scan
  audit_handle_wifi_exit : audit.

Lemma audit_handle_wifi n :
  hoare (audited_any n false) (handle_wifi P E) (fun _ => audited_any n false).
Proof. unfold handle_wifi, sta_connected. repeat audit_step. Qed.

Lemma audit_set_cfg n X :
  hoare (audited_any n false) (esp_wmngr_set_cfg P E X) (fun _ => audited_any n false).
Proof.
  unfold esp_wmngr_set_cfg, sta_connected, read_slot, write_slot. repeat audit_step.
Qed.

Lemma audit_get_cfg n out :
  hoare (audited_any n false) (esp_wmngr_get_cfg P E out) (fun _ => audited_any n false).
Proof. unfold esp_wmngr_get_cfg, read_slot. repeat audit_step. Qed.

#[local] Hint Resolve audit_handle_wifi audit_set_cfg audit_get_cfg : audit.

Lemma audit_set_connect n c local :
  hoare (audited_any n false) (set_connect P E c local) (fun _ => audited_any n false).
Proof. unfold set_connect. repeat audit_step. Qed.

Lemma audit_start_wps n :
  hoare (audited_any n false) (esp_wmngr_start_wps P E) (fun _ => audited_any n false).
Proof. unfold esp_wmngr_start_wps. repeat audit_step. Qed.

Lemma audit_get_scan n :
  hoare (audited_any n false) (esp_wmngr_get_scan P E) (fun _ => audited_any n false).
Proof. unfold esp_wmngr_get_scan, modify_ref. repeat audit_step. Qed.

Lemma audit_start_scan n :
  hoare (audited_any n false) (esp_wmngr_start_scan P E) (fun _ => audited_any n false).
Proof. unfold esp_wmngr_start_scan. repeat audit_step. Qed.

Lemma audit_event_handler n e :
  hoare (audited_any n false) (event_handler P E e) (fun _ => audited_any n false).
Proof. unfold event_handler, event_bits. repeat audit_step. Qed.

#[local] Hint Resolve audit_set_connect audit_start_wps audit_get_scan
  audit_start_scan audit_event_handler : audit.

(** X7. The lock and the state, in every environment, for every entry
    point that runs once the manager is initialised: the timer callback, a
    round of the task, the event handler, and the public operations
    [esp_wmngr_set_cfg], [esp_wmngr_get_cfg], [esp_wmngr_start_wps],
    [esp_wmngr_connect], [esp_wmngr_disconnect], [esp_wmngr_start_scan],
    [esp_wmngr_get_scan], [esp_wmngr_put_scan], [esp_wmngr_get_state],
    [esp_wmngr_is_connected] and [esp_wmngr_nvs_valid].  [esp_wmngr_init]
    is not among them: it assigns [cfg_state.state] before the lock is in
    use.  The events of a call pass the [audit]: the lock is never
    taken while it is held nor given while it is not, it is not held when
    the call returns, and [cfg_state.state] is assigned only while the lock
    is held, except for the assignment of [failed] that directly follows a
    change of the timer that the timer refused. *)
Theorem entry_lock_audit (en : entry) (w : world) :
  exists refused,
    audit false false (new_events w (snd (run_entry P E en w))) = Some (false, refused).
Proof.
  assert (H : hoare (audited_any (length (log w)) false) (run_entry P E en)
                (fun _ => audited_any (length (log w)) false)).
  { destruct en; unfold run_entry, handle_timer, esp_wmngr_task_round,
      esp_wmngr_connect, esp_wmngr_disconnect, esp_wmngr_get_state,
      esp_wmngr_is_connected, esp_wmngr_nvs_valid, sta_connected;
      repeat audit_step. }
  destruct (H w) as [r [Hr _]].
  - exists false. split; [rewrite drop_all; reflexivity | lia].
  - exists r. exact Hr.
Qed.

End AuditCode.

(** ** Invariants of the world *)

Lemma hoare_inv_calls {A} (I : world -> Prop) (m : M A) :
  (forall evs w, I w -> I (only_logged evs w)) ->
  calls_only m -> hoare I m (fun _ => I).
Proof.
  intros HI H w Hw. destruct (H w) as (evs & Hl & _). rewrite Hl. apply HI, Hw.
Qed.

Create HintDb inv.

(** One step of a proof that a computation keeps an invariant [I] of the
    world that every statement keeps on its own. *)
Ltac inv_step fin :=
  match goal with
  | |- hoare ?I (bind _ _) _ =>
      eapply (hoare_bind _ _ (fun _ => I)); [| intros ?]
  | |- hoare _ (ret _) _ => apply hoare_ret; intros ? ?; assumption
  | |- hoare _ (if ?b then _ else _) _ => destruct b
  | |- hoare _ (match ?x with _ => _ end) _ => destruct x
  | |- _ => progress cbv zeta
  | |- _ => assumption
  | |- hoare _ _ _ => solve [ auto with inv ]
  | |- hoare _ _ _ => solve [ intros ? ?; assumption ]
  | |- hoare _ _ _ => solve [ intros ? ?; fin ]
  end.

Section Invariants.

Variable P : platform.
Variable E : environment.

(** *** The state is never [disconnecting] *)

Ltac state_fin := split; intros Hx; cbn in Hx; discriminate Hx.

Lemma in_use_calls {A} (m : M A) :
  calls_only m -> hoare state_in_use m (fun _ => state_in_use).
Proof. apply hoare_inv_calls. intros evs w H. exact H. Qed.

Lemma in_use_get_wifi_cfg :
  hoare state_in_use (get_wifi_cfg E) (fun _ => state_in_use).
Proof. apply in_use_calls, calls_only_get_wifi_cfg. Qed.

Lemma in_use_set_dns_loop idx l :
  hoare state_in_use (set_dns_loop E idx l) (fun _ => state_in_use).
Proof. apply in_use_calls, calls_only_set_dns_loop. Qed.

Lemma in_use_calloc :
  hoare state_in_use (calloc_scan_data_ref E) (fun _ => state_in_use).
Proof.
  intros w H. unfold calloc_scan_data_ref. destruct (env_calloc E (log w)); exact H.
Qed.

#[local] Hint Resolve in_use_get_wifi_cfg in_use_set_dns_loop in_use_calloc : inv.

Lemma in_use_set_wifi_cfg p :
  hoare state_in_use (set_wifi_cfg E p) (fun _ => state_in_use).
Proof.
  unfold set_wifi_cfg, read_slot, write_slot.
  repeat inv_step ltac:(destruct p; assumption).
Qed.

Lemma in_use_save_config X :
  hoare state_in_use (save_config P E X) (fun _ => state_in_use).
Proof.
  unfold save_config, save_config_body, and_then, nvs_open, nvs_close, nvs_commit,
    nvs_erase_all, nvs_set_u32, nvs_set_blob, emit.
  repeat inv_step idtac.
Qed.

Lemma in_use_get_saved_config :
  hoare state_in_use (get_saved_config P E) (fun _ => state_in_use).
Proof.
  unfold get_saved_config, get_saved_config_body, nvs_open, nvs_close,
    nvs_get_u32, nvs_get_blob, emit.
  repeat inv_step idtac.
Qed.

Lemma in_use_put_scan a :
  hoare state_in_use (esp_wmngr_put_scan a) (fun _ => state_in_use).
Proof.
  unfold esp_wmngr_put_scan, free_scan_data, modify_ref, emit. repeat inv_step idtac.
Qed.

#[local] Hint Resolve in_use_set_wifi_cfg in_use_save_config in_use_get_saved_config
  in_use_put_scan : inv.

Lemma in_use_wifi_scan_done :
  hoare state_in_use (wifi_scan_done E) (fun _ => state_in_use).
Proof. unfold wifi_scan_done, modify_ref. repeat inv_step idtac. Qed.

Lemma in_use_wifi_scan_start :
  hoare state_in_use (wifi_scan_start E) (fun _ => state_in_use).
Proof. unfold wifi_scan_start. repeat inv_step idtac. Qed.

#[local] Hint Resolve in_use_wifi_scan_done in_use_wifi_scan_start : inv.

Lemma in_use_handle_wifi :
  hoare state_in_use (handle_wifi P E) (fun _ => state_in_use).
Proof.
  unfold handle_wifi, handle_wifi_switch, handle_wifi_scan, handle_wifi_exit,
    sta_connected, read_slot, write_slot.
  repeat inv_step state_fin.
Qed.

Lemma in_use_set_cfg X :
  hoare state_in_use (esp_wmngr_set_cfg P E X) (fun _ => state_in_use).
Proof.
  unfold esp_wmngr_set_cfg, sta_connected, read_slot, write_slot.
  repeat inv_step state_fin.
Qed.

Lemma in_use_get_cfg out :
  hoare state_in_use (esp_wmngr_get_cfg P E out) (fun _ => state_in_use).
Proof. unfold esp_wmngr_get_cfg, read_slot. repeat inv_step idtac. Qed.

#[local] Hint Resolve in_use_handle_wifi in_use_set_cfg in_use_get_cfg : inv.

(** X8. No entry point ever assigns [wmngr_state_disconnecting] or a
    value outside the enumeration: from a state other than these, the
    state after a call of any entry point, in any environment, is again
    none of them. *)
Theorem state_stays_in_use (en : entry) (w : world) :
  state_in_use w -> state_in_use (snd (run_entry P E en w)).
Proof.
  revert w.
  change (hoare state_in_use (run_entry P E en) (fun _ => state_in_use)).
  destruct en; unfold run_entry, handle_timer, esp_wmngr_task_round,
    esp_wmngr_connect, esp_wmngr_disconnect, set_connect, esp_wmngr_start_wps,
    esp_wmngr_start_scan, esp_wmngr_get_scan, event_handler, event_bits,
    esp_wmngr_get_state, esp_wmngr_is_connected, esp_wmngr_nvs_valid,
    sta_connected, modify_ref;
    repeat inv_step state_fin.
Qed.

End Invariants.

(** ** The persistent store *)

Section Store.

Variable P : platform.
Variable E : environment.

Lemma calls_only_preserves_nvs {A} (m : M A) : calls_only m -> preserves nvs m.
Proof. intros H w. destruct (H w) as (evs & -> & _). reflexivity. Qed.

Lemma preserves_nvs_set_wifi_cfg p : preserves nvs (set_wifi_cfg E p).
Proof.
  unfold set_wifi_cfg, read_slot, write_slot.
  repeat frame_step;
    try (apply calls_only_preserves_nvs, calls_only_set_dns_loop).
Qed.

Lemma preserves_nvs_get_wifi_cfg : preserves nvs (get_wifi_cfg E).
Proof. apply calls_only_preserves_nvs, calls_only_get_wifi_cfg. Qed.

Lemma preserves_nvs_get_saved_config : preserves nvs (get_saved_config P E).
Proof.
  unfold get_saved_config, get_saved_config_body, nvs_open, nvs_close,
    nvs_get_u32, nvs_get_blob, emit.
  repeat frame_step.
Qed.

Lemma preserves_nvs_put_scan a : preserves nvs (esp_wmngr_put_scan a).
Proof. apply preserves_put_scan; reflexivity. Qed.

(** The [switch] writes the store only in state [connecting] with the
    station connected. *)
Lemma handle_wifi_switch_nvs connected events now w :
  state (cfg_state w) <> wmngr_state_connecting \/ connected = false ->
  nvs (snd (handle_wifi_switch P E connected events now w)) = nvs w.
Proof.
  intros Hc. unfold handle_wifi_switch. rewrite bind_unfold. cbn [gets fst snd].
  destruct (state (cfg_state w)) eqn:Hst;
    try (destruct Hc as [Hc | ->]; [contradiction | cbv iota]);
    clear Hst;
    match goal with
    | |- nvs (snd (?m w)) = nvs w =>
        cut (preserves nvs m); [intros Hp; apply Hp |]
    end;
    unfold read_slot, write_slot, set_state, emit;
    repeat frame_step;
    first [ apply preserves_nvs_set_wifi_cfg | apply preserves_nvs_get_wifi_cfg ].
Qed.

Lemma handle_wifi_nvs w :
  state (cfg_state w) <> wmngr_state_connecting \/
  test_bits (wifi_events w) BIT_STA_CONNECTED = false ->
  nvs (snd (handle_wifi P E w)) = nvs w.
Proof.
  intros Hc.
  destruct (env_take E (log w)) eqn:Ht.
  - destruct (is_ok (env_status E (log w ++ [ev_take 0 true]) c_esp_wifi_get_mode)) eqn:Hm.
    + assert (Hd : dispatches E w) by (split; [exact Ht | apply is_ok_true, Hm]).
      rewrite (handle_wifi_dispatch P E w Hd). cbn zeta.
      match goal with
      | |- nvs (snd (handle_wifi_exit E ?d ?ws)) = _ =>
          destruct (handle_wifi_exit_spec E d ws)
            as (_ & _ & _ & _ & _ & _ & _ & _ & Hn & _)
      end.
      rewrite Hn.
      pose proof (handle_wifi_switch_nvs (test_bits (wifi_events w) BIT_STA_CONNECTED)
                    (wifi_events w) (step_now E w) (dispatch_world w) Hc) as Hsw.
      destruct (snd (fst (handle_wifi_switch P E _ _ _ _))); cbn [fst snd].
      * exact Hsw.
      * rewrite preserves_nvs_handle_wifi_scan. exact Hsw.
    + unfold handle_wifi. rewrite bind_unfold.
      unfold xSemaphoreTake at 1 2. cbn [fst snd]. rewrite Ht. cbn [negb].
      unfold sta_connected, xEventGroupGetBits, xTaskGetTickCount.
      erewrite bind_eq by reflexivity.
      erewrite bind_eq by reflexivity.
      erewrite bind_eq by reflexivity.
      erewrite bind_eq by reflexivity.
      unfold gets. cbn [fst snd log with_log wifi_events]. rewrite Hm.
      cbn [negb]. rewrite !bind_unfold. reflexivity.
  - unfold handle_wifi. rewrite bind_unfold.
    unfold xSemaphoreTake at 1 2. cbn [fst snd]. rewrite Ht. reflexivity.
Qed.

Lemma preserves_nvs_handle_wifi_exit delay : preserves nvs (handle_wifi_exit E delay).
Proof. unfold handle_wifi_exit, set_state, emit. repeat frame_step. Qed.

Lemma preserves_nvs_set_cfg X : preserves nvs (esp_wmngr_set_cfg P E X).
Proof.
  unfold esp_wmngr_set_cfg, sta_connected, read_slot, write_slot, set_state, emit.
  repeat frame_step; apply preserves_nvs_get_wifi_cfg.
Qed.

Lemma preserves_nvs_get_cfg out : preserves nvs (esp_wmngr_get_cfg P E out).
Proof. unfold esp_wmngr_get_cfg, read_slot. repeat frame_step. Qed.

Lemma preserves_nvs_set_connect c local : preserves nvs (set_connect P E c local).
Proof.
  unfold set_connect.
  repeat frame_step;
    first [ apply preserves_nvs_get_cfg | apply preserves_nvs_set_cfg ].
Qed.

(** X9. The persistent store is written by nothing but the step of the
    state machine that finds the station connected in state [connecting]:
    a call of an entry point that leaves the store different from what it
    was is a step (from the timer or from the task), made in state
    [connecting] with the station connected. *)
Theorem store_written_on_connect (en : entry) (w : world) :
  nvs (snd (run_entry P E en w)) <> nvs w ->
  is_step_entry en = true /\
  state (cfg_state w) = wmngr_state_connecting /\
  test_bits (wifi_events w) BIT_STA_CONNECTED = true.
Proof.
  intros Hne.
  assert (Hstep : forall w0,
    wifi_events w0 = wifi_events w \/
    wifi_events w0 = Z.ldiff (wifi_events w) BIT_TRIGGER ->
    state (cfg_state w0) = state (cfg_state w) ->
    nvs (snd (handle_wifi P E w0)) <> nvs w0 ->
    state (cfg_state w) = wmngr_state_connecting /\
    test_bits (wifi_events w) BIT_STA_CONNECTED = true).
  { intros w0 Hev Hst Hn.
    assert (Hb : test_bits (wifi_events w0) BIT_STA_CONNECTED
                 = test_bits (wifi_events w) BIT_STA_CONNECTED).
    { destruct Hev as [-> | ->]; [reflexivity|].
      apply test_bits_clear_other. reflexivity. }
    destruct (decide (state (cfg_state w) = wmngr_state_connecting)) as [Hs | Hs].
    - split; [exact Hs|].
      destruct (test_bits (wifi_events w) BIT_STA_CONNECTED) eqn:Hc; [reflexivity|].
      exfalso. apply Hn, handle_wifi_nvs. right. exact Hb.
    - exfalso. apply Hn, handle_wifi_nvs. left. rewrite Hst. exact Hs. }
  destruct en; cbn [run_entry is_step_entry] in *.
  - (* the timer *)
    split; [reflexivity|]. unfold handle_timer in Hne.
    destruct (CONFIG_WMNGR_TASK P).
    + exfalso. apply Hne. reflexivity.
    + apply (Hstep w); [left; reflexivity | reflexivity | exact Hne].
  - (* a round of the task *)
    split; [reflexivity|]. unfold esp_wmngr_task_round in Hne.
    rewrite bind_unfold in Hne.
    apply (Hstep (snd (xEventGroupClearBits BIT_TRIGGER w)));
      [right; reflexivity | reflexivity | exact Hne].
  - exfalso. apply Hne. generalize w.
    change (preserves nvs (event_handler P E e)).
    unfold event_handler, event_bits, set_state, emit. repeat frame_step.
  - exfalso. apply Hne. rewrite bind_unfold. apply preserves_nvs_set_cfg.
  - exfalso. apply Hne. rewrite bind_unfold. apply preserves_nvs_get_cfg.
  - exfalso. apply Hne. generalize w.
    change (preserves nvs (esp_wmngr_start_wps P E ;; ret tt)).
    unfold esp_wmngr_start_wps, set_state, emit.
    repeat frame_step; apply preserves_nvs_get_wifi_cfg.
  - exfalso. apply Hne. rewrite bind_unfold. apply preserves_nvs_set_connect.
  - exfalso. apply Hne. rewrite bind_unfold. apply preserves_nvs_set_connect.
  - exfalso. apply Hne. generalize w.
    change (preserves nvs (esp_wmngr_start_scan P E ;; ret tt)).
    unfold esp_wmngr_start_scan, set_state, emit. repeat frame_step.
  - exfalso. apply Hne. generalize w.
    change (preserves nvs (esp_wmngr_get_scan P E ;; ret tt)).
    unfold esp_wmngr_get_scan, modify_ref. repeat frame_step.
  - exfalso. apply Hne. apply preserves_nvs_put_scan.
  - exfalso. apply Hne. reflexivity.
  - exfalso. apply Hne. reflexivity.
  - exfalso. apply Hne. rewrite bind_unfold.
    unfold esp_wmngr_nvs_valid. rewrite bind_unfold.
    apply preserves_nvs_get_saved_config.
Qed.

End Store.

Lemma state_stays_in_use_witness :
  state_in_use (snd (run_entry platform_10ms env_ok en_timer
    (world_of wmngr_state_update cfg_factory cfg_home cfg_home 0 ∅))).
Proof.
  apply state_stays_in_use. split; discriminate.
Defined.

Lemma store_written_on_connect_witness :
  is_step_entry en_timer = true /\
  state (cfg_state (world_of wmngr_state_connecting cfg_factory cfg_home cfg_home 4 ∅))
    = wmngr_state_connecting /\
  test_bits (wifi_events (world_of wmngr_state_connecting cfg_factory cfg_home cfg_home 4 ∅))
    BIT_STA_CONNECTED = true.
Proof.
  apply (store_written_on_connect platform_10ms env_ok).
  intros H. apply (f_equal (fun m : gmap string nvs_entry => m !! "mode")) in H.
  vm_compute in H. discriminate H.
Defined.

(** * The persistence adapter: what makes a stored configuration valid *)

(** One read of a scalar record, in a hypothesis about
    [get_saved_config_body]; [Hn] says that the store is still [s]. *)
Ltac load_u32 H Hn :=
  rewrite bind_unfold in H;
  match type of H with
  | context [nvs_get_u32 ?E ?k ?w] =>
      let x := fresh "x" in let w1 := fresh "w" in
      let Hg := fresh "Hg" in let Hv := fresh "Hv" in let Hok := fresh "Hok" in
      destruct (nvs_get_u32 E k w) as [x w1] eqn:Hg;
      apply nvs_get_u32_inv in Hg as [Hg Hv];
      rewrite Hn in Hg, Hv; clear Hn; rename Hg into Hn;
      cbn [fst snd] in H;
      destruct (is_ok (fst x)) eqn:Hok; cbn [negb] in H;
      [ apply is_ok_true in Hok; specialize (Hv Hok)
      | apply is_ok_false in Hok; injection H as H _ _; congruence ]
  end.

(** One read of a blob. *)
Ltac load_blob H Hn :=
  rewrite bind_unfold in H;
  match type of H with
  | context [nvs_get_blob ?E ?k ?n ?w] =>
      let x := fresh "x" in let w1 := fresh "w" in
      let Hg := fresh "Hg" in let Hv := fresh "Hv" in let Hok := fresh "Hok" in
      let Hlen := fresh "Hlen" in
      destruct (nvs_get_blob E k n w) as [x w1] eqn:Hg;
      apply nvs_get_blob_inv in Hg as [Hg Hv];
      rewrite Hn in Hg, Hv; clear Hn; rename Hg into Hn;
      cbn [fst snd] in H;
      try (destruct (is_ok (blob_status (fst (fst x)) (snd (fst x)) _)) eqn:Hok;
           cbn [negb] in H;
           [ apply is_ok_true, blob_status_ok in Hok as [Hok Hlen];
             specialize (Hv Hok); rewrite Hlen in Hv
           | apply is_ok_false in Hok; injection H as H _ _; congruence ])
  end.

(** One read that finds its record, the NVS calls not failing. *)
Ltac hit_u32 HE L :=
  rewrite bind_unfold;
  match goal with
  | |- context [nvs_get_u32 ?E ?k ?w] =>
      rewrite (nvs_get_u32_found E k _ w (HE _ (c_nvs_get_u32 k) eq_refl) L)
  end;
  cbn [fst snd is_ok negb].

Ltac hit_blob HE L :=
  rewrite bind_unfold;
  match goal with
  | |- context [nvs_get_blob ?E ?k ?n ?w] =>
      rewrite (nvs_get_blob_found E k n _ w (HE _ (c_nvs_get_blob k) eq_refl) L)
  end;
  cbn [fst snd]; rewrite blob_status_refl; cbn [is_ok negb].

Section Validity.

Variable P : platform.
Variable E : environment.

Lemma get_saved_config_body_complete c0 w c w' :
  get_saved_config_body P E c0 w = ((ESP_OK, c), w') ->
  complete_store P (nvs w).
Proof.
  intros H. unfold get_saved_config_body in H.
  assert (Hn : nvs w = nvs w) by reflexivity.
  set (s := nvs w) in Hn at 2. fold s.
  load_u32 H Hn. load_u32 H Hn. load_u32 H Hn.
  do 4 load_blob H Hn. load_blob H Hn.
  injection H as Hok7 _ _.
  apply blob_status_ok in Hok7 as [Hok7 Hlen7]. specialize (Hv6 Hok7).
  rewrite Hlen7 in Hv6.
  destruct Hv2 as (b2 & Hb2 & _), Hv3 as (b3 & Hb3 & _),
    Hv4 as (b4 & Hb4 & _), Hv5 as (b5 & Hb5 & _), Hv6 as (b6 & Hb6 & _).
  unfold complete_store, has_u32, has_blob. eauto 20.
Qed.

Lemma get_saved_config_complete w :
  fst (fst (get_saved_config P E w)) = ESP_OK -> complete_store P (nvs w).
Proof.
  unfold get_saved_config. rewrite bind_unfold.
  unfold nvs_open. rewrite call_env_eq. cbn [fst snd].
  destruct (is_ok (env_status E (log w) (c_nvs_open NVS_READONLY))) eqn:Ho;
    cbn [negb].
  - rewrite bind_unfold.
    destruct (get_saved_config_body P E zero_cfg (logged (c_nvs_open NVS_READONLY)
      (env_status E (log w) (c_nvs_open NVS_READONLY)) w)) as [[r c'] w1] eqn:Hb.
    unfold ret, bind, nvs_close, emit, modify; cbn.
    intros ->. apply get_saved_config_body_complete in Hb. exact Hb.
  - unfold ret; cbn. intros Hr. rewrite Hr in Ho. discriminate.
Qed.

Lemma get_saved_config_body_found c0 w :
  nvs_reliable E ->
  complete_store P (nvs w) ->
  fst (fst (get_saved_config_body P E c0 w)) = ESP_OK.
Proof.
  intros HE ((v1 & L1) & (v2 & L2) & (v3 & L3) & (b4 & L4) & (b5 & L5) &
             (b6 & L6) & (b7 & L7) & (b8 & L8)).
  unfold get_saved_config_body.
  hit_u32 HE L1. hit_u32 HE L2. hit_u32 HE L3.
  hit_blob HE L4. hit_blob HE L5. hit_blob HE L6. hit_blob HE L7.
  rewrite bind_unfold.
  match goal with
  | |- context [nvs_get_blob ?E ?k ?n ?w] =>
      rewrite (nvs_get_blob_found E k n _ w (HE _ (c_nvs_get_blob k) eq_refl) L8)
  end.
  cbn [fst snd]. rewrite blob_status_refl. reflexivity.
Qed.

Lemma get_saved_config_found w :
  nvs_reliable E ->
  complete_store P (nvs w) ->
  fst (fst (get_saved_config P E w)) = ESP_OK.
Proof.
  intros HE Hc. unfold get_saved_config. rewrite bind_unfold.
  unfold nvs_open. rewrite call_env_eq. cbn [fst snd].
  rewrite (HE _ (c_nvs_open NVS_READONLY) eq_refl). cbn [is_ok negb].
  rewrite bind_unfold.
  pose proof (get_saved_config_body_found zero_cfg
                (logged (c_nvs_open NVS_READONLY) ESP_OK w) HE Hc) as Hb.
  destruct (get_saved_config_body P E zero_cfg _) as [[r c] w1].
  cbn [fst] in Hb. subst r. reflexivity.
Qed.

(** X10. What makes a stored configuration valid.  [esp_wmngr_nvs_valid]
    returns true only if the namespace holds a record of the right kind
    under each of the eight keys, each blob with exactly the size its type
    has in this build (a record of another length, as left by a firmware
    built with another layout, makes the configuration invalid); with NVS
    calls that do not fail it returns true for every such namespace.  The
    call never changes the store. *)
Theorem esp_wmngr_nvs_valid_complete (w : world) :
  nvs_reliable E ->
  (fst (esp_wmngr_nvs_valid P E w) = true <-> complete_store P (nvs w)) /\
  nvs (snd (esp_wmngr_nvs_valid P E w)) = nvs w.
Proof.
  intros HE. unfold esp_wmngr_nvs_valid. rewrite !bind_unfold. cbn [ret fst snd].
  split; [split|].
  - intros H. apply is_ok_true in H. apply get_saved_config_complete. exact H.
  - intros H. apply is_ok_true. apply get_saved_config_found; assumption.
  - apply preserves_nvs_get_saved_config.
Qed.

End Validity.

Lemma esp_wmngr_nvs_valid_complete_witness :
  fst (esp_wmngr_nvs_valid platform_10ms env_ok
         (world_of wmngr_state_idle cfg_factory cfg_factory cfg_factory 0
            (stored platform_10ms cfg_home))) = true.
Proof.
  apply (esp_wmngr_nvs_valid_complete platform_10ms env_ok).
  - intros l c _. reflexivity.
  - destruct (stored_lookup platform_10ms cfg_home)
      as (L1 & L2 & L3 & L4 & L5 & L6 & L7 & L8).
    unfold complete_store, has_u32, has_blob. cbn [nvs world_of]. eauto 20.
Defined.

(** * The NVS handle *)

Lemma handle_audit_app evs1 : forall opened evs2,
  handle_audit opened (evs1 ++ evs2) =
    match handle_audit opened evs1 with
    | Some o => handle_audit o evs2
    | None => None
    end.
Proof.
  induction evs1 as [|e evs1 IH]; intros opened evs2; [reflexivity|].
  destruct e; cbn [app handle_audit]; try apply IH.
  - destruct c; cbn [is_nvs_call andb]; try apply IH;
      destruct opened; cbn [negb]; try reflexivity; apply IH.
  - destruct opened; [apply IH | reflexivity].
Qed.

Lemma handle_audited_extend n o o' evs w w' :
  handle_audited n o w ->
  log w' = (log w ++ evs)%list ->
  handle_audit o evs = Some o' ->
  handle_audited n o' w'.
Proof.
  intros [Ha Hn] Hl He. split.
  - rewrite Hl, drop_app_le by exact Hn. rewrite handle_audit_app, Ha. exact He.
  - rewrite Hl, length_app. lia.
Qed.

Lemma handle_audit_calls evs o :
  Forall (fun e => match e with
                   | ev_call c _ => is_nvs_call c = false
                   | ev_nvs_close => False
                   | _ => True
                   end) evs ->
  handle_audit o evs = Some o.
Proof.
  induction evs as [|e evs IH]; intros Hf; [reflexivity|].
  inversion Hf as [|? ? He Hf']; subst.
  destruct e; cbn [handle_audit]; try (apply IH; exact Hf'); try contradiction.
  destruct c; cbn in He; try discriminate He; cbn [is_nvs_call andb];
    apply IH; exact Hf'.
Qed.

(** The statement at hand leaves the handle as it is: it logs at most one
    event, and that event is no NVS call. *)
Ltac handle_fin :=
  eapply handle_audited_extend; [eassumption | reflexivity | reflexivity].

Section Handle.

Variable P : platform.
Variable E : environment.

Lemma handle_dns_loop_set n o idx l :
  hoare (handle_audited n o) (set_dns_loop E idx l) (fun _ => handle_audited n o).
Proof.
  revert idx. induction l as [|d l IH]; intros idx; cbn [set_dns_loop].
  - apply hoare_ret. auto.
  - destruct (dns_ip d =? 0); [apply IH|].
    eapply (hoare_bind _ _ (fun _ => handle_audited n o)).
    + intros w Hw.
      eapply handle_audited_extend; [exact Hw | reflexivity | destruct o; reflexivity].
    + intros r. destruct (is_ok r); [apply IH | apply hoare_ret; auto].
Qed.

Lemma handle_dns_loop_get n o k idx l :
  hoare (handle_audited n o) (get_dns_loop E k idx l) (fun _ => handle_audited n o).
Proof.
  revert idx l. induction k as [|k IH]; intros idx l; cbn [get_dns_loop].
  - apply hoare_ret. auto.
  - eapply (hoare_bind _ _ (fun _ => handle_audited n o)).
    + intros w Hw.
      eapply handle_audited_extend; [exact Hw | reflexivity | destruct o; reflexivity].
    + intros x. destruct (is_ok (fst x)); [apply IH | apply hoare_ret; auto].
Qed.

Lemma handle_calloc n o :
  hoare (handle_audited n o) (calloc_scan_data_ref E) (fun _ => handle_audited n o).
Proof.
  intros w Hw. unfold calloc_scan_data_ref.
  destruct (env_calloc E (log w));
    (eapply handle_audited_extend; [exact Hw | reflexivity | reflexivity]).
Qed.

#[local] Hint Resolve handle_dns_loop_set handle_dns_loop_get handle_calloc : inv.

Lemma handle_get_wifi_cfg n :
  hoare (handle_audited n false) (get_wifi_cfg E) (fun _ => handle_audited n false).
Proof. unfold get_wifi_cfg, sta_connected. repeat inv_step handle_fin. Qed.

Lemma handle_set_wifi_cfg n p :
  hoare (handle_audited n false) (set_wifi_cfg E p) (fun _ => handle_audited n false).
Proof.
  unfold set_wifi_cfg, read_slot, write_slot. repeat inv_step handle_fin.
Qed.

Lemma handle_put_scan n a :
  hoare (handle_audited n false) (esp_wmngr_put_scan a) (fun _ => handle_audited n false).
Proof.
  unfold esp_wmngr_put_scan, free_scan_data, modify_ref, emit.
  repeat inv_step handle_fin.
Qed.

#[local] Hint Resolve handle_get_wifi_cfg handle_set_wifi_cfg handle_put_scan : inv.

Lemma handle_open n m :
  hoare (handle_audited n false) (nvs_open E m)
        (fun r => handle_audited n (is_ok r)).
Proof.
  intros w Hw. eapply handle_audited_extend; [exact Hw | reflexivity | reflexivity].
Qed.

Lemma handle_close n :
  hoare (handle_audited n true) nvs_close (fun _ => handle_audited n false).
Proof.
  intros w Hw. eapply handle_audited_extend; [exact Hw | reflexivity | reflexivity].
Qed.

Lemma handle_save_config n X :
  hoare (handle_audited n false) (save_config P E X) (fun _ => handle_audited n false).
Proof.
  unfold save_config.
  eapply hoare_bind; [apply handle_open|]. intros r. cbv beta.
  destruct (is_ok r); cbn [negb]; [|apply hoare_ret; auto].
  eapply (hoare_bind _ _ (fun _ => handle_audited n true)).
  { unfold save_config_body, and_then, nvs_commit, nvs_erase_all, nvs_set_u32,
      nvs_set_blob.
    repeat inv_step handle_fin. }
  intros result.
  eapply (hoare_bind _ _ (fun _ => handle_audited n true)).
  { unfold nvs_erase_all. repeat inv_step handle_fin. }
  intros ?.
  eapply (hoare_bind _ _ (fun _ => handle_audited n true)).
  { unfold nvs_commit. repeat inv_step handle_fin. }
  intros ?.
  eapply hoare_bind; [apply handle_close|]. intros ?.
  apply hoare_ret. auto.
Qed.

Lemma handle_get_saved_config n :
  hoare (handle_audited n false) (get_saved_config P E) (fun _ => handle_audited n false).
Proof.
  unfold get_saved_config. cbv zeta.
  eapply hoare_bind; [apply handle_open|]. intros r. cbv beta.
  destruct (is_ok r); cbn [negb]; [|apply hoare_ret; auto].
  eapply (hoare_bind _ _ (fun _ => handle_audited n true)).
  { unfold get_saved_config_body, nvs_get_u32, nvs_get_blob.
    repeat inv_step handle_fin. }
  intros res.
  eapply hoare_bind; [apply handle_close|]. intros ?.
  apply hoare_ret. auto.
Qed.

#[local] Hint Resolve handle_save_config handle_get_saved_config : inv.

(** X11. The NVS handle, for every entry point and every environment: the
    component never opens a handle while it has one open, makes no NVS call
    and no [nvs_close] without an open handle, and has closed the handle it
    opened when the call returns.  A failed [nvs_open] is followed by no
    NVS call at all. *)
Theorem entry_handle_audit (en : entry) (w : world) :
  handle_audit false (new_events w (snd (run_entry P E en w))) = Some false.
Proof.
  assert (H : hoare (handle_audited (length (log w)) false) (run_entry P E en)
                (fun _ => handle_audited (length (log w)) false)).
  { destruct en; unfold run_entry, handle_timer, esp_wmngr_task_round,
      handle_wifi, handle_wifi_switch, handle_wifi_scan, handle_wifi_exit,
      wifi_scan_done, wifi_scan_start,
      esp_wmngr_connect, esp_wmngr_disconnect, set_connect, esp_wmngr_set_cfg,
      esp_wmngr_get_cfg, esp_wmngr_start_wps,
      esp_wmngr_start_scan, esp_wmngr_get_scan, event_handler, event_bits,
      esp_wmngr_get_state, esp_wmngr_is_connected, esp_wmngr_nvs_valid,
      sta_connected, modify_ref, read_slot, write_slot, set_state, emit;
      repeat inv_step handle_fin. }
  destruct (H w) as [Hr _].
  - split; [rewrite drop_all; reflexivity | lia].
  - exact Hr.
Qed.

End Handle.

(** * The public operations in a stable state *)

Section Api.

Variable P : platform.
Variable E : environment.

(** [esp_wmngr_set_cfg] up to the snapshot of the radio configuration. *)
Lemma esp_wmngr_set_cfg_stable X w :
  state_gt_idle (state (cfg_state w)) = false ->
  env_take E (log w) = true ->
  exists calls,
    Forall is_call_event calls /\
    let w1 := only_logged [ev_take (CFG_DELAY P) true] w in
    let g := fst (get_wifi_cfg E w1) in
    let fb := fallback_of_snapshot (wifi_events w) (snd g) in
    let n := set_is_default false X in
    let changed :=
      negb (bool_decide (mode X = mode fb))
      || (ap_bearing (mode X) && negb (bool_decide (ap X = ap fb)))
      || (sta_bearing (mode X) && negb (bool_decide (sta X = sta fb))) in
    let ok := env_timer E (log w ++ [ev_take (CFG_DELAY P) true] ++ calls
                             ++ [ev_state wmngr_state_update]) in
    esp_wmngr_set_cfg P E X w =
      if negb (is_ok (fst g)) then
        (fst g,
         only_logged ([ev_take (CFG_DELAY P) true] ++ calls ++ [ev_give])
           (with_cfg_state (cs_set_saved (snd g) (cfg_state w)) w))
      else if changed then
        (if ok then ESP_OK else ESP_ERR_TIMEOUT,
         only_logged
           ([ev_take (CFG_DELAY P) true] ++ calls
            ++ [ev_state wmngr_state_update; ev_timer (CFG_DELAY P) ok]
            ++ (if ok then [] else [ev_state wmngr_state_failed]) ++ [ev_give])
           (with_cfg_state
              (cs_set_state (if ok then wmngr_state_update else wmngr_state_failed)
                 (cs_set_new n (cs_set_saved fb (cfg_state w)))) w))
      else
        (ESP_OK,
         only_logged ([ev_take (CFG_DELAY P) true] ++ calls ++ [ev_give])
           (with_cfg_state (cs_set_new n (cs_set_saved fb (cfg_state w))) w)).
Proof.
  intros Hs Ht.
  destruct (calls_only_get_wifi_cfg E (only_logged [ev_take (CFG_DELAY P) true] w))
    as (calls & Hw2 & Hcalls).
  exists calls. split; [exact Hcalls|]. cbn zeta.
  unfold esp_wmngr_set_cfg. rewrite bind_unfold.
  unfold xSemaphoreTake at 1 2. cbn [fst snd]. rewrite Ht. cbn [negb].
  change (with_log (log w ++ [ev_take (CFG_DELAY P) true]) w)
    with (only_logged [ev_take (CFG_DELAY P) true] w) in *.
  set (w1 := only_logged [ev_take (CFG_DELAY P) true] w) in *.
  erewrite bind_eq by reflexivity.
  change (state (cfg_state w1)) with (state (cfg_state w)). rewrite Hs.
  destruct (get_wifi_cfg E w1) as [[r s] w2] eqn:Hg.
  cbn [fst snd] in *. subst w2.
  rewrite bind_unfold.
  erewrite (bind_eq (get_wifi_cfg E)) by exact Hg. cbn [fst snd].
  unfold sta_connected, xEventGroupGetBits, read_slot, write_slot, modify_cs,
    modify, gets, set_state, emit, modify, xSemaphoreGive, emit, modify,
    xTimerChangePeriod, bind, ret.
  clear Hg. subst w1.
  cbn [fst snd wifi_events with_cfg_state only_logged with_log log].
  unfold fallback_of_snapshot.
  destruct (is_ok r);
    cbn [negb fst snd wifi_events with_cfg_state only_logged with_log log].
  2:{ f_equal. apply world_eq; cbn; try reflexivity.
      rewrite <- !app_assoc. reflexivity. }
  destruct (test_bits (wifi_events w) BIT_STA_CONNECTED) eqn:Hc; cbn [negb fst snd].
  all: cbn [slot_get slot_set cs_set_new cs_set_saved new saved cfg_state
            with_cfg_state set_is_default mode ap sta set_sta log with_log].
  all: destruct (negb (bool_decide (mode X = _)) || _ || _).
  all: cbn [fst snd log with_log with_cfg_state modify_cs modify cfg_state only_logged].
  all: rewrite <- ?app_assoc; cbn [app].
  all: try match goal with
       | |- context [env_timer E ?l] => destruct (env_timer E l)
       end.
  all: cbn [negb fst snd log with_log with_cfg_state modify_cs modify cfg_state].
  all: f_equal; apply world_eq; cbn; try reflexivity.
  all: repeat (rewrite <- app_assoc || rewrite <- app_comm_cons); reflexivity.
Qed.

(** X12. In a stable state, with the lock acquired and the snapshot of
    the radio configuration taken, a request [X] that differs from the
    fall-back configuration (the snapshot, its station section zeroed when
    the station is not connected) in the mode, or in the AP section when
    [X] is AP-bearing, or in the station section when [X] is STA-bearing,
    makes [esp_wmngr_set_cfg] store the fall-back configuration in [saved]
    and [X] with [is_default] cleared in [new], set the state to [update]
    and arm the wake-up after [CFG_DELAY]; it returns [ESP_OK].  When the
    timer refuses, the state is [failed] and the result [ESP_ERR_TIMEOUT].
    In both cases the lock is given back last and [current] is not
    touched. *)
Theorem esp_wmngr_set_cfg_changed (X : wifi_cfg) (w : world) :
  state_gt_idle (state (cfg_state w)) = false ->
  env_take E (log w) = true ->
  let g := fst (get_wifi_cfg E (only_logged [ev_take (CFG_DELAY P) true] w)) in
  fst g = ESP_OK ->
  let fb := fallback_of_snapshot (wifi_events w) (snd g) in
  (mode X <> mode fb \/
   (ap_bearing (mode X) = true /\ ap X <> ap fb) \/
   (sta_bearing (mode X) = true /\ sta X <> sta fb)) ->
  exists calls ok,
    Forall is_call_event calls /\
    (timer_reliable E -> ok = true) /\
    esp_wmngr_set_cfg P E X w =
      (if ok then ESP_OK else ESP_ERR_TIMEOUT,
       only_logged
         ([ev_take (CFG_DELAY P) true] ++ calls
          ++ [ev_state wmngr_state_update; ev_timer (CFG_DELAY P) ok]
          ++ (if ok then [] else [ev_state wmngr_state_failed]) ++ [ev_give])
         (with_cfg_state
            (cs_set_state (if ok then wmngr_state_update else wmngr_state_failed)
               (cs_set_new (set_is_default false X)
                  (cs_set_saved fb (cfg_state w)))) w)).
Proof.
  intros Hs Ht g Hok fb Hch.
  destruct (esp_wmngr_set_cfg_stable X w Hs Ht) as (calls & Hcalls & Heq).
  cbn zeta in Heq. fold g in Heq. fold fb in Heq.
  rewrite Hok in Heq. cbn [is_ok negb] in Heq.
  assert (Hchanged :
    negb (bool_decide (mode X = mode fb))
    || (ap_bearing (mode X) && negb (bool_decide (ap X = ap fb)))
    || (sta_bearing (mode X) && negb (bool_decide (sta X = sta fb))) = true).
  { destruct Hch as [Hm | [[Hb Ha] | [Hb Hsta]]].
    - rewrite (bool_decide_eq_false_2 _ Hm). reflexivity.
    - rewrite Hb, (bool_decide_eq_false_2 _ Ha). cbn [negb andb].
      rewrite orb_true_r. reflexivity.
    - rewrite Hb, (bool_decide_eq_false_2 _ Hsta). cbn [negb andb].
      apply orb_true_r. }
  rewrite Hchanged in Heq.
  exists calls. eexists. split; [exact Hcalls|]. split; [|exact Heq].
  intros HT. apply HT.
Qed.

(** X13. In a stable state with the lock acquired, when the snapshot of
    the radio configuration cannot be taken, [esp_wmngr_set_cfg] returns
    the status of the failed call and triggers nothing: the state and [new]
    are as before and no wake-up is armed.  Yet [saved] has been
    overwritten with what the snapshot had read until the failure. *)
Theorem esp_wmngr_set_cfg_snapshot_fails (X : wifi_cfg) (w : world) :
  state_gt_idle (state (cfg_state w)) = false ->
  env_take E (log w) = true ->
  let g := fst (get_wifi_cfg E (only_logged [ev_take (CFG_DELAY P) true] w)) in
  fst g <> ESP_OK ->
  exists calls,
    Forall is_call_event calls /\
    esp_wmngr_set_cfg P E X w =
      (fst g,
       only_logged ([ev_take (CFG_DELAY P) true] ++ calls ++ [ev_give])
         (with_cfg_state (cs_set_saved (snd g) (cfg_state w)) w)).
Proof.
  intros Hs Ht g Hok.
  destruct (esp_wmngr_set_cfg_stable X w Hs Ht) as (calls & Hcalls & Heq).
  cbn zeta in Heq. fold g in Heq.
  rewrite (proj2 (is_ok_false (fst g)) Hok) in Heq. cbn [negb] in Heq.
  exists calls. split; [exact Hcalls | exact Heq].
Qed.

(** X14. The connect flag is not part of what [esp_wmngr_set_cfg]
    compares, so [esp_wmngr_connect] and [esp_wmngr_disconnect] apply
    nothing when the radio already runs the current configuration.  In a
    stable state, [current] being STA-bearing and agreeing with the
    fall-back configuration in the mode, in the AP section when AP-bearing
    and in the station section, and the lock being free both times it is
    taken, [set_connect(c)] returns [ESP_OK] without changing the state or
    arming the wake-up; the flag is recorded in [new] only. *)
Theorem set_connect_flag_only (c : bool) (local : wifi_cfg) (w : world) :
  state_gt_idle (state (cfg_state w)) = false ->
  env_take E (log w) = true ->
  let w0 := only_logged [ev_take (CFG_DELAY P) true; ev_give] w in
  env_take E (log w0) = true ->
  let g := fst (get_wifi_cfg E (only_logged [ev_take (CFG_DELAY P) true] w0)) in
  fst g = ESP_OK ->
  let fb := fallback_of_snapshot (wifi_events w) (snd g) in
  let cur := current (cfg_state w) in
  sta_bearing (mode cur) = true ->
  mode cur = mode fb ->
  (ap_bearing (mode cur) = true -> ap cur = ap fb) ->
  sta cur = sta fb ->
  fst (set_connect P E c local w) = ESP_OK /\
  state (cfg_state (snd (set_connect P E c local w))) = state (cfg_state w) /\
  current (cfg_state (snd (set_connect P E c local w))) = cur /\
  new (cfg_state (snd (set_connect P E c local w)))
    = set_is_default false (set_sta_connect c cur) /\
  (forall period ok,
     ev_timer period ok ∉ new_events w (snd (set_connect P E c local w))).
Proof.
  intros Hs Ht w0 Ht0 g Hok fb cur Hsb Hm Hap Hsta.
  assert (Hs0 : state_gt_idle (state (cfg_state w0)) = false) by exact Hs.
  destruct (esp_wmngr_set_cfg_stable (set_sta_connect c cur) w0 Hs0 Ht0)
    as (calls & Hcalls & Heq).
  cbn zeta in Heq. fold g in Heq.
  change (wifi_events w0) with (wifi_events w) in Heq. fold fb in Heq.
  rewrite Hok in Heq. cbn [is_ok negb] in Heq.
  change (mode (set_sta_connect c cur)) with (mode cur) in Heq.
  change (ap (set_sta_connect c cur)) with (ap cur) in Heq.
  change (sta (set_sta_connect c cur)) with (sta cur) in Heq.
  rewrite (bool_decide_eq_true_2 _ Hm), (bool_decide_eq_true_2 _ Hsta) in Heq.
  assert (Hapb : ap_bearing (mode cur) && negb (bool_decide (ap cur = ap fb)) = false).
  { destruct (ap_bearing (mode cur)); [|reflexivity].
    rewrite (bool_decide_eq_true_2 _ (Hap eq_refl)). reflexivity. }
  rewrite Hapb, andb_false_r in Heq. cbn [negb orb] in Heq.
  assert (Hrun : set_connect P E c local w =
                 esp_wmngr_set_cfg P E (set_sta_connect c cur) w0).
  { unfold set_connect. rewrite bind_unfold, esp_wmngr_get_cfg_eq, Ht, Hs.
    cbn [fst snd is_ok negb]. fold cur.
    unfold sta_bearing in Hsb. apply orb_true_iff in Hsb.
    destruct Hsb as [Hb | Hb]; rewrite Hb; cbn [negb andb];
      [reflexivity | rewrite andb_false_r; reflexivity]. }
  rewrite Hrun, Heq. cbn [fst snd].
  split; [reflexivity|]. split; [reflexivity|]. split; [reflexivity|].
  split; [reflexivity|].
  intros period ok Hin.
  rewrite (new_events_app w _
             ([ev_take (CFG_DELAY P) true; ev_give]
              ++ [ev_take (CFG_DELAY P) true] ++ calls ++ [ev_give])) in Hin
    by (cbn; rewrite <- !app_assoc; reflexivity).
  rewrite !elem_of_app in Hin.
  destruct Hin as [Hin | [Hin | [Hin | Hin]]].
  - repeat (apply elem_of_cons in Hin as [Hin | Hin]; [discriminate|]).
    apply elem_of_nil in Hin. exact Hin.
  - apply list_elem_of_singleton in Hin. discriminate.
  - rewrite Forall_forall in Hcalls. exact (Hcalls _ Hin).
  - apply list_elem_of_singleton in Hin. discriminate.
Qed.

(** X15. [esp_wmngr_start_wps] in a stable state with the lock acquired.
    When the snapshot of the radio configuration cannot be taken it
    returns the status of the failed call and changes nothing, [saved]
    included.  Otherwise it stores the snapshot, station section included,
    in [saved], sets the state to [wps_start], arms the wake-up after
    [CFG_DELAY] and returns [ESP_OK]; when the timer refuses the state is
    [failed], and the result is [ESP_OK] all the same.  The lock is given
    back last. *)
Theorem esp_wmngr_start_wps_stable (w : world) :
  state_gt_idle (state (cfg_state w)) = false ->
  env_take E (log w) = true ->
  let g := fst (get_wifi_cfg E (only_logged [ev_take (CFG_DELAY P) true] w)) in
  exists calls ok,
    Forall is_call_event calls /\
    (timer_reliable E -> ok = true) /\
    esp_wmngr_start_wps P E w =
      if negb (is_ok (fst g)) then
        (fst g, only_logged ([ev_take (CFG_DELAY P) true] ++ calls ++ [ev_give]) w)
      else
        (ESP_OK,
         only_logged
           ([ev_take (CFG_DELAY P) true] ++ calls
            ++ [ev_state wmngr_state_wps_start; ev_timer (CFG_DELAY P) ok]
            ++ (if ok then [] else [ev_state wmngr_state_failed]) ++ [ev_give])
           (with_cfg_state
              (cs_set_state (if ok then wmngr_state_wps_start else wmngr_state_failed)
                 (cs_set_saved (snd g) (cfg_state w))) w)).
Proof.
  intros Hs Ht. cbn zeta.
  destruct (calls_only_get_wifi_cfg E (only_logged [ev_take (CFG_DELAY P) true] w))
    as (calls & Hw2 & Hcalls).
  exists calls.
  exists (env_timer E (log w ++ [ev_take (CFG_DELAY P) true] ++ calls
                         ++ [ev_state wmngr_state_wps_start])).
  split; [exact Hcalls|]. split; [intros HT; apply HT|].
  unfold esp_wmngr_start_wps. rewrite bind_unfold.
  unfold xSemaphoreTake at 1 2. cbn [fst snd]. rewrite Ht. cbn [negb].
  change (with_log (log w ++ [ev_take (CFG_DELAY P) true]) w)
    with (only_logged [ev_take (CFG_DELAY P) true] w) in *.
  set (w1 := only_logged [ev_take (CFG_DELAY P) true] w) in *.
  erewrite bind_eq by reflexivity.
  change (state (cfg_state w1)) with (state (cfg_state w)). rewrite Hs.
  destruct (get_wifi_cfg E w1) as [[r s] w2] eqn:Hg.
  cbn [fst snd] in *. subst w2.
  rewrite bind_unfold.
  erewrite (bind_eq (get_wifi_cfg E)) by exact Hg. cbn [fst snd].
  unfold modify_cs, modify, gets, set_state, emit, modify, xSemaphoreGive, emit,
    modify, xTimerChangePeriod, bind, ret.
  clear Hg. subst w1.
  destruct (is_ok r) eqn:Hr;
    cbn [negb fst snd wifi_events with_cfg_state only_logged with_log log].
  2:{ f_equal. apply world_eq; cbn; try reflexivity.
      rewrite <- !app_assoc. reflexivity. }
  apply is_ok_true in Hr. subst r.
  cbn [fst snd log with_log with_cfg_state modify_cs modify cfg_state only_logged].
  rewrite <- ?app_assoc; cbn [app].
  match goal with
  | |- context [env_timer E ?l] => destruct (env_timer E l)
  end.
  all: cbn [negb fst snd log with_log with_cfg_state cfg_state].
  all: f_equal; apply world_eq; cbn; try reflexivity.
  all: repeat (rewrite <- app_assoc || rewrite <- app_comm_cons); reflexivity.
Qed.

End Api.

Lemma esp_wmngr_set_cfg_changed_witness :
  state (cfg_state (snd (esp_wmngr_set_cfg platform_10ms env_ok cfg_home
    (world_of wmngr_state_idle cfg_factory cfg_factory cfg_factory 0 ∅))))
  = wmngr_state_update.
Proof.
  destruct (esp_wmngr_set_cfg_changed platform_10ms env_ok cfg_home
              (world_of wmngr_state_idle cfg_factory cfg_factory cfg_factory 0 ∅)
              eq_refl eq_refl eq_refl) as (calls & ok & _ & Hok & Heq).
  - right. right. split; [reflexivity|].
    intros H. vm_compute in H. discriminate H.
  - rewrite Heq, (Hok (fun _ => eq_refl)). reflexivity.
Defined.

Lemma esp_wmngr_set_cfg_snapshot_fails_witness :
  fst (esp_wmngr_set_cfg platform_10ms
         (env_failing (fun _ c => bool_decide (c = c_esp_wifi_get_mode)) ESP_FAIL)
         cfg_home
         (world_of wmngr_state_idle cfg_factory cfg_factory cfg_factory 0 ∅))
  = ESP_FAIL.
Proof.
  destruct (esp_wmngr_set_cfg_snapshot_fails platform_10ms
              (env_failing (fun _ c => bool_decide (c = c_esp_wifi_get_mode)) ESP_FAIL)
              cfg_home
              (world_of wmngr_state_idle cfg_factory cfg_factory cfg_factory 0 ∅)
              eq_refl eq_refl) as (calls & _ & Heq).
  - intros H. vm_compute in H. discriminate H.
  - rewrite Heq. reflexivity.
Defined.

Lemma set_connect_flag_only_witness :
  fst (set_connect platform_10ms env_ok false cfg_factory
         (world_of wmngr_state_connected cfg_factory cfg_home cfg_home 4 ∅)) = ESP_OK /\
  state (cfg_state (snd (set_connect platform_10ms env_ok false cfg_factory
         (world_of wmngr_state_connected cfg_factory cfg_home cfg_home 4 ∅))))
  = wmngr_state_connected.
Proof.
  destruct (set_connect_flag_only platform_10ms env_ok false cfg_factory
              (world_of wmngr_state_connected cfg_factory cfg_home cfg_home 4 ∅)
              eq_refl eq_refl eq_refl eq_refl eq_refl eq_refl (fun _ => eq_refl) eq_refl)
    as (H1 & H2 & _).
  split; [exact H1 | exact H2].
Defined.

Lemma esp_wmngr_start_wps_stable_witness :
  state (cfg_state (snd (esp_wmngr_start_wps platform_10ms env_ok
    (world_of wmngr_state_idle cfg_factory cfg_factory cfg_factory 0 ∅))))
  = wmngr_state_wps_start.
Proof.
  destruct (esp_wmngr_start_wps_stable platform_10ms env_ok
              (world_of wmngr_state_idle cfg_factory cfg_factory cfg_factory 0 ∅)
              eq_refl eq_refl) as (calls & ok & _ & Hok & Heq).
  rewrite Heq, (Hok (fun _ => eq_refl)). reflexivity.
Defined.

(** * Events *)

(** A goal about event bits, bit by bit. *)
Ltac bitwise :=
  apply Z.bits_inj'; intros n Hn;
  repeat (rewrite Z.lor_spec || rewrite Z.ldiff_spec || rewrite Z.land_spec);
  repeat match goal with
  | |- context [Z.testbit ?c n] =>
      lazymatch c with
      | BIT_TRIGGER => change c with (2 ^ 0)
      | BIT_STA_START => change c with (2 ^ 1)
      | BIT_STA_CONNECTED => change c with (2 ^ 2)
      | BIT_STA_GOT_IP => change c with (2 ^ 3)
      | BIT_AP_START => change c with (2 ^ 4)
      | BIT_SCAN_START => change c with (2 ^ 5)
      | BIT_SCAN_RUNNING => change c with (2 ^ 6)
      | BIT_SCAN_DONE => change c with (2 ^ 7)
      | BIT_WPS_SUCCESS => change c with (2 ^ 8)
      | BIT_WPS_FAILED => change c with (2 ^ 9)
      end
  end;
  rewrite ?Z.pow2_bits_eqb by lia;
  repeat match goal with
  | |- context [Z.testbit ?x n] => destruct (Z.testbit x n)
  end;
  repeat match goal with
  | |- context [?k =? n] => destruct (Z.eqb_spec k n)
  end;
  cbn; try reflexivity; try lia.

Lemma bits_after_event_twice e x :
  bits_after_event e (bits_after_event e x) = bits_after_event e x.
Proof. destruct e as [[|]| | | | | | | | | | | | | | |]; cbn; bitwise. Qed.

Lemma bits_after_event_trigger e x :
  bits_after_event e (Z.lor (bits_after_event e x) BIT_TRIGGER)
  = Z.lor (bits_after_event e x) BIT_TRIGGER.
Proof. destruct e as [[|]| | | | | | | | | | | | | | |]; cbn; bitwise. Qed.

Lemma event_bits_eq e w :
  event_bits e w = (tt, with_wifi_events (bits_after_event e (wifi_events w)) w).
Proof.
  destruct e as [[|]| | | | | | | | | | | | | | |];
    cbv [event_bits bits_after_event bind ret xEventGroupSetBits
         xEventGroupClearBits modify]; cbn [fst snd wifi_events with_wifi_events];
    f_equal; apply world_eq; reflexivity.
Qed.

Section Events.
Variable P : platform.
Variable E : environment.

(** An event that leaves the bits as they are goes unnoticed. *)
Lemma event_handler_unchanged e w :
  bits_after_event e (wifi_events w) = wifi_events w ->
  event_handler P E e w = (tt, w).
Proof.
  intros Hx.
  assert (Hw : with_wifi_events (wifi_events w) w = w)
    by (apply world_eq; reflexivity).
  destruct e; try reflexivity;
    unfold event_handler, bind, xEventGroupGetBits, gets; cbn [fst snd];
    rewrite event_bits_eq; cbn [fst snd wifi_events with_wifi_events];
    rewrite Hx, Z.eqb_refl, Hw; reflexivity.
Qed.

(** The bits once [event_handler] has run. *)
Lemma event_handler_bits e w :
  let x := bits_after_event e (wifi_events w) in
  wifi_events (snd (event_handler P E e w)) = x \/
  wifi_events (snd (event_handler P E e w)) = Z.lor x BIT_TRIGGER.
Proof.
  destruct e; try (left; reflexivity);
    unfold event_handler, bind, xEventGroupGetBits, gets; cbn [fst snd];
    rewrite event_bits_eq; cbn [fst snd wifi_events with_wifi_events];
    (destruct (_ =? _); cbn [negb]; [left; reflexivity|]);
    (destruct (CONFIG_WMNGR_TASK P); [right; reflexivity|]);
    left; unfold xTimerChangePeriod; cbn [fst snd];
    destruct (env_timer E _); reflexivity.
Qed.

(** X16. An event delivered a second time, with nothing in between, goes
    unnoticed: the handler changes no bit, does not wake the manager and
    does not touch the timer. *)
Theorem event_handler_duplicate (e : esp_event) (w : world) :
  event_handler P E e (snd (event_handler P E e w))
  = (tt, snd (event_handler P E e w)).
Proof.
  apply event_handler_unchanged.
  destruct (event_handler_bits e w) as [H | H]; rewrite H.
  - apply bits_after_event_twice.
  - apply bits_after_event_trigger.
Qed.
End Events.

(** ** The connection status *)

Section Station.
Variable P : platform.
Variable E : environment.
Variable c : bool.

Ltac station_fin :=
  unfold station_is in *; cbn;
  rewrite ?test_bits_set_other, ?test_bits_clear_other by reflexivity;
  assumption.

Lemma station_calls {A} (m : M A) :
  calls_only m -> hoare (station_is c) m (fun _ => station_is c).
Proof. apply hoare_inv_calls. intros evs w H. exact H. Qed.

Lemma station_get_wifi_cfg :
  hoare (station_is c) (get_wifi_cfg E) (fun _ => station_is c).
Proof. apply station_calls, calls_only_get_wifi_cfg. Qed.

Lemma station_set_dns_loop idx l :
  hoare (station_is c) (set_dns_loop E idx l) (fun _ => station_is c).
Proof. apply station_calls, calls_only_set_dns_loop. Qed.

Lemma station_calloc :
  hoare (station_is c) (calloc_scan_data_ref E) (fun _ => station_is c).
Proof.
  intros w H. unfold calloc_scan_data_ref. destruct (env_calloc E (log w)); exact H.
Qed.

#[local] Hint Resolve station_get_wifi_cfg station_set_dns_loop station_calloc : inv.

Lemma station_set_wifi_cfg p :
  hoare (station_is c) (set_wifi_cfg E p) (fun _ => station_is c).
Proof.
  unfold set_wifi_cfg, read_slot, write_slot.
  repeat inv_step ltac:(destruct p; assumption).
Qed.

Lemma station_save_config X :
  hoare (station_is c) (save_config P E X) (fun _ => station_is c).
Proof.
  unfold save_config, save_config_body, and_then, nvs_open, nvs_close, nvs_commit,
    nvs_erase_all, nvs_set_u32, nvs_set_blob, emit.
  repeat inv_step idtac.
Qed.

Lemma station_get_saved_config :
  hoare (station_is c) (get_saved_config P E) (fun _ => station_is c).
Proof.
  unfold get_saved_config, get_saved_config_body, nvs_open, nvs_close,
    nvs_get_u32, nvs_get_blob, emit.
  repeat inv_step idtac.
Qed.

Lemma station_put_scan a :
  hoare (station_is c) (esp_wmngr_put_scan a) (fun _ => station_is c).
Proof.
  unfold esp_wmngr_put_scan, free_scan_data, modify_ref, emit. repeat inv_step idtac.
Qed.

#[local] Hint Resolve station_set_wifi_cfg station_save_config
  station_get_saved_config station_put_scan : inv.

Lemma station_wifi_scan_done :
  hoare (station_is c) (wifi_scan_done E) (fun _ => station_is c).
Proof. unfold wifi_scan_done, modify_ref. repeat inv_step station_fin. Qed.

Lemma station_wifi_scan_start :
  hoare (station_is c) (wifi_scan_start E) (fun _ => station_is c).
Proof. unfold wifi_scan_start. repeat inv_step station_fin. Qed.

#[local] Hint Resolve station_wifi_scan_done station_wifi_scan_start : inv.

Lemma station_handle_wifi :
  hoare (station_is c) (handle_wifi P E) (fun _ => station_is c).
Proof.
  unfold handle_wifi, handle_wifi_switch, handle_wifi_scan, handle_wifi_exit,
    sta_connected, read_slot, write_slot.
  repeat inv_step station_fin.
Qed.

Lemma station_set_cfg X :
  hoare (station_is c) (esp_wmngr_set_cfg P E X) (fun _ => station_is c).
Proof.
  unfold esp_wmngr_set_cfg, sta_connected, read_slot, write_slot.
  repeat inv_step station_fin.
Qed.

Lemma station_get_cfg out :
  hoare (station_is c) (esp_wmngr_get_cfg P E out) (fun _ => station_is c).
Proof. unfold esp_wmngr_get_cfg, read_slot. repeat inv_step idtac. Qed.

#[local] Hint Resolve station_handle_wifi station_set_cfg station_get_cfg : inv.

(** Every entry point but the delivery of the two station events keeps
    the connection status. *)
Lemma station_run_entry en :
  en <> en_event WIFI_EVENT_STA_CONNECTED ->
  en <> en_event WIFI_EVENT_STA_DISCONNECTED ->
  hoare (station_is c) (run_entry P E en) (fun _ => station_is c).
Proof.
  intros Hc Hd.
  destruct en as [| | e | | | | | | | | | | |];
    try (destruct e as [[|]| | | | | | | | | | | | | | |]; try congruence);
    unfold run_entry, handle_timer, esp_wmngr_task_round,
      esp_wmngr_connect, esp_wmngr_disconnect, set_connect, esp_wmngr_start_wps,
      esp_wmngr_start_scan, esp_wmngr_get_scan, event_handler, event_bits,
      esp_wmngr_get_state, esp_wmngr_is_connected, esp_wmngr_nvs_valid,
      sta_connected, modify_ref;
    repeat inv_step station_fin.
Qed.
End Station.

Section Tracking.
Variable P : platform.
Variable E : environment.

Lemma station_connected_event w :
  station_is true (snd (event_handler P E WIFI_EVENT_STA_CONNECTED w)).
Proof.
  unfold station_is. destruct (event_handler_bits P E WIFI_EVENT_STA_CONNECTED w)
    as [H | H]; rewrite H; cbn [bits_after_event].
  - apply test_bits_set_same. discriminate.
  - rewrite test_bits_set_other by reflexivity. apply test_bits_set_same. discriminate.
Qed.

Lemma station_disconnected_event w :
  station_is false (snd (event_handler P E WIFI_EVENT_STA_DISCONNECTED w)).
Proof.
  unfold station_is. destruct (event_handler_bits P E WIFI_EVENT_STA_DISCONNECTED w)
    as [H | H]; rewrite H; cbn [bits_after_event].
  - apply test_bits_clear_same.
  - rewrite test_bits_set_other by reflexivity. apply test_bits_clear_same.
Qed.

(** X17. The connection status that [esp_wmngr_is_connected] reports
    follows the station events and nothing else: after any sequence of
    calls of entry points it is the status of the last
    [WIFI_EVENT_STA_CONNECTED] or [WIFI_EVENT_STA_DISCONNECTED] delivered,
    and the status from before if none was. *)
Theorem esp_wmngr_is_connected_tracks_events (ens : list entry) (w : world) :
  fst (esp_wmngr_is_connected (snd (run_entries P E ens w)))
  = connected_after ens (fst (esp_wmngr_is_connected w)).
Proof.
  change (station_is (connected_after ens (test_bits (wifi_events w) BIT_STA_CONNECTED))
            (snd (run_entries P E ens w))).
  assert (Hgen : forall c w0, station_is c w0 ->
            station_is (connected_after ens c) (snd (run_entries P E ens w0))).
  { clear w. induction ens as [| en ens IH]; intros c w0 Hc.
    - exact Hc.
    - cbn [run_entries]. rewrite bind_unfold.
      assert (Hk : forall en', en' <> en_event WIFI_EVENT_STA_CONNECTED ->
                en' <> en_event WIFI_EVENT_STA_DISCONNECTED ->
                station_is c (snd (run_entry P E en' w0))).
      { intros en' Hn1 Hn2. apply (station_run_entry P E c en' Hn1 Hn2 w0 Hc). }
      destruct en as [| | e | | | | | | | | | | |];
        try (destruct e as [[|]| | | | | | | | | | | | | | |]);
        cbn [connected_after]; apply IH;
        first [ apply station_connected_event
              | apply station_disconnected_event
              | apply Hk; discriminate ]. }
  apply Hgen. reflexivity.
Qed.
End Tracking.

(** * Scanning *)

(** ** The size of snapshots *)

Lemma snapshot_bounded_set_ref_cnt k c :
  snapshot_bounded c -> snapshot_bounded (set_ref_cnt k c).
Proof. intros H. exact H. Qed.

Lemma snapshot_bounded_zero : snapshot_bounded zero_scan_data_ref.
Proof. split; [cbv; discriminate | intros l Hl; discriminate Hl]. Qed.

Lemma hoare_bounded_modify_ref a f :
  (forall c, snapshot_bounded c -> snapshot_bounded (f c)) ->
  hoare heap_bounded (modify_ref a f) (fun _ => heap_bounded).
Proof.
  intros Hf w H a' c'. unfold modify_ref, modify. cbn [fst snd heap with_heap].
  destruct (decide (a' = a)) as [-> | Hne].
  - rewrite lookup_alter_eq. destruct (heap w !! a) as [c |] eqn:Hc; [| discriminate].
    intros [= <-]. apply Hf, (H a c Hc).
  - rewrite lookup_alter_ne by congruence. apply H.
Qed.

Section Bound.

Variable P : platform.
Variable E : environment.

Lemma bounded_calls {A} (m : M A) :
  calls_only m -> hoare heap_bounded m (fun _ => heap_bounded).
Proof. apply hoare_inv_calls. intros evs w H. exact H. Qed.

Lemma bounded_get_wifi_cfg :
  hoare heap_bounded (get_wifi_cfg E) (fun _ => heap_bounded).
Proof. apply bounded_calls, calls_only_get_wifi_cfg. Qed.

Lemma bounded_set_dns_loop idx l :
  hoare heap_bounded (set_dns_loop E idx l) (fun _ => heap_bounded).
Proof. apply bounded_calls, calls_only_set_dns_loop. Qed.

Lemma bounded_calloc :
  hoare heap_bounded (calloc_scan_data_ref E) (fun _ => heap_bounded).
Proof.
  intros w H. unfold calloc_scan_data_ref. destruct (env_calloc E (log w)); [| exact H].
  intros a c. cbn [fst snd heap with_heap with_brk with_log].
  destruct (decide (a = brk w)) as [-> | Hne].
  - rewrite lookup_insert_eq. intros [= <-]. apply snapshot_bounded_zero.
  - rewrite lookup_insert_ne by congruence. apply H.
Qed.

Lemma bounded_ref_cnt a (k : kref -> kref) :
  hoare heap_bounded (modify_ref a (fun r => set_ref_cnt (k (ref_cnt r)) r))
    (fun _ => heap_bounded).
Proof. apply hoare_bounded_modify_ref. intros c H. exact H. Qed.

Lemma bounded_free a :
  hoare heap_bounded (free_scan_data a) (fun _ => heap_bounded).
Proof.
  intros w H a' c'. cbv [free_scan_data bind modify emit].
  cbn [fst snd heap with_heap with_log].
  intros Hl. apply lookup_delete_Some in Hl as [_ Hl]. exact (H a' c' Hl).
Qed.

#[local] Hint Resolve bounded_get_wifi_cfg bounded_set_dns_loop bounded_calloc
  bounded_ref_cnt bounded_free : inv.

Lemma bounded_put_scan a :
  hoare heap_bounded (esp_wmngr_put_scan a) (fun _ => heap_bounded).
Proof.
  unfold esp_wmngr_put_scan. repeat inv_step idtac.
  all: apply hoare_bounded_modify_ref; intros c H; exact H.
Qed.

Lemma bounded_set_wifi_cfg p :
  hoare heap_bounded (set_wifi_cfg E p) (fun _ => heap_bounded).
Proof.
  unfold set_wifi_cfg, read_slot, write_slot.
  repeat inv_step ltac:(destruct p; assumption).
Qed.

Lemma bounded_save_config X :
  hoare heap_bounded (save_config P E X) (fun _ => heap_bounded).
Proof.
  unfold save_config, save_config_body, and_then, nvs_open, nvs_close, nvs_commit,
    nvs_erase_all, nvs_set_u32, nvs_set_blob, emit.
  repeat inv_step idtac.
Qed.

Lemma bounded_get_saved_config :
  hoare heap_bounded (get_saved_config P E) (fun _ => heap_bounded).
Proof.
  unfold get_saved_config, get_saved_config_body, nvs_open, nvs_close,
    nvs_get_u32, nvs_get_blob, emit.
  repeat inv_step idtac.
Qed.

#[local] Hint Resolve bounded_put_scan bounded_set_wifi_cfg bounded_save_config
  bounded_get_saved_config : inv.

Lemma bounded_get_ap_records n :
  hoare heap_bounded (esp_wifi_scan_get_ap_records E n)
    (fun y w => heap_bounded w /\ (length (snd y) <= Z.to_nat n)%nat).
Proof.
  intros w H. unfold esp_wifi_scan_get_ap_records. cbn [fst snd]. split; [exact H |].
  rewrite length_take. lia.
Qed.

(** The record array is allocated for at most [MAX_NUM_APS] records, and
    the driver writes no more than it is allocated for. *)
Lemma bounded_wifi_scan_done :
  hoare heap_bounded (wifi_scan_done E) (fun _ => heap_bounded).
Proof.
  unfold wifi_scan_done.
  repeat first
    [ match goal with
      | |- hoare _ (bind (esp_wifi_scan_get_ap_records _ ?n) _) _ =>
          eapply hoare_bind;
            [ apply bounded_get_ap_records
            | intros y; cbv beta; apply hoare_pure; intros Hy ]
      end
    | inv_step idtac ].
  - apply hoare_bounded_modify_ref. intros c _. split; cbn.
    + destruct (_ >? _) eqn:Hgt; [reflexivity |]. unfold MAX_NUM_APS in *. lia.
    + intros l [= <-]. rewrite repeat_length.
      destruct (_ >? _) eqn:Hgt; unfold MAX_NUM_APS in *; lia.
  - apply hoare_bounded_modify_ref. intros c _.
    assert (Hlen : Z.of_nat (length (snd y)) <= MAX_NUM_APS).
    { revert Hy. destruct (_ >? _) eqn:Hgt; unfold MAX_NUM_APS in *; lia. }
    split; cbn; [exact Hlen | intros l [= <-]; exact Hlen].
Qed.

Lemma bounded_wifi_scan_start :
  hoare heap_bounded (wifi_scan_start E) (fun _ => heap_bounded).
Proof. unfold wifi_scan_start. repeat inv_step idtac. Qed.

#[local] Hint Resolve bounded_wifi_scan_done bounded_wifi_scan_start : inv.

Lemma bounded_handle_wifi :
  hoare heap_bounded (handle_wifi P E) (fun _ => heap_bounded).
Proof.
  unfold handle_wifi, handle_wifi_switch, handle_wifi_scan, handle_wifi_exit,
    sta_connected, read_slot, write_slot.
  repeat inv_step idtac.
Qed.

Lemma bounded_set_cfg X :
  hoare heap_bounded (esp_wmngr_set_cfg P E X) (fun _ => heap_bounded).
Proof.
  unfold esp_wmngr_set_cfg, sta_connected, read_slot, write_slot.
  repeat inv_step idtac.
Qed.

Lemma bounded_get_cfg out :
  hoare heap_bounded (esp_wmngr_get_cfg P E out) (fun _ => heap_bounded).
Proof. unfold esp_wmngr_get_cfg, read_slot. repeat inv_step idtac. Qed.

#[local] Hint Resolve bounded_handle_wifi bounded_set_cfg bounded_get_cfg : inv.

Lemma bounded_run_entry en :
  hoare heap_bounded (run_entry P E en) (fun _ => heap_bounded).
Proof.
  destruct en; unfold run_entry, handle_timer, esp_wmngr_task_round,
    esp_wmngr_connect, esp_wmngr_disconnect, set_connect, esp_wmngr_start_wps,
    esp_wmngr_start_scan, esp_wmngr_get_scan, event_handler, event_bits,
    esp_wmngr_get_state, esp_wmngr_is_connected, esp_wmngr_nvs_valid,
    sta_connected;
    repeat inv_step idtac.
Qed.

Lemma bounded_run_entries ens :
  hoare heap_bounded (run_entries P E ens) (fun _ => heap_bounded).
Proof.
  induction ens as [| en ens IH]; cbn [run_entries].
  - apply hoare_ret. intros w H. exact H.
  - eapply hoare_bind; [apply bounded_run_entry | intros ?; exact IH].
Qed.

(** X18. The bound on scan results holds whatever the driver reports: if
    no snapshot in memory has more than [MAX_NUM_APS] records (by its
    counter [num_records] and by the array it holds), then after any
    sequence of calls of entry points, in any environment, none has. *)
Theorem scan_records_bounded (ens : list entry) (w : world) :
  heap_bounded w ->
  forall a c, heap (snd (run_entries P E ens w)) !! a = Some c ->
    num_records (data c) <= MAX_NUM_APS /\
    forall l, ap_records (data c) = Some l -> Z.of_nat (length l) <= MAX_NUM_APS.
Proof.
  intros H a c Hc. exact (bounded_run_entries ens w H a c Hc).
Qed.

End Bound.

Lemma scan_records_bounded_witness :
  let w := world_of wmngr_state_idle zero_cfg zero_cfg zero_cfg
             (Z.lor BIT_SCAN_RUNNING BIT_SCAN_DONE) ∅ in
  let ens := [en_timer; en_get_scan] in
  heap_bounded w /\
  forall a c, heap (snd (run_entries platform_10ms env_scanning ens w)) !! a = Some c ->
    num_records (data c) <= MAX_NUM_APS /\
    forall l, ap_records (data c) = Some l -> Z.of_nat (length l) <= MAX_NUM_APS.
Proof.
  intros w ens.
  assert (H : heap_bounded w).
  { intros a c Hc. cbn in Hc. rewrite lookup_empty in Hc. discriminate Hc. }
  split; [exact H |].
  apply (scan_records_bounded platform_10ms env_scanning ens w H).
Defined.

(** ** Collecting a scan *)

(** Lookups in a heap that was updated at known addresses. *)
Ltac heap_lookup :=
  repeat first
    [ rewrite lookup_delete_eq | rewrite lookup_alter_eq | rewrite lookup_insert_eq
    | rewrite lookup_delete_ne by congruence
    | rewrite lookup_alter_ne by congruence
    | rewrite lookup_insert_ne by congruence ].

(** A heap in which the snapshot allocated last has been freed again. *)
Ltac heap_gone :=
  apply map_eq; intros i;
  match goal with
  | Hfresh : heap ?w !! brk ?w = None |- _ =>
      destruct (decide (i = brk w)) as [-> |]; heap_lookup;
      [symmetry; exact Hfresh | reflexivity]
  end.

Section Collect.

Variable P : platform.
Variable E : environment.

Ltac scan_done_unfold H :=
  unfold wifi_scan_done, esp_wifi_scan_get_ap_num, calloc_scan_data_ref,
    calloc_ap_records, xTaskGetTickCount, esp_wifi_scan_get_ap_records,
    esp_wmngr_put_scan, free_scan_data, emit,
    modify_ref, xEventGroupClearBits, modify_cs, modify, gets, bind, ret in H;
  cbn [fst snd] in H.

Ltac scan_done_eval H :=
  repeat first
    [ progress cbn [fst snd is_ok negb orb andb log with_log heap with_heap brk
        with_brk cfg_state with_cfg_state wifi_events with_wifi_events
        scan_ref cs_set_scan_ref fmap option_fmap option_map
        kref_init kref_get kref_put set_ref_cnt set_data ref_cnt count
        zero_scan_data_ref] in H
    | rewrite lookup_delete_eq in H
    | rewrite lookup_alter_eq in H
    | rewrite lookup_insert_eq in H
    | rewrite lookup_delete_ne in H by congruence
    | rewrite lookup_alter_ne in H by congruence
    | rewrite lookup_insert_ne in H by congruence ].

Lemma wifi_scan_done_failing w r1 n c1 c2 r2 :
  heap w !! brk w = None ->
  r1 = env_status E (log w) c_esp_wifi_scan_get_ap_num ->
  n = env_ap_num E (log w) ->
  c1 = env_calloc E (log w ++ [ev_call c_esp_wifi_scan_get_ap_num r1]) ->
  c2 = env_calloc E ((log w ++ [ev_call c_esp_wifi_scan_get_ap_num r1])
                     ++ [ev_alloc true]) ->
  r2 = env_status E
         (((log w ++ [ev_call c_esp_wifi_scan_get_ap_num r1])
           ++ [ev_alloc true]) ++ [ev_alloc true])
         (c_esp_wifi_scan_get_ap_records (Z.min n MAX_NUM_APS)) ->
  is_ok r1 && negb (n =? 0) && c1 && c2 && is_ok r2 = false ->
  cfg_state (snd (wifi_scan_done E w)) = cfg_state w /\
  heap (snd (wifi_scan_done E w)) = heap w /\
  wifi_events (snd (wifi_scan_done E w)) =
    (if is_ok r1 && negb (n =? 0) && negb (c1 && c2) then wifi_events w
     else Z.ldiff (wifi_events w) (Z.lor BIT_SCAN_RUNNING BIT_SCAN_DONE)).
Proof.
  intros Hfresh Hr1 Hn Hc1 Hc2 Hr2 Hfail.
  assert (Hmin : (if n >? MAX_NUM_APS then MAX_NUM_APS else n) = Z.min n MAX_NUM_APS).
  { destruct (n >? MAX_NUM_APS) eqn:Hgt; lia. }
  remember (wifi_scan_done E w) as r eqn:Hw.
  scan_done_unfold Hw.
  rewrite <- Hr1, <- Hn in Hw. rewrite Hmin in Hw.
  destruct (is_ok r1) eqn:H1; cbn [negb orb andb] in Hw, Hfail |- *;
    [| subst r; cbn; auto].
  destruct (n =? 0) eqn:H0; cbn [negb orb andb] in Hw, Hfail |- *;
    [subst r; cbn; auto |].
  scan_done_eval Hw. rewrite <- Hc1 in Hw.
  destruct c1; cbn [negb orb andb] in Hw, Hfail |- *; [| subst r; cbn; auto].
  scan_done_eval Hw. rewrite <- Hc2 in Hw.
  destruct c2; cbn [negb orb andb] in Hw, Hfail |- *.
  - scan_done_eval Hw. rewrite <- Hr2 in Hw. rewrite Hfail in Hw.
    scan_done_eval Hw. subst r. cbn. repeat split. heap_gone.
  - scan_done_eval Hw. subst r. cbn. repeat split. heap_gone.
Qed.

(** X19. [wifi_scan_done] when something fails, the address [calloc]
    would hand out being free.  No snapshot is published and no memory is
    kept: [scan_ref] and the heap are as before.  When the driver cannot
    tell the number of access points, reports none, or fails to hand over
    the records, the flags [scan_running] and [scan_done] are cleared and
    the results are lost; when memory is short, for the snapshot or for the
    records, the flags stay as they are: the results remain to be
    collected. *)
Theorem wifi_scan_done_gives_up (w : world) :
  heap w !! brk w = None ->
  let r1 := env_status E (log w) c_esp_wifi_scan_get_ap_num in
  let n := env_ap_num E (log w) in
  let l1 := (log w ++ [ev_call c_esp_wifi_scan_get_ap_num r1])%list in
  let c1 := env_calloc E l1 in
  let l2 := (l1 ++ [ev_alloc true])%list in
  let c2 := env_calloc E l2 in
  let l3 := (l2 ++ [ev_alloc true])%list in
  let r2 := env_status E l3
              (c_esp_wifi_scan_get_ap_records (Z.min n MAX_NUM_APS)) in
  is_ok r1 && negb (n =? 0) && c1 && c2 && is_ok r2 = false ->
  let w' := snd (wifi_scan_done E w) in
  cfg_state w' = cfg_state w /\
  heap w' = heap w /\
  wifi_events w' =
    (if is_ok r1 && negb (n =? 0) && negb (c1 && c2) then wifi_events w
     else Z.ldiff (wifi_events w) (Z.lor BIT_SCAN_RUNNING BIT_SCAN_DONE)).
Proof.
  intros Hfresh r1 n l1 c1 l2 c2 l3 r2 Hfail w'.
  apply (wifi_scan_done_failing w r1 n c1 c2 r2); auto.
Qed.

Lemma min_max_num_aps n :
  (if n >? MAX_NUM_APS then MAX_NUM_APS else n) = Z.min n MAX_NUM_APS.
Proof. destruct (n >? MAX_NUM_APS) eqn:Hgt; lia. Qed.

(** What [esp_wmngr_put_scan] leaves alone. *)
Lemma put_scan_frame o w0 :
  let w1 := snd (esp_wmngr_put_scan o w0) in
  cfg_state w1 = cfg_state w0 /\ wifi_events w1 = wifi_events w0 /\
  brk w1 = brk w0 /\ nvs w1 = nvs w0 /\
  forall a, a <> o -> heap w1 !! a = heap w0 !! a.
Proof.
  unfold esp_wmngr_put_scan, free_scan_data, emit, modify_ref, modify, gets, bind, ret.
  cbn [fst snd]. destruct (heap w0 !! o) as [c |]; [| cbn; auto].
  cbn [kref_put fst snd]. destruct (count (ref_cnt c) =? 1); cbn;
    repeat split; intros a Ha; heap_lookup; reflexivity.
Qed.

Lemma wifi_scan_done_collects w :
  cooperative E ->
  0 < env_ap_num E (log w) ->
  snd (wifi_scan_done E w) =
    snd (esp_wmngr_put_scan (brk w)
           (snd (match scan_ref (cfg_state w) with
                 | Some o => esp_wmngr_put_scan o
                 | None => ret tt
                 end (collected E w)))).
Proof.
  intros (Hst & Htk & Htm & Hca) Hn.
  assert (H0 : (env_ap_num E (log w) =? 0) = false) by (apply Z.eqb_neq; lia).
  remember (wifi_scan_done E w) as r eqn:Hw.
  unfold wifi_scan_done, esp_wifi_scan_get_ap_num, calloc_scan_data_ref,
    calloc_ap_records, xTaskGetTickCount, esp_wifi_scan_get_ap_records,
    modify_ref, xEventGroupClearBits, modify_cs, modify, gets, bind, ret in Hw.
  cbn [fst snd] in Hw. rewrite min_max_num_aps in Hw.
  repeat first
    [ rewrite Hst in Hw | rewrite Hca in Hw | rewrite H0 in Hw
    | progress cbn [fst snd is_ok negb orb log with_log heap with_heap brk
        with_brk cfg_state with_cfg_state wifi_events with_wifi_events] in Hw ].
  rewrite <- !app_assoc in Hw. cbn [app] in Hw.
  rewrite !alter_insert_eq in Hw.
  subst r. unfold ret.
  destruct (scan_ref (cfg_state w)) as [o |]; cbn [snd];
    f_equal; f_equal; try (f_equal; f_equal);
    apply world_eq; cbn; try reflexivity;
    rewrite <- ?app_assoc; reflexivity.
Qed.

(** X20. [wifi_scan_done] when nothing fails and the driver reports at
    least one access point.  The snapshot is allocated at the address
    [calloc] hands out, holds the first [MAX_NUM_APS] of the records the
    driver hands over (all of them if there are fewer), their number in
    [num_records], and the tick of the collection; it is published in
    [scan_ref] with a reference count of one, the reference of [scan_ref]
    itself.  The flags [scan_running] and [scan_done] are cleared, and the
    configuration state is left as it is. *)
Theorem wifi_scan_done_publishes (w : world) :
  cooperative E ->
  0 < env_ap_num E (log w) ->
  (forall o, scan_ref (cfg_state w) = Some o -> o <> brk w) ->
  let w' := snd (wifi_scan_done E w) in
  let l := (log w ++ [ev_call c_esp_wifi_scan_get_ap_num ESP_OK; ev_alloc true;
                      ev_alloc true])%list in
  scan_ref (cfg_state w') = Some (brk w) /\
  heap w' !! brk w
    = Some (snapshot_of (env_tick E l) (env_ap_num E (log w)) (env_ap_records E l) 1) /\
  wifi_events w' = Z.ldiff (wifi_events w) (Z.lor BIT_SCAN_RUNNING BIT_SCAN_DONE) /\
  cfg_core w' = cfg_core w /\
  brk w' = S (brk w).
Proof.
  intros Hco Hn Hold. cbv zeta.
  rewrite (wifi_scan_done_collects w Hco Hn).
  set (w0 := snd (match scan_ref (cfg_state w) with
                  | Some o => esp_wmngr_put_scan o
                  | None => ret tt
                  end (collected E w))).
  assert (Hw0 : cfg_state w0 = cfg_state (collected E w) /\
                wifi_events w0 = wifi_events (collected E w) /\
                brk w0 = brk (collected E w) /\
                heap w0 !! brk w = heap (collected E w) !! brk w).
  { subst w0. destruct (scan_ref (cfg_state w)) as [o |] eqn:Ho; [| cbn; auto].
    destruct (put_scan_frame o (collected E w)) as (H1 & H2 & H3 & _ & H5).
    rewrite H1, H2, H3, (H5 (brk w)); auto. intros Hx. exact (Hold o eq_refl (eq_sym Hx)). }
  destruct Hw0 as (Hcs & Hev & Hbrk & Hcell).
  cbn [collected heap] in Hcell. rewrite lookup_insert_eq in Hcell.
  destruct (esp_wmngr_put_scan_spec (brk w) _ w0 Hcell) as (Hb' & Hc' & _ & Hlive).
  { cbn. lia. }
  destruct Hlive as [Hheap _]; [cbn; lia |].
  destruct (put_scan_frame (brk w) w0) as (_ & Hev' & _).
  split; [rewrite Hc', Hcs; reflexivity |].
  split; [rewrite Hheap, lookup_insert_eq; reflexivity |].
  split; [rewrite Hev', Hev; reflexivity |].
  split; [unfold cfg_core; rewrite Hc', Hcs; reflexivity |].
  rewrite Hb', Hbrk. reflexivity.
Qed.

End Collect.

Lemma wifi_scan_done_gives_up_witness :
  let w := world_of wmngr_state_idle zero_cfg zero_cfg zero_cfg
             (Z.lor BIT_SCAN_RUNNING BIT_SCAN_DONE) ∅ in
  cfg_state (snd (wifi_scan_done env_no_memory w)) = cfg_state w /\
  heap (snd (wifi_scan_done env_no_memory w)) = heap w /\
  wifi_events (snd (wifi_scan_done env_no_memory w)) = wifi_events w.
Proof.
  intros w. apply (wifi_scan_done_gives_up env_no_memory w); reflexivity.
Defined.

Lemma wifi_scan_done_publishes_witness :
  let w := world_of wmngr_state_idle zero_cfg zero_cfg zero_cfg
             (Z.lor BIT_SCAN_RUNNING BIT_SCAN_DONE) ∅ in
  let w' := snd (wifi_scan_done env_scanning w) in
  let l := [ev_call c_esp_wifi_scan_get_ap_num ESP_OK; ev_alloc true; ev_alloc true] in
  scan_ref (cfg_state w') = Some 0%nat /\
  heap w' !! 0%nat
    = Some (snapshot_of (env_tick env_scanning l) 2 (env_ap_records env_scanning l) 1) /\
  wifi_events w' = 0 /\
  cfg_core w' = cfg_core w /\
  brk w' = 1%nat.
Proof.
  intros w.
  assert (Hco : cooperative env_scanning) by (repeat split; intros; reflexivity).
  assert (Hn : 0 < env_ap_num env_scanning (log w)) by reflexivity.
  assert (Hold : forall o, scan_ref (cfg_state w) = Some o -> o <> brk w)
    by (intros o Ho; discriminate Ho).
  exact (wifi_scan_done_publishes env_scanning w Hco Hn Hold).
Defined.

(** * A scan from request to result *)

Lemma test_bits_bit x k : 0 <= k -> test_bits x (2 ^ k) = Z.testbit x k.
Proof.
  intros Hk. unfold test_bits.
  destruct (Z.testbit x k) eqn:Hb.
  - apply negb_true_iff, Z.eqb_neq. intros H0.
    assert (Ht : Z.testbit (Z.land x (2 ^ k)) k = true).
    { rewrite Z.land_spec, Hb, Z.pow2_bits_true by lia. reflexivity. }
    rewrite H0, Z.bits_0 in Ht. discriminate Ht.
  - apply negb_false_iff, Z.eqb_eq. apply Z.bits_inj'. intros n Hn.
    rewrite Z.land_spec, Z.bits_0, Z.pow2_bits_eqb by lia.
    destruct (Z.eqb_spec k n) as [-> |]; [rewrite Hb; reflexivity | apply andb_false_r].
Qed.

Lemma test_bits_lor x a b :
  test_bits x (Z.lor a b) = test_bits x a || test_bits x b.
Proof.
  unfold test_bits. rewrite Z.land_lor_distr_r.
  destruct (Z.eqb_spec (Z.land x a) 0) as [Ha |Ha];
    destruct (Z.eqb_spec (Z.land x b) 0) as [Hb |Hb]; cbn;
    [ rewrite Ha, Hb; reflexivity | | |];
    apply negb_true_iff, Z.eqb_neq; intros H; apply Z.lor_eq_0_iff in H; tauto.
Qed.

(** The flags of a world that matter for a scan. *)
Ltac flags :=
  rewrite ?test_bits_lor;
  change BIT_TRIGGER with (2 ^ 0) in *;
  change BIT_STA_CONNECTED with (2 ^ 2) in *;
  change BIT_SCAN_START with (2 ^ 5) in *;
  change BIT_SCAN_RUNNING with (2 ^ 6) in *;
  change BIT_SCAN_DONE with (2 ^ 7) in *;
  rewrite ?test_bits_bit in * by lia;
  repeat (rewrite Z.lor_spec || rewrite Z.ldiff_spec);
  rewrite ?Z.pow2_bits_eqb by lia;
  repeat match goal with
  | H : Z.testbit _ _ = _ |- _ => rewrite H
  end;
  repeat match goal with
  | |- context [?a =? ?b] =>
      let v := eval vm_compute in (a =? b) in change (a =? b) with v
  end;
  cbn [negb andb orb]; rewrite ?andb_true_r, ?orb_false_r, ?andb_false_r, ?orb_true_r;
  try reflexivity.

Section Pipeline.

Variable P : platform.
Variable E : environment.

Hypothesis Hco : cooperative E.

Lemma cooperative_dispatches w : dispatches E w.
Proof. destruct Hco as (Hst & Htk & _). split; [apply Htk | apply Hst]. Qed.

Lemma handle_wifi_scan_rest events delay w :
  state_le_idle (state (cfg_state w)) = true ->
  handle_wifi_scan P E events delay w =
    let w1 := snd ((if test_bits events BIT_SCAN_START then wifi_scan_start E
                    else if test_bits events BIT_SCAN_DONE then wifi_scan_done E
                    else ret tt) w) in
    (if test_bits (wifi_events w1) (Z.lor BIT_SCAN_START BIT_SCAN_DONE)
     then CFG_DELAY P else delay, w1).
Proof.
  intros Hs. unfold handle_wifi_scan, bind, xEventGroupGetBits, gets, ret.
  cbn [fst snd]. rewrite Hs. cbv zeta.
  destruct (test_bits (wifi_events _) (Z.lor BIT_SCAN_START BIT_SCAN_DONE));
    reflexivity.
Qed.

(** A step at rest does only what the scan flags ask for. *)
Lemma handle_wifi_resting w :
  at_rest w ->
  exists evs,
    snd (handle_wifi P E w) =
      only_logged evs
        (snd ((if test_bits (wifi_events w) BIT_SCAN_START then wifi_scan_start E
               else if test_bits (wifi_events w) BIT_SCAN_DONE then wifi_scan_done E
               else ret tt) (dispatch_world w))).
Proof.
  intros [Hs Hc]. destruct Hco as (Hst & Htk & Htm & Hca).
  assert (Hsw : handle_wifi_switch P E (test_bits (wifi_events w) BIT_STA_CONNECTED)
                  (wifi_events w) (step_now E w) (dispatch_world w)
                = ((0, false), dispatch_world w)).
  { destruct (state (cfg_state w)) eqn:Hstate; try discriminate Hs.
    - apply handle_wifi_switch_unused. right. exact Hstate.
    - rewrite handle_wifi_switch_in_connected by exact Hstate.
      rewrite (Hc eq_refl). reflexivity.
    - apply handle_wifi_switch_unused. left. exact Hstate. }
  rewrite (handle_wifi_dispatch P E w (cooperative_dispatches w)). cbn zeta.
  rewrite Hsw. cbn [fst snd].
  rewrite handle_wifi_scan_rest by exact Hs. cbv zeta. cbn [fst snd].
  rewrite handle_wifi_exit_eq.
  destruct (test_bits _ (Z.lor BIT_SCAN_START BIT_SCAN_DONE));
    destruct (_ >? 0); rewrite ?Htm; eexists; reflexivity.
Qed.

Hypothesis Hmode : forall l, scan_mode (env_mode E l) = true.

(** The parts of the world that the steps of a scan leave alone. *)
Ltac flags_of H :=
  unfold scan_flags in H; injection H as ? ? ?.

(** The step that starts the scan. *)
Lemma handle_wifi_starts_scan w :
  at_rest w -> scan_flags w = (true, false, false) ->
  let w' := snd (handle_wifi P E w) in
  scan_flags w' = (true, true, false) /\
  test_bits (wifi_events w') BIT_STA_CONNECTED
    = test_bits (wifi_events w) BIT_STA_CONNECTED /\
  cfg_state w' = cfg_state w /\ heap w' = heap w /\ brk w' = brk w.
Proof.
  intros Hr Hf w'. subst w'.
  destruct (handle_wifi_resting w Hr) as [evs ->].
  flags_of Hf. destruct Hco as (Hst & Htk & Htm & Hca).
  match goal with H : test_bits _ BIT_SCAN_START = true |- _ => rewrite H end.
  rewrite wifi_scan_start_eq by (destruct Hr as [Hs _]; exact Hs).
  cbv zeta. rewrite !Hst, Hmode. cbn [is_ok negb].
  unfold logged, dispatch_world, only_logged.
  cbn [wifi_events with_wifi_events with_log log].
  assert (Hbusy : test_bits (Z.ldiff (wifi_events w) BIT_SCAN_START)
                    (Z.lor BIT_SCAN_RUNNING BIT_SCAN_DONE) = false) by flags.
  rewrite Hbusy. unfold scan_flags. cbn.
  repeat split; try reflexivity; try (f_equal; [f_equal |]); flags.
Qed.

(** The step that collects the results. *)
Lemma handle_wifi_collects w :
  at_rest w ->
  test_bits (wifi_events w) BIT_SCAN_START = false ->
  test_bits (wifi_events w) BIT_SCAN_DONE = true ->
  0 < env_ap_num E (log (dispatch_world w)) ->
  (forall o, scan_ref (cfg_state w) = Some o -> o <> brk w) ->
  let w' := snd (handle_wifi P E w) in
  exists l,
    scan_ref (cfg_state w') = Some (brk w) /\
    heap w' !! brk w
      = Some (snapshot_of (env_tick E l) (env_ap_num E (log (dispatch_world w)))
                (env_ap_records E l) 1) /\
    wifi_events w' = Z.ldiff (wifi_events w) (Z.lor BIT_SCAN_RUNNING BIT_SCAN_DONE) /\
    cfg_core w' = cfg_core w.
Proof.
  intros Hr Hs Hd Hn Hold w'. subst w'.
  destruct (handle_wifi_resting w Hr) as [evs ->]. rewrite Hs, Hd.
  destruct (wifi_scan_done_publishes E (dispatch_world w) Hco Hn Hold)
    as (H1 & H2 & H3 & H4 & _).
  eexists. unfold only_logged. cbn [cfg_state heap wifi_events with_log].
  repeat split; [exact H1 | exact H2 | exact H3 | exact H4].
Qed.

(** What the request, an event and the round of the task do to the
    flags. *)
Lemma esp_wmngr_start_scan_effect w :
  exists evs,
    snd (esp_wmngr_start_scan P E w) =
      only_logged evs
        (with_wifi_events (Z.lor (wifi_events w) (Z.lor BIT_SCAN_START BIT_TRIGGER)) w).
Proof.
  destruct Hco as (Hst & Htk & Htm & Hca).
  unfold esp_wmngr_start_scan, bind, xEventGroupSetBits, xTimerChangePeriod, modify, ret.
  cbn [fst snd]. destruct (CONFIG_WMNGR_TASK P).
  - exists []. cbn [snd]. rewrite only_logged_nil. reflexivity.
  - rewrite Htm. cbn [negb snd]. eexists. reflexivity.
Qed.

Lemma event_handler_effect e w :
  exists evs x,
    snd (event_handler P E e w) = only_logged evs (with_wifi_events x w) /\
    (x = bits_after_event e (wifi_events w) \/
     x = Z.lor (bits_after_event e (wifi_events w)) BIT_TRIGGER).
Proof.
  destruct Hco as (Hst & Htk & Htm & Hca).
  assert (Hsame : forall w0 : world, w0 = only_logged [] (with_wifi_events (wifi_events w0) w0)).
  { intros w0. rewrite only_logged_nil. apply world_eq; reflexivity. }
  destruct e;
    try (exists [], (wifi_events w); split; [apply Hsame | left; reflexivity]);
    lazymatch goal with
    | |- exists evs x, _ /\ (x = ?B \/ _) =>
        unfold event_handler, bind, xEventGroupGetBits, gets; cbn [fst snd];
        rewrite event_bits_eq; cbn [fst snd wifi_events with_wifi_events];
        (destruct (_ =? _); cbn [negb];
         [ exists [], B; split;
           [rewrite only_logged_nil; reflexivity | left; reflexivity] |]);
        (destruct (CONFIG_WMNGR_TASK P);
         [ exists [], (Z.lor B BIT_TRIGGER); split;
           [rewrite only_logged_nil; apply world_eq; reflexivity | right; reflexivity] |]);
        unfold xTimerChangePeriod, ret; cbn [fst snd log with_wifi_events];
        rewrite Htm; cbn [negb snd];
        eexists _, B; split; [ reflexivity | left; reflexivity ]
    end.
Qed.

Lemma wake_effect w :
  exists x,
    snd (run_entry P E (wake P) w) = snd (handle_wifi P E (with_wifi_events x w)) /\
    (x = wifi_events w \/ x = Z.ldiff (wifi_events w) BIT_TRIGGER).
Proof.
  unfold wake. destruct (CONFIG_WMNGR_TASK P) eqn:Ht.
  - exists (Z.ldiff (wifi_events w) BIT_TRIGGER). split; [| right; reflexivity].
    reflexivity.
  - exists (wifi_events w). split; [| left; reflexivity].
    cbn [run_entry]. unfold handle_timer. rewrite Ht.
    replace (with_wifi_events (wifi_events w) w) with w
      by (apply world_eq; reflexivity).
    reflexivity.
Qed.

(** X21. A scan from request to result, in an environment that
    cooperates, with a radio mode that permits scanning and a driver that
    finds [n > 0] access points with the records [recs].  From a state at
    rest with no scan under way: after [esp_wmngr_start_scan], a run of the
    state machine, the event [WIFI_EVENT_SCAN_DONE] and another run of the
    state machine, [esp_wmngr_get_scan] returns a snapshot with the first
    [MAX_NUM_APS] records of [recs] and two references, that of the
    component and that of the caller.  The three scan flags are clear
    again and the configuration state is as before. *)
Theorem scan_round_trip (w : world) (n : Z) (recs : list wifi_ap_record_t) :
  (forall l, env_ap_num E l = n) -> 0 < n ->
  (forall l, env_ap_records E l = recs) ->
  at_rest w ->
  scan_flags w = (false, false, false) ->
  (forall o, scan_ref (cfg_state w) = Some o -> o <> brk w) ->
  let w4 := snd (run_entries P E
                   [en_start_scan; wake P; en_event (WIFI_EVENT_SCAN_DONE true); wake P]
                   w) in
  exists t,
    fst (esp_wmngr_get_scan P E w4) = Some (brk w) /\
    heap (snd (esp_wmngr_get_scan P E w4)) !! brk w = Some (snapshot_of t n recs 2) /\
    scan_flags w4 = (false, false, false) /\
    cfg_core w4 = cfg_core w.
Proof.
  intros Hnum Hn Hrecs [Hs Hc] Hf Hold w4. subst w4.
  flags_of Hf.
  cbn [run_entries]. rewrite !bind_unfold. cbn [run_entry].
  rewrite (bind_unfold (esp_wmngr_start_scan P E)). cbn [ret snd].
  destruct (esp_wmngr_start_scan_effect w) as [ev1 ->].
  set (w1 := only_logged ev1 _).
  destruct (wake_effect w1) as (x1 & -> & Hx1).
  set (w1' := with_wifi_events x1 w1).
  assert (Hr1 : at_rest w1').
  { split; [exact Hs |]. intros Hst. specialize (Hc Hst). subst w1' w1. cbn.
    destruct Hx1 as [-> | ->]; cbn; flags. }
  assert (Hf1 : scan_flags w1' = (true, false, false)).
  { subst w1' w1. unfold scan_flags. cbn.
    destruct Hx1 as [-> | ->]; cbn; repeat f_equal; flags. }
  destruct (handle_wifi_starts_scan w1' Hr1 Hf1) as (Hf2 & Hc2 & Hcs2 & Hh2 & Hb2).
  set (w2 := snd (handle_wifi P E w1')) in *.
  assert (Hcs : cfg_state w2 = cfg_state w) by (rewrite Hcs2; reflexivity).
  assert (Hbrk : brk w2 = brk w) by (rewrite Hb2; reflexivity).
  assert (Hcon : state (cfg_state w) = wmngr_state_connected ->
                 test_bits (wifi_events w2) BIT_STA_CONNECTED = true).
  { intros Hst. rewrite Hc2. destruct Hr1 as [_ Hr1]. apply Hr1. exact Hst. }
  clearbody w2. clear Hcs2 Hh2 Hb2 Hc2 Hr1 Hf1 Hx1. clear w1' w1.
  flags_of Hf2.
  destruct (event_handler_effect (WIFI_EVENT_SCAN_DONE true) w2) as (ev3 & x3 & -> & Hx3).
  cbn [bits_after_event] in Hx3.
  set (w3 := only_logged ev3 _).
  destruct (wake_effect w3) as (x4 & -> & Hx4).
  set (w4 := with_wifi_events x4 w3).
  assert (Hr4 : at_rest w4).
  { split; [cbn; rewrite Hcs; exact Hs |]. cbn. rewrite Hcs. intros Hst.
    specialize (Hcon Hst).
    destruct Hx4 as [-> | ->]; cbn; destruct Hx3 as [-> | ->]; flags. }
  assert (Hs4 : test_bits (wifi_events w4) BIT_SCAN_START = false).
  { cbn. destruct Hx4 as [-> | ->]; cbn; destruct Hx3 as [-> | ->]; flags. }
  assert (Hd4 : test_bits (wifi_events w4) BIT_SCAN_DONE = true).
  { cbn. destruct Hx4 as [-> | ->]; cbn; destruct Hx3 as [-> | ->]; flags. }
  assert (Hn4 : 0 < env_ap_num E (log (dispatch_world w4))) by (rewrite Hnum; exact Hn).
  assert (Hold4 : forall o, scan_ref (cfg_state w4) = Some o -> o <> brk w4).
  { cbn. rewrite Hcs, Hbrk. exact Hold. }
  destruct (handle_wifi_collects w4 Hr4 Hs4 Hd4 Hn4 Hold4) as (l & H5 & H6 & H7 & H8).
  set (w5 := snd (handle_wifi P E w4)) in *.
  change (brk w4) with (brk w2) in H5, H6. rewrite Hbrk in H5, H6.
  rewrite Hnum, Hrecs in H6.
  exists (env_tick E l).
  rewrite esp_wmngr_get_scan_eq, H5.
  destruct Hco as (_ & Htk & _). rewrite Htk. cbn [fst snd].
  split; [reflexivity |].
  split. { unfold only_logged. cbn [heap with_log with_heap].
           rewrite lookup_alter_eq, H6. reflexivity. }
  split. { unfold scan_flags. rewrite H7. cbn.
           destruct Hx4 as [-> | ->]; cbn; destruct Hx3 as [-> | ->];
             repeat f_equal; flags. }
  rewrite H8. unfold cfg_core. cbn. rewrite Hcs. reflexivity.
Qed.

End Pipeline.

Lemma scan_round_trip_witness :
  let w := world_of wmngr_state_idle zero_cfg zero_cfg zero_cfg 0 ∅ in
  let w4 := snd (run_entries platform_10ms env_scanning
                   [en_start_scan; wake platform_10ms;
                    en_event (WIFI_EVENT_SCAN_DONE true); wake platform_10ms]
                   w) in
  exists t,
    fst (esp_wmngr_get_scan platform_10ms env_scanning w4) = Some (brk w) /\
    heap (snd (esp_wmngr_get_scan platform_10ms env_scanning w4)) !! brk w
      = Some (snapshot_of t 2 (env_ap_records env_scanning []) 2) /\
    scan_flags w4 = (false, false, false) /\
    cfg_core w4 = cfg_core w.
Proof.
  intros w.
  apply (scan_round_trip platform_10ms env_scanning).
  - repeat split; intros; reflexivity.
  - intros l. reflexivity.
  - intros l. reflexivity.
  - lia.
  - intros l. reflexivity.
  - split; [reflexivity | intros H; discriminate H].
  - reflexivity.
  - intros o H. discriminate H.
Defined.

(** * Tick arithmetic *)

Lemma wrapped_difference d l :
  0 <= d < 2 ^ 32 -> 0 <= l < 2 ^ 32 ->
  (l - d) mod 2 ^ 32 = if d <=? l then l - d else l - d + 2 ^ 32.
Proof.
  intros Hd Hl. destruct (Z.leb_spec d l).
  - apply Z.mod_small. lia.
  - symmetry. apply (Zmod_unique _ _ (-1)); lia.
Qed.

(** X22. The timeout of [handle_wifi] in elapsed ticks.  For a timeout of
    less than [2^31] ticks, [time_after(now, ts + timeout)] holds exactly
    when the ticks elapsed since [ts], counted modulo [2^32], are more than
    the timeout and at most the timeout plus [2^31]: the wrap-around of the
    tick counter does no harm, but a deadline that is checked more than
    [2^31] ticks late is missed. *)
Theorem time_after_elapsed (now ts timeout : Z) :
  0 <= timeout < 2 ^ 31 ->
  time_after now (tick_add ts timeout) = true <->
  timeout < (now - ts) mod 2 ^ 32 <= timeout + 2 ^ 31.
Proof.
  intros Ht. unfold time_after, tick_add.
  rewrite Zminus_mod_idemp_l.
  replace (ts + timeout - now) with (timeout - (now - ts)) by lia.
  rewrite <- Zminus_mod_idemp_r.
  pose proof (Z.mod_pos_bound (now - ts) (2 ^ 32) ltac:(lia)) as He.
  set (e := (now - ts) mod 2 ^ 32) in *.
  rewrite wrapped_difference by lia.
  clearbody e.
  destruct (Z.leb_spec e timeout); rewrite Z.leb_le;
    change (2 ^ 31) with 2147483648 in *; change (2 ^ 32) with 4294967296 in *; (split; [intros ? | intros [? ?]]); lia.
Qed.

Lemma time_after_elapsed_witness :
  time_after 5 (tick_add (2 ^ 32 - 10) 6) = true <->
  6 < (5 - (2 ^ 32 - 10)) mod 2 ^ 32 <= 6 + 2 ^ 31.
Proof. apply (time_after_elapsed 5 (2 ^ 32 - 10) 6). lia. Defined.

(** X23. [time_in_range] on a window of less than [2^31] ticks: [a] is in
    the range from [b] to [c] exactly when the ticks from [b] to [a] are
    at most the ticks from [b] to [c], both counted modulo [2^32]; the
    open variant excludes [c] itself. *)
Theorem time_in_range_window (a b c : Z) :
  (c - b) mod 2 ^ 32 < 2 ^ 31 ->
  (time_in_range a b c = true <-> (a - b) mod 2 ^ 32 <= (c - b) mod 2 ^ 32) /\
  (time_in_range_open a b c = true <-> (a - b) mod 2 ^ 32 < (c - b) mod 2 ^ 32).
Proof.
  intros Hl.
  unfold time_in_range, time_in_range_open, time_before_eq, time_before,
    time_after_eq, time_after.
  pose proof (Z.mod_pos_bound (a - b) (2 ^ 32) ltac:(lia)) as Hd.
  pose proof (Z.mod_pos_bound (c - b) (2 ^ 32) ltac:(lia)) as Hc.
  assert (Hca : (c - a) mod 2 ^ 32
                = ((c - b) mod 2 ^ 32 - (a - b) mod 2 ^ 32) mod 2 ^ 32).
  { rewrite <- Zminus_mod. f_equal. lia. }
  assert (Hac : (a - c) mod 2 ^ 32
                = ((a - b) mod 2 ^ 32 - (c - b) mod 2 ^ 32) mod 2 ^ 32).
  { rewrite <- Zminus_mod. f_equal. lia. }
  rewrite Hca, Hac.
  set (d := (a - b) mod 2 ^ 32) in *. set (l := (c - b) mod 2 ^ 32) in *.
  clearbody d l.
  rewrite (wrapped_difference d l), (wrapped_difference l d) by lia.
  destruct (Z.leb_spec d l); destruct (Z.leb_spec l d);
    rewrite !andb_true_iff, !Z.ltb_lt, ?Z.leb_le;
    change (2 ^ 31) with 2147483648 in *; change (2 ^ 32) with 4294967296 in *;
    intuition lia.
Qed.

Lemma time_in_range_window_witness :
  (time_in_range 3 (2 ^ 32 - 4) 8 = true <->
   (3 - (2 ^ 32 - 4)) mod 2 ^ 32 <= (8 - (2 ^ 32 - 4)) mod 2 ^ 32) /\
  (time_in_range_open 3 (2 ^ 32 - 4) 8 = true <->
   (3 - (2 ^ 32 - 4)) mod 2 ^ 32 < (8 - (2 ^ 32 - 4)) mod 2 ^ 32).
Proof. apply (time_in_range_window 3 (2 ^ 32 - 4) 8). reflexivity. Defined.

(** * Initialisation *)

(** X24. Whatever the build configuration says, the default
    configuration of [set_defaults] is usable: it is flagged as default,
    the mode is APSTA, the SSID of the AP has between 1 and 32 bytes and
    [ssid_len] is its length; the SSID is the configured one when that has
    between 1 and 32 bytes, and "ESP WiFi Manager" when it is empty or
    longer; the station section is empty and the station is not asked to
    connect; each AP address is the configured one when lwIP can parse it
    and 192.168.4.1 / 255.255.255.0 otherwise. *)
Theorem set_defaults_usable (D : build_defaults) :
  let c := set_defaults D in
  is_default c = true /\ mode c = WIFI_MODE_APSTA /\
  0 < ssid_len (ap c) <= 32 /\ ssid_len (ap c) = strlen (ap_ssid (ap c)) /\
  (0 < strlen (CONFIG_WMNGR_AP_SSID D) <= 32 ->
   ap_ssid (ap c) = CONFIG_WMNGR_AP_SSID D) /\
  (~ 0 < strlen (CONFIG_WMNGR_AP_SSID D) <= 32 ->
   ap_ssid (ap c) = "ESP WiFi Manager") /\
  sta c = zero_sta /\ sta_connect c = false /\ sta_static c = false /\
  (forall conf, ip4addr_aton D conf = None ->
     (conf = CONFIG_WMNGR_AP_IP D -> ip (ap_ip_info c) = IP4_ADDR 192 168 4 1) /\
     (conf = CONFIG_WMNGR_AP_MASK D -> netmask (ap_ip_info c) = IP4_ADDR 255 255 255 0) /\
     (conf = CONFIG_WMNGR_AP_GW D -> gw (ap_ip_info c) = IP4_ADDR 192 168 4 1)) /\
  (forall v, ip4addr_aton D (CONFIG_WMNGR_AP_IP D) = Some v -> ip (ap_ip_info c) = v) /\
  (forall v, ip4addr_aton D (CONFIG_WMNGR_AP_MASK D) = Some v ->
     netmask (ap_ip_info c) = v) /\
  (forall v, ip4addr_aton D (CONFIG_WMNGR_AP_GW D) = Some v -> gw (ap_ip_info c) = v).
Proof.
  unfold set_defaults.
  destruct ((strlen (CONFIG_WMNGR_AP_SSID D) >? 0)
            && (strlen (CONFIG_WMNGR_AP_SSID D) <=? sizeof_ssid)) eqn:Hlen; cbn.
  - apply andb_true_iff in Hlen as [H1 H2]. unfold sizeof_ssid in H2.
    repeat split; try lia; auto;
      try (intros ->; rewrite H; reflexivity);
      try (intros H; rewrite H; reflexivity);
      try (intros v Hv; rewrite Hv; reflexivity).
  - assert (Hn : ~ 0 < strlen (CONFIG_WMNGR_AP_SSID D) <= 32).
    { intros [H1 H2]. apply andb_false_iff in Hlen as [H | H]; unfold sizeof_ssid in *; lia. }
    repeat split; try lia; auto; try (vm_compute; congruence);
      try (intros ->; rewrite H; reflexivity);
      try (intros H; rewrite H; reflexivity);
      try (intros v Hv; rewrite Hv; reflexivity).
Qed.

Section Init.

Variable P : platform.
Variable E : environment.
Variable D : build_defaults.
Variable A : init_answers.

Lemma preserves_cfg_state_get_saved_config : preserves cfg_state (get_saved_config P E).
Proof.
  unfold get_saved_config, get_saved_config_body, nvs_open, nvs_close,
    nvs_get_u32, nvs_get_blob, emit.
  repeat frame_step.
Qed.

Lemma preserves_wifi_events_get_saved_config :
  preserves wifi_events (get_saved_config P E).
Proof.
  unfold get_saved_config, get_saved_config_body, nvs_open, nvs_close,
    nvs_get_u32, nvs_get_blob, emit.
  repeat frame_step.
Qed.

Lemma preserves_nvs_get_saved_config' : preserves nvs (get_saved_config P E).
Proof.
  unfold get_saved_config, get_saved_config_body, nvs_open, nvs_close,
    nvs_get_u32, nvs_get_blob, emit.
  repeat frame_step.
Qed.

(** The world when [esp_wmngr_init] has loaded the configuration. *)
Lemma esp_wmngr_init_world w :
  ans_xEventGroupCreate A = true ->
  ans_xSemaphoreCreateMutex A = true ->
  ans_esp_event_handler_register A WIFI_EVENT = ESP_OK ->
  ans_esp_event_handler_register A IP_EVENT = ESP_OK ->
  exists w1,
    nvs w1 = nvs w /\ wifi_events w1 = 0 /\
    cfg_state w1 = cs_set_saved (set_defaults D)
                     (cs_set_state wmngr_state_idle zero_cfg_state) /\
    let g := get_saved_config P E w1 in
    snd (esp_wmngr_init P E D A w) =
      snd (set_state wmngr_state_update
             (with_cfg_state
                (cs_set_new (if is_ok (fst (fst g)) then snd (fst g)
                             else set_defaults D)
                   (cfg_state (snd g))) (snd g))).
Proof.
  intros Hg Hm Hw Hi.
  exists (snd (modify_cs (cs_set_saved (set_defaults D))
            (snd (modify (with_wifi_events 0)
               (snd (set_state wmngr_state_idle
                  (snd (modify (with_cfg_state zero_cfg_state) w)))))))).
  split; [reflexivity |]. split; [reflexivity |]. split; [reflexivity |].
  cbv zeta.
  unfold esp_wmngr_init, esp_wmngr_init_exit. rewrite Hg, Hm, Hw, Hi.
  cbn [negb is_ok]. rewrite !bind_unfold.
  set (g := get_saved_config P E _).
  repeat match goal with
  | |- context [if negb ?b then _ else _] => destruct b eqn:?; cbn [negb]
  | |- context [if CONFIG_WMNGR_TASK P then _ else _] => destruct (CONFIG_WMNGR_TASK P)
  end;
    cbn [ret snd fst];
    unfold set_state, modify_cs, modify, emit, bind, ret; cbn [fst snd];
    apply world_eq; reflexivity.
Qed.

(** X25. [esp_wmngr_init] sets up all or nothing of what it owns.  It
    returns [ESP_OK] exactly when every creation and every call succeeded
    (the creation of the task counting only in the build that has one);
    then the event group, the lock and the timer exist, the timer is
    started with a period of [CFG_TICKS] (auto-reloading in the task
    build), the handlers for the WiFi and IP events are registered, and
    the task runs in the build that has one.  Otherwise the event group,
    the lock and the timer are gone and no task runs; but a handler that
    was registered before the failure stays registered. *)
Theorem esp_wmngr_init_all_or_nothing (w : world) :
  let res := fst (esp_wmngr_init P E D A w) in
  (fst res = ESP_OK <-> init_answers_ok P A = true) /\
  (fst res = ESP_OK ->
   snd res =
     {| res_wifi_events := true; res_lock := true;
        res_config_timer :=
          Some {| tm_period := CFG_TICKS P; tm_auto_reload := CONFIG_WMNGR_TASK P;
                  tm_started := true |};
        res_handlers := [WIFI_EVENT; IP_EVENT];
        res_tcpip_adapter := true; res_wifi_driver := true;
        res_task := CONFIG_WMNGR_TASK P |}) /\
  (fst res <> ESP_OK ->
   res_wifi_events (snd res) = false /\ res_lock (snd res) = false /\
   res_config_timer (snd res) = None /\ res_task (snd res) = false /\
   (ans_xEventGroupCreate A = true -> ans_xSemaphoreCreateMutex A = true ->
    forall b,
      ans_esp_event_handler_register A WIFI_EVENT = ESP_OK ->
      (b = WIFI_EVENT \/ ans_esp_event_handler_register A b = ESP_OK) ->
      b ∈ res_handlers (snd res))).
Proof.
  cbv zeta. unfold init_answers_ok, esp_wmngr_init, esp_wmngr_init_exit.
  repeat first
    [ rewrite bind_unfold
    | progress cbn [is_ok negb]
    | match goal with
      | |- context [if negb ?b then _ else _] => destruct b eqn:?; cbn [negb andb orb]
      | |- context [if CONFIG_WMNGR_TASK P then _ else _] =>
          destruct (CONFIG_WMNGR_TASK P) eqn:?; cbn [negb andb orb]
      end ];
    cbn [ret fst snd is_ok negb].
  all: split; [| split].
  all: try solve [ split; intros Hx;
                   first [ reflexivity | discriminate Hx
                         | rewrite Hx in *; discriminate ] ].
  all: try solve [ intros Hx; first [ reflexivity | discriminate Hx
                                    | rewrite Hx in *; discriminate ] ].
  all: intros Hx; try (exfalso; apply Hx; reflexivity).
  all: cbn; repeat split.
  all: intros Hg Hm b Hreg Hb; try congruence; try (rewrite Hreg in *; discriminate).
  all: destruct b; try (repeat constructor).
  all: destruct Hb as [Hb | Hb]; try discriminate Hb; rewrite Hb in *; discriminate.
Qed.

(** X26. What [esp_wmngr_init] leaves in [cfg_state] once the event
    group and the lock exist and both handlers are registered, whether or
    not the rest of the initialisation succeeds: the state is [update],
    [saved] holds the defaults of the build, [current] is zeroed, the event
    bits are clear and the store is untouched.  With NVS calls that do not
    fail, [new] is the configuration that [save_config] stored, with
    [is_default] cleared, and the defaults of the build when the namespace
    is empty. *)
Theorem esp_wmngr_init_restores (X : wifi_cfg) (w : world) :
  nvs_reliable E ->
  ans_xEventGroupCreate A = true ->
  ans_xSemaphoreCreateMutex A = true ->
  ans_esp_event_handler_register A WIFI_EVENT = ESP_OK ->
  ans_esp_event_handler_register A IP_EVENT = ESP_OK ->
  let w' := snd (esp_wmngr_init P E D A w) in
  state (cfg_state w') = wmngr_state_update /\
  saved (cfg_state w') = set_defaults D /\
  current (cfg_state w') = zero_cfg /\
  wifi_events w' = 0 /\
  nvs w' = nvs w /\
  (nvs w = stored P X -> new (cfg_state w') = set_is_default false X) /\
  (nvs w = ∅ -> new (cfg_state w') = set_defaults D).
Proof.
  intros Hnvs Hg Hm Hw Hi w'. subst w'.
  destruct (esp_wmngr_init_world w Hg Hm Hw Hi) as (w1 & Hn1 & He1 & Hc1 & Heq).
  cbv zeta in Heq. rewrite Heq. clear Heq.
  pose proof (preserves_cfg_state_get_saved_config w1) as Hcs.
  pose proof (preserves_wifi_events_get_saved_config w1) as Hev.
  pose proof (preserves_nvs_get_saved_config' w1) as Hnv.
  unfold set_state, modify_cs, modify, emit, bind, ret. cbn.
  rewrite Hcs, Hc1, Hev, Hnv. cbn.
  repeat split; auto.
  - intros Hst. rewrite <- Hn1 in Hst.
    rewrite (get_saved_config_reliable P E X w1 Hnvs Hst). reflexivity.
  - intros Hst. rewrite <- Hn1 in Hst.
    destruct (get_saved_config_empty P E w1 Hst) as [Hne _].
    destruct (fst (fst (get_saved_config P E w1))); try reflexivity. congruence.
Qed.

End Init.

Lemma esp_wmngr_init_restores_witness :
  let w := world_of wmngr_state_failed zero_cfg zero_cfg zero_cfg 0
             (stored platform_10ms cfg_home) in
  let w' := snd (esp_wmngr_init platform_10ms env_ok defaults_esp answers_no_timer w) in
  state (cfg_state w') = wmngr_state_update /\
  saved (cfg_state w') = set_defaults defaults_esp /\
  current (cfg_state w') = zero_cfg /\
  wifi_events w' = 0 /\
  nvs w' = nvs w /\
  (nvs w = stored platform_10ms cfg_home ->
   new (cfg_state w') = set_is_default false cfg_home) /\
  (nvs w = ∅ -> new (cfg_state w') = set_defaults defaults_esp).
Proof.
  intros w.
  apply (esp_wmngr_init_restores platform_10ms env_ok defaults_esp answers_no_timer
           cfg_home w); try reflexivity.
  intros l c Hc. reflexivity.
Defined.

(** * Lists (klist.h) *)

(** ** Loads and stores *)

Lemma kbind_unfold {A B} (m : K A) (k : A -> K B) h :
  kbind m k h = match m h with Some (a, h') => k a h' | None => None end.
Proof. reflexivity. Qed.

Lemma next_of_Some h p v :
  next_of h p = Some v -> exists c, h !! p = Some c /\ next c = v.
Proof.
  unfold next_of. destruct (h !! p) as [c |]; [| discriminate].
  intros [= <-]. eauto.
Qed.

Lemma prev_of_Some h p v :
  prev_of h p = Some v -> exists c, h !! p = Some c /\ prev c = v.
Proof.
  unfold prev_of. destruct (h !! p) as [c |]; [| discriminate].
  intros [= <-]. eauto.
Qed.

Lemma kload_next h p v :
  next_of h p = Some v -> exists c, kload p h = Some (c, h) /\ next c = v.
Proof.
  intros H. apply next_of_Some in H as (c & Hc & Hv).
  exists c. unfold kload. rewrite Hc. auto.
Qed.

Lemma kstore_next_ok p v h :
  is_Some (h !! p) ->
  exists h',
    kstore_next p v h = Some (tt, h') /\
    (forall q, next_of h' q = if decide (q = p) then Some v else next_of h q) /\
    (forall q, prev_of h' q = prev_of h q) /\
    (forall q, q <> p -> h' !! q = h !! q) /\
    (forall q, is_Some (h !! q) -> is_Some (h' !! q)).
Proof.
  intros [c Hc]. unfold kstore_next. rewrite Hc. eexists. split; [reflexivity |].
  unfold next_of, prev_of. split; [| split; [| split]].
  - intros q. case_decide; subst.
    + rewrite lookup_insert_eq. reflexivity.
    + rewrite lookup_insert_ne by congruence. reflexivity.
  - intros q. destruct (decide (q = p)) as [-> |].
    + rewrite lookup_insert_eq, Hc. reflexivity.
    + rewrite lookup_insert_ne by congruence. reflexivity.
  - intros q Hq. rewrite lookup_insert_ne by congruence. reflexivity.
  - intros q Hq. destruct (decide (q = p)) as [-> |].
    + rewrite lookup_insert_eq. eauto.
    + rewrite lookup_insert_ne by congruence. exact Hq.
Qed.

Lemma kstore_prev_ok p v h :
  is_Some (h !! p) ->
  exists h',
    kstore_prev p v h = Some (tt, h') /\
    (forall q, prev_of h' q = if decide (q = p) then Some v else prev_of h q) /\
    (forall q, next_of h' q = next_of h q) /\
    (forall q, q <> p -> h' !! q = h !! q) /\
    (forall q, is_Some (h !! q) -> is_Some (h' !! q)).
Proof.
  intros [c Hc]. unfold kstore_prev. rewrite Hc. eexists. split; [reflexivity |].
  unfold next_of, prev_of. split; [| split; [| split]].
  - intros q. case_decide; subst.
    + rewrite lookup_insert_eq. reflexivity.
    + rewrite lookup_insert_ne by congruence. reflexivity.
  - intros q. destruct (decide (q = p)) as [-> |].
    + rewrite lookup_insert_eq, Hc. reflexivity.
    + rewrite lookup_insert_ne by congruence. reflexivity.
  - intros q Hq. rewrite lookup_insert_ne by congruence. reflexivity.
  - intros q Hq. destruct (decide (q = p)) as [-> |].
    + rewrite lookup_insert_eq. eauto.
    + rewrite lookup_insert_ne by congruence. exact Hq.
Qed.

(** ** Chains *)

Lemma nchain_frame h h' a l z :
  (forall q, q ∈ a :: l -> next_of h' q = next_of h q) ->
  nchain h a l z -> nchain h' a l z.
Proof.
  revert a. induction l as [| b l IH]; intros a Hf; cbn.
  - rewrite Hf by (left). auto.
  - intros [H1 H2]. rewrite Hf by (left). split; [exact H1 |].
    apply IH; [| exact H2]. intros q Hq. apply Hf. right. exact Hq.
Qed.

Lemma pchain_frame h h' a (l : list nat) z :
  (forall q, q ∈ (l ++ [z])%list -> prev_of h' q = prev_of h q) ->
  pchain h a l z -> pchain h' a l z.
Proof.
  revert a. induction l as [| b l IH]; intros a Hf; cbn.
  - rewrite Hf by (left). auto.
  - intros [H1 H2]. rewrite Hf by (left). split; [exact H1 |].
    apply IH; [| exact H2]. intros q Hq. apply Hf. right. exact Hq.
Qed.

Lemma nchain_app h a l1 b l2 z :
  nchain h a (l1 ++ b :: l2)%list z <-> nchain h a l1 b /\ nchain h b l2 z.
Proof.
  revert a. induction l1 as [| c l1 IH]; intros a; cbn.
  - tauto.
  - rewrite IH. tauto.
Qed.

Lemma pchain_app h a l1 b l2 z :
  pchain h a (l1 ++ b :: l2)%list z <-> pchain h a l1 b /\ pchain h b l2 z.
Proof.
  revert a. induction l1 as [| c l1 IH]; intros a; cbn.
  - tauto.
  - rewrite IH. tauto.
Qed.

Lemma nchain_snoc h a l n z :
  nchain h a (l ++ [n])%list z <-> nchain h a l n /\ next_of h n = Some z.
Proof. apply nchain_app. Qed.

Lemma pchain_snoc h a l n z :
  pchain h a (l ++ [n])%list z <-> pchain h a l n /\ prev_of h z = Some n.
Proof. apply pchain_app. Qed.

Lemma last_elem_in a l : last_elem a l ∈ a :: l.
Proof.
  revert a. induction l as [| b l IH]; intros a; cbn.
  - left.
  - right. apply IH.
Qed.

Lemma last_elem_app a l b : last_elem a (l ++ [b])%list = b.
Proof. revert a. induction l as [| c l IH]; intros a; cbn; auto. Qed.

Lemma nchain_last h a l z : nchain h a l z -> next_of h (last_elem a l) = Some z.
Proof.
  revert a. induction l as [| b l IH]; intros a; cbn; [auto |].
  intros [_ H]. apply IH, H.
Qed.

Lemma pchain_last h a l z : pchain h a l z -> prev_of h z = Some (last_elem a l).
Proof.
  revert a. induction l as [| b l IH]; intros a; cbn; [auto |].
  intros [_ H]. apply IH, H.
Qed.

(** The sources of a chain are allocated. *)
Lemma nchain_alloc h a l z q : nchain h a l z -> q ∈ a :: l -> is_Some (h !! q).
Proof.
  revert a. induction l as [| b l IH]; intros a; cbn.
  - intros H Hq. apply list_elem_of_singleton in Hq as ->.
    apply next_of_Some in H as (c & Hc & _). eauto.
  - intros [H1 H2] Hq. apply elem_of_cons in Hq as [-> | Hq].
    + apply next_of_Some in H1 as (c & Hc & _). eauto.
    + apply (IH b); assumption.
Qed.

(** The chain that ends in a new successor of its last entry. *)
Lemma nchain_relast h h' a l z n :
  NoDup (a :: l) ->
  nchain h a l z ->
  next_of h' (last_elem a l) = Some n ->
  (forall q, q ∈ a :: l -> q <> last_elem a l -> next_of h' q = next_of h q) ->
  nchain h' a l n.
Proof.
  revert a. induction l as [| b l IH]; intros a Hnd; cbn.
  - auto.
  - intros [H1 H2] Hl Hf. apply NoDup_cons in Hnd as [Ha Hnd].
    split.
    + rewrite Hf; [exact H1 | left |].
      intros Heq. apply Ha. rewrite Heq. apply last_elem_in.
    + apply IH; auto. intros q Hq. apply Hf. right. exact Hq.
Qed.

(** The chain that leads back from a new end. *)
Lemma pchain_retarget h h' a l z n :
  pchain h a l z ->
  prev_of h' n = Some (last_elem a l) ->
  (forall q, q ∈ l -> prev_of h' q = prev_of h q) ->
  pchain h' a l n.
Proof.
  revert a. induction l as [| b l IH]; intros a; cbn.
  - auto.
  - intros [H1 H2] Hl Hf. split.
    + rewrite Hf by left. exact H1.
    + apply IH; auto. intros q Hq. apply Hf. right. exact Hq.
Qed.

Lemma kload_ok h p :
  is_Some (h !! p) -> exists c, kload p h = Some (c, h) /\ h !! p = Some c.
Proof. intros [c Hc]. exists c. unfold kload. rewrite Hc. auto. Qed.

Lemma klist_alloc h head l q :
  is_klist h head l -> q ∈ head :: l -> is_Some (h !! q).
Proof. intros (_ & Hn & _). apply (nchain_alloc h head l head q Hn). Qed.

(** ** Adding at the tail *)

Lemma klist_add_tail_spec h head (l : list nat) n :
  is_klist h head l ->
  is_Some (h !! n) ->
  n ∉ head :: l ->
  exists h',
    klist_add_tail n head h = Some (tt, h') /\
    is_klist h' head (l ++ [n]) /\
    (forall q, q ∉ n :: head :: l -> h' !! q = h !! q) /\
    (forall q, is_Some (h !! q) -> is_Some (h' !! q)).
Proof.
  intros Hk Hn Hfresh.
  pose proof Hk as (Hnd & Hnc & Hpc).
  set (t := last_elem head l).
  assert (Ht : t ∈ head :: l) by apply last_elem_in.
  assert (Hnt : n <> t) by (intros ->; contradiction).
  assert (Hnh : n <> head) by (intros ->; apply Hfresh; left).
  pose proof (pchain_last _ _ _ _ Hpc) as Hprev. fold t in Hprev.
  apply prev_of_Some in Hprev as (c & Hc & Hct).
  unfold klist_add_tail. rewrite kbind_unfold. unfold kload at 1. rewrite Hc, Hct.
  unfold __klist_add.
  destruct (kstore_prev_ok head n h) as (h1 & E1 & P1 & N1 & F1 & A1); [eauto |].
  rewrite kbind_unfold, E1.
  destruct (kstore_next_ok n head h1) as (h2 & E2 & N2 & P2 & F2 & A2); [auto |].
  rewrite kbind_unfold, E2.
  destruct (kstore_prev_ok n t h2) as (h3 & E3 & P3 & N3 & F3 & A3); [auto |].
  rewrite kbind_unfold, E3.
  destruct (kstore_next_ok t n h3) as (h4 & E4 & N4 & P4 & F4 & A4).
  { apply A3, A2, A1. apply (klist_alloc h head l t Hk Ht). }
  rewrite E4. exists h4. split; [reflexivity |].
  assert (HN : forall q, next_of h4 q =
                 if decide (q = t) then Some n
                 else if decide (q = n) then Some head else next_of h q).
  { intros q. rewrite N4, N3, N2, N1. reflexivity. }
  assert (HP : forall q, prev_of h4 q =
                 if decide (q = n) then Some t
                 else if decide (q = head) then Some n else prev_of h q).
  { intros q. rewrite P4, P3, P2, P1. reflexivity. }
  split; [| split].
  - split; [| split].
    + change (NoDup ((head :: l) ++ [n])). apply NoDup_app. split; [exact Hnd |].
      split; [| apply NoDup_singleton].
      intros x Hx Hxn. apply list_elem_of_singleton in Hxn as ->. contradiction.
    + apply nchain_snoc. split.
      * apply (nchain_relast h h4 head l head n Hnd Hnc).
        -- rewrite HN. fold t. rewrite decide_True by reflexivity. reflexivity.
        -- intros q Hq Hqt. rewrite HN. fold t in Hqt.
           rewrite decide_False by exact Hqt.
           rewrite decide_False by (intros ->; contradiction). reflexivity.
      * rewrite HN, decide_False by exact Hnt.
        rewrite decide_True by reflexivity. reflexivity.
    + apply pchain_snoc. split.
      * apply (pchain_retarget h h4 head l head n Hpc).
        -- rewrite HP, decide_True by reflexivity. reflexivity.
        -- intros q Hq. rewrite HP.
           rewrite decide_False by (intros ->; apply Hfresh; right; exact Hq).
           rewrite decide_False; [reflexivity |].
           intros ->. apply NoDup_cons in Hnd as [Hh _]. contradiction.
      * rewrite HP, decide_False by congruence.
        rewrite decide_True by reflexivity. reflexivity.
  - intros q Hq.
    assert (q <> n) by (intros ->; apply Hq; left).
    assert (q <> head) by (intros ->; apply Hq; right; left).
    assert (q <> t) by (intros ->; apply Hq; right; exact Ht).
    rewrite F4, F3, F2, F1 by assumption. reflexivity.
  - intros q Hq. apply A4, A3, A2, A1, Hq.
Qed.

(** X27. [klist_add_tail] appends: if the memory holds the list
    [l] at [head], and [_new] is allocated and neither the head nor an
    entry, then the function succeeds and the memory holds the list [l]
    followed by [_new]; memory outside the list and [_new] is left as it
    is. *)
Theorem klist_add_tail_appends (h : gmap nat klist_head) (head : nat)
    (l : list nat) (n : nat) :
  is_klist h head l ->
  is_Some (h !! n) ->
  n ∉ head :: l ->
  exists h',
    klist_add_tail n head h = Some (tt, h') /\
    is_klist h' head (l ++ [n]) /\
    (forall q, q ∉ n :: head :: l -> h' !! q = h !! q).
Proof.
  intros Hk Hn Hf.
  destruct (klist_add_tail_spec h head l n Hk Hn Hf) as (h' & H1 & H2 & H3 & _).
  eauto.
Qed.

(** ** Deleting an entry *)

Lemma NoDup_without (head : nat) (l1 : list nat) e l2 :
  NoDup (head :: l1 ++ e :: l2) ->
  NoDup (head :: l1 ++ l2) /\ e ∉ head :: l1 ++ l2.
Proof.
  intros H.
  assert (Hp : head :: l1 ++ e :: l2 ≡ₚ e :: head :: l1 ++ l2).
  { change (head :: l1 ++ e :: l2)%list with ((head :: l1) ++ e :: l2)%list.
    rewrite <- Permutation_middle. reflexivity. }
  rewrite Hp in H. apply NoDup_cons in H as [H1 H2]. auto.
Qed.

(** The successor of the first entry [e] of a chain. *)
Lemma nchain_first h e (l2 : list nat) z :
  nchain h e l2 z -> next_of h e = Some (hd z l2).
Proof. destruct l2; cbn; [auto | intros [H _]; exact H]. Qed.

Lemma hd_in (z : nat) (l : list nat) : hd z l ∈ (l ++ [z])%list.
Proof. destruct l; cbn; left. Qed.

(** Unlinking: [__klist_del(entry->prev, entry->next)]. *)
Lemma __klist_del_entry_spec h head (l1 : list nat) e l2 :
  is_klist h head (l1 ++ e :: l2) ->
  exists h',
    __klist_del_entry e h = Some (tt, h') /\
    is_klist h' head (l1 ++ l2) /\
    h' !! e = h !! e /\
    (forall q, q ∉ head :: l1 ++ e :: l2 -> h' !! q = h !! q) /\
    (forall q, is_Some (h !! q) -> is_Some (h' !! q)).
Proof.
  intros Hk. pose proof Hk as (Hnd & Hnc & Hpc).
  apply nchain_app in Hnc as [Hn1 Hn2]. apply pchain_app in Hpc as [Hp1 Hp2].
  set (p := last_elem head l1). set (s := hd head l2).
  pose proof (nchain_first _ _ _ _ Hn2) as Hnext. fold s in Hnext.
  pose proof (pchain_last _ _ _ _ Hp1) as Hprev. fold p in Hprev.
  destruct (NoDup_without _ _ _ _ Hnd) as [Hnd' He].
  assert (Hpin : p ∈ head :: l1) by apply last_elem_in.
  assert (Hsin : s ∈ (l2 ++ [head])%list) by apply hd_in.
  assert (Hpe : p <> e).
  { intros ->. apply He. apply elem_of_cons in Hpin as [-> | Hp]; [left | right].
    apply elem_of_app. left. exact Hp. }
  assert (Hse : s <> e).
  { intros ->. apply He. apply elem_of_app in Hsin as [Hs | Hs].
    - right. apply elem_of_app. right. exact Hs.
    - apply list_elem_of_singleton in Hs as ->. left. }
  assert (Hnd1 : NoDup (head :: l1)).
  { change (head :: l1 ++ l2)%list with ((head :: l1) ++ l2)%list in Hnd'.
    apply NoDup_app in Hnd' as [H _]. exact H. }
  assert (Hdisj : forall x, x ∈ head :: l1 -> x ∈ l2 -> False).
  { change (head :: l1 ++ l2)%list with ((head :: l1) ++ l2)%list in Hnd'.
    apply NoDup_app in Hnd' as (_ & H & _). exact H. }
  assert (Hnd2 : NoDup l2).
  { change (head :: l1 ++ l2)%list with ((head :: l1) ++ l2)%list in Hnd'.
    apply NoDup_app in Hnd' as (_ & _ & H). exact H. }
  apply next_of_Some in Hnext as (c & Hc & Hcs).
  assert (Hcp : prev c = p).
  { apply prev_of_Some in Hprev as (c' & Hc' & Hp'). congruence. }
  unfold __klist_del_entry. rewrite kbind_unfold. unfold kload at 1.
  rewrite Hc, Hcs, Hcp. unfold __klist_del.
  assert (Hsa : is_Some (h !! s)).
  { apply (klist_alloc h head _ s Hk).
    apply elem_of_app in Hsin as [Hs | Hs].
    - right. apply elem_of_app. right. right. exact Hs.
    - apply list_elem_of_singleton in Hs as ->. left. }
  assert (Hpa : is_Some (h !! p)).
  { apply (klist_alloc h head _ p Hk).
    apply elem_of_cons in Hpin as [-> | Hp]; [left | right].
    apply elem_of_app. left. exact Hp. }
  destruct (kstore_prev_ok s p h Hsa) as (h1 & E1 & P1 & N1 & F1 & A1).
  rewrite kbind_unfold, E1.
  destruct (kstore_next_ok p s h1 (A1 _ Hpa)) as (h2 & E2 & N2 & P2 & F2 & A2).
  rewrite E2. exists h2. split; [reflexivity |].
  assert (HN : forall q, next_of h2 q = if decide (q = p) then Some s else next_of h q).
  { intros q. rewrite N2, N1. reflexivity. }
  assert (HP : forall q, prev_of h2 q = if decide (q = s) then Some p else prev_of h q).
  { intros q. rewrite P2, P1. reflexivity. }
  assert (Hrel : forall n, n = s -> nchain h2 head l1 n).
  { intros n ->. apply (nchain_relast h h2 head l1 e s Hnd1 Hn1).
    - rewrite HN. fold p. rewrite decide_True by reflexivity. reflexivity.
    - intros q Hq Hqp. fold p in Hqp. rewrite HN, decide_False by exact Hqp.
      reflexivity. }
  split; [| split; [| split]].
  - split; [exact Hnd' |]. split.
    + destruct l2 as [| x l2']; cbn in s.
      * rewrite app_nil_r. apply Hrel. reflexivity.
      * apply nchain_app. split; [apply Hrel; reflexivity |].
        destruct Hn2 as [_ Hn2]. apply (nchain_frame h h2 x l2' head); [| exact Hn2].
        intros q Hq. rewrite HN, decide_False; [reflexivity |].
        intros Hqp. rewrite Hqp in Hq. exact (Hdisj p Hpin Hq).
    + destruct l2 as [| x l2']; cbn in s.
      * rewrite app_nil_r. apply (pchain_retarget h h2 head l1 e head Hp1).
        -- rewrite HP. rewrite decide_True by reflexivity. reflexivity.
        -- intros q Hq. rewrite HP, decide_False; [reflexivity |].
           intros Hqs. apply NoDup_cons in Hnd1 as [Hh _]. apply Hh.
           rewrite Hqs in Hq. exact Hq.
      * apply pchain_app. split.
        -- apply (pchain_retarget h h2 head l1 e x Hp1).
           ++ rewrite HP. rewrite decide_True by reflexivity. reflexivity.
           ++ intros q Hq. rewrite HP, decide_False; [reflexivity |].
              intros Hqs. apply (Hdisj q); [right; exact Hq | rewrite Hqs; left].
        -- destruct Hp2 as [_ Hp2].
           apply (pchain_frame h h2 x l2' head); [| exact Hp2].
           intros q Hq. rewrite HP, decide_False; [reflexivity |].
           intros Hqs. apply elem_of_app in Hq as [Hq | Hq].
           ++ apply NoDup_cons in Hnd2 as [Hx _]. apply Hx.
              rewrite Hqs in Hq. exact Hq.
           ++ apply list_elem_of_singleton in Hq.
              apply (Hdisj head); [left | rewrite <- Hq, Hqs; left].
  - rewrite F2, F1 by congruence. exact Hc.
  - intros q Hq.
    assert (q <> p).
    { intros ->. apply Hq. apply elem_of_cons in Hpin as [-> | Hp]; [left | right].
      apply elem_of_app. left. exact Hp. }
    assert (q <> s).
    { intros ->. apply Hq. apply elem_of_app in Hsin as [Hs | Hs].
      - right. apply elem_of_app. right. right. exact Hs.
      - apply list_elem_of_singleton in Hs as ->. left. }
    rewrite F2, F1 by assumption. reflexivity.
  - intros q Hq. apply A2, A1, Hq.
Qed.

(** Two stores to an entry outside of a list leave the list alone. *)
Lemma klist_store_outside h head (l : list nat) e vn vp :
  is_klist h head l ->
  e ∉ head :: l ->
  is_Some (h !! e) ->
  exists h',
    (kstore_next e vn ;;; kstore_prev e vp) h = Some (tt, h') /\
    is_klist h' head l /\
    h' !! e = Some {| next := vn; prev := vp |} /\
    (forall q, q <> e -> h' !! q = h !! q) /\
    (forall q, is_Some (h !! q) -> is_Some (h' !! q)).
Proof.
  intros (Hnd & Hn & Hp) He Ha.
  destruct (kstore_next_ok e vn h Ha) as (h1 & E1 & N1 & P1 & F1 & A1).
  destruct (kstore_prev_ok e vp h1 (A1 _ Ha)) as (h2 & E2 & P2 & N2 & F2 & A2).
  exists h2. rewrite kbind_unfold, E1, E2. split; [reflexivity |].
  split; [| split; [| split]].
  - split; [exact Hnd |]. split.
    + apply (nchain_frame h h2 head l head); [| exact Hn].
      intros q Hq. rewrite N2, N1, decide_False; [reflexivity |].
      intros ->. contradiction.
    + apply (pchain_frame h h2 head l head); [| exact Hp].
      intros q Hq. rewrite P2, decide_False, P1; [reflexivity |].
      intros ->. apply He. apply elem_of_app in Hq as [Hq | Hq].
      * right. exact Hq.
      * apply list_elem_of_singleton in Hq as ->. left.
  - pose proof (N2 e) as Hne. rewrite N1, decide_True in Hne by reflexivity.
    pose proof (P2 e) as Hpe. rewrite decide_True in Hpe by reflexivity.
    apply next_of_Some in Hne as (c & Hc & Hcn).
    apply prev_of_Some in Hpe as (c' & Hc' & Hcp).
    rewrite Hc. f_equal. destruct c as [cn cp]. cbn in Hcn.
    assert (c' = {| next := cn; prev := cp |}) by congruence. subst c'.
    cbn in Hcp. congruence.
  - intros q Hq. rewrite F2, F1 by exact Hq. reflexivity.
  - intros q Hq. apply A2, A1, Hq.
Qed.

Lemma klist_del_spec h head (l1 : list nat) e l2 :
  is_klist h head (l1 ++ e :: l2) ->
  exists h',
    klist_del e h = Some (tt, h') /\
    is_klist h' head (l1 ++ l2) /\
    h' !! e = Some {| next := NULL; prev := NULL |} /\
    (forall q, q ∉ head :: l1 ++ e :: l2 -> h' !! q = h !! q) /\
    (forall q, is_Some (h !! q) -> is_Some (h' !! q)).
Proof.
  intros Hk.
  destruct (__klist_del_entry_spec h head l1 e l2 Hk) as (h1 & E1 & K1 & He1 & F1 & A1).
  destruct (NoDup_without head l1 e l2 (proj1 Hk)) as [_ Hout].
  assert (Ha : is_Some (h !! e)).
  { apply (klist_alloc h head _ e Hk). right. apply elem_of_app. right. left. }
  destruct (klist_store_outside h1 head (l1 ++ l2) e NULL NULL K1 Hout (A1 _ Ha))
    as (h2 & E2 & K2 & He2 & F2 & A2).
  exists h2. split.
  - unfold klist_del. unfold __klist_del_entry in E1.
    rewrite kbind_unfold in *. destruct (kload e h) as [[c h0] |]; [| discriminate E1].
    rewrite kbind_unfold, E1. exact E2.
  - split; [exact K2 |]. split; [exact He2 |]. split.
    + intros q Hq. rewrite F2, F1; [reflexivity | exact Hq |].
      intros ->. apply Hq. right. apply elem_of_app. right. left.
    + intros q Hq. apply A2, A1, Hq.
Qed.

(** X28. Deleting the entry [entry] of the list [l1 ++ entry :: l2]:
    [klist_del] and [klist_del_init] succeed and leave the list
    [l1 ++ l2], with memory outside the list untouched.  After [klist_del]
    both pointers of the entry are [NULL]; after [klist_del_init] the
    entry is the head of an empty list of its own. *)
Theorem klist_del_removes (h : gmap nat klist_head) (head : nat)
    (l1 : list nat) (entry : nat) (l2 : list nat) :
  is_klist h head (l1 ++ entry :: l2) ->
  (exists h',
     klist_del entry h = Some (tt, h') /\
     is_klist h' head (l1 ++ l2) /\
     h' !! entry = Some {| next := NULL; prev := NULL |} /\
     (forall q, q ∉ head :: l1 ++ entry :: l2 -> h' !! q = h !! q)) /\
  (exists h',
     klist_del_init entry h = Some (tt, h') /\
     is_klist h' head (l1 ++ l2) /\
     is_klist h' entry [] /\
     (forall q, q ∉ head :: l1 ++ entry :: l2 -> h' !! q = h !! q)).
Proof.
  intros Hk. split.
  - destruct (klist_del_spec h head l1 entry l2 Hk) as (h' & H1 & H2 & H3 & H4 & _).
    eauto.
  - destruct (__klist_del_entry_spec h head l1 entry l2 Hk)
      as (h1 & E1 & K1 & He1 & F1 & A1).
    destruct (NoDup_without head l1 entry l2 (proj1 Hk)) as [_ Hout].
    assert (Ha : is_Some (h !! entry)).
    { apply (klist_alloc h head _ entry Hk). right. apply elem_of_app. right. left. }
    destruct (klist_store_outside h1 head (l1 ++ l2) entry entry entry K1 Hout
                (A1 _ Ha)) as (h2 & E2 & K2 & He2 & F2 & A2).
    exists h2. split; [| split; [exact K2 | split]].
    + unfold klist_del_init. rewrite kbind_unfold, E1. exact E2.
    + split; [apply NoDup_singleton |]. cbn. unfold next_of, prev_of.
      rewrite He2. auto.
    + intros q Hq. rewrite F2, F1; [reflexivity | exact Hq |].
      intros ->. apply Hq. right. apply elem_of_app. right. left.
Qed.

(** ** Walking a list *)

Lemma klist_for_each_from_spec h head (l : list nat) :
  forall a fuel,
    nchain h a l head -> head ∉ l -> (length l < fuel)%nat ->
    klist_for_each_from fuel (hd head l) head h = Some (l, h).
Proof.
  induction l as [| b l IH]; intros a fuel Hn Hh Hf;
    (destruct fuel as [| fuel]; [cbn in Hf; lia |]); cbn [klist_for_each_from hd].
  - rewrite bool_decide_eq_true_2 by reflexivity. reflexivity.
  - rewrite bool_decide_eq_false_2 by (intros ->; apply Hh; left).
    destruct Hn as [_ Hn].
    destruct (kload_next h b _ (nchain_first _ _ _ _ Hn)) as (c & Hc & Hcn).
    rewrite kbind_unfold, Hc, kbind_unfold, Hcn.
    rewrite (IH b fuel Hn); [reflexivity | | cbn in Hf; lia].
    intros Hin. apply Hh. right. exact Hin.
Qed.

(** X29. Reading a list: if the memory holds the list [l] at [head],
    then [klist_for_each_entry] runs its body for the entries of [l], in
    order, once each (with fuel for more than [length l] tests of the loop
    condition), [klist_empty] tells whether [l] is empty, and
    [klist_first_entry_or_null] gives the first entry, [NULL] if there is
    none; none of them changes the memory. *)
Theorem klist_for_each_entry_visits (h : gmap nat klist_head) (head : nat)
    (l : list nat) (fuel : nat) :
  is_klist h head l ->
  (length l < fuel)%nat ->
  klist_for_each_entry fuel head h = Some (l, h) /\
  klist_empty head h = Some (bool_decide (l = []), h) /\
  klist_first_entry_or_null head h = Some (hd NULL l, h).
Proof.
  intros (Hnd & Hn & Hp) Hf.
  apply NoDup_cons in Hnd as [Hh Hnd].
  destruct (kload_next h head _ (nchain_first _ _ _ _ Hn)) as (c & Hc & Hcn).
  assert (He : klist_empty head h = Some (bool_decide (l = []), h)).
  { unfold klist_empty. rewrite kbind_unfold, Hc, Hcn. unfold kret. repeat f_equal.
    destruct l as [| b l]; cbn.
    - rewrite !bool_decide_eq_true_2 by reflexivity. reflexivity.
    - rewrite !bool_decide_eq_false_2
        by (first [discriminate | intros ->; apply Hh; left]).
      reflexivity. }
  split; [| split; [exact He |]].
  - unfold klist_for_each_entry. rewrite kbind_unfold, Hc, Hcn.
    apply (klist_for_each_from_spec h head l head fuel Hn Hh Hf).
  - unfold klist_first_entry_or_null. rewrite kbind_unfold, He.
    destruct l as [| b l]; cbn.
    + reflexivity.
    + rewrite kbind_unfold, Hc. unfold kret. cbn in Hcn. rewrite Hcn. reflexivity.
Qed.

(** ** Building and draining a list *)

Lemma INIT_KLIST_HEAD_spec h head :
  is_Some (h !! head) ->
  exists h',
    INIT_KLIST_HEAD head h = Some (tt, h') /\
    is_klist h' head [] /\
    (forall q, q <> head -> h' !! q = h !! q) /\
    (forall q, is_Some (h !! q) -> is_Some (h' !! q)).
Proof.
  intros Ha.
  destruct (kstore_next_ok head head h Ha) as (h1 & E1 & N1 & P1 & F1 & A1).
  destruct (kstore_prev_ok head head h1 (A1 _ Ha)) as (h2 & E2 & P2 & N2 & F2 & A2).
  exists h2. unfold INIT_KLIST_HEAD. rewrite kbind_unfold, E1, E2.
  split; [reflexivity |]. split; [| split].
  - split; [apply NoDup_singleton |]. cbn. split.
    + rewrite N2, N1, decide_True by reflexivity. reflexivity.
    + rewrite P2, decide_True by reflexivity. reflexivity.
  - intros q Hq. rewrite F2, F1 by exact Hq. reflexivity.
  - intros q Hq. apply A2, A1, Hq.
Qed.

Lemma klist_add_all_spec head (ns : list nat) :
  forall (l : list nat) h,
    is_klist h head l ->
    (forall n, n ∈ ns -> is_Some (h !! n)) ->
    NoDup (head :: l ++ ns) ->
    exists h',
      klist_add_all ns head h = Some (tt, h') /\
      is_klist h' head (l ++ ns) /\
      (forall q, is_Some (h !! q) -> is_Some (h' !! q)).
Proof.
  induction ns as [| n ns IH]; intros l h Hk Ha Hnd; cbn [klist_add_all].
  - exists h. rewrite app_nil_r. auto.
  - assert (Hn : n ∉ head :: l).
    { change (head :: l ++ n :: ns)%list with ((head :: l) ++ n :: ns)%list in Hnd.
      apply NoDup_app in Hnd as (_ & Hd & _). intros Hin.
      apply (Hd n Hin). left. }
    destruct (klist_add_tail_spec h head l n Hk (Ha n ltac:(left)) Hn)
      as (h1 & E1 & K1 & F1 & A1).
    destruct (IH (l ++ [n])%list h1 K1) as (h2 & E2 & K2 & A2).
    + intros m Hm. apply A1, Ha. right. exact Hm.
    + rewrite <- app_assoc. exact Hnd.
    + exists h2. rewrite kbind_unfold, E1, E2. rewrite <- app_assoc in K2.
      split; [reflexivity |]. split; [exact K2 |].
      intros q Hq. apply A2, A1, Hq.
Qed.

Lemma klist_drain_from_spec head (l : list nat) :
  forall h fuel n,
    is_klist h head l ->
    (length l < fuel)%nat ->
    next_of h (hd head l) = Some n ->
    exists h',
      klist_drain_from fuel (hd head l) n head h = Some (l, h') /\
      is_klist h' head [] /\
      (forall e, e ∈ l -> h' !! e = Some {| next := NULL; prev := NULL |}) /\
      (forall q, q ∉ head :: l -> h' !! q = h !! q).
Proof.
  induction l as [| e l IH]; intros h fuel n Hk Hf Hn;
    (destruct fuel as [| fuel]; [cbn in Hf; lia |]); cbn [klist_drain_from hd].
  - rewrite bool_decide_eq_true_2 by reflexivity. exists h.
    split; [reflexivity |]. split; [exact Hk |]. split; [| auto].
    intros e He. apply elem_of_nil in He. contradiction.
  - pose proof Hk as (Hnd & Hnc & _).
    assert (Heh : e <> head).
    { intros ->. apply NoDup_cons in Hnd as [Hh _]. apply Hh. left. }
    rewrite bool_decide_eq_false_2 by exact Heh.
    destruct Hnc as [_ Hnc]. cbn [hd] in Hn.
    rewrite (nchain_first _ _ _ _ Hnc) in Hn. injection Hn as <-.
    destruct (klist_del_spec h head [] e l Hk) as (h1 & E1 & K1 & He1 & F1 & A1).
    cbn [app] in K1, F1.
    rewrite kbind_unfold, E1.
    assert (Hin : hd head l ∈ head :: l).
    { destruct l; cbn; [left | right; left]. }
    destruct (kload_ok h1 (hd head l) (klist_alloc h1 head l _ K1 Hin)) as (c & Hc & Hl).
    rewrite kbind_unfold, Hc.
    destruct (IH h1 fuel (next c) K1) as (h2 & E2 & K2 & Hnull & F2).
    + cbn in Hf. lia.
    + unfold next_of. rewrite Hl. reflexivity.
    + rewrite kbind_unfold, E2. exists h2. split; [reflexivity |].
      split; [exact K2 |]. split.
      * intros x Hx. apply elem_of_cons in Hx as [-> | Hx]; [| apply Hnull, Hx].
        rewrite F2; [exact He1 |].
        apply NoDup_cons in Hnd as [_ Hnd]. apply NoDup_cons in Hnd as [Hel _].
        intros Hx. apply elem_of_cons in Hx as [Hx | Hx]; [congruence | contradiction].
      * intros q Hq. rewrite F2, F1; [reflexivity | exact Hq |].
        intros Hx. apply Hq. apply elem_of_cons in Hx as [-> | Hx]; [left |].
        right. right. exact Hx.
Qed.

(** X30. A list built and taken apart again.  From a head and distinct
    free entries [ns], all allocated: [INIT_KLIST_HEAD] followed by
    [klist_add_tail] for each entry succeeds and gives the list [ns]; the
    loop [klist_for_each_entry_safe] with [klist_del] as its body then
    deletes the entries of [ns] in that order, each once, and leaves the
    empty list, the pointers of every entry being [NULL]. *)
Theorem klist_build_and_drain (h : gmap nat klist_head) (head : nat)
    (ns : list nat) :
  is_Some (h !! head) ->
  (forall n, n ∈ ns -> is_Some (h !! n)) ->
  NoDup (head :: ns) ->
  exists h1 h2,
    (INIT_KLIST_HEAD head ;;; klist_add_all ns head) h = Some (tt, h1) /\
    is_klist h1 head ns /\
    klist_drain (S (length ns)) head h1 = Some (ns, h2) /\
    is_klist h2 head [] /\
    (forall n, n ∈ ns -> h2 !! n = Some {| next := NULL; prev := NULL |}).
Proof.
  intros Hh Hns Hnd.
  destruct (INIT_KLIST_HEAD_spec h head Hh) as (h0 & E0 & K0 & F0 & A0).
  destruct (klist_add_all_spec head ns [] h0 K0) as (h1 & E1 & K1 & A1).
  { intros n Hn. apply A0, Hns, Hn. }
  { exact Hnd. }
  cbn [app] in K1.
  pose proof K1 as (_ & Hnc & _).
  destruct (kload_next h1 head _ (nchain_first _ _ _ _ Hnc)) as (c & Hc & Hcn).
  assert (Hin : hd head ns ∈ head :: ns).
  { destruct ns; cbn; [left | right; left]. }
  destruct (kload_ok h1 (hd head ns) (klist_alloc h1 head ns _ K1 Hin)) as (c' & Hc' & Hl).
  destruct (klist_drain_from_spec head ns h1 (S (length ns)) (next c') K1)
    as (h2 & E2 & K2 & Hnull & _).
  { lia. }
  { unfold next_of. rewrite Hl. reflexivity. }
  exists h1, h2. split.
  { rewrite kbind_unfold, E0. exact E1. }
  split; [exact K1 |]. split.
  { unfold klist_drain. rewrite kbind_unfold, Hc, Hcn, kbind_unfold, Hc'. exact E2. }
  split; [exact K2 | exact Hnull].
Qed.

(** ** Examples *)

Ltac decided := refine (bool_decide_unpack _ _); vm_compute; exact I.

Lemma klist_add_tail_appends_witness :
  exists h',
    klist_add_tail 2 1 kmem_example = Some (tt, h') /\
    is_klist h' 1 ([] ++ [2%nat]) /\
    (forall q, q ∉ [2%nat; 1%nat] -> h' !! q = kmem_example !! q).
Proof.
  apply (klist_add_tail_appends kmem_example 1 [] 2).
  - split; [decided | split; reflexivity].
  - decided.
  - decided.
Defined.

Lemma klist_del_removes_witness :
  (exists h',
     klist_del 2 kmem_pair = Some (tt, h') /\
     is_klist h' 1 ([] ++ []) /\
     h' !! 2%nat = Some {| next := NULL; prev := NULL |} /\
     (forall q, q ∉ 1%nat :: [] ++ 2%nat :: [] -> h' !! q = kmem_pair !! q)) /\
  (exists h',
     klist_del_init 2 kmem_pair = Some (tt, h') /\
     is_klist h' 1 ([] ++ []) /\
     is_klist h' 2 [] /\
     (forall q, q ∉ 1%nat :: [] ++ 2%nat :: [] -> h' !! q = kmem_pair !! q)).
Proof.
  apply (klist_del_removes kmem_pair 1 [] 2 []).
  split; [decided | split; cbn; auto].
Defined.

Lemma klist_for_each_entry_visits_witness :
  klist_for_each_entry 2 1 kmem_pair = Some ([2%nat], kmem_pair) /\
  klist_empty 1 kmem_pair = Some (bool_decide ([2%nat] = []), kmem_pair) /\
  klist_first_entry_or_null 1 kmem_pair = Some (hd NULL [2%nat], kmem_pair).
Proof.
  apply (klist_for_each_entry_visits kmem_pair 1 [2%nat] 2).
  - split; [decided | split; cbn; auto].
  - cbn. lia.
Defined.

Lemma klist_build_and_drain_witness :
  exists h1 h2,
    (INIT_KLIST_HEAD 1 ;;; klist_add_all [2%nat; 3%nat; 4%nat] 1) kmem_example
      = Some (tt, h1) /\
    is_klist h1 1 [2%nat; 3%nat; 4%nat] /\
    klist_drain (S (length [2%nat; 3%nat; 4%nat])) 1 h1
      = Some ([2%nat; 3%nat; 4%nat], h2) /\
    is_klist h2 1 [] /\
    (forall n, n ∈ [2%nat; 3%nat; 4%nat] ->
       h2 !! n = Some {| next := NULL; prev := NULL |}).
Proof.
  apply (klist_build_and_drain kmem_example 1 [2%nat; 3%nat; 4%nat]).
  - decided.
  - intros n Hn. repeat (apply elem_of_cons in Hn as [-> | Hn]; [decided |]).
    apply elem_of_nil in Hn. contradiction.
  - decided.
Defined.
